(** * Workflow application service: streaming, polling and batch merge

    A shallow embedding of the parts of
    [backend/application/workflow/workflow.go] that serve workflow runs:
    [TestRun], [NodeDebug], [GetProcess], [convertNodeExecution],
    [mergeBatchModeNodes], [convertStreamRunEvent], [OpenAPIStreamRun],
    [OpenAPIStreamResume] and [OpenAPIRun].

    Go's [(T, error)] results and panics are one sum type; the deferred
    [recover] of an operation is a function on that sum; the calls an
    operation makes to the workflow domain service are collected in a trace. *)

From Stdlib Require Import ZArith String Ascii List Lia Bool.
From stdpp Require Import base option gmap strings list.

Open Scope string_scope.
Open Scope list_scope.
Open Scope Z_scope.

(** ** Machine integers and the [strconv] / [strings] functions used *)

Module Strconv.

Definition minInt64 : Z := - 2 ^ 63.
Definition maxInt64 : Z := 2 ^ 63 - 1.

Definition isInt64 (z : Z) : Prop := minInt64 <= z <= maxInt64.

(** Two's complement wrap-around of [int64] (and of [int] on 64-bit targets). *)
Definition wrap64 (z : Z) : Z := (z + 2 ^ 63) mod 2 ^ 64 - 2 ^ 63.

(** The conversion [int32(i)]. *)
Definition wrap32 (z : Z) : Z := (z + 2 ^ 31) mod 2 ^ 32 - 2 ^ 31.

Definition digitChar (d : Z) : ascii := ascii_of_nat (48 + Z.to_nat d).

Definition digitVal (c : ascii) : option Z :=
  let n := Z.of_nat (nat_of_ascii c) in
  if (48 <=? n) && (n <=? 57) then Some (n - 48) else None.

(** The digit loop of [strconv.FormatInt] in base 10: digits are produced
    from the least significant one and prepended to [acc]. *)
Fixpoint formatBits (fuel : nat) (u : Z) (acc : string) : string :=
  match fuel with
  | O => acc
  | S fuel' =>
      let acc' := String (digitChar (u mod 10)) acc in
      if u <? 10 then acc' else formatBits fuel' (u / 10) acc'
  end.

(** [strconv.FormatInt(i, 10)], which is also [fmt.Sprintf("%d", i)] and
    [strconv.Itoa]: at most 20 digits for a 64-bit magnitude. *)
Definition FormatInt (i : Z) : string :=
  if i <? 0 then String "-" (formatBits 20 (- i) "") else formatBits 20 i "".

Definition Itoa (i : Z) : string := FormatInt i.

Fixpoint parseDigits (s : string) (acc : Z) : option Z :=
  match s with
  | EmptyString => Some acc
  | String c rest =>
      match digitVal c with
      | Some d => parseDigits rest (10 * acc + d)
      | None => None
      end
  end.

(** [strconv.ParseUint(s, 10, 64)] up to the range check, which [ParseInt]
    performs on the magnitude: the empty string and any character that is
    not a decimal digit are syntax errors. *)
Definition ParseUint (s : string) : option Z :=
  match s with
  | EmptyString => None
  | _ => parseDigits s 0
  end.

(** [strconv.ParseInt(s, 10, 64)]: an optional sign, then [ParseUint]; a
    magnitude outside of [int64] is a range error. [None] is any error. *)
Definition ParseInt (s : string) : option Z :=
  match s with
  | EmptyString => None
  | String c rest =>
      let neg := Ascii.eqb c "-" in
      let body := if Ascii.eqb c "+" || neg then rest else s in
      match ParseUint body with
      | None => None
      | Some un =>
          if negb neg && (2 ^ 63 <=? un) then None
          else if neg && (2 ^ 63 <? un) then None
          else Some (if neg then - un else un)
      end
  end.

(** [strings.Split(s, "/")]: the pieces between the separators, one more
    than there are separators; the empty string gives one empty piece. *)
Fixpoint Split (s : string) : list string :=
  match s with
  | EmptyString => [EmptyString]
  | String c rest =>
      if Ascii.eqb c "/" then EmptyString :: Split rest
      else match Split rest with
           | h :: t => String c h :: t
           | [] => [String c EmptyString]
           end
  end.

(** The syntax [ParseInt] accepts before its range check: an optional sign
    followed by at least one decimal digit. *)
Fixpoint allDigits (s : string) : bool :=
  match s with
  | EmptyString => true
  | String c rest => bool_decide (is_Some (digitVal c)) && allDigits rest
  end.

Definition isIntegerSegment (s : string) : bool :=
  match s with
  | EmptyString => false
  | String c rest =>
      let body := if Ascii.eqb c "+" || Ascii.eqb c "-" then rest else s in
      match body with
      | EmptyString => false
      | _ => allDigits body
      end
  end.

(** The characters a formatted magnitude is made of. *)
Fixpoint digitsOnly (s : string) : Prop :=
  match s with
  | EmptyString => True
  | String c rest => (exists d, 0 <= d < 10 /\ c = digitChar d) /\ digitsOnly rest
  end.

Fixpoint noSlash (s : string) : bool :=
  match s with
  | EmptyString => true
  | String c rest => negb (Ascii.eqb c "/") && noSlash rest
  end.

End Strconv.

(** ** Errors, results and panics *)

(** The error codes of package [errno] that this file uses; any other code
    is kept by number. *)
Inductive errno : Type :=
| ErrWorkflowExecuteFail
| ErrWorkflowOperationFail
| ErrInvalidParameter
| ErrWorkflowNotPublished
| ErrInterruptNotSupported
| ErrCode (code : Z).

(** Go [error] values, by the way they are built in this file:
    [errors.New] and [fmt.Errorf] without [%w] ([ErrText]), [fmt.Errorf] with
    a wrapped [%w] operand ([ErrWrapText]), [safego.NewPanicErr]
    ([ErrPanicked], the recovered panic value), a typed [vo.WorkflowError]
    built by [vo.NewError] ([ErrWorkflow]) or by [vo.WrapError] around a
    cause, with its key/value options ([ErrWorkflowWrap]), eino's
    [schema.ErrNoValue] and [io.EOF]. *)
Inductive error : Type :=
| ErrText (msg : string)
| ErrWrapText (msg : string) (inner : error)
| ErrPanicked (value : string)
| ErrWorkflow (code : errno)
| ErrWorkflowWrap (code : errno) (cause : error) (kv : list (string * string))
| ErrNoValue
| ErrEOF.

(** The three ways a Go call ends: a value, a non-nil [error], or a panic. *)
Inductive outcome (A : Type) : Type :=
| Return (a : A)
| Error (e : error)
| Panic (value : string).
Arguments Return {A} a.
Arguments Error {A} e.
Arguments Panic {A} value.

Definition isReturn {A} (o : outcome A) : bool :=
  match o with Return _ => true | _ => false end.
Definition isError {A} (o : outcome A) : bool :=
  match o with Error _ => true | _ => false end.
Definition isPanic {A} (o : outcome A) : bool :=
  match o with Panic _ => true | _ => false end.

Module vo.

(** [errors.As(err, &wfe)] for [wfe : vo.WorkflowError]: the first typed
    workflow error on the [Unwrap] chain. *)
Fixpoint asWorkflowError (e : error) : option error :=
  match e with
  | ErrWorkflow _ | ErrWorkflowWrap _ _ _ => Some e
  | ErrWrapText _ inner => asWorkflowError inner
  | _ => None
  end.

Definition NewError (code : errno) : error := ErrWorkflow code.

Definition WrapError (code : errno) (err : error) (kv : list (string * string)) : error :=
  ErrWorkflowWrap code err kv.

(** Modelled from the spec: [vo.WrapIfNeeded] is declared outside src. The
    spec has typed domain errors "surfaced verbatim to the caller" and
    every other error "wrapped into a generic operation/execute-failure
    kind carrying the root cause". *)
Definition WrapIfNeeded (code : errno) (err : error) (kv : list (string * string)) : error :=
  match asWorkflowError err with
  | Some _ => err
  | None => WrapError code err kv
  end.

(** Modelled from the spec: [vo.UnwrapRootErr] is declared outside src; the
    root cause is the innermost error of the wrapping chain. *)
Fixpoint UnwrapRootErr (e : error) : error :=
  match e with
  | ErrWrapText _ inner => UnwrapRootErr inner
  | ErrWorkflowWrap _ inner _ => UnwrapRootErr inner
  | _ => e
  end.

(** Modelled from the spec: the error level [vo.LevelError] is declared
    outside src; the value stands for itself. *)
Definition LevelError : string := "Error".

End vo.

Module safego.
(** Modelled from the spec: [safego.NewPanicErr] is declared outside src; it
    turns the recovered panic value (and the stack, which is dropped here)
    into an ordinary, untyped error. *)
Definition NewPanicErr (value : string) : error := ErrPanicked value.
End safego.

(** ** Entities of the workflow domain (package [entity])

    Every Go struct is a record [t] in a module of the struct's name, so
    that fields keep their names. A pointer field is an [option]. *)

(** [WorkflowExecuteStatus]; [WorkflowStatusOther] stands for a value that is
    none of the named constants (the [default] arm of a [switch]). The API
    type [workflow.WorkflowExeStatus] is obtained from it by a conversion
    that keeps the number, and is the same type here. *)
Inductive WorkflowExecuteStatus : Type :=
| WorkflowRunning
| WorkflowSuccess
| WorkflowFailed
| WorkflowCancel
| WorkflowInterrupted
| WorkflowStatusOther (code : Z).

(** [entity.NodeExecuteStatus], and [workflow.NodeExeStatus] which
    [convertNodeExecution] obtains from it by a conversion. *)
Inductive NodeExeStatus : Type :=
| NodeRunning
| NodeSuccess
| NodeFailed
| NodeStatusOther (code : Z).

(** [entity.NodeType] is a string type. *)
Definition NodeType : Type := string.

(** Modelled from the spec: the constants [entity.NodeTypeBatch] and
    [entity.NodeTypeExit] are declared outside src. The spec has the
    batch-control node and the end node as two of the node types; only that
    the two differ matters here. *)
Definition NodeTypeBatch : NodeType := "Batch".
Definition NodeTypeExit : NodeType := "Exit".

(** Modelled from the spec: [entity.ExitNodeKey], the node key of the end
    node, and the names [workflow.NodeTemplateType_Start.String()] and
    [workflow.NodeTemplateType_End.String()] of the start and end node
    types are declared outside src; the values stand for themselves. *)
Definition ExitNodeKey : string := "900001".
Definition NodeTemplateType_Start : string := "Start".
Definition NodeTemplateType_End : string := "End".

Inductive InterruptEventType : Type :=
| InterruptEventLLM
| InterruptEventOther (code : Z).

Inductive MessageType : Type :=
| Answer
| FunctionCall
| ToolResponse.

Module TokenUsage.
Record t : Type := mk {
  InputTokens : Z;
  OutputTokens : Z
}.
End TokenUsage.

(** The fields that this file reads through a [*ToolInterruptEvent]. *)
Module ToolInterruptEvent.
Record t : Type := mk {
  NodeKey : string;
  NodeType : NodeType;
  NodeTitle : string;
  NodeIcon : string;
  EventType : InterruptEventType;
  InterruptData : string
}.
End ToolInterruptEvent.

Module InterruptEvent.
Record t : Type := mk {
  ID : Z;
  NodeKey : string;
  NodeType : NodeType;
  NodeTitle : string;
  NodeIcon : string;
  InterruptData : string;
  EventType : InterruptEventType;
  ToolInterruptEvent : option ToolInterruptEvent.t
}.
End InterruptEvent.

Module NodeExtra.
Record t : Type := mk {
  SubExecuteID : Z;
  rest : string
}.
End NodeExtra.

(** [SubWorkflowExecution] points to a whole [WorkflowExecution] of which
    only the [ID] is read here: the field holds that id.
    [IndexedExecutions] is a slice of pointers, with [nil] holes. *)
Module NodeExecution.
#[local] Set Warnings "-register-all".
Inductive t : Type := mk {
  NodeID : string;
  NodeName : string;
  NodeType : NodeType;
  Status : NodeExeStatus;
  ErrorInfo : option string;
  ErrorLevel : option string;
  Input : option string;
  Output : option string;
  RawOutput : option string;
  Duration : Z;
  TokenInfo : option TokenUsage.t;
  ParentNodeID : option string;
  Index : Z;
  Items : option string;
  IndexedExecutions : list (option t);
  SubWorkflowExecution : option Z;
  ExecuteID : Z;
  Extra : option NodeExtra.t
}.
End NodeExecution.

Module WorkflowExecution.
Record t : Type := mk {
  ID : Z;
  WorkflowID : Z;
  SpaceID : Z;
  RootExecutionID : Z;
  Status : WorkflowExecuteStatus;
  Duration : Z;
  FailReason : option string;
  LogID : string;
  Output : option string;
  TokenInfo : option TokenUsage.t;
  AppID : option Z;
  NodeCount : Z;
  NodeExecutions : list NodeExecution.t;
  InterruptEvents : list InterruptEvent.t
}.
End WorkflowExecution.

Module StateMessage.
Record t : Type := mk {
  ExecuteID : Z;
  EventID : Z;
  SpaceID : Z;
  Status : WorkflowExecuteStatus;
  Usage : option TokenUsage.t;
  LastError : option error;
  InterruptEvent : option InterruptEvent.t
}.
End StateMessage.

Module DataMessage.
Record t : Type := mk {
  ExecuteID : Z;
  Type_ : MessageType;
  Content : string;
  NodeID : string;
  NodeTitle : string;
  NodeType : NodeType;
  Last : bool;
  Usage : option TokenUsage.t
}.
End DataMessage.

(** [entity.Message] embeds a [*StateMessage] and a [*DataMessage]. *)
Module Message.
Record t : Type := mk {
  StateMessage : option StateMessage.t;
  DataMessage : option DataMessage.t
}.
End Message.

Module ResumeRequest.
Record t : Type := mk {
  ExecuteID : Z;
  EventID : Z;
  ResumeData : string
}.
End ResumeRequest.

(** ** Execution requests (package [workflowModel]) *)

Inductive Locator : Type := LocatorUnset | FromDraft | FromSpecificVersion.
Inductive ExecuteMode : Type := ExecuteModeDebug | ExecuteModeNodeDebug | ExecuteModeRelease.
Inductive TaskType : Type := TaskTypeUnset | TaskTypeForeground | TaskTypeBackground.
Inductive SyncPattern : Type :=
| SyncPatternUnset | SyncPatternSync | SyncPatternAsync | SyncPatternStream.
Inductive BizType : Type := BizTypeWorkflow.
Inductive TerminatePlan : Type := ReturnVariables | UseAnswerContent.

(** A field that a composite literal of the source leaves out has Go's zero
    value: the [...Unset] constructors, [0], the empty string, [false]. *)
Module ExecuteConfig.
Record t : Type := mk {
  ID : Z;
  From : Locator;
  Version : string;
  CommitID : string;
  Operator : Z;
  Mode : ExecuteMode;
  AppID : option Z;
  AgentID : option Z;
  ConnectorID : Z;
  ConnectorUID : string;
  TaskType : TaskType;
  SyncPattern : SyncPattern;
  InputFailFast : bool;
  BizType : BizType;
  Cancellable : bool
}.
End ExecuteConfig.

(** What [Get] with [MetaOnly] returns, as far as it is read. *)
Module WorkflowMeta.
Record t : Type := mk {
  ID : Z;
  SpaceID : Z;
  LatestPublishedVersion : option string
}.
End WorkflowMeta.

Module ApiKeyInfo.
Record t : Type := mk {
  UserID : Z;
  ConnectorID : Z
}.
End ApiKeyInfo.

(** What the operations get from their [context.Context] through package
    [ctxutil], which is outside src: how [ctxutil.MustGetUIDFromCtx(ctx)]
    ends (the user id, or a panic), and how reading a field of
    [ctxutil.GetApiAuthFromCtx(ctx)] ends (the API key info, or the panic of
    a nil pointer). *)
Module Context.
Record t : Type := mk {
  UID : outcome Z;
  ApiAuth : outcome ApiKeyInfo.t
}.
End Context.

(** ** The API model (package [workflow]) *)

Module TokenAndCost.
Record t : Type := mk {
  InputTokens : option string;
  OutputTokens : option string;
  TotalTokens : option string
}.
End TokenAndCost.

Module NodeResult.
Record t : Type := mk {
  NodeId : string;
  NodeType : string;
  NodeName : string;
  NodeStatus : NodeExeStatus;
  ErrorInfo : string;
  Input : string;
  Output : string;
  NodeExeCost : string;
  TokenAndCost : option TokenAndCost.t;
  RawOutput : option string;
  ErrorLevel : string;
  Index : option Z;
  Items : option string;
  IsBatch : option bool;
  Batch : option string;
  Extra : string;
  ExecuteId : option string;
  SubExecuteId : option string;
  NeedAsync : option bool
}.
End NodeResult.

Module NodeEvent.
Record t : Type := mk {
  ID : string;
  NodeID : string;
  NodeTitle : string;
  NodeIcon : string;
  Data : string;
  Type_ : InterruptEventType;
  SchemaNodeID : string
}.
End NodeEvent.

Module GetWorkFlowProcessData.
Record t : Type := mk {
  WorkFlowId : string;
  ExecuteId : string;
  ExecuteStatus : WorkflowExecuteStatus;
  WorkflowExeCost : string;
  Reason : option string;
  LogID : string;
  TokenAndCost : option TokenAndCost.t;
  ProjectId : string;
  NodeResults : list NodeResult.t;
  Rate : string;
  NodeEvents : list NodeEvent.t
}.
End GetWorkFlowProcessData.

Module Interrupt.
Record t : Type := mk {
  EventID : string;
  Type_ : InterruptEventType;
  InData : string
}.
End Interrupt.

Module OpenAPIStreamRunFlowResponse.
Record t : Type := mk {
  ID : string;
  Event : string;
  DebugUrl : option string;
  ErrorCode : option errno;
  ErrorMessage : option string;
  InterruptData : option Interrupt.t;
  NodeTitle : option string;
  Content : option string;
  ContentType : option string;
  NodeIsFinish : option bool;
  NodeType : option string;
  NodeID : option string;
  Token : option Z;
  NodeSeqID : option string
}.
End OpenAPIStreamRunFlowResponse.

Module OpenAPIRunFlowResponse.
Record t : Type := mk {
  Data : option string;
  ExecuteID : option string;
  DebugUrl : option string;
  Token : option Z;
  Cost : option string
}.
End OpenAPIRunFlowResponse.

Module WorkFlowTestRunRequest.
Record t : Type := mk {
  WorkflowID : string;
  Input : gmap string string;
  SpaceID : option string;
  BotID : option string;
  ProjectID : option string;
  CommitID : option string
}.
End WorkFlowTestRunRequest.

Module WorkFlowTestRunData.
Record t : Type := mk {
  WorkflowID : string;
  ExecuteID : string
}.
End WorkFlowTestRunData.

Module WorkflowNodeDebugV2Request.
Record t : Type := mk {
  WorkflowID : string;
  NodeID : string;
  Input : gmap string string;
  Batch : gmap string string;
  Setting : gmap string string;
  SpaceID : option string;
  BotID : option string;
  ProjectID : option string
}.
End WorkflowNodeDebugV2Request.

Module WorkflowNodeDebugV2Data.
Record t : Type := mk {
  WorkflowID : string;
  NodeID : string;
  ExecuteID : string
}.
End WorkflowNodeDebugV2Data.

Module GetWorkflowProcessRequest.
Record t : Type := mk {
  WorkflowID : string;
  SpaceID : option string;
  ExecuteID : option string;
  SubExecuteID : option string
}.
End GetWorkflowProcessRequest.

Module OpenAPIRunFlowRequest.
Record t : Type := mk {
  WorkflowID : string;
  Parameters : option string;
  BotID : option string;
  IsAsync : option bool;
  AppID : option string;
  ProjectID : option string;
  ConnectorID : option string
}.
End OpenAPIRunFlowRequest.

Module OpenAPIStreamResumeFlowRequest.
Record t : Type := mk {
  EventID : string;
  ResumeData : string;
  WorkflowID : string;
  ConnectorID : option string
}.
End OpenAPIStreamResumeFlowRequest.

(** The getter that thrift generates for an optional string field. *)
Definition getOr (o : option string) : string := default "" o.

(** ** Collaborators

    Everything this file calls but does not define: the workflow domain
    service behind [GetWorkflowDomainSVC()], the user service, the node-type
    catalogue, JSON (sonic), float formatting and the constants of package
    [consts]. One record holds them; the operations are functions of it. A
    call of a collaborator ends like any Go call: [outcome]. *)

Definition Params : Type := gmap string string.

Record World : Type := mkWorld {
  (* package vo *)
  IsGeneratedNodeForBatchMode : string -> string -> bool;
  (* entity.NodeMetaByNodeType(t).GetDisplayKey() *)
  GetDisplayKey : NodeType -> string;
  (* fmt.Sprintf("%.3fs", d.Seconds()) for a time.Duration d *)
  formatSeconds : Z -> string;
  (* fmt.Sprintf("%.2f", float64(a) / float64(b)) *)
  formatRate : Z -> Z -> string;
  (* the package variable nodeIconURLCache *)
  nodeIconURLCache : gmap string string;
  GetWorkflowDebugURL : Z -> Z -> Z -> string;
  (* err.Error() and wfe.Msg() *)
  errorString : error -> string;
  workflowErrorMsg : error -> string;
  (* sonic *)
  MarshalNodeResults : list (option NodeResult.t) -> outcome string;
  MarshalNodeExtra : NodeExtra.t -> outcome string;
  MarshalAnswerOutput : string -> outcome string;
  UnmarshalParameters : string -> outcome Params;
  (* package consts *)
  CozeConnectorID : Z;
  WebSDKConnectorID : Z;
  (* crossuser.DefaultSVC().GetUserSpaceList: the ids of the user's spaces *)
  GetUserSpaceList : Z -> outcome (list Z);
  (* the workflow domain service *)
  Get : Z -> outcome WorkflowMeta.t;
  GetExecution : Z -> Z -> Z -> outcome WorkflowExecution.t;
  AsyncExecute : ExecuteConfig.t -> Params -> outcome Z;
  AsyncExecuteNode : string -> ExecuteConfig.t -> Params -> outcome Z;
  SyncExecute : ExecuteConfig.t -> Params -> outcome (WorkflowExecution.t * TerminatePlan);
  StreamExecute : ExecuteConfig.t -> Params -> outcome (list Message.t);
  StreamResume : ResumeRequest.t -> ExecuteConfig.t -> outcome (list Message.t)
}.

(** The calls an operation makes to its stateful collaborators, in order. *)
Inductive Call : Type :=
| CallGetUserSpaceList (uid : Z)
| CallGet (id : Z)
| CallGetExecution (id workflowID rootExecutionID : Z)
| CallAsyncExecute (cfg : ExecuteConfig.t) (input : Params)
| CallAsyncExecuteNode (nodeID : string) (cfg : ExecuteConfig.t) (input : Params)
| CallSyncExecute (cfg : ExecuteConfig.t) (input : Params)
| CallStreamExecute (cfg : ExecuteConfig.t) (input : Params)
| CallStreamResume (req : ResumeRequest.t) (cfg : ExecuteConfig.t).

(** The calls that create or continue an execution. *)
Definition isExecuteCall (c : Call) : bool :=
  match c with
  | CallAsyncExecute _ _ | CallAsyncExecuteNode _ _ _
  | CallSyncExecute _ _ | CallStreamExecute _ _ | CallStreamResume _ _ => true
  | _ => false
  end.

(** An operation: how it ends and which calls it made. *)
Definition Op (A : Type) : Type := outcome A * list Call.

Definition ret {A} (a : A) : Op A := (Return a, []).
Definition fail {A} (e : error) : Op A := (Error e, []).
Definition lift {A} (o : outcome A) : Op A := (o, []).
Definition call {A} (c : Call) (o : outcome A) : Op A := (o, [c]).

Definition bind {A B} (m : Op A) (k : A -> Op B) : Op B :=
  match m with
  | (Return a, t) => let '(r, t') := k a in (r, t ++ t')
  | (Error e, t) => (Error e, t)
  | (Panic v, t) => (Panic v, t)
  end.

Notation "'let*' x ':=' m 'in' k" := (bind m (fun x => k))
  (at level 10, x pattern, m at level 100, k at level 200).

Definition result {A} (m : Op A) : outcome A := fst m.
Definition trace {A} (m : Op A) : list Call := snd m.

(** The deferred function that the operations below start with: [recover]
    turns a panic of the body into an error, and any error that is not yet
    a typed workflow error is wrapped under [code] with the text of its root
    cause. *)
Definition recoverAndWrap {A} (W : World) (code : errno) (body : Op A) : Op A :=
  let '(r, t) := body in
  let r1 := match r with
            | Panic v => Error (safego.NewPanicErr v)
            | _ => r
            end in
  let r2 := match r1 with
            | Error err =>
                Error (vo.WrapIfNeeded code err
                         [("cause", errorString W (vo.UnwrapRootErr err))])
            | _ => r1
            end in
  (r2, t).

Definition mustParseInt64 (s : string) : outcome Z :=
  match Strconv.ParseInt s with
  | Some i => Return i
  | None => Panic ("strconv.ParseInt: parsing " +:+ s)
  end.

Definition MustGetUIDFromCtx (ctx : Context.t) : outcome Z := Context.UID ctx.

Definition GetApiAuthFromCtx (ctx : Context.t) : outcome ApiKeyInfo.t := Context.ApiAuth ctx.

Definition checkUserSpace (W : World) (uid spaceID : Z) : Op unit :=
  let* spaces := call (CallGetUserSpaceList uid) (GetUserSpaceList W uid) in
  if existsb (Z.eqb spaceID) spaces then ret tt
  else fail (ErrText ("user " +:+ Strconv.FormatInt uid +:+
                      " does not have access to space " +:+ Strconv.FormatInt spaceID)).

(** [ptr.Of(mustParseInt64(req.GetX()))] under [req.IsSetX()]. *)
Definition parseIfSet (o : option string) : outcome (option Z) :=
  match o with
  | Some s => match mustParseInt64 s with
              | Return i => Return (Some i)
              | Error e => Error e
              | Panic v => Panic v
              end
  | None => Return None
  end.

Definition bothSet (appID agentID : option Z) : bool :=
  bool_decide (is_Some appID) && bool_decide (is_Some agentID).

Definition errBothSet : error :=
  ErrText "project_id and bot_id cannot be set at the same time".

(** ** [convertNodeExecution] and [mergeBatchModeNodes] *)

Definition tokensText (n : Z) : string := Strconv.FormatInt n +:+ " Tokens".

Definition convertTokenInfo (u : TokenUsage.t) : TokenAndCost.t :=
  {| TokenAndCost.InputTokens := Some (tokensText (TokenUsage.InputTokens u));
     TokenAndCost.OutputTokens := Some (tokensText (TokenUsage.OutputTokens u));
     TokenAndCost.TotalTokens :=
       Some (tokensText (Strconv.wrap64 (TokenUsage.InputTokens u + TokenUsage.OutputTokens u))) |}.

(** The last steps of [convertNodeExecution], once the iterations of
    [IndexedExecutions] are converted to [subResults]. *)
Definition finishNodeResult (W : World) (nodeExe : NodeExecution.t)
    (subResults : list (option NodeResult.t)) : outcome NodeResult.t :=
  let hasIndexed := negb (Nat.eqb (length (NodeExecution.IndexedExecutions nodeExe)) 0) in
  match (if hasIndexed then
           match MarshalNodeResults W subResults with
           | Return m => Return (Some m)
           | Error e => Error e
           | Panic v => Panic v
           end
         else Return None) with
  | Error e => Error e
  | Panic v => Panic v
  | Return batch =>
      let extra :=
        match NodeExecution.SubWorkflowExecution nodeExe with
        | Some subID =>
            Some {| NodeExtra.SubExecuteID := subID;
                    NodeExtra.rest :=
                      match NodeExecution.Extra nodeExe with
                      | Some x => NodeExtra.rest x
                      | None => ""
                      end |}
        | None => NodeExecution.Extra nodeExe
        end in
      match (match extra with
             | Some x => MarshalNodeExtra W x
             | None => Return ""
             end) with
      | Error e => Error e
      | Panic v => Panic v
      | Return extraText =>
          Return
            {| NodeResult.NodeId := NodeExecution.NodeID nodeExe;
               NodeResult.NodeName := NodeExecution.NodeName nodeExe;
               NodeResult.NodeType := GetDisplayKey W (NodeExecution.NodeType nodeExe);
               NodeResult.NodeStatus := NodeExecution.Status nodeExe;
               NodeResult.ErrorInfo := default "" (NodeExecution.ErrorInfo nodeExe);
               NodeResult.Input := default "" (NodeExecution.Input nodeExe);
               NodeResult.Output := default "" (NodeExecution.Output nodeExe);
               NodeResult.NodeExeCost := formatSeconds W (NodeExecution.Duration nodeExe);
               NodeResult.RawOutput := NodeExecution.RawOutput nodeExe;
               NodeResult.ErrorLevel := default "" (NodeExecution.ErrorLevel nodeExe);
               NodeResult.TokenAndCost := convertTokenInfo <$> NodeExecution.TokenInfo nodeExe;
               NodeResult.Index :=
                 match NodeExecution.ParentNodeID nodeExe with
                 | Some _ => Some (Strconv.wrap32 (NodeExecution.Index nodeExe))
                 | None => None
                 end;
               NodeResult.Items :=
                 match NodeExecution.ParentNodeID nodeExe with
                 | Some _ => NodeExecution.Items nodeExe
                 | None => None
                 end;
               NodeResult.IsBatch := if hasIndexed then Some true else None;
               NodeResult.Batch := batch;
               NodeResult.SubExecuteId :=
                 Strconv.FormatInt <$> NodeExecution.SubWorkflowExecution nodeExe;
               NodeResult.ExecuteId :=
                 match NodeExecution.SubWorkflowExecution nodeExe with
                 | Some _ => Some (Strconv.FormatInt (NodeExecution.ExecuteID nodeExe))
                 | None => None
                 end;
               NodeResult.Extra := extraText;
               NodeResult.NeedAsync := None |}
      end
  end.

(** The loop over [nodeExe.IndexedExecutions]: a [nil] iteration stays a
    [nil] entry, the others are converted by [convert], which is
    [convertNodeExecution] itself; the first error ends the loop. *)
Definition convertIndexedWith (convert : NodeExecution.t -> outcome NodeResult.t)
  : list (option NodeExecution.t) -> outcome (list (option NodeResult.t)) :=
  fix convertIndexed (l : list (option NodeExecution.t)) :=
    match l with
    | [] => Return []
    | None :: rest =>
        match convertIndexed rest with
        | Return rs => Return (None :: rs)
        | Error e => Error e
        | Panic v => Panic v
        end
    | Some subNodeExe :: rest =>
        match convert subNodeExe with
        | Return subResult =>
            match convertIndexed rest with
            | Return rs => Return (Some subResult :: rs)
            | Error e => Error e
            | Panic v => Panic v
            end
        | Error e => Error e
        | Panic v => Panic v
        end
    end.

Fixpoint convertNodeExecution (W : World) (nodeExe : NodeExecution.t) {struct nodeExe}
  : outcome NodeResult.t :=
  match convertIndexedWith (convertNodeExecution W)
          (NodeExecution.IndexedExecutions nodeExe) with
  | Return subResults => finishNodeResult W nodeExe subResults
  | Error e => Error e
  | Panic v => Panic v
  end.

Definition mergeBatchModeNodes (parent inner : NodeResult.t) : NodeResult.t :=
  {| NodeResult.NodeId := NodeResult.NodeId parent;
     NodeResult.NodeType := NodeResult.NodeType inner;
     NodeResult.NodeName := NodeResult.NodeName parent;
     NodeResult.NodeStatus := NodeResult.NodeStatus parent;
     NodeResult.ErrorInfo := NodeResult.ErrorInfo parent;
     NodeResult.Input := NodeResult.Input parent;
     NodeResult.Output := NodeResult.Output parent;
     NodeResult.NodeExeCost := NodeResult.NodeExeCost parent;
     NodeResult.TokenAndCost := NodeResult.TokenAndCost parent;
     NodeResult.RawOutput := NodeResult.RawOutput parent;
     NodeResult.ErrorLevel := NodeResult.ErrorLevel parent;
     NodeResult.Batch := NodeResult.Batch inner;
     NodeResult.IsBatch := NodeResult.IsBatch inner;
     NodeResult.Extra := NodeResult.Extra inner;
     NodeResult.ExecuteId := NodeResult.ExecuteId parent;
     NodeResult.SubExecuteId := NodeResult.SubExecuteId parent;
     NodeResult.NeedAsync := NodeResult.NeedAsync parent;
     NodeResult.Index := None;
     NodeResult.Items := None |}.

Definition convertIndexed (W : World)
  : list (option NodeExecution.t) -> outcome (list (option NodeResult.t)) :=
  convertIndexedWith (convertNodeExecution W).

(** ** [GetProcess] *)

(** Where the pointer [endNodeExe] points: at the [i]-th element of
    [resp.Data.NodeResults], or at a result that is not in that slice (it was
    replaced by a merged copy, or it waits in the cache of inner halves,
    which is never listed). The exit-node test and the batch-node test
    exclude each other, so it never points into [batchNodeID2NodeResult]. *)
Inductive endNodeRef : Type :=
| EndListed (i : nat)
| EndUnlisted (nr : NodeResult.t).

(** The variables of the loop over [wfExeEntity.NodeExecutions]. *)
Module LoopState.
Record t : Type := mk {
  hasNodeErr : bool;
  endNodeExe : option endNodeRef;
  batchNodeID2NodeResult : gmap string NodeResult.t;
  batchNodeID2InnerNodeResult : gmap string NodeResult.t;
  successNum : Z;
  NodeResults : list NodeResult.t
}.
End LoopState.

Definition initialLoopState : LoopState.t :=
  {| LoopState.hasNodeErr := false;
     LoopState.endNodeExe := None;
     LoopState.batchNodeID2NodeResult := ∅;
     LoopState.batchNodeID2InnerNodeResult := ∅;
     LoopState.successNum := 0;
     LoopState.NodeResults := [] |}.

Definition isSuccess (nr : NodeResult.t) : bool :=
  match NodeResult.NodeStatus nr with NodeSuccess => true | _ => false end.

Definition isFailedWithInfo (nodeExe : NodeExecution.t) : bool :=
  match NodeExecution.Status nodeExe, NodeExecution.ErrorInfo nodeExe with
  | NodeFailed, Some _ => true
  | _, _ => false
  end.

(** What one iteration does with the converted result [nr]. *)
Inductive disposition : Type :=
| Listed (nr : NodeResult.t)
| Merged (merged : NodeResult.t) (clearParent : option string) (clearInner : option string)
| CachedParent (key : string)
| CachedInner (key : string)
| NilParentNodeID.

Definition dispose (W : World) (st : LoopState.t) (nodeExe : NodeExecution.t)
    (nr : NodeResult.t) : disposition :=
  if String.eqb (NodeExecution.NodeType nodeExe) NodeTypeBatch then
    match LoopState.batchNodeID2InnerNodeResult st !! NodeExecution.NodeID nodeExe with
    | Some inner =>
        Merged (mergeBatchModeNodes inner nr) None (Some (NodeExecution.NodeID nodeExe))
    | None => CachedParent (NodeExecution.NodeID nodeExe)
    end
  else if negb (Nat.eqb (length (NodeExecution.IndexedExecutions nodeExe)) 0) then
    match NodeExecution.ParentNodeID nodeExe with
    | None => NilParentNodeID
    | Some parentNodeID =>
        if IsGeneratedNodeForBatchMode W (NodeExecution.NodeID nodeExe) parentNodeID then
          match LoopState.batchNodeID2NodeResult st !! parentNodeID with
          | Some parentNodeResult =>
              Merged (mergeBatchModeNodes parentNodeResult nr) (Some parentNodeID) None
          | None => CachedInner parentNodeID
          end
        else Listed nr
    end
  else Listed nr.

Definition appendResult (st : LoopState.t) (nr : NodeResult.t) : LoopState.t :=
  {| LoopState.hasNodeErr := LoopState.hasNodeErr st;
     LoopState.endNodeExe := LoopState.endNodeExe st;
     LoopState.batchNodeID2NodeResult := LoopState.batchNodeID2NodeResult st;
     LoopState.batchNodeID2InnerNodeResult := LoopState.batchNodeID2InnerNodeResult st;
     LoopState.successNum :=
       if isSuccess nr then LoopState.successNum st + 1 else LoopState.successNum st;
     LoopState.NodeResults := LoopState.NodeResults st ++ [nr] |}.

(** One iteration of the loop, after [convertNodeExecution] returned [nr]. *)
Definition loopBody (W : World) (st : LoopState.t) (nodeExe : NodeExecution.t)
    (nr : NodeResult.t) : outcome LoopState.t :=
  let d := dispose W st nodeExe nr in
  let st1 :=
    {| LoopState.hasNodeErr := LoopState.hasNodeErr st || isFailedWithInfo nodeExe;
       LoopState.endNodeExe :=
         if String.eqb (NodeExecution.NodeType nodeExe) NodeTypeExit then
           match d with
           | Listed _ => Some (EndListed (length (LoopState.NodeResults st)))
           | _ => Some (EndUnlisted nr)
           end
         else LoopState.endNodeExe st;
       LoopState.batchNodeID2NodeResult :=
         match d with
         | CachedParent key => <[key := nr]> (LoopState.batchNodeID2NodeResult st)
         | Merged _ (Some key) _ => delete key (LoopState.batchNodeID2NodeResult st)
         | _ => LoopState.batchNodeID2NodeResult st
         end;
       LoopState.batchNodeID2InnerNodeResult :=
         match d with
         | CachedInner key => <[key := nr]> (LoopState.batchNodeID2InnerNodeResult st)
         | Merged _ _ (Some key) => delete key (LoopState.batchNodeID2InnerNodeResult st)
         | _ => LoopState.batchNodeID2InnerNodeResult st
         end;
       LoopState.successNum := LoopState.successNum st;
       LoopState.NodeResults := LoopState.NodeResults st |} in
  match d with
  | Listed nr' | Merged nr' _ _ => Return (appendResult st1 nr')
  | CachedParent _ | CachedInner _ => Return st1
  | NilParentNodeID => Panic "nil pointer dereference"
  end.

Fixpoint nodeLoop (W : World) (st : LoopState.t) (nodeExes : list NodeExecution.t)
  : outcome LoopState.t :=
  match nodeExes with
  | [] => Return st
  | nodeExe :: rest =>
      match convertNodeExecution W nodeExe with
      | Return nr =>
          match loopBody W st nodeExe nr with
          | Return st' => nodeLoop W st' rest
          | Error e => Error e
          | Panic v => Panic v
          end
      | Error e => Error e
      | Panic v => Panic v
      end
  end.

Definition setError (failReason : string) (nr : NodeResult.t) : NodeResult.t :=
  {| NodeResult.NodeId := NodeResult.NodeId nr;
     NodeResult.NodeType := NodeResult.NodeType nr;
     NodeResult.NodeName := NodeResult.NodeName nr;
     NodeResult.NodeStatus := NodeResult.NodeStatus nr;
     NodeResult.ErrorInfo := failReason;
     NodeResult.Input := NodeResult.Input nr;
     NodeResult.Output := NodeResult.Output nr;
     NodeResult.NodeExeCost := NodeResult.NodeExeCost nr;
     NodeResult.TokenAndCost := NodeResult.TokenAndCost nr;
     NodeResult.RawOutput := NodeResult.RawOutput nr;
     NodeResult.ErrorLevel := vo.LevelError;
     NodeResult.Index := NodeResult.Index nr;
     NodeResult.Items := NodeResult.Items nr;
     NodeResult.IsBatch := NodeResult.IsBatch nr;
     NodeResult.Batch := NodeResult.Batch nr;
     NodeResult.Extra := NodeResult.Extra nr;
     NodeResult.ExecuteId := NodeResult.ExecuteId nr;
     NodeResult.SubExecuteId := NodeResult.SubExecuteId nr;
     NodeResult.NeedAsync := NodeResult.NeedAsync nr |}.

Definition syntheticEndNode (failReason : string) : NodeResult.t :=
  {| NodeResult.NodeId := ExitNodeKey;
     NodeResult.NodeType := NodeTemplateType_End;
     NodeResult.NodeName := "";
     NodeResult.NodeStatus := NodeFailed;
     NodeResult.ErrorInfo := failReason;
     NodeResult.Input := "";
     NodeResult.Output := "";
     NodeResult.NodeExeCost := "";
     NodeResult.TokenAndCost := None;
     NodeResult.RawOutput := None;
     NodeResult.ErrorLevel := vo.LevelError;
     NodeResult.Index := None;
     NodeResult.Items := None;
     NodeResult.IsBatch := None;
     NodeResult.Batch := None;
     NodeResult.Extra := "";
     NodeResult.ExecuteId := None;
     NodeResult.SubExecuteId := None;
     NodeResult.NeedAsync := None |}.

(** The block under [workflowFail && !hasNodeErr]: the fail reason goes to
    the exit node's result, or to the only result of a single-node debug
    run, or to a new end-node result. Writing through [endNodeExe] changes
    the listing only where the pointer points into it. *)
Definition attachFailReason (workflowFail : bool) (failReason : option string)
    (st : LoopState.t) : list NodeResult.t :=
  let results := LoopState.NodeResults st in
  if workflowFail && negb (LoopState.hasNodeErr st) then
    match failReason with
    | None => results
    | Some reason =>
        match LoopState.endNodeExe st with
        | Some (EndListed i) => alter (setError reason) i results
        | Some (EndUnlisted _) => results
        | None =>
            match results with
            | [only] =>
                if negb (String.eqb (NodeResult.NodeType only) NodeTemplateType_Start)
                then [setError reason only]
                else results ++ [syntheticEndNode reason]
            | _ => results ++ [syntheticEndNode reason]
            end
        end
    end
  else results.

(** The second loop: the parent shells still in [batchNodeID2NodeResult] are
    appended. Go leaves the order of a map range unspecified; here it is the
    order of [map_to_list]. *)
Definition unmergedParents (st : LoopState.t) : list NodeResult.t :=
  (map_to_list (LoopState.batchNodeID2NodeResult st)).*2.

Definition toolEvent (ie : InterruptEvent.t) : outcome InterruptEvent.t :=
  match InterruptEvent.EventType ie with
  | InterruptEventLLM =>
      match InterruptEvent.ToolInterruptEvent ie with
      | None => Panic "nil pointer dereference"
      | Some tool =>
          Return {| InterruptEvent.ID := InterruptEvent.ID ie;
                    InterruptEvent.NodeKey := ToolInterruptEvent.NodeKey tool;
                    InterruptEvent.NodeType := ToolInterruptEvent.NodeType tool;
                    InterruptEvent.NodeTitle := ToolInterruptEvent.NodeTitle tool;
                    InterruptEvent.NodeIcon := ToolInterruptEvent.NodeIcon tool;
                    InterruptEvent.EventType := ToolInterruptEvent.EventType tool;
                    InterruptEvent.InterruptData := ToolInterruptEvent.InterruptData tool;
                    InterruptEvent.ToolInterruptEvent := None |}
      end
  | InterruptEventOther _ => Return ie
  end.

Definition nodeEventOf (W : World) (ie : InterruptEvent.t) : NodeEvent.t :=
  {| NodeEvent.ID := Strconv.FormatInt (InterruptEvent.ID ie);
     NodeEvent.NodeID := InterruptEvent.NodeKey ie;
     NodeEvent.NodeTitle := InterruptEvent.NodeTitle ie;
     NodeEvent.NodeIcon := default "" (nodeIconURLCache W !! InterruptEvent.NodeType ie);
     NodeEvent.Data := InterruptEvent.InterruptData ie;
     NodeEvent.Type_ := InterruptEvent.EventType ie;
     NodeEvent.SchemaNodeID := InterruptEvent.NodeKey ie |}.

Fixpoint nodeEvents (W : World) (events : list InterruptEvent.t)
  : outcome (list NodeEvent.t) :=
  match events with
  | [] => Return []
  | ie :: rest =>
      match toolEvent ie with
      | Return ie' =>
          match nodeEvents W rest with
          | Return evs => Return (nodeEventOf W ie' :: evs)
          | Error e => Error e
          | Panic v => Panic v
          end
      | Error e => Error e
      | Panic v => Panic v
      end
  end.

Definition shownStatus (status : WorkflowExecuteStatus) : WorkflowExecuteStatus :=
  match status with
  | WorkflowInterrupted => WorkflowRunning
  | _ => status
  end.

Definition isWorkflowFailed (status : WorkflowExecuteStatus) : bool :=
  match status with WorkflowFailed => true | _ => false end.

(** The body of [GetProcess] from the status on, given the execution that
    [GetExecution] returned. *)
Definition processData (W : World) (wfExeEntity : WorkflowExecution.t)
  : outcome GetWorkFlowProcessData.t :=
  let status := shownStatus (WorkflowExecution.Status wfExeEntity) in
  match nodeLoop W initialLoopState (WorkflowExecution.NodeExecutions wfExeEntity) with
  | Error e => Error e
  | Panic v => Panic v
  | Return st =>
      let listed :=
        attachFailReason (isWorkflowFailed status)
          (WorkflowExecution.FailReason wfExeEntity) st in
      let parents := unmergedParents st in
      let successNum :=
        LoopState.successNum st + Z.of_nat (length (filter (λ nr, isSuccess nr = true) parents)) in
      match nodeEvents W (WorkflowExecution.InterruptEvents wfExeEntity) with
      | Error e => Error e
      | Panic v => Panic v
      | Return events =>
          Return
            {| GetWorkFlowProcessData.WorkFlowId :=
                 Strconv.FormatInt (WorkflowExecution.WorkflowID wfExeEntity);
               GetWorkFlowProcessData.ExecuteId :=
                 Strconv.FormatInt (WorkflowExecution.ID wfExeEntity);
               GetWorkFlowProcessData.ExecuteStatus := status;
               GetWorkFlowProcessData.WorkflowExeCost :=
                 formatSeconds W (WorkflowExecution.Duration wfExeEntity);
               GetWorkFlowProcessData.Reason := WorkflowExecution.FailReason wfExeEntity;
               GetWorkFlowProcessData.LogID := WorkflowExecution.LogID wfExeEntity;
               GetWorkFlowProcessData.TokenAndCost :=
                 convertTokenInfo <$> WorkflowExecution.TokenInfo wfExeEntity;
               GetWorkFlowProcessData.ProjectId :=
                 match WorkflowExecution.AppID wfExeEntity with
                 | Some appID => Strconv.FormatInt appID
                 | None => ""
                 end;
               GetWorkFlowProcessData.NodeResults := listed ++ parents;
               GetWorkFlowProcessData.Rate :=
                 if 0 <? WorkflowExecution.NodeCount wfExeEntity
                 then formatRate W successNum (WorkflowExecution.NodeCount wfExeEntity)
                 else "";
               GetWorkFlowProcessData.NodeEvents := events |}
      end
  end.

(** The ids in the composite literal of [wfExeEntity]: the execution, the
    workflow and, for a sub-execution, the root execution. *)
Definition requestedExecution (req : GetWorkflowProcessRequest.t) : Op (Z * Z * Z) :=
  match GetWorkflowProcessRequest.SubExecuteID req with
  | None =>
      let* id := lift (mustParseInt64 (getOr (GetWorkflowProcessRequest.ExecuteID req))) in
      let* workflowID := lift (mustParseInt64 (GetWorkflowProcessRequest.WorkflowID req)) in
      ret (id, workflowID, 0)
  | Some subExecuteID =>
      let* id := lift (mustParseInt64 subExecuteID) in
      let* workflowID := lift (mustParseInt64 (GetWorkflowProcessRequest.WorkflowID req)) in
      let* root := lift (mustParseInt64 (getOr (GetWorkflowProcessRequest.ExecuteID req))) in
      ret (id, workflowID, root)
  end.

Definition GetProcess (W : World) (ctx : Context.t) (req : GetWorkflowProcessRequest.t)
  : Op GetWorkFlowProcessData.t :=
  recoverAndWrap W ErrWorkflowOperationFail
    (let* uid := lift (MustGetUIDFromCtx ctx) in
     let* spaceID := lift (mustParseInt64 (getOr (GetWorkflowProcessRequest.SpaceID req))) in
     let* _ := checkUserSpace W uid spaceID in
     let* ids := requestedExecution req in
     let '(id, workflowID, root) := ids in
     let* wfExeEntity :=
       call (CallGetExecution id workflowID root) (GetExecution W id workflowID root) in
     lift (processData W wfExeEntity)).

(** ** [convertStreamRunEvent] *)

Definition DoneEvent : string := "Done".
Definition MessageEvent : string := "Message".
Definition ErrEvent : string := "Error".
Definition InterruptEventName : string := "Interrupt".

(** The variables the returned closure captures. *)
Module ConvertState.
Record t : Type := mk {
  messageID : Z;
  executeID : Z;
  spaceID : Z;
  nodeID2Seq : gmap string Z
}.
End ConvertState.

Definition initialConvertState : ConvertState.t :=
  {| ConvertState.messageID := 0;
     ConvertState.executeID := 0;
     ConvertState.spaceID := 0;
     ConvertState.nodeID2Seq := ∅ |}.

(** An event of a state message: id, name, debug url, and the fields of an
    error or of an interrupt. *)
Definition stateEvent (W : World) (workflowID : Z) (st : ConvertState.t) (event : string)
    (code : option errno) (message : option string) (interrupt : option Interrupt.t)
  : OpenAPIStreamRunFlowResponse.t :=
  {| OpenAPIStreamRunFlowResponse.ID := Strconv.Itoa (ConvertState.messageID st);
     OpenAPIStreamRunFlowResponse.Event := event;
     OpenAPIStreamRunFlowResponse.DebugUrl :=
       Some (GetWorkflowDebugURL W workflowID (ConvertState.spaceID st)
               (ConvertState.executeID st));
     OpenAPIStreamRunFlowResponse.ErrorCode := code;
     OpenAPIStreamRunFlowResponse.ErrorMessage := message;
     OpenAPIStreamRunFlowResponse.InterruptData := interrupt;
     OpenAPIStreamRunFlowResponse.NodeTitle := None;
     OpenAPIStreamRunFlowResponse.Content := None;
     OpenAPIStreamRunFlowResponse.ContentType := None;
     OpenAPIStreamRunFlowResponse.NodeIsFinish := None;
     OpenAPIStreamRunFlowResponse.NodeType := None;
     OpenAPIStreamRunFlowResponse.NodeID := None;
     OpenAPIStreamRunFlowResponse.Token := None;
     OpenAPIStreamRunFlowResponse.NodeSeqID := None |}.

Definition errorCodeOf (wfe : error) : errno :=
  match wfe with
  | ErrWorkflow code | ErrWorkflowWrap code _ _ => code
  | _ => ErrCode 0
  end.

(** [fmt.Sprintf("%d/%d", executeID, eventID)]. *)
Definition eventKey (executeID eventID : Z) : string :=
  Strconv.FormatInt executeID +:+ "/" +:+ Strconv.FormatInt eventID.

(** The test that skips the messages of workflow tools. *)
Definition fromOtherExecution (st : ConvertState.t) (executeID : Z) : bool :=
  (0 <? ConvertState.executeID st) && negb (ConvertState.executeID st =? executeID).

(** The closure's body for a message with a [StateMessage]: what it returns
    and the captured variables it assigns (the deferred increment of
    [messageID] comes after). *)
Definition convertStateMessage (W : World) (workflowID : Z) (st : ConvertState.t)
    (sm : StateMessage.t)
  : outcome (option OpenAPIStreamRunFlowResponse.t) * ConvertState.t :=
  if fromOtherExecution st (StateMessage.ExecuteID sm) then (Error ErrNoValue, st)
  else
    match StateMessage.Status sm with
    | WorkflowSuccess =>
        (Return (Some (stateEvent W workflowID st DoneEvent None None None)), st)
    | WorkflowFailed | WorkflowCancel =>
        match StateMessage.LastError sm ≫= vo.asWorkflowError with
        | None => (Panic "stream run last error is not a WorkflowError", st)
        | Some wfe =>
            (Return (Some (stateEvent W workflowID st ErrEvent
                             (Some (errorCodeOf wfe))
                             (Some (workflowErrorMsg W wfe)) None)), st)
        end
    | WorkflowInterrupted =>
        match StateMessage.InterruptEvent sm with
        | None => (Panic "nil pointer dereference", st)
        | Some ie =>
            let key := eventKey (ConvertState.executeID st) (InterruptEvent.ID ie) in
            let interrupt :=
              match InterruptEvent.ToolInterruptEvent ie with
              | None =>
                  {| Interrupt.EventID := key;
                     Interrupt.Type_ := InterruptEvent.EventType ie;
                     Interrupt.InData := InterruptEvent.InterruptData ie |}
              | Some tool =>
                  {| Interrupt.EventID := key;
                     Interrupt.Type_ := ToolInterruptEvent.EventType tool;
                     Interrupt.InData := ToolInterruptEvent.InterruptData tool |}
              end in
            (Return (Some (stateEvent W workflowID st InterruptEventName
                             None None (Some interrupt))), st)
        end
    | WorkflowRunning =>
        (Error ErrNoValue,
         {| ConvertState.messageID := ConvertState.messageID st;
            ConvertState.executeID := StateMessage.ExecuteID sm;
            ConvertState.spaceID := StateMessage.SpaceID sm;
            ConvertState.nodeID2Seq := ConvertState.nodeID2Seq st |})
    | WorkflowStatusOther _ => (Error ErrNoValue, st)
    end.

Definition seqOf (st : ConvertState.t) (nodeID : string) : Z :=
  default 0 (ConvertState.nodeID2Seq st !! nodeID).

(** The closure's body for a message with a [DataMessage] and no
    [StateMessage]. *)
Definition convertDataMessage (W : World) (st : ConvertState.t) (dm : DataMessage.t)
  : outcome (option OpenAPIStreamRunFlowResponse.t) * ConvertState.t :=
  match DataMessage.Type_ dm with
  | Answer =>
      if fromOtherExecution st (DataMessage.ExecuteID dm) then (Error ErrNoValue, st)
      else
        let seq := seqOf st (DataMessage.NodeID dm) in
        (Return (Some
           {| OpenAPIStreamRunFlowResponse.ID := Strconv.Itoa (ConvertState.messageID st);
              OpenAPIStreamRunFlowResponse.Event := MessageEvent;
              OpenAPIStreamRunFlowResponse.DebugUrl := None;
              OpenAPIStreamRunFlowResponse.ErrorCode := None;
              OpenAPIStreamRunFlowResponse.ErrorMessage := None;
              OpenAPIStreamRunFlowResponse.InterruptData := None;
              OpenAPIStreamRunFlowResponse.NodeTitle := Some (DataMessage.NodeTitle dm);
              OpenAPIStreamRunFlowResponse.Content := Some (DataMessage.Content dm);
              OpenAPIStreamRunFlowResponse.ContentType := Some "text";
              OpenAPIStreamRunFlowResponse.NodeIsFinish := Some (DataMessage.Last dm);
              OpenAPIStreamRunFlowResponse.NodeType :=
                Some (GetDisplayKey W (DataMessage.NodeType dm));
              OpenAPIStreamRunFlowResponse.NodeID := Some (DataMessage.NodeID dm);
              OpenAPIStreamRunFlowResponse.Token :=
                (λ u, Strconv.wrap64 (TokenUsage.InputTokens u + TokenUsage.OutputTokens u))
                  <$> DataMessage.Usage dm;
              OpenAPIStreamRunFlowResponse.NodeSeqID := Some (Strconv.Itoa seq) |}),
         {| ConvertState.messageID := ConvertState.messageID st;
            ConvertState.executeID := ConvertState.executeID st;
            ConvertState.spaceID := ConvertState.spaceID st;
            ConvertState.nodeID2Seq :=
              <[DataMessage.NodeID dm := Strconv.wrap64 (seq + 1)]>
                (ConvertState.nodeID2Seq st) |})
  | FunctionCall | ToolResponse => (Error ErrNoValue, st)
  end.

(** The deferred function of the closure: [messageID++] unless an error is
    returned; it also runs when the body panics, [err] being nil then. *)
Definition bumpMessageID {A} (r : outcome A) (st : ConvertState.t) : ConvertState.t :=
  match r with
  | Error _ => st
  | _ =>
      {| ConvertState.messageID := Strconv.wrap64 (ConvertState.messageID st + 1);
         ConvertState.executeID := ConvertState.executeID st;
         ConvertState.spaceID := ConvertState.spaceID st;
         ConvertState.nodeID2Seq := ConvertState.nodeID2Seq st |}
  end.

(** One call of the closure that [convertStreamRunEvent workflowID] returns,
    with the captured variables passed in and out. [Return None] is the
    [(nil, nil)] that a message with neither part gets. *)
Definition convertStreamRunEvent (W : World) (workflowID : Z) (st : ConvertState.t)
    (msg : Message.t)
  : outcome (option OpenAPIStreamRunFlowResponse.t) * ConvertState.t :=
  let '(r, st') :=
    match Message.StateMessage msg with
    | Some sm => convertStateMessage W workflowID st sm
    | None =>
        match Message.DataMessage msg with
        | Some dm => convertDataMessage W st dm
        | None => (Return None, st)
        end
    end in
  (r, bumpMessageID r st').

(** The reader that [schema.StreamReaderWithConvert(sr, convert)] returns:
    the messages not yet read from [sr] and the closure's variables. *)
Module StreamReader.
Record t : Type := mk {
  workflowID : Z;
  state : ConvertState.t;
  source : list Message.t
}.
End StreamReader.

(** [Recv]: messages are read and converted until one gives something other
    than [ErrNoValue]; the end of the source is [io.EOF]. A panic of the
    converter is a panic of [Recv]: nothing recovers it on the way. *)
Fixpoint recvFrom (W : World) (workflowID : Z) (st : ConvertState.t)
    (source : list Message.t)
  : outcome (option OpenAPIStreamRunFlowResponse.t) * StreamReader.t :=
  match source with
  | [] => (Error ErrEOF, StreamReader.mk workflowID st [])
  | msg :: rest =>
      match convertStreamRunEvent W workflowID st msg with
      | (Error ErrNoValue, st') => recvFrom W workflowID st' rest
      | (r, st') => (r, StreamReader.mk workflowID st' rest)
      end
  end.

Definition Recv (W : World) (sr : StreamReader.t)
  : outcome (option OpenAPIStreamRunFlowResponse.t) * StreamReader.t :=
  recvFrom W (StreamReader.workflowID sr) (StreamReader.state sr) (StreamReader.source sr).

(** The captured variables after the closure has been called on [msgs]. *)
Definition stateAfter (W : World) (workflowID : Z) (st : ConvertState.t)
    (msgs : list Message.t) : ConvertState.t :=
  foldl (λ s msg, snd (convertStreamRunEvent W workflowID s msg)) st msgs.

(** What the calls of the closure on [msgs] returned, in order. *)
Fixpoint outputs (W : World) (workflowID : Z) (st : ConvertState.t)
    (msgs : list Message.t) : list (outcome (option OpenAPIStreamRunFlowResponse.t)) :=
  match msgs with
  | [] => []
  | msg :: rest =>
      let '(r, st') := convertStreamRunEvent W workflowID st msg in
      r :: outputs W workflowID st' rest
  end.

(** ** The execute operations *)

(** [TestRun] up to and including the composite literal of [exeCfg]. *)
Definition testRunConfig (W : World) (ctx : Context.t) (req : WorkFlowTestRunRequest.t)
  : Op ExecuteConfig.t :=
  let* uID := lift (MustGetUIDFromCtx ctx) in
  let* spaceID := lift (mustParseInt64 (getOr (WorkFlowTestRunRequest.SpaceID req))) in
  let* _ := checkUserSpace W uID spaceID in
  let* appID := lift (parseIfSet (WorkFlowTestRunRequest.ProjectID req)) in
  let* agentID := lift (parseIfSet (WorkFlowTestRunRequest.BotID req)) in
  let* id := lift (mustParseInt64 (WorkFlowTestRunRequest.WorkflowID req)) in
  ret {| ExecuteConfig.ID := id;
         ExecuteConfig.From := FromDraft;
         ExecuteConfig.Version := "";
         ExecuteConfig.CommitID := getOr (WorkFlowTestRunRequest.CommitID req);
         ExecuteConfig.Operator := uID;
         ExecuteConfig.Mode := ExecuteModeDebug;
         ExecuteConfig.AppID := appID;
         ExecuteConfig.AgentID := agentID;
         ExecuteConfig.ConnectorID := CozeConnectorID W;
         ExecuteConfig.ConnectorUID := Strconv.FormatInt uID;
         ExecuteConfig.TaskType := TaskTypeForeground;
         ExecuteConfig.SyncPattern := SyncPatternAsync;
         ExecuteConfig.InputFailFast := false;
         ExecuteConfig.BizType := BizTypeWorkflow;
         ExecuteConfig.Cancellable := true |}.

(** [if exeCfg.AppID != nil && exeCfg.AgentID != nil { return nil, errors.New(...) }] *)
Definition rejectBothSet (exeCfg : ExecuteConfig.t) : Op unit :=
  if bothSet (ExecuteConfig.AppID exeCfg) (ExecuteConfig.AgentID exeCfg)
  then fail errBothSet
  else ret tt.

Definition TestRun (W : World) (ctx : Context.t) (req : WorkFlowTestRunRequest.t)
  : Op WorkFlowTestRunData.t :=
  recoverAndWrap W ErrWorkflowExecuteFail
    (let* exeCfg := testRunConfig W ctx req in
     let* _ := rejectBothSet exeCfg in
     let input := WorkFlowTestRunRequest.Input req in
     let* exeID := call (CallAsyncExecute exeCfg input) (AsyncExecute W exeCfg input) in
     ret {| WorkFlowTestRunData.WorkflowID := WorkFlowTestRunRequest.WorkflowID req;
            WorkFlowTestRunData.ExecuteID := Strconv.FormatInt exeID |}).

(** The map [mergedInput] of [NodeDebug]: later assignments win, so
    [Setting] goes over [Batch], which goes over [Input]. *)
Definition mergedInput (req : WorkflowNodeDebugV2Request.t) : Params :=
  WorkflowNodeDebugV2Request.Setting req ∪
  (WorkflowNodeDebugV2Request.Batch req ∪ WorkflowNodeDebugV2Request.Input req).

(** [NodeDebug] up to and including the composite literal of [exeCfg]. *)
Definition nodeDebugConfig (W : World) (ctx : Context.t) (req : WorkflowNodeDebugV2Request.t)
  : Op ExecuteConfig.t :=
  let* uID := lift (MustGetUIDFromCtx ctx) in
  let* spaceID := lift (mustParseInt64 (getOr (WorkflowNodeDebugV2Request.SpaceID req))) in
  let* _ := checkUserSpace W uID spaceID in
  let* appID := lift (parseIfSet (WorkflowNodeDebugV2Request.ProjectID req)) in
  let* agentID := lift (parseIfSet (WorkflowNodeDebugV2Request.BotID req)) in
  let* id := lift (mustParseInt64 (WorkflowNodeDebugV2Request.WorkflowID req)) in
  ret {| ExecuteConfig.ID := id;
         ExecuteConfig.From := FromDraft;
         ExecuteConfig.Version := "";
         ExecuteConfig.CommitID := "";
         ExecuteConfig.Operator := uID;
         ExecuteConfig.Mode := ExecuteModeNodeDebug;
         ExecuteConfig.AppID := appID;
         ExecuteConfig.AgentID := agentID;
         ExecuteConfig.ConnectorID := CozeConnectorID W;
         ExecuteConfig.ConnectorUID := Strconv.FormatInt uID;
         ExecuteConfig.TaskType := TaskTypeForeground;
         ExecuteConfig.SyncPattern := SyncPatternAsync;
         ExecuteConfig.InputFailFast := false;
         ExecuteConfig.BizType := BizTypeWorkflow;
         ExecuteConfig.Cancellable := true |}.

Definition NodeDebug (W : World) (ctx : Context.t) (req : WorkflowNodeDebugV2Request.t)
  : Op WorkflowNodeDebugV2Data.t :=
  recoverAndWrap W ErrWorkflowExecuteFail
    (let* exeCfg := nodeDebugConfig W ctx req in
     let* _ := rejectBothSet exeCfg in
     let nodeID := WorkflowNodeDebugV2Request.NodeID req in
     let* exeID :=
       call (CallAsyncExecuteNode nodeID exeCfg (mergedInput req))
            (AsyncExecuteNode W nodeID exeCfg (mergedInput req)) in
     ret {| WorkflowNodeDebugV2Data.WorkflowID := WorkflowNodeDebugV2Request.WorkflowID req;
            WorkflowNodeDebugV2Data.NodeID := nodeID;
            WorkflowNodeDebugV2Data.ExecuteID := Strconv.FormatInt exeID |}).

(** The statements that [OpenAPIRun] and [OpenAPIStreamRun] share, up to and
    including the composite literal of [exeCfg]: API auth, parameters,
    workflow meta, published check, space check, ids and connector. Task
    type and sync pattern are left out: [OpenAPIStreamRun] has them in the
    literal, [OpenAPIRun] assigns them later ([withPattern]). *)
Definition openAPIConfig (W : World) (ctx : Context.t) (req : OpenAPIRunFlowRequest.t)
  : Op (WorkflowMeta.t * Params * ExecuteConfig.t) :=
  let* apiKeyInfo := lift (GetApiAuthFromCtx ctx) in
  let userID := ApiKeyInfo.UserID apiKeyInfo in
  let* parameters :=
    match OpenAPIRunFlowRequest.Parameters req with
    | Some text =>
        match UnmarshalParameters W text with
        | Return p => ret p
        | Error err => fail (vo.WrapError ErrInvalidParameter err [])
        | Panic v => lift (Panic v)
        end
    | None => ret (∅ : Params)
    end in
  let* workflowID := lift (mustParseInt64 (OpenAPIRunFlowRequest.WorkflowID req)) in
  let* meta := call (CallGet workflowID) (Get W workflowID) in
  match WorkflowMeta.LatestPublishedVersion meta with
  | None => fail (vo.NewError ErrWorkflowNotPublished)
  | Some version =>
      let* _ := checkUserSpace W userID (WorkflowMeta.SpaceID meta) in
      let* appID :=
        lift (match OpenAPIRunFlowRequest.AppID req with
              | Some _ => parseIfSet (OpenAPIRunFlowRequest.AppID req)
              | None => parseIfSet (OpenAPIRunFlowRequest.ProjectID req)
              end) in
      let* agentID := lift (parseIfSet (OpenAPIRunFlowRequest.BotID req)) in
      let* connectorID :=
        lift (match OpenAPIRunFlowRequest.ConnectorID req with
              | Some text => mustParseInt64 text
              | None => Return 0
              end) in
      let connectorID :=
        if connectorID =? WebSDKConnectorID W then connectorID
        else ApiKeyInfo.ConnectorID apiKeyInfo in
      let exeCfg :=
        {| ExecuteConfig.ID := WorkflowMeta.ID meta;
           ExecuteConfig.From := FromSpecificVersion;
           ExecuteConfig.Version := version;
           ExecuteConfig.CommitID := "";
           ExecuteConfig.Operator := userID;
           ExecuteConfig.Mode := ExecuteModeRelease;
           ExecuteConfig.AppID := appID;
           ExecuteConfig.AgentID := agentID;
           ExecuteConfig.ConnectorID := connectorID;
           ExecuteConfig.ConnectorUID := Strconv.FormatInt userID;
           ExecuteConfig.TaskType := TaskTypeUnset;
           ExecuteConfig.SyncPattern := SyncPatternUnset;
           ExecuteConfig.InputFailFast := true;
           ExecuteConfig.BizType := BizTypeWorkflow;
           ExecuteConfig.Cancellable := false |} in
      ret (meta, parameters, exeCfg)
  end.

Definition withPattern (cfg : ExecuteConfig.t) (pattern : SyncPattern) (task : TaskType)
  : ExecuteConfig.t :=
  {| ExecuteConfig.ID := ExecuteConfig.ID cfg;
     ExecuteConfig.From := ExecuteConfig.From cfg;
     ExecuteConfig.Version := ExecuteConfig.Version cfg;
     ExecuteConfig.CommitID := ExecuteConfig.CommitID cfg;
     ExecuteConfig.Operator := ExecuteConfig.Operator cfg;
     ExecuteConfig.Mode := ExecuteConfig.Mode cfg;
     ExecuteConfig.AppID := ExecuteConfig.AppID cfg;
     ExecuteConfig.AgentID := ExecuteConfig.AgentID cfg;
     ExecuteConfig.ConnectorID := ExecuteConfig.ConnectorID cfg;
     ExecuteConfig.ConnectorUID := ExecuteConfig.ConnectorUID cfg;
     ExecuteConfig.TaskType := task;
     ExecuteConfig.SyncPattern := pattern;
     ExecuteConfig.InputFailFast := ExecuteConfig.InputFailFast cfg;
     ExecuteConfig.BizType := ExecuteConfig.BizType cfg;
     ExecuteConfig.Cancellable := ExecuteConfig.Cancellable cfg |}.

Definition OpenAPIStreamRun (W : World) (ctx : Context.t) (req : OpenAPIRunFlowRequest.t)
  : Op StreamReader.t :=
  recoverAndWrap W ErrWorkflowExecuteFail
    (let* prepared := openAPIConfig W ctx req in
     let '(meta, parameters, cfg) := prepared in
     let exeCfg := withPattern cfg SyncPatternStream TaskTypeForeground in
     let* _ := rejectBothSet exeCfg in
     let* sr := call (CallStreamExecute exeCfg parameters) (StreamExecute W exeCfg parameters) in
     ret (StreamReader.mk (WorkflowMeta.ID meta) initialConvertState sr)).

(** The first statements of [OpenAPIStreamResume]: the event id is split at
    ["/"] and both segments are parsed. *)
Definition parseEventID (idStr : string) : outcome (Z * Z) :=
  match Strconv.Split idStr with
  | [segment0; segment1] =>
      match Strconv.ParseInt segment0 with
      | None =>
          Error (ErrWrapText ("failed to parse executeID from eventID segment " +:+ segment0)
                   (ErrText "strconv.ParseInt"))
      | Some executeID =>
          match Strconv.ParseInt segment1 with
          | None =>
              Error (ErrWrapText ("failed to parse eventID from eventID segment " +:+ segment1)
                       (ErrText "strconv.ParseInt"))
          | Some eventID => Return (executeID, eventID)
          end
      end
  | _ => Error (ErrText ("invalid event id when stream resume: " +:+ idStr))
  end.

Definition OpenAPIStreamResume (W : World) (ctx : Context.t)
    (req : OpenAPIStreamResumeFlowRequest.t) : Op StreamReader.t :=
  recoverAndWrap W ErrWorkflowExecuteFail
    (let* ids := lift (parseEventID (OpenAPIStreamResumeFlowRequest.EventID req)) in
     let '(executeID, eventID) := ids in
     let* workflowID := lift (mustParseInt64 (OpenAPIStreamResumeFlowRequest.WorkflowID req)) in
     let resumeReq :=
       {| ResumeRequest.ExecuteID := executeID;
          ResumeRequest.EventID := eventID;
          ResumeRequest.ResumeData := OpenAPIStreamResumeFlowRequest.ResumeData req |} in
     let* apiKeyInfo := lift (GetApiAuthFromCtx ctx) in
     let userID := ApiKeyInfo.UserID apiKeyInfo in
     let* connectorID :=
       lift (match OpenAPIStreamResumeFlowRequest.ConnectorID req with
             | Some text => mustParseInt64 text
             | None => Return 0
             end) in
     let exeCfg :=
       {| ExecuteConfig.ID := 0;
          ExecuteConfig.From := LocatorUnset;
          ExecuteConfig.Version := "";
          ExecuteConfig.CommitID := "";
          ExecuteConfig.Operator := userID;
          ExecuteConfig.Mode := ExecuteModeRelease;
          ExecuteConfig.AppID := None;
          ExecuteConfig.AgentID := None;
          ExecuteConfig.ConnectorID := connectorID;
          ExecuteConfig.ConnectorUID := Strconv.FormatInt userID;
          ExecuteConfig.TaskType := TaskTypeUnset;
          ExecuteConfig.SyncPattern := SyncPatternUnset;
          ExecuteConfig.InputFailFast := false;
          ExecuteConfig.BizType := BizTypeWorkflow;
          ExecuteConfig.Cancellable := false |} in
     let* sr := call (CallStreamResume resumeReq exeCfg) (StreamResume W resumeReq exeCfg) in
     ret (StreamReader.mk workflowID initialConvertState sr)).

Definition OpenAPIRun (W : World) (ctx : Context.t) (req : OpenAPIRunFlowRequest.t)
  : Op OpenAPIRunFlowResponse.t :=
  recoverAndWrap W ErrWorkflowExecuteFail
    (let* prepared := openAPIConfig W ctx req in
     let '(meta, parameters, cfg) := prepared in
     let* _ := rejectBothSet cfg in
     if default false (OpenAPIRunFlowRequest.IsAsync req) then
       let exeCfg := withPattern cfg SyncPatternAsync TaskTypeBackground in
       let* exeID := call (CallAsyncExecute exeCfg parameters) (AsyncExecute W exeCfg parameters) in
       ret {| OpenAPIRunFlowResponse.Data := None;
              OpenAPIRunFlowResponse.ExecuteID := Some (Strconv.FormatInt exeID);
              OpenAPIRunFlowResponse.DebugUrl :=
                Some (GetWorkflowDebugURL W (WorkflowMeta.ID meta)
                        (WorkflowMeta.SpaceID meta) exeID);
              OpenAPIRunFlowResponse.Token := None;
              OpenAPIRunFlowResponse.Cost := None |}
     else
       let exeCfg := withPattern cfg SyncPatternSync TaskTypeForeground in
       let* executed :=
         call (CallSyncExecute exeCfg parameters) (SyncExecute W exeCfg parameters) in
       let '(wfExe, tPlan) := executed in
       match WorkflowExecution.Status wfExe with
       | WorkflowInterrupted => fail (vo.NewError ErrInterruptNotSupported)
       | _ =>
           let* data :=
             lift (match tPlan with
                   | ReturnVariables => Return (WorkflowExecution.Output wfExe)
                   | UseAnswerContent =>
                       match WorkflowExecution.Output wfExe with
                       | None => Panic "nil pointer dereference"
                       | Some output =>
                           match MarshalAnswerOutput W output with
                           | Return text => Return (Some text)
                           | Error e => Error e
                           | Panic v => Panic v
                           end
                       end
                   end) in
           match WorkflowExecution.TokenInfo wfExe with
           | None => lift (Panic "nil pointer dereference")
           | Some tokenInfo =>
               ret {| OpenAPIRunFlowResponse.Data := data;
                      OpenAPIRunFlowResponse.ExecuteID :=
                        Some (Strconv.FormatInt (WorkflowExecution.ID wfExe));
                      OpenAPIRunFlowResponse.DebugUrl :=
                        Some (GetWorkflowDebugURL W (WorkflowMeta.ID meta)
                                (WorkflowExecution.SpaceID wfExe)
                                (WorkflowExecution.ID wfExe));
                      OpenAPIRunFlowResponse.Token :=
                        Some (Strconv.wrap64 (TokenUsage.InputTokens tokenInfo +
                                              TokenUsage.OutputTokens tokenInfo));
                      OpenAPIRunFlowResponse.Cost := Some "0.00000" |}
           end
       end).

(** ** A concrete world and concrete runs

    An instance of the collaborators on which the model runs: every user is
    a member of space [1], every workflow is published, the generated inner
    node of batch mode has its parent's key with ["_inner"] appended, and
    JSON is a list of node ids. The three arguments are what [GetExecution],
    [SyncExecute] and [StreamExecute] / [StreamResume] answer. *)

Definition sampleMarshal (l : list (option NodeResult.t)) : string :=
  "[" +:+ String.concat ","
            (map (λ o, match o with
                       | Some nr => NodeResult.NodeId nr
                       | None => "null"
                       end) l) +:+ "]".

Definition sampleWorld (execution : outcome WorkflowExecution.t)
    (executed : outcome (WorkflowExecution.t * TerminatePlan))
    (stream : outcome (list Message.t)) : World :=
  {| IsGeneratedNodeForBatchMode := λ key parentKey, String.eqb key (parentKey +:+ "_inner");
     GetDisplayKey := λ t, t;
     formatSeconds := λ d, Strconv.FormatInt d +:+ "ns";
     formatRate := λ a b, Strconv.FormatInt a +:+ "/" +:+ Strconv.FormatInt b;
     nodeIconURLCache := {[ "LLM" := "https://icons/llm.png" ]};
     GetWorkflowDebugURL := λ workflowID spaceID executeID,
       "debug?workflow=" +:+ Strconv.FormatInt workflowID +:+
       "&space=" +:+ Strconv.FormatInt spaceID +:+
       "&execute=" +:+ Strconv.FormatInt executeID;
     errorString := λ e, match e with
                         | ErrText m | ErrWrapText m _ | ErrPanicked m => m
                         | _ => "workflow error"
                         end;
     workflowErrorMsg := λ _, "workflow error";
     MarshalNodeResults := λ l, Return (sampleMarshal l);
     MarshalNodeExtra := λ x, Return (Strconv.FormatInt (NodeExtra.SubExecuteID x));
     MarshalAnswerOutput := λ s, Return s;
     UnmarshalParameters := λ _, Return ∅;
     CozeConnectorID := 10000010;
     WebSDKConnectorID := 999;
     GetUserSpaceList := λ _, Return [1];
     Get := λ id, Return {| WorkflowMeta.ID := id;
                            WorkflowMeta.SpaceID := 1;
                            WorkflowMeta.LatestPublishedVersion := Some "v1.0.0" |};
     GetExecution := λ _ _ _, execution;
     AsyncExecute := λ _ _, Return 42;
     AsyncExecuteNode := λ _ _ _, Return 42;
     SyncExecute := λ _ _, executed;
     StreamExecute := λ _ _, stream;
     StreamResume := λ _ _, stream |}.

Definition noExecution : outcome WorkflowExecution.t := Error (ErrText "no execution").
Definition noSync : outcome (WorkflowExecution.t * TerminatePlan) := Error (ErrText "no run").
Definition noStream : outcome (list Message.t) := Error (ErrText "no stream").

Definition plainWorld : World := sampleWorld noExecution noSync noStream.

Definition sampleNode (nodeID : string) (nodeType : NodeType) (parent : option string)
    (index : Z) (iterations : list (option NodeExecution.t)) : NodeExecution.t :=
  {| NodeExecution.NodeID := nodeID;
     NodeExecution.NodeName := "node " +:+ nodeID;
     NodeExecution.NodeType := nodeType;
     NodeExecution.Status := NodeSuccess;
     NodeExecution.ErrorInfo := None;
     NodeExecution.ErrorLevel := None;
     NodeExecution.Input := Some "in";
     NodeExecution.Output := Some "out";
     NodeExecution.RawOutput := None;
     NodeExecution.Duration := 1500;
     NodeExecution.TokenInfo := None;
     NodeExecution.ParentNodeID := parent;
     NodeExecution.Index := index;
     NodeExecution.Items := None;
     NodeExecution.IndexedExecutions := iterations;
     NodeExecution.SubWorkflowExecution := None;
     NodeExecution.ExecuteID := 42;
     NodeExecution.Extra := None |}.

(** A node in batch mode with three iterations: the shell reported for the
    [NodeTypeBatch] node ["200"] and the payload reported by the generated
    node ["200_inner"]. *)
Definition batchShell : NodeExecution.t := sampleNode "200" NodeTypeBatch None 0 [].

Definition batchInner : NodeExecution.t :=
  sampleNode "200_inner" "LLM" (Some "200") 0
    [Some (sampleNode "200_inner" "LLM" (Some "200") 0 []);
     Some (sampleNode "200_inner" "LLM" (Some "200") 1 []);
     Some (sampleNode "200_inner" "LLM" (Some "200") 2 [])].

(** What [convertNodeExecution] returns for a sample node, and the loop's
    variables once the shell has been cached. *)
Definition sampleResult (nodeExe : NodeExecution.t) : NodeResult.t :=
  match convertNodeExecution plainWorld nodeExe with
  | Return nr => nr
  | _ => syntheticEndNode ""
  end.

Definition shellCached : LoopState.t :=
  match nodeLoop plainWorld initialLoopState [batchShell] with
  | Return st => st
  | _ => initialLoopState
  end.

Definition sampleExecution (status : WorkflowExecuteStatus)
    (nodeExes : list NodeExecution.t) (events : list InterruptEvent.t)
  : WorkflowExecution.t :=
  {| WorkflowExecution.ID := 42;
     WorkflowExecution.WorkflowID := 7;
     WorkflowExecution.SpaceID := 1;
     WorkflowExecution.RootExecutionID := 0;
     WorkflowExecution.Status := status;
     WorkflowExecution.Duration := 2000;
     WorkflowExecution.FailReason := None;
     WorkflowExecution.LogID := "log";
     WorkflowExecution.Output := Some "{}";
     WorkflowExecution.TokenInfo := Some (TokenUsage.mk 3 4);
     WorkflowExecution.AppID := None;
     WorkflowExecution.NodeCount := 3;
     WorkflowExecution.NodeExecutions := nodeExes;
     WorkflowExecution.InterruptEvents := events |}.

(** The world in which [GetExecution] answers [exe], and two executions in
    which a node in batch mode is reported by one half only, next to a start
    node. *)
Definition worldOf (exe : WorkflowExecution.t) : World :=
  sampleWorld (Return exe) noSync noStream.

Definition loneInner : WorkflowExecution.t :=
  sampleExecution WorkflowSuccess [sampleNode "100" "Start" None 0 []; batchInner] [].

Definition loneShell : WorkflowExecution.t :=
  sampleExecution WorkflowSuccess [sampleNode "100" "Start" None 0 []; batchShell] [].

Definition stateMsg (executeID spaceID : Z) (status : WorkflowExecuteStatus)
    (lastError : option error) (ie : option InterruptEvent.t) : Message.t :=
  {| Message.StateMessage :=
       Some {| StateMessage.ExecuteID := executeID;
               StateMessage.EventID := 0;
               StateMessage.SpaceID := spaceID;
               StateMessage.Status := status;
               StateMessage.Usage := None;
               StateMessage.LastError := lastError;
               StateMessage.InterruptEvent := ie |};
     Message.DataMessage := None |}.

Definition dataMsg (executeID : Z) (type : MessageType) (nodeID content : string)
  : Message.t :=
  {| Message.StateMessage := None;
     Message.DataMessage :=
       Some {| DataMessage.ExecuteID := executeID;
               DataMessage.Type_ := type;
               DataMessage.Content := content;
               DataMessage.NodeID := nodeID;
               DataMessage.NodeTitle := "title " +:+ nodeID;
               DataMessage.NodeType := "LLM";
               DataMessage.Last := false;
               DataMessage.Usage := Some (TokenUsage.mk 1 2) |} |}.

Definition sampleInterrupt (id : Z) : InterruptEvent.t :=
  {| InterruptEvent.ID := id;
     InterruptEvent.NodeKey := "300";
     InterruptEvent.NodeType := "LLM";
     InterruptEvent.NodeTitle := "ask";
     InterruptEvent.NodeIcon := "";
     InterruptEvent.InterruptData := "question";
     InterruptEvent.EventType := InterruptEventOther 6;
     InterruptEvent.ToolInterruptEvent := None |}.

Definition sampleContext : Context.t :=
  {| Context.UID := Return 5;
     Context.ApiAuth := Return {| ApiKeyInfo.UserID := 5; ApiKeyInfo.ConnectorID := 1024 |} |}.

Definition sampleRunRequest (appID botID : option string) (isAsync : option bool)
  : OpenAPIRunFlowRequest.t :=
  {| OpenAPIRunFlowRequest.WorkflowID := "7";
     OpenAPIRunFlowRequest.Parameters := None;
     OpenAPIRunFlowRequest.BotID := botID;
     OpenAPIRunFlowRequest.IsAsync := isAsync;
     OpenAPIRunFlowRequest.AppID := appID;
     OpenAPIRunFlowRequest.ProjectID := None;
     OpenAPIRunFlowRequest.ConnectorID := None |}.

Definition sampleProcessRequest : GetWorkflowProcessRequest.t :=
  {| GetWorkflowProcessRequest.WorkflowID := "7";
     GetWorkflowProcessRequest.SpaceID := Some "1";
     GetWorkflowProcessRequest.ExecuteID := Some "42";
     GetWorkflowProcessRequest.SubExecuteID := None |}.

(** ** Properties of the claims, in the terms of the model *)

(** A message with a [StateMessage] of status [Running]. *)
Definition isRunningMessage (msg : Message.t) : bool :=
  match Message.StateMessage msg with
  | Some sm => match StateMessage.Status sm with WorkflowRunning => true | _ => false end
  | None => false
  end.

(** The execution a message comes from: that of its [StateMessage], which
    the closure looks at first, else that of its [DataMessage]. *)
Definition messageExecuteID (msg : Message.t) : option Z :=
  match Message.StateMessage msg with
  | Some sm => Some (StateMessage.ExecuteID sm)
  | None => DataMessage.ExecuteID <$> Message.DataMessage msg
  end.

(** The number of [Message] events for node [nodeID] among the outputs. *)
Definition isMessageEventOf (nodeID : string)
    (r : outcome (option OpenAPIStreamRunFlowResponse.t)) : bool :=
  match r with
  | Return (Some ev) =>
      String.eqb (OpenAPIStreamRunFlowResponse.Event ev) MessageEvent &&
      bool_decide (OpenAPIStreamRunFlowResponse.NodeID ev = Some nodeID)
  | _ => false
  end.

Definition answersEmitted (nodeID : string)
    (outs : list (outcome (option OpenAPIStreamRunFlowResponse.t))) : nat :=
  length (filter (λ r, isMessageEventOf nodeID r = true) outs).

(** An event id made of exactly two ["/"]-separated integer segments. *)
Definition wellFormedKey (key : string) : bool :=
  match Strconv.Split key with
  | [segment0; segment1] =>
      Strconv.isIntegerSegment segment0 && Strconv.isIntegerSegment segment1
  | _ => false
  end.

(** The two halves of a node in batch mode, for the batch node [key]: the
    shell reported for the [NodeTypeBatch] node itself, and the payload
    reported by the generated node, which carries the iterations. *)
Definition isParentShell (key : string) (nodeExe : NodeExecution.t) : Prop :=
  NodeExecution.NodeType nodeExe = NodeTypeBatch ∧ NodeExecution.NodeID nodeExe = key.

Definition isInnerPayload (W : World) (key : string) (nodeExe : NodeExecution.t) : Prop :=
  NodeExecution.NodeType nodeExe ≠ NodeTypeBatch ∧
  NodeExecution.IndexedExecutions nodeExe ≠ [] ∧
  NodeExecution.ParentNodeID nodeExe = Some key ∧
  IsGeneratedNodeForBatchMode W (NodeExecution.NodeID nodeExe) key = true.

(** The node ids of the listing of a response. *)
Definition listedIDs (o : outcome GetWorkFlowProcessData.t) : list string :=
  match o with
  | Return data => NodeResult.NodeId <$> GetWorkFlowProcessData.NodeResults data
  | _ => []
  end.

(** Invariants of the loop of [GetProcess], used below. While no shell of
    the batch node [key] is reported and every node execution with the id
    [xid] is an inner payload of [key], no result with the id [xid] is
    listed or cached as a shell, nor cached as the payload of another node. *)
Definition innerOnlyInv (key xid : string) (st : LoopState.t) : Prop :=
  Forall (λ nr, NodeResult.NodeId nr ≠ xid) (LoopState.NodeResults st) ∧
  (∀ k v, LoopState.batchNodeID2NodeResult st !! k = Some v → NodeResult.NodeId v ≠ xid) ∧
  (∀ k v, LoopState.batchNodeID2InnerNodeResult st !! k = Some v →
          k ≠ key → NodeResult.NodeId v ≠ xid).

(** A node execution that is no shell of [key] and that, if it has the id
    [xid], is an inner payload of [key]. *)
Definition noShellAround (W : World) (key xid : string) (nodeExe : NodeExecution.t) : Prop :=
  ¬ isParentShell key nodeExe ∧
  (NodeExecution.NodeID nodeExe = xid → isInnerPayload W key nodeExe).

(** While no inner payload of [key] is reported, none is cached; [seen]
    says that a shell of [key] was reported, which then waits in the cache
    of shells, unmerged. *)
Definition shellOnlyInv (W : World) (key : string) (seen : list NodeExecution.t)
    (st : LoopState.t) : Prop :=
  LoopState.batchNodeID2InnerNodeResult st !! key = None ∧
  ((∃ shell, In shell seen ∧ isParentShell key shell) →
   ∃ shell nr, In shell seen ∧ isParentShell key shell ∧
               convertNodeExecution W shell = Return nr ∧
               LoopState.batchNodeID2NodeResult st !! key = Some nr).

(** The node event [ev] surfaces the interrupt event [ie]: it has the
    event's id and, from the event itself or, for an event of type LLM, from
    its tool interrupt event, the node key, title, event type and interrupt
    data, with the icon that the cache has for the node type. *)
Definition surfaces (W : World) (ie : InterruptEvent.t) (ev : NodeEvent.t) : Prop :=
  NodeEvent.ID ev = Strconv.FormatInt (InterruptEvent.ID ie) ∧
  match InterruptEvent.EventType ie with
  | InterruptEventLLM =>
      ∃ tool,
        InterruptEvent.ToolInterruptEvent ie = Some tool ∧
        NodeEvent.NodeID ev = ToolInterruptEvent.NodeKey tool ∧
        NodeEvent.NodeTitle ev = ToolInterruptEvent.NodeTitle tool ∧
        NodeEvent.NodeIcon ev =
          default "" (nodeIconURLCache W !! ToolInterruptEvent.NodeType tool) ∧
        NodeEvent.Type_ ev = ToolInterruptEvent.EventType tool ∧
        NodeEvent.Data ev = ToolInterruptEvent.InterruptData tool
  | InterruptEventOther _ =>
      NodeEvent.NodeID ev = InterruptEvent.NodeKey ie ∧
      NodeEvent.NodeTitle ev = InterruptEvent.NodeTitle ie ∧
      NodeEvent.NodeIcon ev = default "" (nodeIconURLCache W !! InterruptEvent.NodeType ie) ∧
      NodeEvent.Type_ ev = InterruptEvent.EventType ie ∧
      NodeEvent.Data ev = InterruptEvent.InterruptData ie
  end.

(** An interrupt event of type LLM has its tool interrupt event. *)
Definition hasToolEvent (ie : InterruptEvent.t) : Prop :=
  InterruptEvent.EventType ie = InterruptEventLLM →
  is_Some (InterruptEvent.ToolInterruptEvent ie).

(** The operation [op], whose execute config is built by [config], rejects
    the request before any execution exists: it ends with an error, it made
    no call that creates or continues an execution, and when the config was
    built the error is the one of the check, wrapped as an execute failure
    with its text as the cause. *)
Definition rejectedBeforeExecution {A B} (W : World) (op : Op A) (config : Op B) : Prop :=
  isError (result op) = true ∧
  Forall (λ c, isExecuteCall c = false) (trace op) ∧
  (isReturn (result config) = true →
   result op = Error (vo.WrapError ErrWorkflowExecuteFail errBothSet
                        [("cause", errorString W errBothSet)])).

(** A message that the closure converts without a panic: a [Failed] or
    [Cancel] state carries a typed workflow error and an [Interrupted]
    state carries its interrupt event. *)
Definition convertible (msg : Message.t) : Prop :=
  match Message.StateMessage msg with
  | Some sm =>
      match StateMessage.Status sm with
      | WorkflowFailed | WorkflowCancel =>
          is_Some (StateMessage.LastError sm ≫= vo.asWorkflowError)
      | WorkflowInterrupted => is_Some (StateMessage.InterruptEvent sm)
      | _ => True
      end
  | None => True
  end.

(** ** Further properties of the operations, in the terms of the model *)

(** The error of [checkUserSpace] for a user without access to the space. *)
Definition errNoAccess (uid spaceID : Z) : error :=
  ErrText ("user " +:+ Strconv.FormatInt uid +:+
           " does not have access to space " +:+ Strconv.FormatInt spaceID).

(** What the deferred function of an operation makes of an untyped error
    [err] that wraps nothing: the operation's failure code around it, with
    its text as the cause. *)
Definition failure (W : World) (code : errno) (err : error) : error :=
  vo.WrapError code err [("cause", errorString W err)].

(** A text that [strconv.ParseInt(s, 10, 64)] rejects, and an optional
    field that is set to such a text. *)
Definition malformed (s : string) : Prop := Strconv.ParseInt s = None.

Definition setMalformed (o : option string) : Prop :=
  ∃ s, o = Some s ∧ malformed s.

(** The [Parameters] of the request, if set, are decoded by sonic. *)
Definition decodes (W : World) (req : OpenAPIRunFlowRequest.t) : Prop :=
  match OpenAPIRunFlowRequest.Parameters req with
  | Some text => isReturn (UnmarshalParameters W text) = true
  | None => True
  end.

(** The operation made the execute call [c] as its last call, and no other
    call that creates or continues an execution. *)
Definition startedOnce {A} (op : Op A) (c : Call) : Prop :=
  ∃ before,
    trace op = before ++ [c] ∧ Forall (λ c', isExecuteCall c' = false) before.

(** A request for the process of the execution whose id text is
    [executeID], not of a sub-execution. *)
Definition asksFor (executeID : string) (req : GetWorkflowProcessRequest.t) : Prop :=
  GetWorkflowProcessRequest.ExecuteID req = Some executeID ∧
  GetWorkflowProcessRequest.SubExecuteID req = None.

(** The number of results with the status [Success]. *)
Definition successes (results : list NodeResult.t) : Z :=
  Z.of_nat (length (filter (λ nr, isSuccess nr = true) results)).

(** The result carries the fail reason of the workflow. *)
Definition carriesReason (reason : string) (nr : NodeResult.t) : Prop :=
  NodeResult.ErrorInfo nr = reason ∧ NodeResult.ErrorLevel nr = vo.LevelError.

(** An exit node is reported without iterations, as every node outside of
    batch mode is. *)
Definition plainExit (nodeExe : NodeExecution.t) : Prop :=
  NodeExecution.NodeType nodeExe = NodeTypeExit →
  NodeExecution.IndexedExecutions nodeExe = [].

(** Invariant of the loop of [GetProcess] over the node executions [seen]
    so far, none of which failed with an error: no node error is recorded,
    and the pointer [endNodeExe] is set exactly when an exit node was seen;
    it then points into the listing, at the result of an exit node. *)
Definition endListedInv (seen : list NodeExecution.t) (st : LoopState.t) : Prop :=
  LoopState.hasNodeErr st = false ∧
  match LoopState.endNodeExe st with
  | Some (EndListed i) =>
      ∃ nr nodeExe,
        LoopState.NodeResults st !! i = Some nr ∧
        In nodeExe seen ∧ NodeExecution.NodeType nodeExe = NodeTypeExit ∧
        NodeResult.NodeId nr = NodeExecution.NodeID nodeExe
  | Some (EndUnlisted _) => False
  | None => Forall (λ nodeExe, NodeExecution.NodeType nodeExe ≠ NodeTypeExit) seen
  end.

(** Two calls end with the same failure: the same error or the same panic. *)
Definition sameFailure {A B} (o : outcome A) (o' : outcome B) : Prop :=
  match o, o' with
  | Error e, Error e' => e = e'
  | Panic v, Panic v' => v = v'
  | _, _ => False
  end.

(** The call returns, or it fails as sonic fails on some list of iteration
    results or on some node extra. *)
Definition failsOnlyInMarshal {A} (W : World) (o : outcome A) : Prop :=
  isReturn o = true ∨
  (∃ subResults, sameFailure o (MarshalNodeResults W subResults)) ∨
  (∃ extra, sameFailure o (MarshalNodeExtra W extra)).

(** A call of the closure of [convertStreamRunEvent] that returned no error:
    an event, or nothing for a message with neither part. These are the
    calls after which the deferred function increments [messageID]. *)
Definition delivered (r : outcome (option OpenAPIStreamRunFlowResponse.t)) : bool :=
  negb (isError r).

Definition deliveries (outs : list (outcome (option OpenAPIStreamRunFlowResponse.t))) : nat :=
  length (filter (λ r, delivered r = true) outs).

(** Concrete runs for the properties below: a world like [plainWorld] in
    which the workflow has the given published version and the user the
    given spaces, a failed execution with an exit node, and requests. *)
Definition worldWith (published : option string) (spaces : list Z) : World :=
  {| IsGeneratedNodeForBatchMode := IsGeneratedNodeForBatchMode plainWorld;
     GetDisplayKey := GetDisplayKey plainWorld;
     formatSeconds := formatSeconds plainWorld;
     formatRate := formatRate plainWorld;
     nodeIconURLCache := nodeIconURLCache plainWorld;
     GetWorkflowDebugURL := GetWorkflowDebugURL plainWorld;
     errorString := errorString plainWorld;
     workflowErrorMsg := workflowErrorMsg plainWorld;
     MarshalNodeResults := MarshalNodeResults plainWorld;
     MarshalNodeExtra := MarshalNodeExtra plainWorld;
     MarshalAnswerOutput := MarshalAnswerOutput plainWorld;
     UnmarshalParameters := UnmarshalParameters plainWorld;
     CozeConnectorID := CozeConnectorID plainWorld;
     WebSDKConnectorID := WebSDKConnectorID plainWorld;
     GetUserSpaceList := λ _, Return spaces;
     Get := λ id, Return {| WorkflowMeta.ID := id;
                            WorkflowMeta.SpaceID := 1;
                            WorkflowMeta.LatestPublishedVersion := published |};
     GetExecution := GetExecution plainWorld;
     AsyncExecute := AsyncExecute plainWorld;
     AsyncExecuteNode := AsyncExecuteNode plainWorld;
     SyncExecute := SyncExecute plainWorld;
     StreamExecute := StreamExecute plainWorld;
     StreamResume := StreamResume plainWorld |}.

Definition failedExecution : WorkflowExecution.t :=
  {| WorkflowExecution.ID := 42;
     WorkflowExecution.WorkflowID := 7;
     WorkflowExecution.SpaceID := 1;
     WorkflowExecution.RootExecutionID := 0;
     WorkflowExecution.Status := WorkflowFailed;
     WorkflowExecution.Duration := 2000;
     WorkflowExecution.FailReason := Some "timeout";
     WorkflowExecution.LogID := "log";
     WorkflowExecution.Output := None;
     WorkflowExecution.TokenInfo := None;
     WorkflowExecution.AppID := None;
     WorkflowExecution.NodeCount := 2;
     WorkflowExecution.NodeExecutions :=
       [sampleNode "100" "Start" None 0 []; sampleNode "900001" NodeTypeExit None 0 []];
     WorkflowExecution.InterruptEvents := [] |}.

Definition sampleTestRunRequest (spaceID : string) : WorkFlowTestRunRequest.t :=
  {| WorkFlowTestRunRequest.WorkflowID := "7";
     WorkFlowTestRunRequest.Input := ∅;
     WorkFlowTestRunRequest.SpaceID := Some spaceID;
     WorkFlowTestRunRequest.BotID := None;
     WorkFlowTestRunRequest.ProjectID := None;
     WorkFlowTestRunRequest.CommitID := None |}.

Definition processRequest (spaceID : string) (executeID : option string)
  : GetWorkflowProcessRequest.t :=
  {| GetWorkflowProcessRequest.WorkflowID := "7";
     GetWorkflowProcessRequest.SpaceID := Some spaceID;
     GetWorkflowProcessRequest.ExecuteID := executeID;
     GetWorkflowProcessRequest.SubExecuteID := None |}.

(** ** Optional ids *)

(** [parseInt64]: a [nil] text stays [nil]; a text is parsed by
    [mustParseInt64], which panics on what is no integer. *)
Definition parseInt64 (s : option string) : outcome (option Z) :=
  match s with
  | None => Return None
  | Some text =>
      match mustParseInt64 text with
      | Return i => Return (Some i)
      | Error e => Error e
      | Panic v => Panic v
      end
  end.

Definition i64PtrToStringPtr (i : option Z) : option string :=
  match i with
  | None => None
  | Some z => Some (Strconv.FormatInt z)
  end.

(** ** The parameters of a workflow and their views

    [vo.NamedTypeInfo] describes an input or output of a workflow; this
    file turns it into the parameter of a start node ([toWorkflowParameter])
    and into the parameter of a plugin API ([toPluginParameter]). The types
    are declared outside src; they are given here with the fields and the
    constants that this file names. [DataTypeOther] and [FileTypeOther] stand
    for a value that is none of the named constants (the [default] arm of a
    [switch]); [vo.DataType] is printed with [%s], and [DataTypeOther] holds
    that text. *)

Inductive DataType : Type :=
| DataTypeString
| DataTypeInteger
| DataTypeNumber
| DataTypeBoolean
| DataTypeTime
| DataTypeObject
| DataTypeArray
| DataTypeFile
| DataTypeOther (name : string).

Inductive FileSubType : Type :=
| FileTypeImage
| FileTypeSVG
| FileTypeAudio
| FileTypeVideo
| FileTypeVoice
| FileTypeDocument
| FileTypePPT
| FileTypeExcel
| FileTypeTxt
| FileTypeCode
| FileTypeZip
| FileTypeOther (name : string).

(** [ElemTypeInfo] is a pointer and [Properties] a slice of pointers. *)
Module NamedTypeInfo.
#[local] Set Warnings "-register-all".
Inductive t : Type := mk {
  Name : string;
  Desc : string;
  Required : bool;
  Type_ : DataType;
  FileType : option FileSubType;
  ElemTypeInfo : option t;
  Properties : list (option t)
}.
End NamedTypeInfo.

Inductive InputType : Type :=
| InputType_String
| InputType_Integer
| InputType_Number
| InputType_Boolean
| InputType_Array
| InputType_Object.

(** [workflow.Parameter] ([Parameter] is a keyword here), with the fields
    that [toWorkflowParameter] sets. [SubType] is assigned for some arrays
    only: [None] is the zero value of a field that was never assigned. *)
Module WorkflowParameter.
Record t : Type := mk {
  Name : string;
  Desc : string;
  Required : bool;
  Type_ : InputType;
  SubType : option InputType
}.
End WorkflowParameter.

Inductive PluginParamTypeFormat : Type :=
| PluginParamTypeFormat_FileUrl
| PluginParamTypeFormat_ImageUrl
| PluginParamTypeFormat_DocUrl
| PluginParamTypeFormat_CodeUrl
| PluginParamTypeFormat_PptUrl
| PluginParamTypeFormat_TxtUrl
| PluginParamTypeFormat_ExcelUrl
| PluginParamTypeFormat_AudioUrl
| PluginParamTypeFormat_ZipUrl
| PluginParamTypeFormat_VideoUrl.

(** [common.PluginParameter], with the fields that [toPluginParameter]
    sets; [Type] and [SubType] are strings, empty when not assigned. *)
Module PluginParameter.
#[local] Set Warnings "-register-all".
Inductive t : Type := mk {
  Name : string;
  Desc : string;
  Required : bool;
  Type_ : string;
  SubType : string;
  Format : option PluginParamTypeFormat;
  SubParameters : list t
}.
End PluginParameter.

(** The inner [switch] of [toWorkflowParameter] on the type of the elements
    of an array: it has no arm for an array and no [default]. *)
Definition elemInputType (elemType : DataType) : option InputType :=
  match elemType with
  | DataTypeString | DataTypeTime | DataTypeFile => Some InputType_String
  | DataTypeInteger => Some InputType_Integer
  | DataTypeNumber => Some InputType_Number
  | DataTypeBoolean => Some InputType_Boolean
  | DataTypeObject => Some InputType_Object
  | DataTypeArray | DataTypeOther _ => None
  end.

(** [toWorkflowParameter] reads [nType.Name] first: a [nil] pointer is a
    panic. *)
Definition toWorkflowParameter (nType : option NamedTypeInfo.t) : outcome WorkflowParameter.t :=
  match nType with
  | None => Panic "nil pointer dereference"
  | Some nType =>
      let wp type subType :=
        {| WorkflowParameter.Name := NamedTypeInfo.Name nType;
           WorkflowParameter.Desc := NamedTypeInfo.Desc nType;
           WorkflowParameter.Required := NamedTypeInfo.Required nType;
           WorkflowParameter.Type_ := type;
           WorkflowParameter.SubType := subType |} in
      match NamedTypeInfo.Type_ nType with
      | DataTypeString | DataTypeTime | DataTypeFile => Return (wp InputType_String None)
      | DataTypeInteger => Return (wp InputType_Integer None)
      | DataTypeNumber => Return (wp InputType_Number None)
      | DataTypeBoolean => Return (wp InputType_Boolean None)
      | DataTypeArray =>
          Return (wp InputType_Array
                    match NamedTypeInfo.ElemTypeInfo nType with
                    | Some elem => elemInputType (NamedTypeInfo.Type_ elem)
                    | None => None
                    end)
      | DataTypeObject => Return (wp InputType_Object None)
      | DataTypeOther name => Error (ErrText ("unknown type: " +:+ name))
      end
  end.

Definition errNilTypeInfo : error := ErrText "named type info is nil".

(** The first [switch] of [toPluginParameter]: the format of a file. *)
Definition pluginFormat (info : NamedTypeInfo.t) : option PluginParamTypeFormat :=
  match NamedTypeInfo.Type_ info, NamedTypeInfo.FileType info with
  | DataTypeFile, Some fileType =>
      Some match fileType with
           | FileTypeZip => PluginParamTypeFormat_ZipUrl
           | FileTypeCode => PluginParamTypeFormat_CodeUrl
           | FileTypeTxt => PluginParamTypeFormat_TxtUrl
           | FileTypeExcel => PluginParamTypeFormat_ExcelUrl
           | FileTypePPT => PluginParamTypeFormat_PptUrl
           | FileTypeDocument => PluginParamTypeFormat_DocUrl
           | FileTypeVideo => PluginParamTypeFormat_VideoUrl
           | FileTypeAudio => PluginParamTypeFormat_AudioUrl
           | FileTypeImage => PluginParamTypeFormat_ImageUrl
           | _ => PluginParamTypeFormat_FileUrl
           end
  | _, _ => None
  end.

(** The loop of [toPluginParameter] over [info.Properties]: each property
    is converted by [convert], which is [toPluginParameter] itself on what
    the pointer points to; a [nil] property or the first error ends it. *)
Definition toPluginParametersWith (convert : NamedTypeInfo.t -> outcome PluginParameter.t)
  : list (option NamedTypeInfo.t) -> outcome (list PluginParameter.t) :=
  fix loop (properties : list (option NamedTypeInfo.t)) :=
    match properties with
    | [] => Return []
    | sub :: rest =>
        match (match sub with
               | None => Error errNilTypeInfo
               | Some info => convert info
               end) with
        | Return subParameter =>
            match loop rest with
            | Return subParameters => Return (subParameter :: subParameters)
            | Error e => Error e
            | Panic v => Panic v
            end
        | Error e => Error e
        | Panic v => Panic v
        end
    end.

(** [toPluginParameter] on a pointer that is not [nil]. *)
Fixpoint toPluginParameterOf (info : NamedTypeInfo.t) {struct info}
  : outcome PluginParameter.t :=
  let p type subType subParameters :=
    {| PluginParameter.Name := NamedTypeInfo.Name info;
       PluginParameter.Desc := NamedTypeInfo.Desc info;
       PluginParameter.Required := NamedTypeInfo.Required info;
       PluginParameter.Type_ := type;
       PluginParameter.SubType := subType;
       PluginParameter.Format := pluginFormat info;
       PluginParameter.SubParameters := subParameters |} in
  match NamedTypeInfo.Type_ info with
  | DataTypeString | DataTypeFile | DataTypeTime => Return (p "string" "" [])
  | DataTypeInteger => Return (p "integer" "" [])
  | DataTypeNumber => Return (p "number" "" [])
  | DataTypeBoolean => Return (p "boolean" "" [])
  | DataTypeObject =>
      match toPluginParametersWith toPluginParameterOf (NamedTypeInfo.Properties info) with
      | Return subParameters => Return (p "object" "" subParameters)
      | Error e => Error e
      | Panic v => Panic v
      end
  | DataTypeArray =>
      match (match NamedTypeInfo.ElemTypeInfo info with
             | None => Error errNilTypeInfo
             | Some elem => toPluginParameterOf elem
             end) with
      | Return eleParameter =>
          Return (p "array" (PluginParameter.Type_ eleParameter) [eleParameter])
      | Error e => Error e
      | Panic v => Panic v
      end
  | DataTypeOther name => Error (ErrText ("unknown named type info type: " +:+ name))
  end.

Definition toPluginParameter (info : option NamedTypeInfo.t) : outcome PluginParameter.t :=
  match info with
  | None => Error errNilTypeInfo
  | Some info => toPluginParameterOf info
  end.

Definition toPluginParameters
  : list (option NamedTypeInfo.t) -> outcome (list PluginParameter.t) :=
  toPluginParametersWith toPluginParameterOf.

(** A type info that is complete as far as [toPluginParameter] looks at
    it: its type is one of the named ones, an object has no [nil]
    property, an array has its element type info, and so below. *)
Fixpoint completeInfo (info : NamedTypeInfo.t) {struct info} : bool :=
  match NamedTypeInfo.Type_ info with
  | DataTypeObject =>
      forallb (λ sub, match sub with
                      | Some property => completeInfo property
                      | None => false
                      end) (NamedTypeInfo.Properties info)
  | DataTypeArray =>
      match NamedTypeInfo.ElemTypeInfo info with
      | Some elem => completeInfo elem
      | None => false
      end
  | DataTypeOther _ => false
  | _ => true
  end.

(** The names in a type info, as far as [toPluginParameter] looks at it,
    and the names in a plugin parameter: the own name, then those of the
    properties of an object or of the element of an array. *)
Fixpoint infoNames (info : NamedTypeInfo.t) {struct info} : list string :=
  NamedTypeInfo.Name info ::
  match NamedTypeInfo.Type_ info with
  | DataTypeObject =>
      flat_map (λ sub, match sub with
                       | Some property => infoNames property
                       | None => []
                       end) (NamedTypeInfo.Properties info)
  | DataTypeArray =>
      match NamedTypeInfo.ElemTypeInfo info with
      | Some elem => infoNames elem
      | None => []
      end
  | _ => []
  end.

Fixpoint parameterNames (p : PluginParameter.t) {struct p} : list string :=
  PluginParameter.Name p :: flat_map parameterNames (PluginParameter.SubParameters p).

(** The text by which [toPluginParameter] names an input type. *)
Definition inputTypeName (type : InputType) : string :=
  match type with
  | InputType_String => "string"
  | InputType_Integer => "integer"
  | InputType_Number => "number"
  | InputType_Boolean => "boolean"
  | InputType_Array => "array"
  | InputType_Object => "object"
  end.

(** A sample type info: an object with a file and an array of arrays of
    integers. *)
Definition plainInfo (name : string) (type : DataType) : NamedTypeInfo.t :=
  {| NamedTypeInfo.Name := name;
     NamedTypeInfo.Desc := "";
     NamedTypeInfo.Required := true;
     NamedTypeInfo.Type_ := type;
     NamedTypeInfo.FileType := None;
     NamedTypeInfo.ElemTypeInfo := None;
     NamedTypeInfo.Properties := [] |}.

Definition arrayInfo (name : string) (elem : NamedTypeInfo.t) : NamedTypeInfo.t :=
  {| NamedTypeInfo.Name := name;
     NamedTypeInfo.Desc := "";
     NamedTypeInfo.Required := false;
     NamedTypeInfo.Type_ := DataTypeArray;
     NamedTypeInfo.FileType := None;
     NamedTypeInfo.ElemTypeInfo := Some elem;
     NamedTypeInfo.Properties := [] |}.

Definition sampleInfo : NamedTypeInfo.t :=
  {| NamedTypeInfo.Name := "report";
     NamedTypeInfo.Desc := "";
     NamedTypeInfo.Required := true;
     NamedTypeInfo.Type_ := DataTypeObject;
     NamedTypeInfo.FileType := None;
     NamedTypeInfo.ElemTypeInfo := None;
     NamedTypeInfo.Properties :=
       [Some (plainInfo "cover" DataTypeFile);
        Some (arrayInfo "table" (arrayInfo "row" (plainInfo "cell" DataTypeInteger)))] |}.

(** ** Merging the settings of API parameters *)

Inductive ParameterType : Type :=
| ParameterType_String
| ParameterType_Integer
| ParameterType_Number
| ParameterType_Object
| ParameterType_Array
| ParameterType_Bool
| ParameterTypeOther (code : Z).

Inductive AssistParameterType : Type :=
| APIParameter_AssistType_DEFAULT
| AssistParameterType_IMAGE
| AssistParameterType_SVG
| AssistParameterType_AUDIO
| AssistParameterType_VIDEO
| AssistParameterType_Voice
| AssistParameterType_DOC
| AssistParameterType_PPT
| AssistParameterType_EXCEL
| AssistParameterType_TXT
| AssistParameterType_CODE
| AssistParameterType_ZIP.

(** [workflow.APIParameter], with the fields that this file names;
    [SubParameters] is a slice of pointers. *)
Module APIParameter.
#[local] Set Warnings "-register-all".
Inductive t : Type := mk {
  Name : string;
  Desc : string;
  IsRequired : bool;
  Type_ : ParameterType;
  SubType : option ParameterType;
  AssistType : option AssistParameterType;
  LocalDisable : bool;
  LocalDefault : option string;
  SubParameters : list (option t)
}.
End APIParameter.

(** [mergeWorkflowAPIParameters] returns nothing: it assigns to the
    parameters that the pointers of [latestAPIParameters] point to. Here it
    returns the parameters as they are after the call. This is the same as
    long as no parameter of [latestAPIParameters] is reached from
    [existAPIParameters] as well, which holds where the function is called
    (the latest parameters come from the tool or are built from the
    workflow, the existing ones are decoded from the request). The [append]
    to [existAPIParameters] assigns to the function's own copy of the slice
    header and is not seen by the caller.

    [slices.ToMap] is declared outside src: [ToMap] is what it returns for
    the key function of this file, which reads [w.Name], or the panic of
    that read on a [nil] pointer. *)
Section Merge.
Variable ToMap : list (option APIParameter.t) -> outcome (gmap string APIParameter.t).

(** The loop over [latestAPIParameters], [merge] being one iteration on
    what the pointer points to; it reads [parameter.Name] first. *)
Definition mergeParametersWith (merge : APIParameter.t -> outcome APIParameter.t)
  : list (option APIParameter.t) -> outcome (list (option APIParameter.t)) :=
  fix loop (latestAPIParameters : list (option APIParameter.t)) :=
    match latestAPIParameters with
    | [] => Return []
    | None :: _ => Panic "nil pointer dereference"
    | Some parameter :: rest =>
        match merge parameter with
        | Return merged =>
            match loop rest with
            | Return others => Return (Some merged :: others)
            | Error e => Error e
            | Panic v => Panic v
            end
        | Error e => Error e
        | Panic v => Panic v
        end
    end.

(** One iteration, for the map [existAPIParameterMap] of the call. *)
Fixpoint mergeParameter (existAPIParameterMap : gmap string APIParameter.t)
    (parameter : APIParameter.t) {struct parameter} : outcome APIParameter.t :=
  match existAPIParameterMap !! APIParameter.Name parameter with
  | Some ep =>
      let assigned subParameters :=
        {| APIParameter.Name := APIParameter.Name parameter;
           APIParameter.Desc := APIParameter.Desc parameter;
           APIParameter.IsRequired := APIParameter.IsRequired parameter;
           APIParameter.Type_ := APIParameter.Type_ parameter;
           APIParameter.SubType := APIParameter.SubType parameter;
           APIParameter.AssistType := APIParameter.AssistType parameter;
           APIParameter.LocalDisable := APIParameter.LocalDisable ep;
           APIParameter.LocalDefault := APIParameter.LocalDefault ep;
           APIParameter.SubParameters := subParameters |} in
      if negb (Nat.eqb (length (APIParameter.SubParameters parameter)) 0) &&
         negb (Nat.eqb (length (APIParameter.SubParameters ep)) 0)
      then
        match ToMap (APIParameter.SubParameters ep) with
        | Return subMap =>
            match mergeParametersWith (mergeParameter subMap)
                    (APIParameter.SubParameters parameter) with
            | Return subParameters => Return (assigned subParameters)
            | Error e => Error e
            | Panic v => Panic v
            end
        | Error e => Error e
        | Panic v => Panic v
        end
      else Return (assigned (APIParameter.SubParameters parameter))
  | None => Return parameter
  end.

Definition mergeParameters (existAPIParameterMap : gmap string APIParameter.t)
  : list (option APIParameter.t) -> outcome (list (option APIParameter.t)) :=
  mergeParametersWith (mergeParameter existAPIParameterMap).

Definition mergeWorkflowAPIParameters
    (latestAPIParameters existAPIParameters : list (option APIParameter.t))
  : outcome (list (option APIParameter.t)) :=
  match ToMap existAPIParameters with
  | Return existAPIParameterMap => mergeParameters existAPIParameterMap latestAPIParameters
  | Error e => Error e
  | Panic v => Panic v
  end.

End Merge.

(** A parameter without its local settings, at any depth: what
    [mergeWorkflowAPIParameters] leaves as it is. *)
Fixpoint withoutLocal (p : APIParameter.t) {struct p} : APIParameter.t :=
  {| APIParameter.Name := APIParameter.Name p;
     APIParameter.Desc := APIParameter.Desc p;
     APIParameter.IsRequired := APIParameter.IsRequired p;
     APIParameter.Type_ := APIParameter.Type_ p;
     APIParameter.SubType := APIParameter.SubType p;
     APIParameter.AssistType := APIParameter.AssistType p;
     APIParameter.LocalDisable := false;
     APIParameter.LocalDefault := None;
     APIParameter.SubParameters :=
       map (λ sub, match sub with
                   | Some q => Some (withoutLocal q)
                   | None => None
                   end) (APIParameter.SubParameters p) |}.

(** One merge leaves the parameter as it is but for the local settings, and a
    second merge with the same map changes nothing. *)
Definition settled (ToMap : list (option APIParameter.t) -> outcome (gmap string APIParameter.t))
    (p : APIParameter.t) : Prop :=
  ∀ m p',
    mergeParameter ToMap m p = Return p' →
    withoutLocal p' = withoutLocal p ∧ mergeParameter ToMap m p' = Return p'.

(** What is taken of [slices.ToMap] with the key function of
    [mergeWorkflowAPIParameters]: the map it returns has the parameters of
    the slice by their names. An entry of the map is a parameter of the
    slice, under its own name, and every name of the slice has an entry;
    which parameter a name gets that occurs twice is left open. *)
Definition byName (ToMap : list (option APIParameter.t) -> outcome (gmap string APIParameter.t))
  : Prop :=
  ∀ l m,
    ToMap l = Return m →
    (∀ name ep, m !! name = Some ep → In (Some ep) l ∧ APIParameter.Name ep = name) ∧
    (∀ ep, In (Some ep) l → is_Some (m !! APIParameter.Name ep)).

(** A map by name in which the last parameter of a name wins, for the
    concrete runs; a [nil] pointer is the panic of the key function. *)
Fixpoint sampleToMap (l : list (option APIParameter.t))
  : outcome (gmap string APIParameter.t) :=
  match l with
  | [] => Return ∅
  | None :: _ => Panic "nil pointer dereference"
  | Some p :: rest =>
      match sampleToMap rest with
      | Return m =>
          Return (match m !! APIParameter.Name p with
                  | Some _ => m
                  | None => <[APIParameter.Name p := p]> m
                  end)
      | Error e => Error e
      | Panic v => Panic v
      end
  end.

Definition sampleAPIParameter (name : string) (disable : bool) (default : option string)
    (subParameters : list (option APIParameter.t)) : APIParameter.t :=
  {| APIParameter.Name := name;
     APIParameter.Desc := "";
     APIParameter.IsRequired := true;
     APIParameter.Type_ :=
       match subParameters with [] => ParameterType_String | _ => ParameterType_Object end;
     APIParameter.SubType := None;
     APIParameter.AssistType := None;
     APIParameter.LocalDisable := disable;
     APIParameter.LocalDefault := default;
     APIParameter.SubParameters := subParameters |}.

Definition latestParameters : list (option APIParameter.t) :=
  [Some (sampleAPIParameter "city" false None []);
   Some (sampleAPIParameter "time"  false None
           [Some (sampleAPIParameter "zone" false None [])]);
   Some (sampleAPIParameter "unit" false None [])].

Definition existParameters : list (option APIParameter.t) :=
  [Some (sampleAPIParameter "time" true None
           [Some (sampleAPIParameter "zone" false (Some "UTC") [])]);
   Some (sampleAPIParameter "city" false (Some "Paris") []);
   Some (sampleAPIParameter "gone" true None [])].

(** ** The plugin products (package [conf])

    The second part of the source file: the catalogue of plugin products
    and of their tools, which [loadPluginProductMeta] reads from a YAML file
    and from one OpenAPI document per plugin, and the functions that look it
    up. What the function logs is left out.

    The types of the plugin model are declared outside src; they are given
    with the fields that this file reads or sets. *)

Inductive PluginType : Type :=
| PluginType_PLUGIN
| PluginTypeOther (code : Z).

Module PluginManifest.
Record t : Type := mk {
  NameForHuman : string;
  LogoURL : string
}.
End PluginManifest.

(** An operation of an OpenAPI document, as [model.NewOpenapi3Operation]
    wraps it; this file stores it and asks for its validation only. *)
Module Openapi3Operation.
Record t : Type := mk {
  OperationID : string
}.
End Openapi3Operation.

(** [pathItem.Operations()], by HTTP method. *)
Module PathItem.
Record t : Type := mk {
  Operations : gmap string Openapi3Operation.t
}.
End PathItem.

(** [Servers] is a slice of pointers to servers, of which the [URL] is
    read; [Paths] maps a sub-URL to its path item. *)
Module Openapi3T.
Record t : Type := mk {
  Servers : list (option string);
  Paths : gmap string PathItem.t
}.
End Openapi3T.

Module toolProductMeta.
Record t : Type := mk {
  ToolID : Z;
  Deprecated : bool;
  Method : string;
  SubURL : string
}.
End toolProductMeta.

(** [Manifest] is a pointer and [Tools] a slice of pointers. *)
Module pluginProductMeta.
Record t : Type := mk {
  PluginID : Z;
  Deprecated : bool;
  Version : string;
  PluginType : PluginType;
  OpenapiDocFile : string;
  Manifest : option PluginManifest.t;
  Tools : list (option toolProductMeta.t)
}.
End pluginProductMeta.

(** [model.PluginInfo], behind the pointer [PluginInfo.Info]. *)
Module PluginInfoModel.
Record t : Type := mk {
  ID : Z;
  PluginType : PluginType;
  Version : option string;
  IconURI : option string;
  ServerURL : option string;
  Manifest : option PluginManifest.t;
  OpenapiDoc : option Openapi3T.t
}.
End PluginInfoModel.

Module PluginInfo.
Record t : Type := mk {
  Info : PluginInfoModel.t;
  ToolIDs : list Z
}.
End PluginInfo.

Inductive ActivatedStatus : Type :=
| ActivateTool
| ActivatedStatusOther (code : Z).

Inductive APIDebugStatus : Type :=
| APIDebugStatus_DebugPassed
| APIDebugStatusOther (code : Z).

(** [entity.ToolInfo], behind the pointer [ToolInfo.Info]. *)
Module ToolInfoEntity.
Record t : Type := mk {
  ID : Z;
  PluginID : Z;
  Version : option string;
  Method : option string;
  SubURL : option string;
  Operation : option Openapi3Operation.t;
  ActivatedStatus : option ActivatedStatus;
  DebugStatus : option APIDebugStatus
}.
End ToolInfoEntity.

Module ToolInfo.
Record t : Type := mk {
  Info : ToolInfoEntity.t
}.
End ToolInfo.

(** What the loader calls but does not define: [path.Join], [os.ReadFile],
    [yaml.Unmarshal] into a slice of [*pluginProductMeta], [semver.IsValid],
    the validation of a manifest, of a document and of an operation,
    [LoadFromFile] of the OpenAPI loader, [strings.ToUpper], and the text of
    an error under [%v]. *)
Record Disk : Type := mkDisk {
  pathJoin : string -> string -> string;
  ReadFile : string -> outcome string;
  Unmarshal : string -> outcome (list (option pluginProductMeta.t));
  IsValid : string -> bool;
  ManifestValidate : PluginManifest.t -> outcome unit;
  LoadFromFile : string -> outcome Openapi3T.t;
  DocValidate : Openapi3T.t -> outcome unit;
  OperationValidate : Openapi3Operation.t -> outcome unit;
  ToUpper : string -> string;
  errText : error -> string
}.

(** The package variables [pluginProducts] and [toolProducts]. The maps
    hold pointers; a plugin info is only ever reached through its entry, so
    the entry stands for the object. *)
Module Products.
Record t : Type := mk {
  pluginProducts : gmap Z PluginInfo.t;
  toolProducts : gmap Z ToolInfo.t
}.
End Products.

(** A function that reads and assigns the package variables: how it ends,
    and what the variables hold then. *)
Definition Load (A : Type) : Type := Products.t -> outcome A * Products.t.

Definition loaded {A} (a : A) : Load A := λ st, (Return a, st).
Definition stop {A} (o : outcome A) : Load A := λ st, (o, st).
Definition reads {A} (f : Products.t -> A) : Load A := λ st, (Return (f st), st).
Definition assigns (f : Products.t -> Products.t) : Load unit := λ st, (Return tt, f st).

Definition andThen {A B} (m : Load A) (k : A -> Load B) : Load B :=
  λ st,
    match m st with
    | (Return a, st') => k a st'
    | (Error e, st') => (Error e, st')
    | (Panic v, st') => (Panic v, st')
    end.

Notation "'let!' x ':=' m 'in' k" := (andThen m (fun x => k))
  (at level 10, x pattern, m at level 100, k at level 200).

(** A [for ... range] loop whose body [continue]s by returning. *)
Fixpoint forEach {A} (body : A -> Load unit) (l : list A) : Load unit :=
  match l with
  | [] => loaded tt
  | a :: rest => let! _ := body a in forEach body rest
  end.

Definition GetToolProduct (st : Products.t) (toolID : Z) : option ToolInfo.t :=
  Products.toolProducts st !! toolID.

Fixpoint MGetToolProducts (st : Products.t) (toolIDs : list Z) : list ToolInfo.t :=
  match toolIDs with
  | [] => []
  | toolID :: rest =>
      match GetToolProduct st toolID with
      | Some ti => ti :: MGetToolProducts st rest
      | None => MGetToolProducts st rest
      end
  end.

Definition GetPluginProduct (st : Products.t) (pluginID : Z) : option PluginInfo.t :=
  Products.pluginProducts st !! pluginID.

Fixpoint MGetPluginProducts (st : Products.t) (pluginIDs : list Z) : list PluginInfo.t :=
  match pluginIDs with
  | [] => []
  | pluginID :: rest =>
      match Products.pluginProducts st !! pluginID with
      | Some pl => pl :: MGetPluginProducts st rest
      | None => MGetPluginProducts st rest
      end
  end.

(** Go leaves the order of a map range unspecified; here it is the order
    of [map_to_list]. *)
Definition GetAllPluginProducts (st : Products.t) : list PluginInfo.t :=
  (map_to_list (Products.pluginProducts st)).*2.

Fixpoint toolsOf (st : Products.t) (toolIDs : list Z) : list ToolInfo.t :=
  match toolIDs with
  | [] => []
  | toolID :: rest =>
      match Products.toolProducts st !! toolID with
      | Some ti => ti :: toolsOf st rest
      | None => toolsOf st rest
      end
  end.

Definition GetPluginAllTools (st : Products.t) (pi : PluginInfo.t) : list ToolInfo.t :=
  toolsOf st (PluginInfo.ToolIDs pi).

Definition checkPluginMetaInfo (D : Disk) (st : Products.t) (m : pluginProductMeta.t) : bool :=
  if pluginProductMeta.Deprecated m then false
  else if negb (IsValid D (pluginProductMeta.Version m)) then false
  else if pluginProductMeta.PluginID m <=? 0 then false
  else if bool_decide (is_Some (Products.toolProducts st !! pluginProductMeta.PluginID m))
  then false
  else match pluginProductMeta.PluginType m with
       | PluginType_PLUGIN => true
       | PluginTypeOther _ => false
       end.

(** The map [apis] of a document: every operation under its sub-URL and
    its method in upper case. The two loops range over maps; where two
    methods of a path meet in upper case, the later one in the order of
    [map_to_list] stays. *)
Definition apisOf (D : Disk) (doc : Openapi3T.t) : gmap (string * string) Openapi3Operation.t :=
  foldl (λ apis entry,
           foldl (λ apis' operation,
                    <[(entry.1, ToUpper D operation.1) := operation.2]> apis')
             apis (map_to_list (PathItem.Operations entry.2)))
    ∅ (map_to_list (Openapi3T.Paths doc)).

(** [pi.ToolIDs = append(pi.ToolIDs, toolID)], through the entry of the
    plugin. *)
Definition appendToolID (toolID : Z) (pi : PluginInfo.t) : PluginInfo.t :=
  {| PluginInfo.Info := PluginInfo.Info pi;
     PluginInfo.ToolIDs := PluginInfo.ToolIDs pi ++ [toolID] |}.

Definition newToolInfo (m : pluginProductMeta.t) (t : toolProductMeta.t)
    (op : Openapi3Operation.t) : ToolInfo.t :=
  {| ToolInfo.Info :=
       {| ToolInfoEntity.ID := toolProductMeta.ToolID t;
          ToolInfoEntity.PluginID := pluginProductMeta.PluginID m;
          ToolInfoEntity.Version := Some (pluginProductMeta.Version m);
          ToolInfoEntity.Method := Some (toolProductMeta.Method t);
          ToolInfoEntity.SubURL := Some (toolProductMeta.SubURL t);
          ToolInfoEntity.Operation := Some op;
          ToolInfoEntity.ActivatedStatus := Some ActivateTool;
          ToolInfoEntity.DebugStatus := Some APIDebugStatus_DebugPassed |} |}.

(** One iteration of the loop over [m.Tools]. *)
Definition registerTool (D : Disk) (m : pluginProductMeta.t)
    (apis : gmap (string * string) Openapi3Operation.t) (t : option toolProductMeta.t)
  : Load unit :=
  match t with
  | None => stop (Panic "nil pointer dereference")
  | Some t =>
      if toolProductMeta.Deprecated t then loaded tt
      else
        let! known :=
          reads (λ st, bool_decide
                         (is_Some (Products.toolProducts st !! toolProductMeta.ToolID t))) in
        if known then loaded tt
        else
          match apis !! (toolProductMeta.SubURL t, ToUpper D (toolProductMeta.Method t)) with
          | None => loaded tt
          | Some op =>
              match OperationValidate D op with
              | Error _ => loaded tt
              | Panic v => stop (Panic v)
              | Return _ =>
                  assigns (λ st,
                    {| Products.pluginProducts :=
                         alter (appendToolID (toolProductMeta.ToolID t))
                           (pluginProductMeta.PluginID m) (Products.pluginProducts st);
                       Products.toolProducts :=
                         <[toolProductMeta.ToolID t := newToolInfo m t op]>
                           (Products.toolProducts st) |})
              end
          end
  end.

Definition newPluginInfo (m : pluginProductMeta.t) (manifest : PluginManifest.t)
    (doc : Openapi3T.t) (serverURL : string) : PluginInfo.t :=
  {| PluginInfo.Info :=
       {| PluginInfoModel.ID := pluginProductMeta.PluginID m;
          PluginInfoModel.PluginType := pluginProductMeta.PluginType m;
          PluginInfoModel.Version := Some (pluginProductMeta.Version m);
          PluginInfoModel.IconURI := Some (PluginManifest.LogoURL manifest);
          PluginInfoModel.ServerURL := Some serverURL;
          PluginInfoModel.Manifest := Some manifest;
          PluginInfoModel.OpenapiDoc := Some doc |};
     PluginInfo.ToolIDs := [] |}.

(** One iteration of the loop over [pluginsMeta]. The first statement, a
    log line, reads [m.PluginID] and [m.Manifest.NameForHuman]: a [nil]
    entry or an entry without manifest is a panic. The plugin info is built,
    with [doc.Servers[0].URL], before the test for a plugin of the same
    id. After the loop over the tools, [pi.ToolIDs] is read through the
    entry of the plugin, which is there since the assignment before the
    loop. *)
Definition loadPlugin (D : Disk) (root : string) (m : option pluginProductMeta.t)
  : Load unit :=
  match m with
  | None => stop (Panic "nil pointer dereference")
  | Some m =>
      match pluginProductMeta.Manifest m with
      | None => stop (Panic "nil pointer dereference")
      | Some manifest =>
          let! passed := reads (λ st, checkPluginMetaInfo D st m) in
          if negb passed then loaded tt
          else
            match ManifestValidate D manifest with
            | Error _ => loaded tt
            | Panic v => stop (Panic v)
            | Return _ =>
                match LoadFromFile D (pathJoin D root (pluginProductMeta.OpenapiDocFile m)) with
                | Error _ => loaded tt
                | Panic v => stop (Panic v)
                | Return doc =>
                    match DocValidate D doc with
                    | Error _ => loaded tt
                    | Panic v => stop (Panic v)
                    | Return _ =>
                        match Openapi3T.Servers doc with
                        | [] => stop (Panic "index out of range")
                        | None :: _ => stop (Panic "nil pointer dereference")
                        | Some serverURL :: _ =>
                            let pluginID := pluginProductMeta.PluginID m in
                            let! present :=
                              reads (λ st, bool_decide
                                             (is_Some (Products.pluginProducts st !! pluginID))) in
                            if present then loaded tt
                            else
                              let! _ :=
                                assigns (λ st,
                                  {| Products.pluginProducts :=
                                       <[pluginID := newPluginInfo m manifest doc serverURL]>
                                         (Products.pluginProducts st);
                                     Products.toolProducts := Products.toolProducts st |}) in
                              let! _ :=
                                forEach (registerTool D m (apisOf D doc))
                                  (pluginProductMeta.Tools m) in
                              let! toolIDs :=
                                reads (λ st,
                                  match Products.pluginProducts st !! pluginID with
                                  | Some pi => PluginInfo.ToolIDs pi
                                  | None => []
                                  end) in
                              if Nat.eqb (length toolIDs) 0
                              then assigns (λ st,
                                     {| Products.pluginProducts :=
                                          delete pluginID (Products.pluginProducts st);
                                        Products.toolProducts := Products.toolProducts st |})
                              else loaded tt
                        end
                    end
                end
            end
      end
  end.

Definition noProducts : Products.t :=
  {| Products.pluginProducts := ∅; Products.toolProducts := ∅ |}.

Definition loadPluginProductMeta (D : Disk) (basePath : string) : Load unit :=
  let root := pathJoin D basePath "pluginproduct" in
  let metaFile := pathJoin D root "plugin_meta.yaml" in
  match ReadFile D metaFile with
  | Error err =>
      stop (Error (ErrText ("read file '" +:+ metaFile +:+ "' failed, err=" +:+
                            errText D err)))
  | Panic v => stop (Panic v)
  | Return file =>
      match Unmarshal D file with
      | Error err =>
          stop (Error (ErrText ("unmarshal file '" +:+ metaFile +:+ "' failed, err=" +:+
                                errText D err)))
      | Panic v => stop (Panic v)
      | Return pluginsMeta =>
          let! _ := assigns (λ _, noProducts) in
          forEach (loadPlugin D root) pluginsMeta
      end
  end.

(** The catalogue is consistent. Every tool product is stored under its
    own id and belongs to a plugin product that lists it; every plugin
    product is stored under its own id and lists tool products of its own,
    each once. Among the plugins, [building] may still be without tools:
    the one whose tools are being registered. *)
Definition consistent (building : option Z) (st : Products.t) : Prop :=
  (∀ toolID ti,
     Products.toolProducts st !! toolID = Some ti →
     ToolInfoEntity.ID (ToolInfo.Info ti) = toolID ∧
     ∃ pi,
       Products.pluginProducts st !! ToolInfoEntity.PluginID (ToolInfo.Info ti) = Some pi ∧
       In toolID (PluginInfo.ToolIDs pi)) ∧
  (∀ pluginID pi,
     Products.pluginProducts st !! pluginID = Some pi →
     PluginInfoModel.ID (PluginInfo.Info pi) = pluginID ∧
     (building ≠ Some pluginID → PluginInfo.ToolIDs pi ≠ []) ∧
     NoDup (PluginInfo.ToolIDs pi) ∧
     ∀ toolID,
       In toolID (PluginInfo.ToolIDs pi) →
       ∃ ti,
         Products.toolProducts st !! toolID = Some ti ∧
         ToolInfoEntity.PluginID (ToolInfo.Info ti) = pluginID).

(** A plugin entry of the metadata that passed the checks: not
    deprecated, of a valid version, a positive id and the plugin type, with a
    manifest that was validated and the document [doc], loaded from its file
    and validated. *)
Definition sound (D : Disk) (root : string) (m : pluginProductMeta.t) (doc : Openapi3T.t)
  : Prop :=
  pluginProductMeta.Deprecated m = false ∧
  IsValid D (pluginProductMeta.Version m) = true ∧
  0 < pluginProductMeta.PluginID m ∧
  pluginProductMeta.PluginType m = PluginType_PLUGIN ∧
  (∃ manifest,
     pluginProductMeta.Manifest m = Some manifest ∧
     ManifestValidate D manifest = Return tt) ∧
  LoadFromFile D (pathJoin D root (pluginProductMeta.OpenapiDocFile m)) = Return doc ∧
  DocValidate D doc = Return tt.

(** Every product comes from the metadata: a plugin product from a plugin
    entry that passed the checks, a tool product from a tool entry of such a
    plugin entry, not deprecated, with a validated operation that the
    document of the plugin has under the sub-URL and the method, in upper
    case, of the tool entry. *)
Definition vetted (D : Disk) (root : string) (pluginsMeta : list (option pluginProductMeta.t))
    (st : Products.t) : Prop :=
  (∀ pluginID pi,
     Products.pluginProducts st !! pluginID = Some pi →
     ∃ m doc,
       In (Some m) pluginsMeta ∧ pluginProductMeta.PluginID m = pluginID ∧
       sound D root m doc) ∧
  (∀ toolID ti,
     Products.toolProducts st !! toolID = Some ti →
     ∃ m doc t op,
       In (Some m) pluginsMeta ∧ sound D root m doc ∧
       In (Some t) (pluginProductMeta.Tools m) ∧
       toolProductMeta.ToolID t = toolID ∧
       toolProductMeta.Deprecated t = false ∧
       ToolInfoEntity.PluginID (ToolInfo.Info ti) = pluginProductMeta.PluginID m ∧
       apisOf D doc !! (toolProductMeta.SubURL t, ToUpper D (toolProductMeta.Method t))
         = Some op ∧
       OperationValidate D op = Return tt ∧
       ToolInfoEntity.Operation (ToolInfo.Info ti) = Some op).

(** A sample: metadata of four plugins. The first has a tool of the
    document, a deprecated tool and a tool that the document does not have;
    the second is deprecated; the document of the third is missing; the
    fourth has the tool of the first and nothing else. *)
Definition upper (c : ascii) : ascii :=
  let n := Ascii.nat_of_ascii c in
  if (Nat.leb 97 n && Nat.leb n 122)%bool then Ascii.ascii_of_nat (n - 32) else c.

Fixpoint sampleToUpper (s : string) : string :=
  match s with
  | EmptyString => EmptyString
  | String c rest => String (upper c) (sampleToUpper rest)
  end.

Definition sampleManifest (name : string) : PluginManifest.t :=
  {| PluginManifest.NameForHuman := name;
     PluginManifest.LogoURL := "icons/" +:+ name +:+ ".png" |}.

Definition sampleTool (toolID : Z) (deprecated : bool) (method subURL : string)
  : option toolProductMeta.t :=
  Some {| toolProductMeta.ToolID := toolID;
          toolProductMeta.Deprecated := deprecated;
          toolProductMeta.Method := method;
          toolProductMeta.SubURL := subURL |}.

Definition samplePlugin (pluginID : Z) (deprecated : bool) (name docFile : string)
    (tools : list (option toolProductMeta.t)) : option pluginProductMeta.t :=
  Some {| pluginProductMeta.PluginID := pluginID;
          pluginProductMeta.Deprecated := deprecated;
          pluginProductMeta.Version := "v1.0.0";
          pluginProductMeta.PluginType := PluginType_PLUGIN;
          pluginProductMeta.OpenapiDocFile := docFile;
          pluginProductMeta.Manifest := Some (sampleManifest name);
          pluginProductMeta.Tools := tools |}.

Definition samplePluginsMeta : list (option pluginProductMeta.t) :=
  [ samplePlugin 1 false "search" "search.yaml"
      [sampleTool 11 false "get" "/search";
       sampleTool 12 true "post" "/search";
       sampleTool 13 false "put" "/search"];
    samplePlugin 2 true "old" "search.yaml" [sampleTool 21 false "get" "/search"];
    samplePlugin 3 false "lost" "lost.yaml" [sampleTool 31 false "get" "/search"];
    samplePlugin 4 false "copy" "search.yaml" [sampleTool 11 false "get" "/search"] ].

Definition sampleDoc : Openapi3T.t :=
  {| Openapi3T.Servers := [Some "https://search.example"];
     Openapi3T.Paths :=
       {[ "/search" :=
            {| PathItem.Operations :=
                 {[ "get" := {| Openapi3Operation.OperationID := "find" |};
                    "post" := {| Openapi3Operation.OperationID := "add" |} ]} |} ]} |}.

Definition sampleDisk : Disk :=
  {| pathJoin := λ a b, a +:+ "/" +:+ b;
     ReadFile := λ name,
       if String.eqb name "conf/pluginproduct/plugin_meta.yaml"
       then Return "plugins"
       else Error (ErrText "no such file");
     Unmarshal := λ _, Return samplePluginsMeta;
     IsValid := λ version, String.prefix "v" version;
     ManifestValidate := λ _, Return tt;
     LoadFromFile := λ name,
       if String.eqb name "conf/pluginproduct/search.yaml"
       then Return sampleDoc
       else Error (ErrText "no such file");
     DocValidate := λ _, Return tt;
     OperationValidate := λ _, Return tt;
     ToUpper := sampleToUpper;
     errText := λ e, match e with
                     | ErrText m | ErrWrapText m _ | ErrPanicked m => m
                     | _ => "workflow error"
                     end |}.

Definition sampleProducts : Products.t :=
  (loadPluginProductMeta sampleDisk "conf" noProducts).2.

(** The same metadata with an entry that has no manifest. *)
Definition brokenDisk : Disk :=
  {| pathJoin := pathJoin sampleDisk;
     ReadFile := ReadFile sampleDisk;
     Unmarshal := λ _,
       Return (samplePluginsMeta ++
               [Some {| pluginProductMeta.PluginID := 5;
                        pluginProductMeta.Deprecated := true;
                        pluginProductMeta.Version := "v1.0.0";
                        pluginProductMeta.PluginType := PluginType_PLUGIN;
                        pluginProductMeta.OpenapiDocFile := "search.yaml";
                        pluginProductMeta.Manifest := None;
                        pluginProductMeta.Tools := [] |}]);
     IsValid := IsValid sampleDisk;
     ManifestValidate := ManifestValidate sampleDisk;
     LoadFromFile := LoadFromFile sampleDisk;
     DocValidate := DocValidate sampleDisk;
     OperationValidate := OperationValidate sampleDisk;
     ToUpper := ToUpper sampleDisk;
     errText := errText sampleDisk |}.

(** ** Node history, resume, cancel and run history

    The operations below call the workflow domain service in ways that
    [World] does not have. [Domain] has these calls, and what else the
    operations take from outside src. The requests are given by what their
    getters return. *)

Inductive NodeHistoryScene : Type :=
| NodeHistoryScene_TestRunInput
| NodeHistorySceneOther (code : Z).

Inductive WorkflowRunMode : Type :=
| WorkflowRunMode_Sync
| WorkflowRunMode_Async
| WorkflowRunMode_Stream.

Module GetNodeExecuteHistoryRequest.
Record t : Type := mk {
  WorkflowID : string;
  SpaceID : string;
  ExecuteID : string;
  NodeID : string;
  NodeHistoryScene : NodeHistoryScene
}.
End GetNodeExecuteHistoryRequest.

Module GetNodeExecuteHistoryResponse.
Record t : Type := mk {
  Data : NodeResult.t
}.
End GetNodeExecuteHistoryResponse.

Module WorkflowTestResumeRequest.
Record t : Type := mk {
  SpaceID : string;
  ExecuteID : string;
  EventID : string;
  Data : string
}.
End WorkflowTestResumeRequest.

Module CancelWorkFlowRequest.
Record t : Type := mk {
  ExecuteID : string;
  SpaceID : string;
  WorkflowID : string
}.
End CancelWorkFlowRequest.

Module GetWorkflowRunHistoryRequest.
Record t : Type := mk {
  ExecuteID : string
}.
End GetWorkflowRunHistoryRequest.

(** [entity.WorkflowExecution] with the fields that only
    [OpenAPIGetWorkflowRunHistory] reads. [CreatedAt] and [UpdatedAt] are
    times, of which [Unix()] is read: the fields hold those seconds. *)
Module ExecutionRecord.
Record t : Type := mk {
  Execution : WorkflowExecution.t;
  AgentID : option Z;
  ConnectorID : Z;
  ConnectorUID : string;
  SyncPattern : SyncPattern;
  CreatedAt : Z;
  UpdatedAt : option Z;
  Input : option string;
  ErrorCode : option string
}.
End ExecutionRecord.

Module WorkflowExecuteHistory.
Record t : Type := mk {
  ExecuteID : option Z;
  ExecuteStatus : option string;
  BotID : option Z;
  ConnectorID : option Z;
  ConnectorUID : option string;
  RunMode : option WorkflowRunMode;
  LogID : option string;
  CreateTime : option Z;
  UpdateTime : option Z;
  DebugUrl : option string;
  Input : option string;
  Output : option string;
  Token : option Z;
  Cost : option string;
  ErrorCode : option string;
  ErrorMsg : option string
}.
End WorkflowExecuteHistory.

(** The domain calls return pointers: a node execution may be [nil].
    [CancelExecution] is [Cancel] of the domain service. [GetExecutionRecord]
    is [GetExecution] for an entity that has the [ID] only, without node
    executions; as for [GetExecution] in [World], the execution that it
    returns without error is there. [NodeExeStatusZero] is the zero value
    of [workflow.NodeExeStatus], [statusString] the method [String] of
    [workflow.WorkflowExeStatus], and [GetUIDFromCtx] what
    [ctxutil.GetUIDFromCtx(ctx)] returns for the context of the call. *)
Record Domain : Type := mkDomain {
  GetLatestTestRunInput : Z -> Z -> outcome (option NodeExecution.t * bool);
  GetLatestNodeDebugInput :
    Z -> string -> Z -> outcome (option NodeExecution.t * option NodeExecution.t * bool);
  GetNodeExecution : Z -> string -> outcome (option NodeExecution.t * option NodeExecution.t);
  AsyncResume : ResumeRequest.t -> ExecuteConfig.t -> outcome unit;
  CancelExecution : Z -> Z -> Z -> outcome unit;
  GetExecutionRecord : Z -> outcome ExecutionRecord.t;
  NodeExeStatusZero : NodeExeStatus;
  statusString : WorkflowExecuteStatus -> string;
  GetUIDFromCtx : option Z
}.

Inductive DomainCall : Type :=
| CallGetLatestTestRunInput (workflowID uid : Z)
| CallGetLatestNodeDebugInput (workflowID : Z) (nodeID : string) (uid : Z)
| CallGetNodeExecution (executeID : Z) (nodeID : string)
| CallAsyncResume (req : ResumeRequest.t) (cfg : ExecuteConfig.t)
| CallCancel (executeID workflowID spaceID : Z)
| CallGetExecutionRecord (id : Z).

(** An operation that makes calls of both kinds, in order. *)
Definition Run (A : Type) : Type := outcome A * list (Call + DomainCall).

Definition within {A} (m : Op A) : Run A := (result m, inl <$> trace m).
Definition ask {A} (c : DomainCall) (o : outcome A) : Run A := (o, [inr c]).
Definition done {A} (o : outcome A) : Run A := (o, []).

Definition next {A B} (m : Run A) (k : A -> Run B) : Run B :=
  match m with
  | (Return a, t) => let '(r, t') := k a in (r, t ++ t')
  | (Error e, t) => (Error e, t)
  | (Panic v, t) => (Panic v, t)
  end.

Notation "'let+' x ':=' m 'in' k" := (next m (fun x => k))
  (at level 10, x pattern, m at level 100, k at level 200).

(** The deferred function, as in [recoverAndWrap]. *)
Definition recovered {A} (W : World) (code : errno) (body : Run A) : Run A :=
  (result (recoverAndWrap W code (body.1, [])), body.2).

(** [ptr.FromOrDefault(ctxutil.GetUIDFromCtx(ctx), 0)] *)
Definition operatorOf (H : Domain) : Z := default 0 (GetUIDFromCtx H).

(** [checkUserSpace(ctx, ctxutil.MustGetUIDFromCtx(ctx),
    mustParseInt64(req.GetSpaceID()))], the first statement of the three
    operations below. *)
Definition checkRequestSpace (W : World) (ctx : Context.t) (spaceID : string) : Run unit :=
  within (let* uid := lift (MustGetUIDFromCtx ctx) in
          let* spaceID := lift (mustParseInt64 spaceID) in
          checkUserSpace W uid spaceID).

(** [&workflow.NodeResult{}] *)
Definition emptyNodeResult (H : Domain) : NodeResult.t :=
  {| NodeResult.NodeId := "";
     NodeResult.NodeType := "";
     NodeResult.NodeName := "";
     NodeResult.NodeStatus := NodeExeStatusZero H;
     NodeResult.ErrorInfo := "";
     NodeResult.Input := "";
     NodeResult.Output := "";
     NodeResult.NodeExeCost := "";
     NodeResult.TokenAndCost := None;
     NodeResult.RawOutput := None;
     NodeResult.ErrorLevel := "";
     NodeResult.Index := None;
     NodeResult.Items := None;
     NodeResult.IsBatch := None;
     NodeResult.Batch := None;
     NodeResult.Extra := "";
     NodeResult.ExecuteId := None;
     NodeResult.SubExecuteId := None;
     NodeResult.NeedAsync := None |}.

(** [convertNodeExecution] of a pointer: its first statement reads the
    fields of the node execution. *)
Definition convertNodeExecutionOf (W : World) (nodeExe : option NodeExecution.t)
  : outcome NodeResult.t :=
  match nodeExe with
  | Some nodeExe => convertNodeExecution W nodeExe
  | None => Panic "nil pointer dereference"
  end.

(** The end of the three branches of [GetNodeExecuteHistory]: the result
    of the node, merged with that of the inner node if there is one. *)
Definition historyOf (W : World) (nodeExe innerExe : option NodeExecution.t)
  : outcome GetNodeExecuteHistoryResponse.t :=
  match convertNodeExecutionOf W nodeExe with
  | Return result =>
      match innerExe with
      | None => Return {| GetNodeExecuteHistoryResponse.Data := result |}
      | Some innerExe =>
          match convertNodeExecution W innerExe with
          | Return inner =>
              Return {| GetNodeExecuteHistoryResponse.Data :=
                          mergeBatchModeNodes result inner |}
          | Error e => Error e
          | Panic v => Panic v
          end
      end
  | Error e => Error e
  | Panic v => Panic v
  end.

Definition errExecuteIDSet : error :=
  ErrText "when scene is test_run_input, execute_id should be empty".

Definition errExecuteIDEmpty : error :=
  ErrText "when scene is not test_run_input, execute_id should not be empty".

Definition GetNodeExecuteHistory (W : World) (H : Domain) (ctx : Context.t)
    (req : GetNodeExecuteHistoryRequest.t) : Run GetNodeExecuteHistoryResponse.t :=
  recovered W ErrWorkflowOperationFail
    (let+ _ := checkRequestSpace W ctx (GetNodeExecuteHistoryRequest.SpaceID req) in
     let executeID := GetNodeExecuteHistoryRequest.ExecuteID req in
     let nodeID := GetNodeExecuteHistoryRequest.NodeID req in
     match GetNodeExecuteHistoryRequest.NodeHistoryScene req with
     | NodeHistoryScene_TestRunInput =>
         if negb (String.eqb executeID "") then done (Error errExecuteIDSet)
         else if String.eqb nodeID "100001" then
           let+ workflowID :=
             done (mustParseInt64 (GetNodeExecuteHistoryRequest.WorkflowID req)) in
           let+ latest :=
             ask (CallGetLatestTestRunInput workflowID (operatorOf H))
               (GetLatestTestRunInput H workflowID (operatorOf H)) in
           let '(nodeExe, found) := latest in
           if negb found
           then done (Return {| GetNodeExecuteHistoryResponse.Data := emptyNodeResult H |})
           else done (historyOf W nodeExe None)
         else
           let+ workflowID :=
             done (mustParseInt64 (GetNodeExecuteHistoryRequest.WorkflowID req)) in
           let+ latest :=
             ask (CallGetLatestNodeDebugInput workflowID nodeID (operatorOf H))
               (GetLatestNodeDebugInput H workflowID nodeID (operatorOf H)) in
           let '(nodeExe, innerExe, found) := latest in
           if negb found
           then done (Return {| GetNodeExecuteHistoryResponse.Data := emptyNodeResult H |})
           else done (historyOf W nodeExe innerExe)
     | NodeHistorySceneOther _ =>
         if String.eqb executeID "" then done (Error errExecuteIDEmpty)
         else
           let+ id := done (mustParseInt64 executeID) in
           let+ found := ask (CallGetNodeExecution id nodeID) (GetNodeExecution H id nodeID) in
           let '(nodeExe, innerNodeExe) := found in
           done (historyOf W nodeExe innerNodeExe)
     end).

Definition TestResume (W : World) (H : Domain) (ctx : Context.t)
    (req : WorkflowTestResumeRequest.t) : Run unit :=
  recovered W ErrWorkflowExecuteFail
    (let+ _ := checkRequestSpace W ctx (WorkflowTestResumeRequest.SpaceID req) in
     let+ executeID := done (mustParseInt64 (WorkflowTestResumeRequest.ExecuteID req)) in
     let+ eventID := done (mustParseInt64 (WorkflowTestResumeRequest.EventID req)) in
     let resumeReq :=
       {| ResumeRequest.ExecuteID := executeID;
          ResumeRequest.EventID := eventID;
          ResumeRequest.ResumeData := WorkflowTestResumeRequest.Data req |} in
     let exeCfg :=
       {| ExecuteConfig.ID := 0;
          ExecuteConfig.From := LocatorUnset;
          ExecuteConfig.Version := "";
          ExecuteConfig.CommitID := "";
          ExecuteConfig.Operator := operatorOf H;
          ExecuteConfig.Mode := ExecuteModeDebug;
          ExecuteConfig.AppID := None;
          ExecuteConfig.AgentID := None;
          ExecuteConfig.ConnectorID := 0;
          ExecuteConfig.ConnectorUID := "";
          ExecuteConfig.TaskType := TaskTypeUnset;
          ExecuteConfig.SyncPattern := SyncPatternUnset;
          ExecuteConfig.InputFailFast := false;
          ExecuteConfig.BizType := BizTypeWorkflow;
          ExecuteConfig.Cancellable := true |} in
     ask (CallAsyncResume resumeReq exeCfg) (AsyncResume H resumeReq exeCfg)).

(** [Cancel] reads the space id of the request twice. *)
Definition Cancel (W : World) (H : Domain) (ctx : Context.t)
    (req : CancelWorkFlowRequest.t) : Run unit :=
  recovered W ErrWorkflowExecuteFail
    (let+ _ := checkRequestSpace W ctx (CancelWorkFlowRequest.SpaceID req) in
     let+ executeID := done (mustParseInt64 (CancelWorkFlowRequest.ExecuteID req)) in
     let+ workflowID := done (mustParseInt64 (CancelWorkFlowRequest.WorkflowID req)) in
     let+ spaceID := done (mustParseInt64 (CancelWorkFlowRequest.SpaceID req)) in
     ask (CallCancel executeID workflowID spaceID)
       (CancelExecution H executeID workflowID spaceID)).

Definition runModeOf (pattern : SyncPattern) : option WorkflowRunMode :=
  match pattern with
  | SyncPatternSync => Some WorkflowRunMode_Sync
  | SyncPatternAsync => Some WorkflowRunMode_Async
  | SyncPatternStream => Some WorkflowRunMode_Stream
  | SyncPatternUnset => None
  end.

(** The execution is read before the user is checked, against the space
    of the execution. [exe.TokenInfo] is a pointer, read without a test. *)
Definition OpenAPIGetWorkflowRunHistory (W : World) (H : Domain) (ctx : Context.t)
    (req : GetWorkflowRunHistoryRequest.t) : Run (list WorkflowExecuteHistory.t) :=
  recovered W ErrWorkflowOperationFail
    (let+ apiKeyInfo := done (GetApiAuthFromCtx ctx) in
     let userID := ApiKeyInfo.UserID apiKeyInfo in
     let+ id := done (mustParseInt64 (GetWorkflowRunHistoryRequest.ExecuteID req)) in
     let+ record := ask (CallGetExecutionRecord id) (GetExecutionRecord H id) in
     let exe := ExecutionRecord.Execution record in
     let+ _ := within (checkUserSpace W userID (WorkflowExecution.SpaceID exe)) in
     match WorkflowExecution.TokenInfo exe with
     | None => done (Panic "nil pointer dereference")
     | Some tokenInfo =>
         done (Return
           [{| WorkflowExecuteHistory.ExecuteID := Some (WorkflowExecution.ID exe);
               WorkflowExecuteHistory.ExecuteStatus :=
                 Some (statusString H (WorkflowExecution.Status exe));
               WorkflowExecuteHistory.BotID := ExecutionRecord.AgentID record;
               WorkflowExecuteHistory.ConnectorID := Some (ExecutionRecord.ConnectorID record);
               WorkflowExecuteHistory.ConnectorUID :=
                 Some (ExecutionRecord.ConnectorUID record);
               WorkflowExecuteHistory.RunMode := runModeOf (ExecutionRecord.SyncPattern record);
               WorkflowExecuteHistory.LogID := Some (WorkflowExecution.LogID exe);
               WorkflowExecuteHistory.CreateTime := Some (ExecutionRecord.CreatedAt record);
               WorkflowExecuteHistory.UpdateTime := ExecutionRecord.UpdatedAt record;
               WorkflowExecuteHistory.DebugUrl :=
                 Some (GetWorkflowDebugURL W (WorkflowExecution.WorkflowID exe)
                         (WorkflowExecution.SpaceID exe) (WorkflowExecution.ID exe));
               WorkflowExecuteHistory.Input := ExecutionRecord.Input record;
               WorkflowExecuteHistory.Output := WorkflowExecution.Output exe;
               WorkflowExecuteHistory.Token :=
                 Some (Strconv.wrap64 (TokenUsage.InputTokens tokenInfo +
                                       TokenUsage.OutputTokens tokenInfo));
               WorkflowExecuteHistory.Cost := Some "0.00000";
               WorkflowExecuteHistory.ErrorCode := ExecutionRecord.ErrorCode record;
               WorkflowExecuteHistory.ErrorMsg := WorkflowExecution.FailReason exe |}])
     end).

(** Where the node execution of a history response comes from: the domain
    call of the scene of the request, which found it. *)
Definition foundBy (H : Domain) (req : GetNodeExecuteHistoryRequest.t)
    (nodeExe : NodeExecution.t) (innerExe : option NodeExecution.t) : Prop :=
  let nodeID := GetNodeExecuteHistoryRequest.NodeID req in
  match GetNodeExecuteHistoryRequest.NodeHistoryScene req with
  | NodeHistoryScene_TestRunInput =>
      exists workflowID,
        mustParseInt64 (GetNodeExecuteHistoryRequest.WorkflowID req) = Return workflowID /\
        if String.eqb nodeID "100001"
        then GetLatestTestRunInput H workflowID (operatorOf H) = Return (Some nodeExe, true) /\
             innerExe = None
        else GetLatestNodeDebugInput H workflowID nodeID (operatorOf H)
             = Return (Some nodeExe, innerExe, true)
  | NodeHistorySceneOther _ =>
      exists id,
        mustParseInt64 (GetNodeExecuteHistoryRequest.ExecuteID req) = Return id /\
        GetNodeExecution H id nodeID = Return (Some nodeExe, innerExe)
  end.

(** The domain call that the scene of a history request stands for. *)
Definition sourceOf (H : Domain) (req : GetNodeExecuteHistoryRequest.t) (c : DomainCall)
  : Prop :=
  let nodeID := GetNodeExecuteHistoryRequest.NodeID req in
  match GetNodeExecuteHistoryRequest.NodeHistoryScene req with
  | NodeHistoryScene_TestRunInput =>
      GetNodeExecuteHistoryRequest.ExecuteID req = "" /\
      exists workflowID,
        mustParseInt64 (GetNodeExecuteHistoryRequest.WorkflowID req) = Return workflowID /\
        c = if String.eqb nodeID "100001"
            then CallGetLatestTestRunInput workflowID (operatorOf H)
            else CallGetLatestNodeDebugInput workflowID nodeID (operatorOf H)
  | NodeHistorySceneOther _ =>
      GetNodeExecuteHistoryRequest.ExecuteID req <> "" /\
      exists id,
        mustParseInt64 (GetNodeExecuteHistoryRequest.ExecuteID req) = Return id /\
        c = CallGetNodeExecution id nodeID
  end.

(** The user [uid] of the context is a member of the space that the text
    [spaceID] names. *)
Definition memberOf (W : World) (ctx : Context.t) (uid : Z) (spaceID : string) : Prop :=
  MustGetUIDFromCtx ctx = Return uid /\
  exists space spaces,
    mustParseInt64 spaceID = Return space /\
    GetUserSpaceList W uid = Return spaces /\
    In space spaces.

(** A sample: a domain service that knows the batch node ["200"] of the
    execution 42, and an execution record of the space 1. *)
Definition sampleRecord (tokenInfo : option TokenUsage.t) : ExecutionRecord.t :=
  {| ExecutionRecord.Execution :=
       {| WorkflowExecution.ID := 42;
          WorkflowExecution.WorkflowID := 7;
          WorkflowExecution.SpaceID := 1;
          WorkflowExecution.RootExecutionID := 42;
          WorkflowExecution.Status := WorkflowSuccess;
          WorkflowExecution.Duration := 1500;
          WorkflowExecution.FailReason := None;
          WorkflowExecution.LogID := "log";
          WorkflowExecution.Output := Some "out";
          WorkflowExecution.TokenInfo := tokenInfo;
          WorkflowExecution.AppID := None;
          WorkflowExecution.NodeCount := 1;
          WorkflowExecution.NodeExecutions := [];
          WorkflowExecution.InterruptEvents := [] |};
     ExecutionRecord.AgentID := None;
     ExecutionRecord.ConnectorID := 1024;
     ExecutionRecord.ConnectorUID := "5";
     ExecutionRecord.SyncPattern := SyncPatternAsync;
     ExecutionRecord.CreatedAt := 1700000000;
     ExecutionRecord.UpdatedAt := None;
     ExecutionRecord.Input := Some "in";
     ExecutionRecord.ErrorCode := None |}.

Definition sampleDomain (tokenInfo : option TokenUsage.t) : Domain :=
  {| GetLatestTestRunInput := λ _ _, Return (None, false);
     GetLatestNodeDebugInput := λ _ _ _, Return (None, None, false);
     GetNodeExecution := λ executeID nodeID,
       if (executeID =? 42) && String.eqb nodeID "200"
       then Return (Some batchShell, Some batchInner)
       else Error (ErrText "node execution not found");
     AsyncResume := λ _ _, Return tt;
     CancelExecution := λ _ _ _, Return tt;
     GetExecutionRecord := λ id,
       if id =? 42 then Return (sampleRecord tokenInfo)
       else Error (ErrText "execution not found");
     NodeExeStatusZero := NodeStatusOther 0;
     statusString := λ status,
       match status with
       | WorkflowSuccess => "Success"
       | _ => "Other"
       end;
     GetUIDFromCtx := Some 5 |}.

Definition historyRequest (spaceID executeID nodeID : string) (scene : NodeHistoryScene)
  : GetNodeExecuteHistoryRequest.t :=
  {| GetNodeExecuteHistoryRequest.WorkflowID := "7";
     GetNodeExecuteHistoryRequest.SpaceID := spaceID;
     GetNodeExecuteHistoryRequest.ExecuteID := executeID;
     GetNodeExecuteHistoryRequest.NodeID := nodeID;
     GetNodeExecuteHistoryRequest.NodeHistoryScene := scene |}.

Definition cancelRequest (spaceID : string) : CancelWorkFlowRequest.t :=
  {| CancelWorkFlowRequest.ExecuteID := "42";
     CancelWorkFlowRequest.SpaceID := spaceID;
     CancelWorkFlowRequest.WorkflowID := "7" |}.

Definition resumeRequest (spaceID : string) : WorkflowTestResumeRequest.t :=
  {| WorkflowTestResumeRequest.SpaceID := spaceID;
     WorkflowTestResumeRequest.ExecuteID := "42";
     WorkflowTestResumeRequest.EventID := "3";
     WorkflowTestResumeRequest.Data := "yes" |}.

(** A world whose stream resumes, for a user with the spaces [spaces]. *)
Definition resumeWorld (spaces : list Z) : World :=
  {| IsGeneratedNodeForBatchMode := IsGeneratedNodeForBatchMode plainWorld;
     GetDisplayKey := GetDisplayKey plainWorld;
     formatSeconds := formatSeconds plainWorld;
     formatRate := formatRate plainWorld;
     nodeIconURLCache := nodeIconURLCache plainWorld;
     GetWorkflowDebugURL := GetWorkflowDebugURL plainWorld;
     errorString := errorString plainWorld;
     workflowErrorMsg := workflowErrorMsg plainWorld;
     MarshalNodeResults := MarshalNodeResults plainWorld;
     MarshalNodeExtra := MarshalNodeExtra plainWorld;
     MarshalAnswerOutput := MarshalAnswerOutput plainWorld;
     UnmarshalParameters := UnmarshalParameters plainWorld;
     CozeConnectorID := CozeConnectorID plainWorld;
     WebSDKConnectorID := WebSDKConnectorID plainWorld;
     GetUserSpaceList := λ _, Return spaces;
     Get := λ _, Error (ErrText "no workflow");
     GetExecution := GetExecution plainWorld;
     AsyncExecute := AsyncExecute plainWorld;
     AsyncExecuteNode := AsyncExecuteNode plainWorld;
     SyncExecute := SyncExecute plainWorld;
     StreamExecute := StreamExecute plainWorld;
     StreamResume := λ _ _, Return [] |}.

Definition sampleResumeRequest : OpenAPIStreamResumeFlowRequest.t :=
  {| OpenAPIStreamResumeFlowRequest.EventID := "42/3";
     OpenAPIStreamResumeFlowRequest.WorkflowID := "7";
     OpenAPIStreamResumeFlowRequest.ResumeData := "yes";
     OpenAPIStreamResumeFlowRequest.ConnectorID := None |}.

(** ** The delete operations

    [BatchDeleteWorkflow], [DeleteWorkflow] and [DeleteWorkflowsByAppID] are
    the operations of the service that do not start with the deferred
    [recover]. [Resources] has what they call outside src: [Delete] of the
    workflow domain service, which returns the ids it deleted, and
    [slices.TransformWithErrorCheck] with [strconv.ParseInt] on the list of
    workflow ids. [safego.Go] starts a goroutine that publishes the deleted
    ids and logs the errors: the trace records that it was started, and with
    which ids. The requests are given by what their getters return; the
    [Action] of a delete request is copied and never read. *)

Module DeletePolicy.
Record t : Type := mk {
  IDs : list Z;
  AppID : option Z
}.
End DeletePolicy.

Record Resources : Type := mkResources {
  Delete : DeletePolicy.t -> outcome (list Z);
  ParseIDs : list string -> outcome (list Z)
}.

Inductive ResourceCall : Type :=
| CallDelete (policy : DeletePolicy.t)
| CallGoPublishDeleted (ids : list Z).

Inductive DeleteStatus : Type :=
| DeleteStatus_SUCCESS
| DeleteStatusOther (code : Z).

Module DeleteWorkflowData.
Record t : Type := mk {
  Status : DeleteStatus
}.
End DeleteWorkflowData.

Module BatchDeleteWorkflowRequest.
Record t : Type := mk {
  WorkflowIDList : list string;
  SpaceID : string
}.
End BatchDeleteWorkflowRequest.

Module DeleteWorkflowRequest.
Record t : Type := mk {
  WorkflowID : string;
  SpaceID : string
}.
End DeleteWorkflowRequest.

Definition deleteWorkflowResource (R : Resources) (policy : DeletePolicy.t)
  : outcome unit * list ResourceCall :=
  match Delete R policy with
  | Return ids => (Return tt, [CallDelete policy; CallGoPublishDeleted ids])
  | Error e => (Error e, [CallDelete policy])
  | Panic v => (Panic v, [CallDelete policy])
  end.

Definition BatchDeleteWorkflow (W : World) (R : Resources) (ctx : Context.t)
    (req : BatchDeleteWorkflowRequest.t)
  : outcome DeleteWorkflowData.t * list (Call + ResourceCall) :=
  let checked : Op unit :=
    let* uid := lift (MustGetUIDFromCtx ctx) in
    let* spaceID := lift (mustParseInt64 (BatchDeleteWorkflowRequest.SpaceID req)) in
    checkUserSpace W uid spaceID in
  match checked with
  | (Return _, calls) =>
      match ParseIDs R (BatchDeleteWorkflowRequest.WorkflowIDList req) with
      | Return ids =>
          let '(deleted, more) :=
            deleteWorkflowResource R {| DeletePolicy.IDs := ids;
                                        DeletePolicy.AppID := None |} in
          (match deleted with
           | Return _ => Return {| DeleteWorkflowData.Status := DeleteStatus_SUCCESS |}
           | Error e => Error e
           | Panic v => Panic v
           end,
           (inl <$> calls) ++ (inr <$> more))
      | Error e => (Error e, inl <$> calls)
      | Panic v => (Panic v, inl <$> calls)
      end
  | (Error e, calls) => (Error e, inl <$> calls)
  | (Panic v, calls) => (Panic v, inl <$> calls)
  end.

Definition DeleteWorkflow (W : World) (R : Resources) (ctx : Context.t)
    (req : DeleteWorkflowRequest.t)
  : outcome DeleteWorkflowData.t * list (Call + ResourceCall) :=
  let '(deleted, calls) :=
    BatchDeleteWorkflow W R ctx
      {| BatchDeleteWorkflowRequest.WorkflowIDList := [DeleteWorkflowRequest.WorkflowID req];
         BatchDeleteWorkflowRequest.SpaceID := DeleteWorkflowRequest.SpaceID req |} in
  (match deleted with
   | Return _ => Return {| DeleteWorkflowData.Status := DeleteStatus_SUCCESS |}
   | Error e => Error e
   | Panic v => Panic v
   end,
   calls).

Definition DeleteWorkflowsByAppID (R : Resources) (appID : Z)
  : outcome unit * list ResourceCall :=
  deleteWorkflowResource R {| DeletePolicy.IDs := []; DeletePolicy.AppID := Some appID |}.

(** A sample: a domain service that deletes what the policy names. *)
Definition sampleResources : Resources :=
  {| Delete := λ policy, Return (DeletePolicy.IDs policy);
     ParseIDs := λ texts,
       match mapM Strconv.ParseInt texts with
       | Some ids => Return ids
       | None => Error (ErrText "strconv.ParseInt")
       end |}.

(** ** Decimal integers: [FormatInt], [ParseInt], [Split] *)

Module StrconvFacts.
Import Strconv.

Lemma digitVal_digitChar (d : Z) : 0 <= d < 10 -> digitVal (digitChar d) = Some d.
Proof.
  intros Hd.
  assert (Hcases : d = 0 \/ d = 1 \/ d = 2 \/ d = 3 \/ d = 4 \/
                   d = 5 \/ d = 6 \/ d = 7 \/ d = 8 \/ d = 9) by lia.
  repeat (destruct Hcases as [-> | Hcases]; [reflexivity |]).
  subst d. reflexivity.
Qed.

Lemma digitChar_not_sign (d : Z) :
  0 <= d < 10 ->
  Ascii.eqb (digitChar d) "+" = false /\ Ascii.eqb (digitChar d) "-" = false /\
  Ascii.eqb (digitChar d) "/" = false.
Proof.
  intros Hd.
  assert (Hcases : d = 0 \/ d = 1 \/ d = 2 \/ d = 3 \/ d = 4 \/
                   d = 5 \/ d = 6 \/ d = 7 \/ d = 8 \/ d = 9) by lia.
  repeat (destruct Hcases as [-> | Hcases]; [repeat split; reflexivity |]).
  subst d. repeat split; reflexivity.
Qed.

(** Parsing the digits that [formatBits] puts before [acc] is parsing
    [acc] from the number formatted. *)
Lemma parseDigits_formatBits (fuel : nat) :
  forall u acc, 0 <= u < 10 ^ Z.of_nat fuel ->
    parseDigits (formatBits fuel u acc) 0 = parseDigits acc u.
Proof.
  induction fuel as [| fuel IH]; intros u acc Hu.
  - simpl in *. replace u with 0 by lia. reflexivity.
  - cbn [formatBits]. destruct (u <? 10) eqn:Hlt.
    + apply Z.ltb_lt in Hlt.
      cbn [parseDigits]. rewrite digitVal_digitChar by (apply Z.mod_pos_bound; lia).
      rewrite Z.mod_small by lia. f_equal.
    + apply Z.ltb_ge in Hlt.
      rewrite IH.
      * cbn [parseDigits]. rewrite digitVal_digitChar by (apply Z.mod_pos_bound; lia).
        f_equal. pose proof (Z.div_mod u 10). lia.
      * rewrite Nat2Z.inj_succ, Z.pow_succ_r in Hu by lia.
        split; [apply Z.div_pos; lia | apply Z.div_lt_upper_bound; lia].
Qed.

Lemma formatBits_digits (fuel : nat) :
  forall u acc, 0 <= u -> digitsOnly acc -> digitsOnly (formatBits fuel u acc).
Proof.
  induction fuel as [| fuel IH]; intros u acc Hu Hacc; [exact Hacc |].
  cbn [formatBits].
  assert (Hd : digitsOnly (String (digitChar (u mod 10)) acc)).
  { split; [| exact Hacc]. exists (u mod 10). split; [apply Z.mod_pos_bound; lia | reflexivity]. }
  destruct (u <? 10); [exact Hd |].
  apply IH; [apply Z.div_pos; lia | exact Hd].
Qed.

Lemma formatBits_nonempty (fuel : nat) u acc :
  formatBits (S fuel) u acc <> EmptyString.
Proof.
  revert u acc. induction fuel as [| fuel IH]; intros u acc.
  - cbn. destruct (u <? 10); discriminate.
  - cbn [formatBits]. destruct (u <? 10); [discriminate |]. apply IH.
Qed.

Lemma digitsOnly_head (s : string) :
  digitsOnly s -> s <> EmptyString ->
  exists d rest, 0 <= d < 10 /\ s = String (digitChar d) rest.
Proof.
  destruct s as [| c rest]; [congruence |].
  intros [[d [Hd ->]] _] _. eauto.
Qed.

Theorem ParseInt_FormatInt (i : Z) : isInt64 i -> ParseInt (FormatInt i) = Some i.
Proof.
  unfold isInt64, minInt64, maxInt64, FormatInt. intros Hi.
  destruct (i <? 0) eqn:Hneg.
  - apply Z.ltb_lt in Hneg.
    cbn [ParseInt]. replace (Ascii.eqb "-" "-") with true by reflexivity.
    replace (Ascii.eqb "-" "+") with false by reflexivity. cbn [orb negb andb].
    unfold ParseUint.
    pose proof (formatBits_nonempty 19 (- i) "") as Hne.
    destruct (formatBits 20 (- i) "") as [| c rest] eqn:Hfmt; [congruence |].
    rewrite <- Hfmt, parseDigits_formatBits by (change (10 ^ Z.of_nat 20) with (10 ^ 20); lia).
    cbn [parseDigits].
    destruct (2 ^ 63 <? - i) eqn:Hrange; [apply Z.ltb_lt in Hrange; lia |].
    f_equal. lia.
  - apply Z.ltb_ge in Hneg.
    pose proof (formatBits_nonempty 19 i "") as Hne.
    pose proof (formatBits_digits 20 i "" Hneg I) as Hdig.
    destruct (digitsOnly_head _ Hdig Hne) as (d & rest & Hd & Hfmt).
    rewrite Hfmt. cbn [ParseInt].
    destruct (digitChar_not_sign d Hd) as (-> & -> & _). cbn [orb negb andb].
    unfold ParseUint. rewrite <- Hfmt.
    rewrite parseDigits_formatBits by (change (10 ^ Z.of_nat 20) with (10 ^ 20); lia).
    cbn [parseDigits].
    destruct (2 ^ 63 <=? i) eqn:Hrange; [apply Z.leb_le in Hrange; lia |].
    reflexivity.
Qed.

Lemma digitsOnly_noSlash (s : string) : digitsOnly s -> noSlash s = true.
Proof.
  induction s as [| c rest IH]; [reflexivity |].
  intros [[d [Hd ->]] Hrest]. cbn [noSlash].
  destruct (digitChar_not_sign d Hd) as (_ & _ & ->). cbn. auto.
Qed.

Lemma FormatInt_noSlash (i : Z) : noSlash (FormatInt i) = true.
Proof.
  unfold FormatInt. destruct (i <? 0) eqn:Hneg.
  - apply Z.ltb_lt in Hneg. cbn [noSlash].
    replace (Ascii.eqb "-" "/") with false by reflexivity. cbn [negb andb].
    apply digitsOnly_noSlash, formatBits_digits; [lia | exact I].
  - apply Z.ltb_ge in Hneg.
    apply digitsOnly_noSlash, formatBits_digits; [lia | exact I].
Qed.

Lemma Split_noSlash (s : string) : noSlash s = true -> Split s = [s].
Proof.
  induction s as [| c rest IH]; [reflexivity |].
  cbn [noSlash Split]. intros [Hc Hrest]%andb_prop.
  apply negb_true_iff in Hc. rewrite Hc, (IH Hrest). reflexivity.
Qed.

Lemma Split_app (a b : string) :
  noSlash a = true -> Split (a +:+ String "/" b) = a :: Split b.
Proof.
  induction a as [| c rest IH]; [reflexivity |].
  cbn [noSlash]. intros [Hc Hrest]%andb_prop.
  apply negb_true_iff in Hc.
  simpl. rewrite Hc, (IH Hrest). reflexivity.
Qed.

Lemma parseDigits_allDigits (s : string) :
  forall acc z, parseDigits s acc = Some z -> allDigits s = true.
Proof.
  induction s as [| c rest IH]; [reflexivity |].
  intros acc z. cbn [parseDigits allDigits].
  destruct (digitVal c) as [d |] eqn:Hd; [| discriminate].
  intros H. rewrite (IH _ _ H), bool_decide_eq_true_2 by eauto. reflexivity.
Qed.

(** What [ParseInt] accepts is an integer segment. *)
Lemma ParseInt_segment (s : string) (z : Z) :
  ParseInt s = Some z -> isIntegerSegment s = true.
Proof.
  destruct s as [| c rest]; [discriminate |].
  cbn [ParseInt isIntegerSegment].
  set (body := if Ascii.eqb c "+" || Ascii.eqb c "-" then rest else String c rest).
  unfold ParseUint.
  destruct body as [| c' rest'] eqn:Hbody; [discriminate |].
  destruct (parseDigits (String c' rest') 0) as [un |] eqn:Hparse; [| discriminate].
  intros _. exact (parseDigits_allDigits _ _ _ Hparse).
Qed.

End StrconvFacts.

(** ** The stream converter *)

Section Converter.
Context (W : World) (workflowID : Z).

#[local] Abbreviation step := (convertStreamRunEvent W workflowID).
#[local] Abbreviation after := (stateAfter W workflowID).

Lemma stateAfter_cons st msg msgs :
  after st (msg :: msgs) = after (snd (step st msg)) msgs.
Proof. reflexivity. Qed.

Lemma stateAfter_app st pre post :
  after st (pre ++ post) = after (after st pre) post.
Proof. unfold stateAfter. apply foldl_app. Qed.

Lemma bumpMessageID_nodeID2Seq {A} (r : outcome A) st :
  ConvertState.nodeID2Seq (bumpMessageID r st) = ConvertState.nodeID2Seq st.
Proof. destruct r; reflexivity. Qed.

(** A message from another execution is dropped and changes nothing, once
    the root is a positive id. *)
Lemma other_execution_dropped st msg id :
  0 < ConvertState.executeID st ->
  messageExecuteID msg = Some id ->
  id <> ConvertState.executeID st ->
  step st msg = (Error ErrNoValue, st).
Proof.
  intros Hpos Hid Hne.
  assert (Hother : fromOtherExecution st id = true).
  { unfold fromOtherExecution. apply andb_true_intro. split.
    - apply Z.ltb_lt, Hpos.
    - apply negb_true_iff, Z.eqb_neq. congruence. }
  unfold convertStreamRunEvent, messageExecuteID in *.
  destruct (Message.StateMessage msg) as [sm |].
  - injection Hid as <-. unfold convertStateMessage. rewrite Hother. reflexivity.
  - destruct (Message.DataMessage msg) as [dm |]; [| discriminate].
    injection Hid as <-. unfold convertDataMessage.
    destruct (DataMessage.Type_ dm); [rewrite Hother |..]; reflexivity.
Qed.

(** Only a [Running] state message assigns [executeID]. *)
Lemma executeID_kept st msg :
  isRunningMessage msg = false ->
  ConvertState.executeID (snd (step st msg)) = ConvertState.executeID st.
Proof.
  unfold isRunningMessage, convertStreamRunEvent. intros Hrun.
  destruct (Message.StateMessage msg) as [sm |].
  - unfold convertStateMessage.
    destruct (fromOtherExecution st (StateMessage.ExecuteID sm)); [reflexivity |].
    destruct (StateMessage.Status sm); try discriminate;
      try destruct (StateMessage.LastError sm ≫= vo.asWorkflowError);
      try destruct (StateMessage.InterruptEvent sm);
      reflexivity.
  - destruct (Message.DataMessage msg) as [dm |]; [| reflexivity].
    unfold convertDataMessage.
    destruct (DataMessage.Type_ dm); [| reflexivity | reflexivity].
    destruct (fromOtherExecution st (DataMessage.ExecuteID dm)); reflexivity.
Qed.

Lemma executeID_before_running st pre :
  Forall (λ m, isRunningMessage m = false) pre ->
  ConvertState.executeID (after st pre) = ConvertState.executeID st.
Proof.
  intros Hpre. revert st. induction Hpre as [| msg pre Hmsg _ IH]; intros st.
  - reflexivity.
  - rewrite stateAfter_cons, IH. apply executeID_kept, Hmsg.
Qed.

(** A [Running] state message that is not from another execution assigns
    the root and the space. *)
Lemma running_sets_root st msg sm :
  Message.StateMessage msg = Some sm ->
  StateMessage.Status sm = WorkflowRunning ->
  fromOtherExecution st (StateMessage.ExecuteID sm) = false ->
  fst (step st msg) = Error ErrNoValue /\
  ConvertState.executeID (snd (step st msg)) = StateMessage.ExecuteID sm /\
  ConvertState.spaceID (snd (step st msg)) = StateMessage.SpaceID sm.
Proof.
  intros Hsm Hstatus Hroot.
  unfold convertStreamRunEvent, convertStateMessage.
  rewrite Hsm, Hroot, Hstatus. repeat split; reflexivity.
Qed.

(** A positive root never changes. *)
Lemma root_stable st msg :
  0 < ConvertState.executeID st ->
  ConvertState.executeID (snd (step st msg)) = ConvertState.executeID st.
Proof.
  intros Hpos.
  destruct (isRunningMessage msg) eqn:Hrun; [| apply executeID_kept, Hrun].
  unfold isRunningMessage in Hrun.
  destruct (Message.StateMessage msg) as [sm |] eqn:Hsm; [| discriminate].
  destruct (StateMessage.Status sm) eqn:Hstatus; try discriminate.
  destruct (fromOtherExecution st (StateMessage.ExecuteID sm)) eqn:Hother.
  - unfold convertStreamRunEvent, convertStateMessage. rewrite Hsm, Hother. reflexivity.
  - destruct (running_sets_root st msg sm Hsm Hstatus Hother) as (_ & -> & _).
    unfold fromOtherExecution in Hother.
    apply andb_false_iff in Hother as [Hother | Hother].
    + apply Z.ltb_ge in Hother. lia.
    + apply negb_false_iff, Z.eqb_eq in Hother. congruence.
Qed.

Lemma root_stable_after st msgs :
  0 < ConvertState.executeID st ->
  ConvertState.executeID (after st msgs) = ConvertState.executeID st.
Proof.
  revert st. induction msgs as [| msg msgs IH]; intros st Hpos; [reflexivity |].
  rewrite stateAfter_cons, IH; rewrite root_stable; auto.
Qed.

End Converter.

Lemma wrap64_succ (c : Z) :
  Strconv.wrap64 (Strconv.wrap64 c + 1) = Strconv.wrap64 (c + 1).
Proof.
  unfold Strconv.wrap64.
  replace ((c + 2 ^ 63) mod 2 ^ 64 - 2 ^ 63 + 1 + 2 ^ 63)
    with ((c + 2 ^ 63) mod 2 ^ 64 + 1) by lia.
  rewrite Zplus_mod_idemp_l. f_equal. f_equal. lia.
Qed.

(** Below [2 ^ 63] the wrap-around is not seen. *)
Lemma wrap64_small (c : Z) : Strconv.isInt64 c -> Strconv.wrap64 c = c.
Proof.
  unfold Strconv.isInt64, Strconv.minInt64, Strconv.maxInt64, Strconv.wrap64.
  intros Hc. rewrite Z.mod_small; lia.
Qed.

Section Sequence.
Context (W : World) (workflowID : Z).

#[local] Abbreviation step := (convertStreamRunEvent W workflowID).

Lemma state_message_no_chunk st sm nodeID :
  isMessageEventOf nodeID (fst (convertStateMessage W workflowID st sm)) = false /\
  ConvertState.nodeID2Seq (snd (convertStateMessage W workflowID st sm)) =
    ConvertState.nodeID2Seq st.
Proof.
  unfold convertStateMessage.
  destruct (fromOtherExecution st (StateMessage.ExecuteID sm)); [split; reflexivity |].
  destruct (StateMessage.Status sm);
    try destruct (StateMessage.LastError sm ≫= vo.asWorkflowError);
    try destruct (StateMessage.InterruptEvent sm);
    split; reflexivity.
Qed.

(** One call moves the counter of [nodeID] exactly when it returns a
    [Message] event of that node. *)
Lemma seq_step st msg nodeID :
  seqOf (snd (step st msg)) nodeID =
    if isMessageEventOf nodeID (fst (step st msg))
    then Strconv.wrap64 (seqOf st nodeID + 1)
    else seqOf st nodeID.
Proof.
  unfold convertStreamRunEvent, seqOf.
  destruct (Message.StateMessage msg) as [sm |].
  - destruct (state_message_no_chunk st sm nodeID) as [Hno Hseq].
    destruct (convertStateMessage W workflowID st sm) as [r st'].
    cbn [fst snd] in *. rewrite Hno, bumpMessageID_nodeID2Seq, Hseq. reflexivity.
  - destruct (Message.DataMessage msg) as [dm |]; [| reflexivity].
    unfold convertDataMessage.
    destruct (DataMessage.Type_ dm); [| reflexivity | reflexivity].
    destruct (fromOtherExecution st (DataMessage.ExecuteID dm)); [reflexivity |].
    cbn [fst snd bumpMessageID ConvertState.nodeID2Seq isMessageEventOf
         OpenAPIStreamRunFlowResponse.Event OpenAPIStreamRunFlowResponse.NodeID].
    replace (String.eqb MessageEvent MessageEvent) with true by reflexivity.
    cbn [andb]. unfold seqOf.
    destruct (decide (DataMessage.NodeID dm = nodeID)) as [-> | Hne].
    + rewrite bool_decide_eq_true_2 by reflexivity.
      rewrite lookup_insert_eq. reflexivity.
    + rewrite bool_decide_eq_false_2 by congruence.
      rewrite lookup_insert_ne by exact Hne. reflexivity.
Qed.

Lemma seq_counts msgs :
  forall st c0 nodeID,
    seqOf st nodeID = Strconv.wrap64 c0 ->
    seqOf (stateAfter W workflowID st msgs) nodeID =
      Strconv.wrap64 (c0 + Z.of_nat (answersEmitted nodeID (outputs W workflowID st msgs))).
Proof.
  induction msgs as [| msg msgs IH]; intros st c0 nodeID Hc0.
  - cbn. rewrite Z.add_0_r. exact Hc0.
  - rewrite stateAfter_cons. cbn [outputs].
    pose proof (seq_step st msg nodeID) as Hstep.
    destruct (step st msg) as [r st'] eqn:Hr. cbn [fst snd] in *.
    unfold answersEmitted in *.
    destruct (isMessageEventOf nodeID r) eqn:Hchunk.
    + rewrite filter_cons_True by exact Hchunk. cbn [length].
      rewrite (IH st' (c0 + 1)).
      * f_equal. lia.
      * rewrite Hstep, Hc0. apply wrap64_succ.
    + rewrite filter_cons_False by (rewrite Hchunk; discriminate).
      apply IH. congruence.
Qed.

End Sequence.




(** C8: after any history on a fresh converter, an [Answer] data message
    that is not from another execution gives one [Message] event with the
    node's title, the content, the finish flag, the token sum when usage is
    present, and as sequence number the number of [Message] events the node
    got before (0 for the first, one more for each next); a [FunctionCall] or
    [ToolResponse] data message gives nothing and changes nothing. *)
Theorem answer_chunks_are_numbered (W : World) (workflowID : Z)
    (history : list Message.t) (msg : Message.t) (dm : DataMessage.t) :
  Message.StateMessage msg = None ->
  Message.DataMessage msg = Some dm ->
  let st := stateAfter W workflowID initialConvertState history in
  let earlier :=
    answersEmitted (DataMessage.NodeID dm)
      (outputs W workflowID initialConvertState history) in
  (DataMessage.Type_ dm = Answer ->
   fromOtherExecution st (DataMessage.ExecuteID dm) = false ->
   exists ev,
     fst (convertStreamRunEvent W workflowID st msg) = Return (Some ev) /\
     OpenAPIStreamRunFlowResponse.Event ev = MessageEvent /\
     OpenAPIStreamRunFlowResponse.NodeTitle ev = Some (DataMessage.NodeTitle dm) /\
     OpenAPIStreamRunFlowResponse.Content ev = Some (DataMessage.Content dm) /\
     OpenAPIStreamRunFlowResponse.NodeIsFinish ev = Some (DataMessage.Last dm) /\
     OpenAPIStreamRunFlowResponse.Token ev =
       ((λ u, Strconv.wrap64 (TokenUsage.InputTokens u + TokenUsage.OutputTokens u))
          <$> DataMessage.Usage dm) /\
     OpenAPIStreamRunFlowResponse.NodeSeqID ev =
       Some (Strconv.Itoa (Strconv.wrap64 (Z.of_nat earlier))) /\
     answersEmitted (DataMessage.NodeID dm)
       (outputs W workflowID initialConvertState history ++
        [fst (convertStreamRunEvent W workflowID st msg)]) = S earlier) /\
  (DataMessage.Type_ dm <> Answer ->
   convertStreamRunEvent W workflowID st msg = (Error ErrNoValue, st)).
Proof.
  intros Hsm Hdm st earlier. split.
  - intros Htype Hroot.
    pose proof (seq_counts W workflowID history initialConvertState 0
                  (DataMessage.NodeID dm) eq_refl) as Hseq.
    fold st in Hseq. rewrite Z.add_0_l in Hseq. fold earlier in Hseq.
    unfold convertStreamRunEvent, convertDataMessage.
    rewrite Hsm, Hdm, Htype, Hroot. cbn [fst].
    eexists. repeat split.
    + cbn [OpenAPIStreamRunFlowResponse.NodeSeqID]. rewrite Hseq. reflexivity.
    + unfold answersEmitted. rewrite filter_app, length_app.
      rewrite filter_cons_True.
      * cbn [length filter]. fold (answersEmitted (DataMessage.NodeID dm)
                 (outputs W workflowID initialConvertState history)).
        fold earlier. cbn. lia.
      * cbn. rewrite bool_decide_eq_true_2 by reflexivity. reflexivity.
  - intros Htype.
    unfold convertStreamRunEvent, convertDataMessage. rewrite Hsm, Hdm.
    destruct (DataMessage.Type_ dm); [congruence | reflexivity | reflexivity].
Qed.

Lemma answer_chunks_are_numbered_witness :
  let history := [stateMsg 42 1 WorkflowRunning None None;
                  dataMsg 42 Answer "300" "a";
                  dataMsg 43 Answer "300" "tool";
                  dataMsg 42 Answer "301" "x";
                  dataMsg 42 Answer "300" "b"] in
  let st := stateAfter plainWorld 7 initialConvertState history in
  exists ev,
    fst (convertStreamRunEvent plainWorld 7 st (dataMsg 42 Answer "300" "c")) = Return (Some ev) /\
    OpenAPIStreamRunFlowResponse.Content ev = Some "c" /\
    OpenAPIStreamRunFlowResponse.NodeSeqID ev = Some "2".
Proof.
  intros history st.
  destruct (answer_chunks_are_numbered plainWorld 7 history
              (dataMsg 42 Answer "300" "c")
              {| DataMessage.ExecuteID := 42;
                 DataMessage.Type_ := Answer;
                 DataMessage.Content := "c";
                 DataMessage.NodeID := "300";
                 DataMessage.NodeTitle := "title 300";
                 DataMessage.NodeType := "LLM";
                 DataMessage.Last := false;
                 DataMessage.Usage := Some (TokenUsage.mk 1 2) |}
              eq_refl eq_refl) as [Hanswer _].
  destruct (Hanswer eq_refl eq_refl) as (ev & Hev & _ & _ & Hcontent & _ & _ & Hseq & _).
  exists ev. repeat split; [exact Hev | exact Hcontent | exact Hseq].
Defined.

(** ** Operations: the deferred recover, traces *)

Section Operations.
Context (W : World).

Lemma trace_recoverAndWrap {A} code (body : Op A) :
  trace (recoverAndWrap W code body) = trace body.
Proof. destruct body as [[a | e | v] t]; reflexivity. Qed.

Lemma result_recoverAndWrap {A} code (body : Op A) :
  result (recoverAndWrap W code body) =
    match result body with
    | Return a => Return a
    | Error err =>
        Error (vo.WrapIfNeeded code err [("cause", errorString W (vo.UnwrapRootErr err))])
    | Panic v =>
        Error (vo.WrapError code (safego.NewPanicErr v)
                 [("cause", errorString W (safego.NewPanicErr v))])
    end.
Proof. destruct body as [[a | e | v] t]; reflexivity. Qed.

Lemma recoverAndWrap_no_panic {A} code (body : Op A) :
  isPanic (result (recoverAndWrap W code body)) = false.
Proof. destruct body as [[a | e | v] t]; reflexivity. Qed.

Lemma bind_Return {A B} (a : A) t (k : A -> Op B) :
  bind (Return a, t) k = (result (k a), t ++ trace (k a)).
Proof. unfold bind, result, trace. destruct (k a). reflexivity. Qed.

Lemma bind_lift_Return {A B} (a : A) (k : A -> Op B) :
  bind (lift (Return a)) k = k a.
Proof. unfold lift. rewrite bind_Return. destruct (k a). reflexivity. Qed.

Lemma result_bind {A B} (m : Op A) (k : A -> Op B) :
  result (bind m k) =
    match result m with
    | Return a => result (k a)
    | Error e => Error e
    | Panic v => Panic v
    end.
Proof.
  destruct m as [[a | e | v] t]; try reflexivity.
  rewrite bind_Return. reflexivity.
Qed.

Lemma trace_bind {A B} (m : Op A) (k : A -> Op B) :
  trace (bind m k) =
    match result m with
    | Return a => trace m ++ trace (k a)
    | _ => trace m
    end.
Proof.
  destruct m as [[a | e | v] t]; try reflexivity.
  rewrite bind_Return. reflexivity.
Qed.

Lemma trace_lift {A} (o : outcome A) : trace (lift o) = [].
Proof. reflexivity. Qed.

Lemma result_lift {A} (o : outcome A) : result (lift o) = o.
Proof. reflexivity. Qed.

End Operations.

(** ** [GetProcess] up to [GetExecution] *)

Lemma checkUserSpace_trace (W : World) (uid spaceID : Z) :
  trace (checkUserSpace W uid spaceID) = [CallGetUserSpaceList uid].
Proof.
  unfold checkUserSpace, call, bind.
  destruct (GetUserSpaceList W uid) as [spaces | |]; try reflexivity.
  destruct (existsb (Z.eqb spaceID) spaces); reflexivity.
Qed.

Lemma requestedExecution_trace (req : GetWorkflowProcessRequest.t) :
  trace (requestedExecution req) = [].
Proof.
  unfold requestedExecution.
  destruct (GetWorkflowProcessRequest.SubExecuteID req) as [sub |].
  - destruct (mustParseInt64 sub); try reflexivity. rewrite bind_lift_Return.
    destruct (mustParseInt64 (GetWorkflowProcessRequest.WorkflowID req)); try reflexivity.
    rewrite bind_lift_Return.
    destruct (mustParseInt64 (getOr (GetWorkflowProcessRequest.ExecuteID req)));
      reflexivity.
  - destruct (mustParseInt64 (getOr (GetWorkflowProcessRequest.ExecuteID req)));
      try reflexivity.
    rewrite bind_lift_Return.
    destruct (mustParseInt64 (GetWorkflowProcessRequest.WorkflowID req)); reflexivity.
Qed.

(** Once [GetExecution] is called and returns [exe], [GetProcess] ends the
    way [processData] does on [exe], behind the deferred recover. *)
Lemma GetProcess_after_GetExecution (W : World) (ctx : Context.t)
    (req : GetWorkflowProcessRequest.t) (id workflowID root : Z)
    (exe : WorkflowExecution.t) :
  In (CallGetExecution id workflowID root) (trace (GetProcess W ctx req)) ->
  GetExecution W id workflowID root = Return exe ->
  result (GetProcess W ctx req) =
    result (recoverAndWrap W ErrWorkflowOperationFail (lift (processData W exe))).
Proof.
  unfold GetProcess. rewrite trace_recoverAndWrap, !result_recoverAndWrap.
  destruct (MustGetUIDFromCtx ctx) as [uid | |]; [| intros [] | intros []].
  rewrite bind_lift_Return.
  destruct (mustParseInt64 (getOr (GetWorkflowProcessRequest.SpaceID req)))
    as [spaceID | |]; [| intros [] | intros []].
  rewrite bind_lift_Return.
  rewrite trace_bind, result_bind.
  pose proof (checkUserSpace_trace W uid spaceID) as Hspace.
  destruct (checkUserSpace W uid spaceID) as [[[] | |] t]; cbn [result trace fst snd] in *;
    subst t; [| intros [[=] | []] | intros [[=] | []]].
  rewrite trace_bind, result_bind.
  pose proof (requestedExecution_trace req) as Hids.
  destruct (requestedExecution req) as [[[[id0 workflowID0] root0] | |] t];
    cbn [result trace fst snd] in *; subst t; [| intros [[=] | []] | intros [[=] | []]].
  rewrite trace_bind, result_bind. cbn [call result trace fst snd app].
  intros Hin Hget.
  assert (Heq : CallGetExecution id0 workflowID0 root0 = CallGetExecution id workflowID root).
  { destruct Hin as [[=] | Hin].
    destruct (GetExecution W id0 workflowID0 root0); cbn in Hin;
      destruct Hin as [Heq | []]; exact Heq. }
  injection Heq as -> -> ->. rewrite Hget. reflexivity.
Qed.

Lemma GetProcess_Return (W : World) (ctx : Context.t)
    (req : GetWorkflowProcessRequest.t) (id workflowID root : Z)
    (exe : WorkflowExecution.t) (data : GetWorkFlowProcessData.t) :
  In (CallGetExecution id workflowID root) (trace (GetProcess W ctx req)) ->
  GetExecution W id workflowID root = Return exe ->
  result (GetProcess W ctx req) = Return data ->
  processData W exe = Return data.
Proof.
  intros Hcall Hget.
  rewrite (GetProcess_after_GetExecution W ctx req id workflowID root exe Hcall Hget).
  rewrite result_recoverAndWrap, result_lift.
  destruct (processData W exe); [congruence | discriminate | discriminate].
Qed.

(** ** Event ids *)

Lemma parseEventID_eventKey (executeID eventID : Z) :
  Strconv.isInt64 executeID -> Strconv.isInt64 eventID ->
  parseEventID (eventKey executeID eventID) = Return (executeID, eventID).
Proof.
  intros He Hi. unfold parseEventID, eventKey.
  change ("/" +:+ Strconv.FormatInt eventID) with (String "/" (Strconv.FormatInt eventID)).
  rewrite StrconvFacts.Split_app by apply StrconvFacts.FormatInt_noSlash.
  rewrite StrconvFacts.Split_noSlash by apply StrconvFacts.FormatInt_noSlash.
  rewrite !StrconvFacts.ParseInt_FormatInt by assumption. reflexivity.
Qed.

Lemma parseEventID_rejects (key : string) :
  wellFormedKey key = false -> exists e, parseEventID key = Error e.
Proof.
  unfold wellFormedKey, parseEventID.
  destruct (Strconv.Split key) as [| s0 [| s1 [| s2 l]]]; eauto.
  intros Hbad.
  destruct (Strconv.ParseInt s0) as [e |] eqn:H0; [| eauto].
  destruct (Strconv.ParseInt s1) as [i |] eqn:H1; [| eauto].
  rewrite (StrconvFacts.ParseInt_segment _ _ H0), (StrconvFacts.ParseInt_segment _ _ H1) in Hbad.
  discriminate.
Qed.

(** [OpenAPIStreamResume] calls [StreamResume], if at all, once the event id
    is parsed, with the parsed pair. *)
Lemma OpenAPIStreamResume_calls (W : World) (ctx : Context.t)
    (req : OpenAPIStreamResumeFlowRequest.t) :
  match parseEventID (OpenAPIStreamResumeFlowRequest.EventID req) with
  | Return (executeID, eventID) =>
      trace (OpenAPIStreamResume W ctx req) = [] \/
      exists cfg,
        trace (OpenAPIStreamResume W ctx req) =
          [CallStreamResume
             {| ResumeRequest.ExecuteID := executeID;
                ResumeRequest.EventID := eventID;
                ResumeRequest.ResumeData := OpenAPIStreamResumeFlowRequest.ResumeData req |}
             cfg]
  | _ =>
      trace (OpenAPIStreamResume W ctx req) = [] /\
      isError (result (OpenAPIStreamResume W ctx req)) = true
  end.
Proof.
  unfold OpenAPIStreamResume.
  rewrite trace_recoverAndWrap, result_recoverAndWrap.
  destruct (parseEventID (OpenAPIStreamResumeFlowRequest.EventID req))
    as [[executeID eventID] | e | v]; [| split; reflexivity | split; reflexivity].
  rewrite bind_lift_Return.
  destruct (mustParseInt64 (OpenAPIStreamResumeFlowRequest.WorkflowID req));
    [| left; reflexivity | left; reflexivity].
  rewrite bind_lift_Return.
  destruct (GetApiAuthFromCtx ctx); [| left; reflexivity | left; reflexivity].
  rewrite bind_lift_Return.
  match goal with
  | |- context [bind (lift ?o) _] => destruct o
  end; [| left; reflexivity | left; reflexivity].
  rewrite bind_lift_Return.
  right. eexists. rewrite trace_bind. cbn [call result fst trace snd].
  match goal with
  | |- context [StreamResume W ?r ?c] => destruct (StreamResume W r c)
  end; reflexivity.
Qed.

Lemma root_established (W : World) (workflowID : Z) (pre mid : list Message.t)
    (running : Message.t) (rm : StateMessage.t) :
  Forall (λ m, isRunningMessage m = false) pre ->
  Message.StateMessage running = Some rm ->
  StateMessage.Status rm = WorkflowRunning ->
  0 < StateMessage.ExecuteID rm ->
  ConvertState.executeID
    (stateAfter W workflowID initialConvertState (pre ++ running :: mid))
  = StateMessage.ExecuteID rm.
Proof.
  intros Hpre Hrm Hstatus Hpos.
  pose proof (executeID_before_running W workflowID initialConvertState pre Hpre) as Hzero.
  cbn [initialConvertState ConvertState.executeID] in Hzero.
  assert (Hfresh : fromOtherExecution (stateAfter W workflowID initialConvertState pre)
                     (StateMessage.ExecuteID rm) = false).
  { unfold fromOtherExecution. rewrite Hzero. reflexivity. }
  destruct (running_sets_root W workflowID _ running rm Hrm Hstatus Hfresh)
    as (_ & Hroot & _).
  rewrite stateAfter_app, stateAfter_cons, root_stable_after; rewrite Hroot; auto.
Qed.

(** What [OpenAPIStreamResume] does with a key of two integers, for a
    request whose other ids parse and a context with an API key. *)
Lemma OpenAPIStreamResume_resumes (W : World) (ctx : Context.t)
    (req : OpenAPIStreamResumeFlowRequest.t) (executeID eventID workflow : Z)
    (info : ApiKeyInfo.t) :
  parseEventID (OpenAPIStreamResumeFlowRequest.EventID req) = Return (executeID, eventID) ->
  mustParseInt64 (OpenAPIStreamResumeFlowRequest.WorkflowID req) = Return workflow ->
  GetApiAuthFromCtx ctx = Return info ->
  (forall text,
     OpenAPIStreamResumeFlowRequest.ConnectorID req = Some text -> ~ malformed text) ->
  let resumeReq :=
    {| ResumeRequest.ExecuteID := executeID;
       ResumeRequest.EventID := eventID;
       ResumeRequest.ResumeData := OpenAPIStreamResumeFlowRequest.ResumeData req |} in
  exists cfg,
    trace (OpenAPIStreamResume W ctx req) = [CallStreamResume resumeReq cfg] /\
    ExecuteConfig.Operator cfg = ApiKeyInfo.UserID info /\
    forall sr,
      StreamResume W resumeReq cfg = Return sr ->
      result (OpenAPIStreamResume W ctx req)
      = Return (StreamReader.mk workflow initialConvertState sr).
Proof.
  intros Hkey Hworkflow Hinfo Hconnector resumeReq.
  assert (Hc : exists connectorID,
            match OpenAPIStreamResumeFlowRequest.ConnectorID req with
            | Some text => mustParseInt64 text
            | None => Return 0
            end = Return connectorID).
  { destruct (OpenAPIStreamResumeFlowRequest.ConnectorID req) as [text |]; [| eauto].
    unfold mustParseInt64. specialize (Hconnector text eq_refl). unfold malformed in Hconnector.
    destruct (Strconv.ParseInt text); [eauto | contradiction]. }
  destruct Hc as [connectorID Hc].
  unfold OpenAPIStreamResume.
  rewrite trace_recoverAndWrap, result_recoverAndWrap.
  rewrite Hkey, bind_lift_Return, Hworkflow, bind_lift_Return, Hinfo, bind_lift_Return.
  cbv zeta. rewrite Hc, bind_lift_Return.
  eexists. rewrite trace_bind, result_bind. cbn [call result fst trace snd].
  split.
  { match goal with
    | |- context [StreamResume W ?r ?c] => destruct (StreamResume W r c)
    end; reflexivity. }
  split; [reflexivity |].
  intros sr Hsr. fold resumeReq. rewrite Hsr. reflexivity.
Qed.

(** C6, as amended: once a [Running] state message with a positive id has
    set the root of the stream, the [Interrupt] event of an interrupted state
    message of that execution carries the key [executeID "/" eventID] with
    the id of the interrupted execution and the id of its interrupt event.
    [OpenAPIStreamResume] parses that key back into the same pair and, for a
    request whose workflow id and connector id parse and a context with an
    API key, calls [StreamResume] once, with that pair and the resume data,
    and returns the reader of the stream it gets. A key that is not exactly
    two ["/"]-separated integer segments is rejected with an error before
    anything is called. *)
Theorem interrupt_key_round_trip (W : World) (workflowID : Z)
    (pre mid : list Message.t) (running msg : Message.t) (rm sm : StateMessage.t)
    (ie : InterruptEvent.t) :
  Forall (λ m, isRunningMessage m = false) pre ->
  Message.StateMessage running = Some rm ->
  StateMessage.Status rm = WorkflowRunning ->
  0 < StateMessage.ExecuteID rm ->
  Message.StateMessage msg = Some sm ->
  StateMessage.Status sm = WorkflowInterrupted ->
  StateMessage.InterruptEvent sm = Some ie ->
  StateMessage.ExecuteID sm = StateMessage.ExecuteID rm ->
  Strconv.isInt64 (StateMessage.ExecuteID sm) ->
  Strconv.isInt64 (InterruptEvent.ID ie) ->
  let st := stateAfter W workflowID initialConvertState (pre ++ running :: mid) in
  let key := Strconv.FormatInt (StateMessage.ExecuteID sm) +:+ "/" +:+
             Strconv.FormatInt (InterruptEvent.ID ie) in
  (exists ev interrupt,
     fst (convertStreamRunEvent W workflowID st msg) = Return (Some ev) /\
     OpenAPIStreamRunFlowResponse.Event ev = InterruptEventName /\
     OpenAPIStreamRunFlowResponse.InterruptData ev = Some interrupt /\
     Interrupt.EventID interrupt = key) /\
  parseEventID key = Return (StateMessage.ExecuteID sm, InterruptEvent.ID ie) /\
  (forall ctx req workflow info,
     OpenAPIStreamResumeFlowRequest.EventID req = key ->
     mustParseInt64 (OpenAPIStreamResumeFlowRequest.WorkflowID req) = Return workflow ->
     GetApiAuthFromCtx ctx = Return info ->
     (forall text,
        OpenAPIStreamResumeFlowRequest.ConnectorID req = Some text -> ~ malformed text) ->
     let resumeReq :=
       {| ResumeRequest.ExecuteID := StateMessage.ExecuteID sm;
          ResumeRequest.EventID := InterruptEvent.ID ie;
          ResumeRequest.ResumeData := OpenAPIStreamResumeFlowRequest.ResumeData req |} in
     exists cfg,
       trace (OpenAPIStreamResume W ctx req) = [CallStreamResume resumeReq cfg] /\
       forall sr,
         StreamResume W resumeReq cfg = Return sr ->
         result (OpenAPIStreamResume W ctx req)
         = Return (StreamReader.mk workflow initialConvertState sr)) /\
  (forall key',
     wellFormedKey key' = false ->
     isError (parseEventID key') = true /\
     forall ctx req,
       OpenAPIStreamResumeFlowRequest.EventID req = key' ->
       isError (result (OpenAPIStreamResume W ctx req)) = true /\
       trace (OpenAPIStreamResume W ctx req) = []).
Proof.
  intros Hpre Hrm Hrunning Hpos Hsm Hstatus Hie Hsame Hexe Hid st key.
  assert (Hroot : ConvertState.executeID st = StateMessage.ExecuteID sm).
  { rewrite Hsame. now apply root_established. }
  assert (Hown : fromOtherExecution st (StateMessage.ExecuteID sm) = false).
  { unfold fromOtherExecution. rewrite Hroot, Z.eqb_refl. apply andb_false_r. }
  pose proof (parseEventID_eventKey _ _ Hexe Hid) as Hparse.
  change (eventKey (StateMessage.ExecuteID sm) (InterruptEvent.ID ie)) with key in Hparse.
  split; [| split; [exact Hparse |]; split].
  - unfold convertStreamRunEvent, convertStateMessage.
    rewrite Hsm, Hown, Hstatus, Hie. cbn [fst].
    eexists. eexists. split; [reflexivity |].
    split; [reflexivity |]. split; [reflexivity |].
    rewrite Hroot. destruct (InterruptEvent.ToolInterruptEvent ie); reflexivity.
  - intros ctx req workflow info Hreq Hworkflow Hinfo Hconnector resumeReq.
    rewrite <- Hreq in Hparse.
    destruct (OpenAPIStreamResume_resumes W ctx req _ _ workflow info
                Hparse Hworkflow Hinfo Hconnector) as (cfg & Htrace & _ & Hresult).
    exists cfg. split; [exact Htrace | exact Hresult].
  - intros key' Hbad.
    destruct (parseEventID_rejects key' Hbad) as [e He].
    split; [rewrite He; reflexivity |].
    intros ctx req Hreq.
    pose proof (OpenAPIStreamResume_calls W ctx req) as Hcalls.
    rewrite Hreq, He in Hcalls. destruct Hcalls as [Htrace Hres]. auto.
Qed.

(** ** Converting node executions *)

Lemma convertNodeExecution_eq (W : World) (nodeExe : NodeExecution.t) :
  convertNodeExecution W nodeExe =
    match convertIndexed W (NodeExecution.IndexedExecutions nodeExe) with
    | Return subResults => finishNodeResult W nodeExe subResults
    | Error e => Error e
    | Panic v => Panic v
    end.
Proof. destruct nodeExe. reflexivity. Qed.

Lemma convertIndexed_length (W : World) (l : list (option NodeExecution.t)) :
  forall rs, convertIndexed W l = Return rs -> length rs = length l.
Proof.
  unfold convertIndexed.
  induction l as [| [sub |] rest IH]; intros rs; cbn [convertIndexedWith].
  - intros [= <-]. reflexivity.
  - destruct (convertNodeExecution W sub); try discriminate.
    destruct (convertIndexedWith (convertNodeExecution W) rest) as [rs' | |];
      try discriminate.
    intros [= <-]. cbn. f_equal. apply IH. reflexivity.
  - destruct (convertIndexedWith (convertNodeExecution W) rest) as [rs' | |];
      try discriminate.
    intros [= <-]. cbn. f_equal. apply IH. reflexivity.
Qed.

(** What [convertNodeExecution] returns has the node's id and status; it is
    a batch result exactly when the node carries iterations, and its [Batch]
    is then the JSON of an array with one entry per iteration. *)
Lemma convertNodeExecution_Return (W : World) (nodeExe : NodeExecution.t)
    (nr : NodeResult.t) :
  convertNodeExecution W nodeExe = Return nr ->
  NodeResult.NodeId nr = NodeExecution.NodeID nodeExe /\
  NodeResult.NodeStatus nr = NodeExecution.Status nodeExe /\
  NodeResult.NodeType nr = GetDisplayKey W (NodeExecution.NodeType nodeExe) /\
  match NodeExecution.IndexedExecutions nodeExe with
  | [] => NodeResult.IsBatch nr = None /\ NodeResult.Batch nr = None
  | _ :: _ =>
      NodeResult.IsBatch nr = Some true /\
      exists subResults text,
        length subResults = length (NodeExecution.IndexedExecutions nodeExe) /\
        MarshalNodeResults W subResults = Return text /\
        NodeResult.Batch nr = Some text
  end.
Proof.
  rewrite convertNodeExecution_eq.
  destruct (convertIndexed W (NodeExecution.IndexedExecutions nodeExe))
    as [subResults | |] eqn:Hsubs; try discriminate.
  apply convertIndexed_length in Hsubs.
  unfold finishNodeResult.
  destruct (NodeExecution.IndexedExecutions nodeExe) as [| it its] eqn:Hits.
  - cbn [length Nat.eqb negb].
    match goal with
    | |- context [match ?o with Return _ => _ | Error _ => _ | Panic _ => _ end = _] =>
        destruct o; try discriminate
    end.
    intros [= <-]. repeat split; reflexivity.
  - cbn [length Nat.eqb negb].
    destruct (MarshalNodeResults W subResults) as [text | |] eqn:Htext; try discriminate.
    match goal with
    | |- context [match ?o with Return _ => _ | Error _ => _ | Panic _ => _ end = _] =>
        destruct o; try discriminate
    end.
    intros [= <-]. repeat split; try reflexivity.
    exists subResults, text. repeat split; [exact Hsubs | exact Htext].
Qed.

(** ** The loop of [GetProcess] over the node executions *)

Lemma dispose_shell (W : World) st nodeExe nr key :
  isParentShell key nodeExe ->
  dispose W st nodeExe nr =
    match LoopState.batchNodeID2InnerNodeResult st !! key with
    | Some inner => Merged (mergeBatchModeNodes inner nr) None (Some key)
    | None => CachedParent key
    end.
Proof.
  intros [Htype <-]. unfold dispose.
  rewrite (proj2 (String.eqb_eq _ _) Htype). reflexivity.
Qed.

Lemma dispose_inner (W : World) st nodeExe nr key :
  isInnerPayload W key nodeExe ->
  dispose W st nodeExe nr =
    match LoopState.batchNodeID2NodeResult st !! key with
    | Some parentNodeResult => Merged (mergeBatchModeNodes parentNodeResult nr) (Some key) None
    | None => CachedInner key
    end.
Proof.
  intros (Htype & Hindexed & Hparent & Hgen). unfold dispose.
  rewrite (proj2 (String.eqb_neq _ _) Htype), Hparent, Hgen.
  destruct (NodeExecution.IndexedExecutions nodeExe); [congruence | reflexivity].
Qed.

(** The result of [mergeBatchModeNodes parent inner] has the id, name,
    status, error text and level, input, output, raw output, cost and token
    fields of [parent], and the type, batch flag, batch array and extra of
    [inner]; and that is the result the loop of [GetProcess] lists when the
    inner payload meets the cached result of its parent shell. *)
Theorem mergeBatchModeNodes_fields (W : World) (parent inner : NodeResult.t) :
  let merged := mergeBatchModeNodes parent inner in
  (NodeResult.NodeId merged = NodeResult.NodeId parent /\
   NodeResult.NodeName merged = NodeResult.NodeName parent /\
   NodeResult.NodeStatus merged = NodeResult.NodeStatus parent /\
   NodeResult.ErrorInfo merged = NodeResult.ErrorInfo parent /\
   NodeResult.ErrorLevel merged = NodeResult.ErrorLevel parent /\
   NodeResult.Input merged = NodeResult.Input parent /\
   NodeResult.Output merged = NodeResult.Output parent /\
   NodeResult.RawOutput merged = NodeResult.RawOutput parent /\
   NodeResult.NodeExeCost merged = NodeResult.NodeExeCost parent /\
   NodeResult.TokenAndCost merged = NodeResult.TokenAndCost parent) /\
  (NodeResult.NodeType merged = NodeResult.NodeType inner /\
   NodeResult.IsBatch merged = NodeResult.IsBatch inner /\
   NodeResult.Batch merged = NodeResult.Batch inner /\
   NodeResult.Extra merged = NodeResult.Extra inner) /\
  (forall st nodeExe key,
     isInnerPayload W key nodeExe ->
     LoopState.batchNodeID2NodeResult st !! key = Some parent ->
     exists st',
       loopBody W st nodeExe inner = Return st' /\
       LoopState.NodeResults st' = LoopState.NodeResults st ++ [merged] /\
       LoopState.batchNodeID2NodeResult st' !! key = None).
Proof.
  intros merged. split; [repeat split |]. split; [repeat split |].
  intros st nodeExe key Hpayload Hparent. unfold loopBody.
  rewrite (dispose_inner W st nodeExe inner key Hpayload), Hparent.
  eexists. split; [reflexivity |]. split; [reflexivity |].
  cbn. apply lookup_delete_eq.
Qed.

(** The loop on the two halves of a node in batch mode, in both orders. *)
Lemma nodeLoop_two_halves (W : World) (key : string)
    (shell inner : NodeExecution.t) (shellResult innerResult : NodeResult.t) :
  isParentShell key shell ->
  isInnerPayload W key inner ->
  convertNodeExecution W shell = Return shellResult ->
  convertNodeExecution W inner = Return innerResult ->
  (exists st,
     nodeLoop W initialLoopState [shell; inner] = Return st /\
     LoopState.NodeResults st = [mergeBatchModeNodes shellResult innerResult] /\
     LoopState.batchNodeID2NodeResult st = ∅ /\
     NodeResult.NodeId (mergeBatchModeNodes shellResult innerResult) = key /\
     NodeResult.IsBatch (mergeBatchModeNodes shellResult innerResult) = Some true /\
     exists subResults text,
       length subResults = length (NodeExecution.IndexedExecutions inner) /\
       MarshalNodeResults W subResults = Return text /\
       NodeResult.Batch (mergeBatchModeNodes shellResult innerResult) = Some text) /\
  (exists st,
     nodeLoop W initialLoopState [inner; shell] = Return st /\
     LoopState.NodeResults st = [mergeBatchModeNodes innerResult shellResult] /\
     LoopState.batchNodeID2NodeResult st = ∅ /\
     NodeResult.NodeId (mergeBatchModeNodes innerResult shellResult) =
       NodeExecution.NodeID inner /\
     NodeResult.IsBatch (mergeBatchModeNodes innerResult shellResult) =
       NodeResult.IsBatch shellResult /\
     NodeResult.Batch (mergeBatchModeNodes innerResult shellResult) =
       NodeResult.Batch shellResult).
Proof.
  intros Hshell Hinner Hcs Hci.
  destruct (convertNodeExecution_Return W shell shellResult Hcs) as (Hsid & _ & _ & _).
  destruct (convertNodeExecution_Return W inner innerResult Hci) as (Hiid & _ & _ & Hbatch).
  pose proof Hinner as (_ & Hindexed & _ & _).
  destruct (NodeExecution.IndexedExecutions inner) as [| it its] eqn:Hits; [congruence |].
  destruct Hbatch as (HisBatch & subResults & text & Hlen & Htext & Hb).
  pose proof Hshell as [_ Hkey].
  split.
  - cbn [nodeLoop]. rewrite Hcs. unfold loopBody at 1.
    rewrite (dispose_shell W _ shell shellResult key Hshell).
    cbn [initialLoopState LoopState.batchNodeID2InnerNodeResult]. rewrite lookup_empty.
    rewrite Hci. unfold loopBody.
    rewrite (dispose_inner W _ inner innerResult key Hinner).
    cbn [LoopState.batchNodeID2NodeResult LoopState.batchNodeID2InnerNodeResult
         LoopState.NodeResults LoopState.successNum LoopState.hasNodeErr LoopState.endNodeExe
         initialLoopState].
    rewrite lookup_insert_eq.
    eexists. split; [reflexivity |].
    cbn [appendResult LoopState.NodeResults LoopState.batchNodeID2NodeResult app].
    split; [reflexivity |]. split; [rewrite delete_insert_eq; apply delete_empty |].
    split; [cbn; congruence |]. split; [exact HisBatch |].
    exists subResults, text. auto.
  - cbn [nodeLoop]. rewrite Hci. unfold loopBody at 1.
    rewrite (dispose_inner W _ inner innerResult key Hinner).
    cbn [initialLoopState LoopState.batchNodeID2NodeResult]. rewrite lookup_empty.
    rewrite Hcs. unfold loopBody.
    rewrite (dispose_shell W _ shell shellResult key Hshell).
    cbn [LoopState.batchNodeID2NodeResult LoopState.batchNodeID2InnerNodeResult
         LoopState.NodeResults LoopState.successNum LoopState.hasNodeErr LoopState.endNodeExe
         initialLoopState].
    rewrite lookup_insert_eq.
    eexists. split; [reflexivity |].
    cbn [appendResult LoopState.NodeResults LoopState.batchNodeID2NodeResult app].
    split; [reflexivity |]. split; [reflexivity |].
    repeat split. exact Hiid.
Qed.

(** What [dispose] decides, read backwards. *)
Lemma dispose_spec (W : World) (st : LoopState.t) (nodeExe : NodeExecution.t)
    (nr : NodeResult.t) :
  match dispose W st nodeExe nr with
  | Listed nr' =>
      nr' = nr ∧ NodeExecution.NodeType nodeExe ≠ NodeTypeBatch ∧
      ∀ k, ¬ isInnerPayload W k nodeExe
  | Merged merged clearParent clearInner =>
      (isParentShell (NodeExecution.NodeID nodeExe) nodeExe ∧
       ∃ inner,
         LoopState.batchNodeID2InnerNodeResult st !! NodeExecution.NodeID nodeExe = Some inner ∧
         merged = mergeBatchModeNodes inner nr ∧
         clearParent = None ∧ clearInner = Some (NodeExecution.NodeID nodeExe)) ∨
      (∃ p parent,
         isInnerPayload W p nodeExe ∧
         LoopState.batchNodeID2NodeResult st !! p = Some parent ∧
         merged = mergeBatchModeNodes parent nr ∧
         clearParent = Some p ∧ clearInner = None)
  | CachedParent k =>
      isParentShell k nodeExe ∧ LoopState.batchNodeID2InnerNodeResult st !! k = None
  | CachedInner k =>
      isInnerPayload W k nodeExe ∧ LoopState.batchNodeID2NodeResult st !! k = None
  | NilParentNodeID => True
  end.
Proof.
  unfold dispose, isParentShell, isInnerPayload.
  destruct (String.eqb (NodeExecution.NodeType nodeExe) NodeTypeBatch) eqn:Htype.
  - apply String.eqb_eq in Htype.
    destruct (LoopState.batchNodeID2InnerNodeResult st !! NodeExecution.NodeID nodeExe)
      as [inner |] eqn:Hinner.
    + left. split; [auto |]. exists inner. auto.
    + auto.
  - apply String.eqb_neq in Htype.
    destruct (NodeExecution.IndexedExecutions nodeExe) as [| it its] eqn:Hits.
    + cbn. split; [reflexivity |]. split; [exact Htype |].
      intros k (_ & Hne & _). congruence.
    + cbn [length Nat.eqb negb].
      destruct (NodeExecution.ParentNodeID nodeExe) as [p |] eqn:Hp; [| exact I].
      destruct (IsGeneratedNodeForBatchMode W (NodeExecution.NodeID nodeExe) p) eqn:Hgen.
      * destruct (LoopState.batchNodeID2NodeResult st !! p) as [parent |] eqn:Hparent.
        -- right. exists p, parent. repeat split; auto; discriminate.
        -- repeat split; auto; discriminate.
      * split; [reflexivity |]. split; [exact Htype |].
        intros k (_ & _ & [= <-] & Hgen'). congruence.
Qed.

Lemma attachFailReason_ids (P : string -> Prop) workflowFail failReason st :
  P ExitNodeKey ->
  Forall (λ nr, P (NodeResult.NodeId nr)) (LoopState.NodeResults st) ->
  Forall (λ nr, P (NodeResult.NodeId nr)) (attachFailReason workflowFail failReason st).
Proof.
  intros Hexit Hres. unfold attachFailReason.
  destruct (workflowFail && negb (LoopState.hasNodeErr st)); [| exact Hres].
  destruct failReason as [reason |]; [| exact Hres].
  assert (Hend : Forall (λ nr, P (NodeResult.NodeId nr))
                   (LoopState.NodeResults st ++ [syntheticEndNode reason])).
  { apply Forall_app. split; [exact Hres |]. constructor; [exact Hexit | constructor]. }
  destruct (LoopState.endNodeExe st) as [[i | nr] |].
  - apply Forall_alter; [exact Hres |]. intros x _ Hx. exact Hx.
  - exact Hres.
  - destruct (LoopState.NodeResults st) as [| only [| second rest]]; try exact Hend.
    destruct (negb (String.eqb (NodeResult.NodeType only) NodeTemplateType_Start));
      [| exact Hend].
    inversion Hres; subst. constructor; [assumption | constructor].
Qed.

Section InnerOnly.
Context (W : World) (key xid : string).

#[local] Abbreviation quiet := (noShellAround W key xid).

Lemma loopBody_innerOnly st nodeExe nr st' :
  innerOnlyInv key xid st ->
  quiet nodeExe ->
  NodeResult.NodeId nr = NodeExecution.NodeID nodeExe ->
  loopBody W st nodeExe nr = Return st' ->
  innerOnlyInv key xid st'.
Proof.
  intros (Hres & Hshells & Hinners) [Hnoshell Hxid] Hid. unfold loopBody.
  pose proof (dispose_spec W st nodeExe nr) as Hspec.
  destruct (dispose W st nodeExe nr) as [nr' | merged cp ci | k | k |];
    [| | | | discriminate]; intros [= <-].
  - destruct Hspec as (-> & _ & Hnoinner).
    split; [| split]; cbn; auto.
    apply Forall_app. split; [exact Hres |]. constructor; [| constructor].
    rewrite Hid. intros Heq. exact (Hnoinner key (Hxid Heq)).
  - destruct Hspec as [(Hshell & inner & Hinner & -> & -> & ->)
                      | (p & parent & Hpayload & Hparent & -> & -> & ->)].
    + assert (Hk : NodeExecution.NodeID nodeExe ≠ key).
      { intros Heq. apply Hnoshell. rewrite <- Heq. exact Hshell. }
      split; [| split]; cbn.
      * apply Forall_app. split; [exact Hres |]. constructor; [| constructor].
        cbn. exact (Hinners _ _ Hinner Hk).
      * exact Hshells.
      * intros k v [_ Hv]%lookup_delete_Some. exact (Hinners k v Hv).
    + split; [| split]; cbn.
      * apply Forall_app. split; [exact Hres |]. constructor; [| constructor].
        cbn. exact (Hshells _ _ Hparent).
      * intros k v [_ Hv]%lookup_delete_Some. exact (Hshells k v Hv).
      * exact Hinners.
  - destruct Hspec as [[Htype _] _].
    split; [| split]; cbn; auto.
    intros k' v [[_ <-] | [_ Hv]]%lookup_insert_Some; [| exact (Hshells k' v Hv)].
    rewrite Hid. intros Heq. destruct (Hxid Heq) as (Hno & _). contradiction.
  - destruct Hspec as [(_ & _ & Hparent & _) _].
    split; [| split]; cbn; auto.
    intros k' v [[<- <-] | [_ Hv]]%lookup_insert_Some Hk; [| exact (Hinners k' v Hv Hk)].
    rewrite Hid. intros Heq. destruct (Hxid Heq) as (_ & _ & Hparent' & _). congruence.
Qed.

Lemma nodeLoop_innerOnly l :
  forall st st',
    Forall quiet l ->
    innerOnlyInv key xid st ->
    nodeLoop W st l = Return st' ->
    innerOnlyInv key xid st'.
Proof.
  induction l as [| nodeExe l IH]; intros st st' Hl Hinv; cbn [nodeLoop].
  - intros [= <-]. exact Hinv.
  - inversion Hl as [| ? ? Hq Hl']; subst.
    destruct (convertNodeExecution W nodeExe) as [nr | |] eqn:Hnr; try discriminate.
    destruct (convertNodeExecution_Return W nodeExe nr Hnr) as (Hid & _).
    destruct (loopBody W st nodeExe nr) as [st1 | |] eqn:Hbody; try discriminate.
    apply IH; [exact Hl' |].
    exact (loopBody_innerOnly st nodeExe nr st1 Hinv Hq Hid Hbody).
Qed.

End InnerOnly.

Section ShellOnly.
Context (W : World) (key : string).

Lemma loopBody_shellOnly seen st nodeExe nr st' :
  shellOnlyInv W key seen st ->
  ¬ isInnerPayload W key nodeExe ->
  convertNodeExecution W nodeExe = Return nr ->
  loopBody W st nodeExe nr = Return st' ->
  shellOnlyInv W key (nodeExe :: seen) st'.
Proof.
  intros [Hnone Hseen] Hnopayload Hnr. unfold loopBody.
  pose proof (dispose_spec W st nodeExe nr) as Hspec.
  assert (Hkeep : ∀ st1,
             LoopState.batchNodeID2InnerNodeResult st1 !! key = None ->
             LoopState.batchNodeID2NodeResult st1 !! key =
               LoopState.batchNodeID2NodeResult st !! key ->
             ¬ isParentShell key nodeExe ->
             shellOnlyInv W key (nodeExe :: seen) st1).
  { intros st1 Hn Hsame Hnoshell. split; [exact Hn |].
    intros (shell & [<- | Hin] & Hshell); [contradiction |].
    destruct Hseen as (shell' & nr' & Hin' & Hshell' & Hc & Hl); [eauto |].
    exists shell', nr'. rewrite Hsame. repeat split; auto; try apply Hshell'.
    right. exact Hin'. }
  destruct (dispose W st nodeExe nr) as [nr' | merged cp ci | k | k |];
    [| | | | discriminate]; intros [= <-].
  - destruct Hspec as (_ & Htype & _).
    apply Hkeep; cbn; auto. intros [Hbatch _]. contradiction.
  - destruct Hspec as [(Hshell & inner & Hinner & -> & -> & ->)
                      | (p & parent & Hpayload & Hparent & -> & -> & ->)].
    + assert (Hk : NodeExecution.NodeID nodeExe ≠ key) by (intros Heq; congruence).
      apply Hkeep; cbn.
      * rewrite lookup_delete_ne by exact Hk. exact Hnone.
      * reflexivity.
      * intros [_ Heq]. contradiction.
    + assert (Hp : p ≠ key) by (intros ->; contradiction).
      apply Hkeep; cbn.
      * exact Hnone.
      * apply lookup_delete_ne. exact Hp.
      * intros [Hbatch _]. destruct Hpayload as [Hno _]. contradiction.
  - destruct Hspec as [Hshell Hinner].
    destruct (decide (k = key)) as [-> | Hk].
    + split; [cbn; exact Hnone |].
      intros _. exists nodeExe, nr. cbn.
      rewrite lookup_insert_eq. repeat split; auto; apply Hshell.
    + apply Hkeep; cbn.
      * exact Hnone.
      * apply lookup_insert_ne. exact Hk.
      * intros [_ Heq]. destruct Hshell as [_ Hid]. congruence.
  - destruct Hspec as [Hpayload Hparent].
    assert (Hk : k ≠ key) by (intros ->; contradiction).
    apply Hkeep; cbn.
    + rewrite lookup_insert_ne by exact Hk. exact Hnone.
    + reflexivity.
    + intros [Hbatch _]. destruct Hpayload as [Hno _]. contradiction.
Qed.

Lemma nodeLoop_shellOnly l :
  forall seen st st',
    Forall (λ z, ¬ isInnerPayload W key z) l ->
    shellOnlyInv W key seen st ->
    nodeLoop W st l = Return st' ->
    shellOnlyInv W key (rev l ++ seen) st'.
Proof.
  induction l as [| nodeExe l IH]; intros seen st st' Hl Hinv; cbn [nodeLoop].
  - intros [= <-]. exact Hinv.
  - inversion Hl as [| ? ? Hq Hl']; subst.
    destruct (convertNodeExecution W nodeExe) as [nr | |] eqn:Hnr; try discriminate.
    destruct (loopBody W st nodeExe nr) as [st1 | |] eqn:Hbody; try discriminate.
    intros Hloop. cbn [rev]. rewrite <- app_assoc. cbn [app].
    apply (IH (nodeExe :: seen) st1 st' Hl'); [| exact Hloop].
    exact (loopBody_shellOnly seen st nodeExe nr st1 Hinv Hq Hnr Hbody).
Qed.

End ShellOnly.

Lemma processData_NodeResults (W : World) (exe : WorkflowExecution.t)
    (data : GetWorkFlowProcessData.t) :
  processData W exe = Return data ->
  exists st events,
    nodeLoop W initialLoopState (WorkflowExecution.NodeExecutions exe) = Return st /\
    nodeEvents W (WorkflowExecution.InterruptEvents exe) = Return events /\
    GetWorkFlowProcessData.NodeEvents data = events /\
    GetWorkFlowProcessData.ExecuteStatus data =
      shownStatus (WorkflowExecution.Status exe) /\
    GetWorkFlowProcessData.NodeResults data =
      attachFailReason (isWorkflowFailed (shownStatus (WorkflowExecution.Status exe)))
        (WorkflowExecution.FailReason exe) st ++ unmergedParents st.
Proof.
  unfold processData.
  destruct (nodeLoop W initialLoopState (WorkflowExecution.NodeExecutions exe))
    as [st | |]; try discriminate.
  destruct (nodeEvents W (WorkflowExecution.InterruptEvents exe))
    as [events | |]; try discriminate.
  intros [= <-]. exists st, events. repeat split; reflexivity.
Qed.

Lemma processData_of_loop (W : World) (exe : WorkflowExecution.t) (st : LoopState.t) :
  nodeLoop W initialLoopState (WorkflowExecution.NodeExecutions exe) = Return st ->
  WorkflowExecution.Status exe <> WorkflowFailed ->
  WorkflowExecution.InterruptEvents exe = [] ->
  LoopState.batchNodeID2NodeResult st = ∅ ->
  exists data,
    processData W exe = Return data /\
    GetWorkFlowProcessData.NodeResults data = LoopState.NodeResults st.
Proof.
  intros Hloop Hstatus Hevents Hempty. unfold processData.
  rewrite Hloop, Hevents. cbn [nodeEvents].
  eexists. split; [reflexivity |].
  cbn [GetWorkFlowProcessData.NodeResults]. unfold unmergedParents, attachFailReason.
  rewrite Hempty, map_to_list_empty. cbn [fmap list_fmap]. rewrite app_nil_r.
  destruct (WorkflowExecution.Status exe); try reflexivity. congruence.
Qed.

(** C1: what [GetProcess] lists for a node in batch mode whose two halves are
    both among the node executions. With the shell first, the one result is
    [mergeBatchModeNodes shell inner]: it has the batch node's id, the batch
    flag and an array with one entry per iteration. With the inner payload
    first, the batch branch calls [mergeBatchModeNodes(inner, nr)], the
    arguments the other way round: the one result has the id of the
    generated node and the batch flag and array of the shell. The two orders
    do not give the same result. *)
Theorem batch_merge_depends_on_order (W : World) (key : string)
    (shell inner : NodeExecution.t) (shellResult innerResult : NodeResult.t)
    (shellFirst innerFirst : WorkflowExecution.t) :
  isParentShell key shell ->
  isInnerPayload W key inner ->
  convertNodeExecution W shell = Return shellResult ->
  convertNodeExecution W inner = Return innerResult ->
  WorkflowExecution.NodeExecutions shellFirst = [shell; inner] ->
  WorkflowExecution.NodeExecutions innerFirst = [inner; shell] ->
  WorkflowExecution.Status shellFirst <> WorkflowFailed ->
  WorkflowExecution.Status innerFirst <> WorkflowFailed ->
  WorkflowExecution.InterruptEvents shellFirst = [] ->
  WorkflowExecution.InterruptEvents innerFirst = [] ->
  (exists data merged,
     processData W shellFirst = Return data /\
     GetWorkFlowProcessData.NodeResults data = [merged] /\
     merged = mergeBatchModeNodes shellResult innerResult /\
     NodeResult.NodeId merged = key /\
     NodeResult.IsBatch merged = Some true /\
     exists subResults text,
       length subResults = length (NodeExecution.IndexedExecutions inner) /\
       MarshalNodeResults W subResults = Return text /\
       NodeResult.Batch merged = Some text) /\
  (exists data merged,
     processData W innerFirst = Return data /\
     GetWorkFlowProcessData.NodeResults data = [merged] /\
     merged = mergeBatchModeNodes innerResult shellResult /\
     NodeResult.NodeId merged = NodeExecution.NodeID inner /\
     NodeResult.IsBatch merged = NodeResult.IsBatch shellResult /\
     NodeResult.Batch merged = NodeResult.Batch shellResult).
Proof.
  intros Hshell Hinner Hcs Hci Hsf Hif Hs1 Hs2 He1 He2.
  destruct (nodeLoop_two_halves W key shell inner shellResult innerResult
              Hshell Hinner Hcs Hci)
    as [(st1 & Hloop1 & Hres1 & Hempty1 & Hid1 & Hbatch1 & Harray1)
        (st2 & Hloop2 & Hres2 & Hempty2 & Hid2 & Hbatch2 & Harray2)].
  split.
  - rewrite <- Hsf in Hloop1.
    destruct (processData_of_loop W shellFirst st1 Hloop1 Hs1 He1 Hempty1)
      as (data & Hdata & Hlisted).
    exists data, (mergeBatchModeNodes shellResult innerResult).
    rewrite Hlisted, Hres1. auto 10.
  - rewrite <- Hif in Hloop2.
    destruct (processData_of_loop W innerFirst st2 Hloop2 Hs2 He2 Hempty2)
      as (data & Hdata & Hlisted).
    exists data, (mergeBatchModeNodes innerResult shellResult).
    rewrite Hlisted, Hres2. auto 10.
Qed.

Lemma initial_innerOnlyInv (key xid : string) : innerOnlyInv key xid initialLoopState.
Proof.
  split; [constructor |]. split; intros k v; cbn; rewrite lookup_empty; discriminate.
Qed.

Lemma initial_shellOnlyInv (W : World) (key : string) :
  shellOnlyInv W key [] initialLoopState.
Proof. split; [apply lookup_empty |]. intros (shell & [] & _). Qed.

(** C2, as amended: in the response that [GetProcess] builds from the
    execution [GetExecution] returned, a batch node of which only the inner
    payload is among the node executions is not listed (no result has the
    payload's node id), whereas a batch node of which only the parent shell
    is among them is listed: the converted shell is in [NodeResults],
    unmerged. *)
Theorem lone_batch_half_listing (W : World) (ctx : Context.t)
    (req : GetWorkflowProcessRequest.t) (id workflowID root : Z)
    (exe : WorkflowExecution.t) (key : string) (data : GetWorkFlowProcessData.t) :
  In (CallGetExecution id workflowID root) (trace (GetProcess W ctx req)) ->
  GetExecution W id workflowID root = Return exe ->
  result (GetProcess W ctx req) = Return data ->
  (forall inner,
     In inner (WorkflowExecution.NodeExecutions exe) ->
     isInnerPayload W key inner ->
     Forall (noShellAround W key (NodeExecution.NodeID inner))
       (WorkflowExecution.NodeExecutions exe) ->
     NodeExecution.NodeID inner <> ExitNodeKey ->
     forall nr,
       In nr (GetWorkFlowProcessData.NodeResults data) ->
       NodeResult.NodeId nr <> NodeExecution.NodeID inner) /\
  (forall shell,
     In shell (WorkflowExecution.NodeExecutions exe) ->
     isParentShell key shell ->
     Forall (λ z, ¬ isInnerPayload W key z) (WorkflowExecution.NodeExecutions exe) ->
     exists shell' nr,
       In shell' (WorkflowExecution.NodeExecutions exe) /\
       isParentShell key shell' /\
       convertNodeExecution W shell' = Return nr /\
       NodeResult.NodeId nr = key /\
       In nr (GetWorkFlowProcessData.NodeResults data)).
Proof.
  intros Hcall Hget Hresult.
  pose proof (GetProcess_Return W ctx req id workflowID root exe data Hcall Hget Hresult)
    as Hdata.
  destruct (processData_NodeResults W exe data Hdata) as (st & events & Hloop & _ & _ & _ & Hres).
  split.
  - intros inner _ _ Hquiet Hexit nr Hin.
    pose proof (nodeLoop_innerOnly W key (NodeExecution.NodeID inner) _ _ _ Hquiet
                  (initial_innerOnlyInv _ _) Hloop) as (Hlisted & Hshells & _).
    rewrite Hres in Hin. apply in_app_or in Hin as [Hin | Hin].
    + pose proof (attachFailReason_ids (λ id, id ≠ NodeExecution.NodeID inner)
                    (isWorkflowFailed (shownStatus (WorkflowExecution.Status exe)))
                    (WorkflowExecution.FailReason exe) st
                    (λ Heq, Hexit (eq_sym Heq)) Hlisted) as Hall.
      rewrite Forall_forall in Hall. apply Hall, list_elem_of_In, Hin.
    + unfold unmergedParents in Hin.
      apply list_elem_of_In, list_elem_of_fmap in Hin as ([k v] & -> & Hkv).
      apply elem_of_map_to_list in Hkv. exact (Hshells k v Hkv).
  - intros shell Hin Hshell Hnopayload.
    pose proof (nodeLoop_shellOnly W key _ [] _ _ Hnopayload
                  (initial_shellOnlyInv W key) Hloop) as [_ Hseen].
    rewrite app_nil_r in Hseen.
    destruct Hseen as (shell' & nr & Hin' & Hshell' & Hc & Hl).
    { exists shell. split; [apply in_rev in Hin; exact Hin | exact Hshell]. }
    exists shell', nr. split; [apply in_rev, Hin' |]. split; [exact Hshell' |].
    split; [exact Hc |].
    destruct (convertNodeExecution_Return W shell' nr Hc) as (Hid & _).
    split; [rewrite Hid; apply Hshell' |].
    rewrite Hres. apply in_or_app. right.
    unfold unmergedParents. apply list_elem_of_In, list_elem_of_fmap.
    exists (key, nr). split; [reflexivity |]. apply elem_of_map_to_list. exact Hl.
Qed.

Lemma batchShell_isParentShell : isParentShell "200" batchShell.
Proof. split; reflexivity. Defined.

Lemma batchInner_isInnerPayload : isInnerPayload plainWorld "200" batchInner.
Proof. repeat split; try reflexivity; discriminate. Defined.

Lemma mergeBatchModeNodes_fields_witness :
  exists st',
    loopBody plainWorld shellCached batchInner (sampleResult batchInner) = Return st' /\
    (λ nr, (NodeResult.NodeId nr, NodeResult.NodeStatus nr, NodeResult.IsBatch nr,
            NodeResult.Batch nr)) <$> LoopState.NodeResults st' =
    [("200", NodeSuccess, Some true, Some "[200_inner,200_inner,200_inner]")].
Proof.
  destruct (mergeBatchModeNodes_fields plainWorld (sampleResult batchShell)
              (sampleResult batchInner)) as (_ & _ & Hmerge).
  destruct (Hmerge shellCached batchInner "200" batchInner_isInnerPayload eq_refl)
    as (st' & Hbody & Hres & _).
  exists st'. split; [exact Hbody |]. rewrite Hres. reflexivity.
Defined.

Lemma batch_merge_depends_on_order_witness :
  (exists data,
     processData plainWorld (sampleExecution WorkflowSuccess [batchShell; batchInner] [])
       = Return data /\
     (λ nr, (NodeResult.NodeId nr, NodeResult.IsBatch nr, NodeResult.Batch nr))
       <$> GetWorkFlowProcessData.NodeResults data =
     [("200", Some true, Some "[200_inner,200_inner,200_inner]")]) /\
  (exists data,
     processData plainWorld (sampleExecution WorkflowSuccess [batchInner; batchShell] [])
       = Return data /\
     (λ nr, (NodeResult.NodeId nr, NodeResult.IsBatch nr, NodeResult.Batch nr))
       <$> GetWorkFlowProcessData.NodeResults data =
     [("200_inner", None, None)]).
Proof.
  destruct (batch_merge_depends_on_order plainWorld "200" batchShell batchInner
              (sampleResult batchShell) (sampleResult batchInner)
              (sampleExecution WorkflowSuccess [batchShell; batchInner] [])
              (sampleExecution WorkflowSuccess [batchInner; batchShell] [])
              batchShell_isParentShell batchInner_isInnerPayload eq_refl eq_refl
              eq_refl eq_refl ltac:(discriminate) ltac:(discriminate) eq_refl eq_refl)
    as [(data1 & merged1 & Hdata1 & Hres1 & -> & _)
        (data2 & merged2 & Hdata2 & Hres2 & -> & _)].
  split.
  - exists data1. split; [exact Hdata1 |]. rewrite Hres1. reflexivity.
  - exists data2. split; [exact Hdata2 |]. rewrite Hres2. reflexivity.
Defined.

(** The same at the level of the operation: the response of [GetProcess]
    for the two orders of the halves. *)
Example GetProcess_shell_first :
  let W := sampleWorld
             (Return (sampleExecution WorkflowSuccess [batchShell; batchInner] []))
             noSync noStream in
  match result (GetProcess W sampleContext sampleProcessRequest) with
  | Return data =>
      (λ nr, (NodeResult.NodeId nr, NodeResult.NodeType nr, NodeResult.IsBatch nr,
              NodeResult.Batch nr)) <$> GetWorkFlowProcessData.NodeResults data
  | _ => []
  end = [("200", "LLM", Some true, Some "[200_inner,200_inner,200_inner]")].
Proof. reflexivity. Qed.

Example GetProcess_inner_first :
  let W := sampleWorld
             (Return (sampleExecution WorkflowSuccess [batchInner; batchShell] []))
             noSync noStream in
  match result (GetProcess W sampleContext sampleProcessRequest) with
  | Return data =>
      (λ nr, (NodeResult.NodeId nr, NodeResult.NodeType nr, NodeResult.IsBatch nr,
              NodeResult.Batch nr)) <$> GetWorkFlowProcessData.NodeResults data
  | _ => []
  end = [("200_inner", "Batch", None, None)].
Proof. reflexivity. Qed.

Lemma lone_batch_half_listing_witness :
  (exists data,
     result (GetProcess (worldOf loneInner) sampleContext sampleProcessRequest)
       = Return data /\
     forall nr, In nr (GetWorkFlowProcessData.NodeResults data) ->
                NodeResult.NodeId nr <> "200_inner") /\
  (exists data nr,
     result (GetProcess (worldOf loneShell) sampleContext sampleProcessRequest)
       = Return data /\
     NodeResult.NodeId nr = "200" /\
     In nr (GetWorkFlowProcessData.NodeResults data)).
Proof.
  split.
  - assert (Hdata : exists data,
               result (GetProcess (worldOf loneInner) sampleContext sampleProcessRequest)
                 = Return data)
      by (eexists; vm_compute; reflexivity).
    destruct Hdata as [data Hdata]. exists data. split; [exact Hdata |].
    assert (Hcall : In (CallGetExecution 42 7 0)
                      (trace (GetProcess (worldOf loneInner) sampleContext
                                sampleProcessRequest)))
      by (vm_compute; right; left; reflexivity).
    destruct (lone_batch_half_listing (worldOf loneInner) sampleContext
                sampleProcessRequest 42 7 0 loneInner "200" data Hcall eq_refl Hdata)
      as [Hinner _].
    apply (Hinner batchInner).
    + right. left. reflexivity.
    + exact batchInner_isInnerPayload.
    + apply List.Forall_cons; [split | apply List.Forall_cons; [split | apply List.Forall_nil]].
      * intros [Htype _]. discriminate.
      * discriminate.
      * intros [Htype _]. discriminate.
      * intros _. exact batchInner_isInnerPayload.
    + discriminate.
  - assert (Hdata : exists data,
               result (GetProcess (worldOf loneShell) sampleContext sampleProcessRequest)
                 = Return data)
      by (eexists; vm_compute; reflexivity).
    destruct Hdata as [data Hdata].
    assert (Hcall : In (CallGetExecution 42 7 0)
                      (trace (GetProcess (worldOf loneShell) sampleContext
                                sampleProcessRequest)))
      by (vm_compute; right; left; reflexivity).
    destruct (lone_batch_half_listing (worldOf loneShell) sampleContext
                sampleProcessRequest 42 7 0 loneShell "200" data Hcall eq_refl Hdata)
      as [_ Hshell].
    assert (Hnone : Forall (λ z, ¬ isInnerPayload (worldOf loneShell) "200" z)
                      (WorkflowExecution.NodeExecutions loneShell)).
    { apply List.Forall_cons; [| apply List.Forall_cons; [| apply List.Forall_nil]].
      - intros (_ & Hindexed & _). apply Hindexed. reflexivity.
      - intros (Htype & _). apply Htype. reflexivity. }
    destruct (Hshell batchShell (or_intror (or_introl eq_refl))
                batchShell_isParentShell Hnone)
      as (shell' & nr & _ & _ & _ & Hid & Hin).
    exists data, nr. auto.
Defined.

(** Counterexample to C2 as stated: a batch node of which only the parent
    shell is reported. The second loop of [GetProcess] appends the shells
    that never met their inner payload, so the node is listed. *)
Lemma lone_shell_is_listed :
  let exe := sampleExecution WorkflowSuccess [batchShell] [] in
  let W := sampleWorld (Return exe) noSync noStream in
  isParentShell "200" batchShell /\
  Forall (λ z, ¬ isInnerPayload W "200" z) (WorkflowExecution.NodeExecutions exe) /\
  listedIDs (result (GetProcess W sampleContext sampleProcessRequest)) = ["200"].
Proof.
  split; [exact batchShell_isParentShell |]. split; [| reflexivity].
  apply List.Forall_cons; [| apply List.Forall_nil].
  intros (Htype & _). apply Htype. reflexivity.
Qed.

(** ** Interrupt events in [GetProcess] *)

Lemma nodeEvents_surfaces (W : World) (events : list InterruptEvent.t) :
  forall evs, nodeEvents W events = Return evs -> Forall2 (surfaces W) events evs.
Proof.
  induction events as [| ie rest IH]; intros evs; cbn [nodeEvents].
  - intros [= <-]. constructor.
  - destruct (toolEvent ie) as [ie' | |] eqn:Htool; try discriminate.
    destruct (nodeEvents W rest) as [evs' | |]; try discriminate.
    intros [= <-]. constructor; [| apply IH; reflexivity].
    unfold toolEvent in Htool. unfold surfaces.
    destruct (InterruptEvent.EventType ie) eqn:Htype.
    + destruct (InterruptEvent.ToolInterruptEvent ie) as [tool |]; [| discriminate].
      injection Htool as <-. split; [reflexivity |].
      exists tool. repeat split; reflexivity.
    + injection Htool as <-. repeat split; try reflexivity. exact Htype.
Qed.

Lemma nodeEvents_total (W : World) (events : list InterruptEvent.t) :
  Forall hasToolEvent events -> exists evs, nodeEvents W events = Return evs.
Proof.
  induction 1 as [| ie rest Hie _ [evs IH]]; [exists []; reflexivity |].
  cbn [nodeEvents]. unfold toolEvent, hasToolEvent in *.
  destruct (InterruptEvent.EventType ie).
  - destruct (Hie eq_refl) as [tool ->]. rewrite IH. eauto.
  - rewrite IH. eauto.
Qed.

(** C10: when [GetProcess] gets from [GetExecution] an execution whose
    stored status is [Interrupted], the response has the status [Running]
    (no response ever has [Interrupted]), and its node events surface the
    interrupt events of the execution one by one, each with the event id,
    node key, node title, icon, event type and interrupt data; such a
    response is returned whenever the node executions convert and every LLM
    interrupt has its tool event. *)
Theorem interrupted_is_shown_running (W : World) (ctx : Context.t)
    (req : GetWorkflowProcessRequest.t) (id workflowID root : Z)
    (exe : WorkflowExecution.t) :
  In (CallGetExecution id workflowID root) (trace (GetProcess W ctx req)) ->
  GetExecution W id workflowID root = Return exe ->
  (forall data,
     result (GetProcess W ctx req) = Return data ->
     GetWorkFlowProcessData.ExecuteStatus data <> WorkflowInterrupted /\
     (WorkflowExecution.Status exe = WorkflowInterrupted ->
      GetWorkFlowProcessData.ExecuteStatus data = WorkflowRunning) /\
     Forall2 (surfaces W) (WorkflowExecution.InterruptEvents exe)
       (GetWorkFlowProcessData.NodeEvents data)) /\
  (forall st,
     nodeLoop W initialLoopState (WorkflowExecution.NodeExecutions exe) = Return st ->
     Forall hasToolEvent (WorkflowExecution.InterruptEvents exe) ->
     exists data, result (GetProcess W ctx req) = Return data).
Proof.
  intros Hcall Hget.
  rewrite (GetProcess_after_GetExecution W ctx req id workflowID root exe Hcall Hget).
  rewrite result_recoverAndWrap, result_lift.
  split.
  - intros data Hdata.
    destruct (processData W exe) as [data' | |] eqn:Hprocess; try discriminate.
    injection Hdata as ->.
    destruct (processData_NodeResults W exe data Hprocess)
      as (st & events & _ & Hevents & <- & -> & _).
    split; [| split].
    + destruct (WorkflowExecution.Status exe); discriminate.
    + intros ->. reflexivity.
    + apply nodeEvents_surfaces, Hevents.
  - intros st Hloop Hevents.
    destruct (nodeEvents_total W _ Hevents) as [evs Hevs].
    unfold processData. rewrite Hloop, Hevs. eauto.
Qed.

Lemma interrupted_is_shown_running_witness :
  let exe := sampleExecution WorkflowInterrupted [] [sampleInterrupt 1] in
  let W := sampleWorld (Return exe) noSync noStream in
  exists data,
    result (GetProcess W sampleContext sampleProcessRequest) = Return data /\
    GetWorkFlowProcessData.ExecuteStatus data = WorkflowRunning /\
    Forall2 (surfaces W) [sampleInterrupt 1] (GetWorkFlowProcessData.NodeEvents data).
Proof.
  intros exe W.
  destruct (interrupted_is_shown_running W sampleContext sampleProcessRequest 42 7 0 exe
              (or_intror (or_introl eq_refl)) eq_refl) as [Hshown Htotal].
  destruct (Htotal initialLoopState eq_refl) as [data Hdata].
  { apply List.Forall_cons; [| apply List.Forall_nil]. intros Htype. discriminate. }
  exists data. destruct (Hshown data Hdata) as (_ & Hrunning & Hevents).
  split; [exact Hdata |]. split; [apply Hrunning; reflexivity | exact Hevents].
Defined.

(** ** The execute operations: rejection and recovery *)

Section Traces.
Context (W : World).

#[local] Abbreviation quiet := (Forall (λ c, isExecuteCall c = false)).

Lemma quiet_bind {A B} (m : Op A) (k : A -> Op B) :
  quiet (trace m) -> (forall a, quiet (trace (k a))) -> quiet (trace (bind m k)).
Proof.
  intros Hm Hk. rewrite trace_bind.
  destruct (result m); [apply Forall_app; split; auto | exact Hm | exact Hm].
Qed.

Lemma quiet_lift {A} (o : outcome A) : quiet (trace (lift o)).
Proof. constructor. Qed.

Lemma quiet_ret {A} (a : A) : quiet (trace (ret a)).
Proof. constructor. Qed.

Lemma quiet_fail {A} (e : error) : quiet (trace (@fail A e)).
Proof. constructor. Qed.

Lemma quiet_checkUserSpace uid spaceID : quiet (trace (checkUserSpace W uid spaceID)).
Proof. rewrite checkUserSpace_trace. repeat constructor. Qed.

Lemma quiet_testRunConfig ctx req : quiet (trace (testRunConfig W ctx req)).
Proof.
  unfold testRunConfig.
  repeat (apply quiet_bind; [first [apply quiet_lift | apply quiet_checkUserSpace] | intros ?]).
  apply quiet_ret.
Qed.

Lemma quiet_nodeDebugConfig ctx req : quiet (trace (nodeDebugConfig W ctx req)).
Proof.
  unfold nodeDebugConfig.
  repeat (apply quiet_bind; [first [apply quiet_lift | apply quiet_checkUserSpace] | intros ?]).
  apply quiet_ret.
Qed.

Lemma quiet_openAPIConfig ctx req : quiet (trace (openAPIConfig W ctx req)).
Proof.
  unfold openAPIConfig.
  apply quiet_bind; [apply quiet_lift | intros apiKeyInfo].
  apply quiet_bind.
  { destruct (OpenAPIRunFlowRequest.Parameters req) as [text |]; [| apply quiet_ret].
    destruct (UnmarshalParameters W text); constructor. }
  intros parameters.
  apply quiet_bind; [apply quiet_lift | intros workflowID].
  apply quiet_bind; [repeat constructor | intros meta].
  destruct (WorkflowMeta.LatestPublishedVersion meta); [| apply quiet_fail].
  repeat (apply quiet_bind; [first [apply quiet_lift | apply quiet_checkUserSpace] | intros ?]).
  apply quiet_ret.
Qed.

Lemma result_bind_Return {A B} (m : Op A) (k : A -> Op B) (b : B) :
  result (bind m k) = Return b ->
  exists a, result m = Return a /\ result (k a) = Return b.
Proof. rewrite result_bind. destruct (result m); try discriminate. eauto. Qed.

Lemma parseIfSet_Return (o : option string) (x : option Z) :
  parseIfSet o = Return x -> is_Some o -> is_Some x.
Proof.
  intros Hparse [s ->]. cbn in Hparse.
  destruct (mustParseInt64 s); try discriminate. injection Hparse as <-. eauto.
Qed.

Lemma bothSet_true (appID agentID : option Z) :
  is_Some appID -> is_Some agentID -> bothSet appID agentID = true.
Proof. intros [a ->] [b ->]. reflexivity. Qed.

Lemma testRunConfig_bothSet ctx req cfg :
  is_Some (WorkFlowTestRunRequest.ProjectID req) ->
  is_Some (WorkFlowTestRunRequest.BotID req) ->
  result (testRunConfig W ctx req) = Return cfg ->
  bothSet (ExecuteConfig.AppID cfg) (ExecuteConfig.AgentID cfg) = true.
Proof.
  intros Happ Hbot. unfold testRunConfig.
  intros (uID & _ & H)%result_bind_Return.
  apply result_bind_Return in H as (spaceID & _ & H).
  apply result_bind_Return in H as ([] & _ & H).
  apply result_bind_Return in H as (appID & HappID & H).
  apply result_bind_Return in H as (agentID & HagentID & H).
  apply result_bind_Return in H as (id & _ & H).
  injection H as <-. cbn. rewrite result_lift in HappID, HagentID.
  apply bothSet_true;
    [exact (parseIfSet_Return _ _ HappID Happ) | exact (parseIfSet_Return _ _ HagentID Hbot)].
Qed.

Lemma nodeDebugConfig_bothSet ctx req cfg :
  is_Some (WorkflowNodeDebugV2Request.ProjectID req) ->
  is_Some (WorkflowNodeDebugV2Request.BotID req) ->
  result (nodeDebugConfig W ctx req) = Return cfg ->
  bothSet (ExecuteConfig.AppID cfg) (ExecuteConfig.AgentID cfg) = true.
Proof.
  intros Happ Hbot. unfold nodeDebugConfig.
  intros (uID & _ & H)%result_bind_Return.
  apply result_bind_Return in H as (spaceID & _ & H).
  apply result_bind_Return in H as ([] & _ & H).
  apply result_bind_Return in H as (appID & HappID & H).
  apply result_bind_Return in H as (agentID & HagentID & H).
  apply result_bind_Return in H as (id & _ & H).
  injection H as <-. cbn. rewrite result_lift in HappID, HagentID.
  apply bothSet_true;
    [exact (parseIfSet_Return _ _ HappID Happ) | exact (parseIfSet_Return _ _ HagentID Hbot)].
Qed.

Lemma openAPIConfig_bothSet ctx req meta parameters cfg :
  is_Some (OpenAPIRunFlowRequest.AppID req) \/ is_Some (OpenAPIRunFlowRequest.ProjectID req) ->
  is_Some (OpenAPIRunFlowRequest.BotID req) ->
  result (openAPIConfig W ctx req) = Return (meta, parameters, cfg) ->
  bothSet (ExecuteConfig.AppID cfg) (ExecuteConfig.AgentID cfg) = true.
Proof.
  intros Happ Hbot. unfold openAPIConfig.
  intros (apiKeyInfo & _ & H)%result_bind_Return.
  apply result_bind_Return in H as (parameters' & _ & H).
  apply result_bind_Return in H as (workflowID & _ & H).
  apply result_bind_Return in H as (meta' & _ & H).
  destruct (WorkflowMeta.LatestPublishedVersion meta'); [| discriminate].
  apply result_bind_Return in H as ([] & _ & H).
  apply result_bind_Return in H as (appID & HappID & H).
  apply result_bind_Return in H as (agentID & HagentID & H).
  apply result_bind_Return in H as (connectorID & _ & H).
  injection H as <- <- <-. cbn. rewrite result_lift in HappID, HagentID.
  apply bothSet_true; [| exact (parseIfSet_Return _ _ HagentID Hbot)].
  destruct (OpenAPIRunFlowRequest.AppID req) as [a |] eqn:Ha.
  - apply (parseIfSet_Return _ _ HappID). eauto.
  - destruct Happ as [[? [=]] | Hproject]. exact (parseIfSet_Return _ _ HappID Hproject).
Qed.

Lemma rejectBothSet_fails {A} (cfg : ExecuteConfig.t) (rest : unit -> Op A) :
  bothSet (ExecuteConfig.AppID cfg) (ExecuteConfig.AgentID cfg) = true ->
  bind (rejectBothSet cfg) rest = fail errBothSet.
Proof. intros Hboth. unfold rejectBothSet. rewrite Hboth. reflexivity. Qed.

(** An operation that builds its config and then fails the check, whatever
    it would go on to call, rejects the request before any execution. *)
Lemma rejected_when_check_fails {A B} (config : Op B) (rest : B -> Op A) :
  quiet (trace config) ->
  (forall b, result config = Return b -> rest b = fail errBothSet) ->
  rejectedBeforeExecution W
    (recoverAndWrap W ErrWorkflowExecuteFail (bind config rest)) config.
Proof.
  intros Hquiet Hfail. unfold rejectedBeforeExecution.
  rewrite trace_recoverAndWrap, result_recoverAndWrap, trace_bind, result_bind.
  destruct config as [[b | e | v] t]; cbn [result trace fst snd] in *.
  - rewrite (Hfail b eq_refl). cbn.
    repeat split; auto. rewrite app_nil_r. exact Hquiet.
  - repeat split; auto. discriminate.
  - repeat split; auto. discriminate.
Qed.

End Traces.

(** C5: an execute request that sets both the project (app) id and the bot
    id fails, in [TestRun], [NodeDebug], [OpenAPIRun] and [OpenAPIStreamRun]
    alike: the operation ends with an error, no execute or resume call of
    the domain service is made, and whenever the statements before the check
    pass, the error is the one of the check. *)
Theorem contradictory_config_is_rejected (W : World) (ctx : Context.t) :
  (forall req,
     is_Some (WorkFlowTestRunRequest.ProjectID req) ->
     is_Some (WorkFlowTestRunRequest.BotID req) ->
     rejectedBeforeExecution W (TestRun W ctx req) (testRunConfig W ctx req)) /\
  (forall req,
     is_Some (WorkflowNodeDebugV2Request.ProjectID req) ->
     is_Some (WorkflowNodeDebugV2Request.BotID req) ->
     rejectedBeforeExecution W (NodeDebug W ctx req) (nodeDebugConfig W ctx req)) /\
  (forall req,
     is_Some (OpenAPIRunFlowRequest.AppID req) \/ is_Some (OpenAPIRunFlowRequest.ProjectID req) ->
     is_Some (OpenAPIRunFlowRequest.BotID req) ->
     rejectedBeforeExecution W (OpenAPIRun W ctx req) (openAPIConfig W ctx req) /\
     rejectedBeforeExecution W (OpenAPIStreamRun W ctx req) (openAPIConfig W ctx req)).
Proof.
  split; [| split].
  - intros req Happ Hbot. unfold TestRun.
    apply rejected_when_check_fails; [apply quiet_testRunConfig |].
    intros cfg Hcfg. apply rejectBothSet_fails.
    exact (testRunConfig_bothSet W ctx req cfg Happ Hbot Hcfg).
  - intros req Happ Hbot. unfold NodeDebug.
    apply rejected_when_check_fails; [apply quiet_nodeDebugConfig |].
    intros cfg Hcfg. apply rejectBothSet_fails.
    exact (nodeDebugConfig_bothSet W ctx req cfg Happ Hbot Hcfg).
  - intros req Happ Hbot. split.
    + unfold OpenAPIRun.
      apply rejected_when_check_fails; [apply quiet_openAPIConfig |].
      intros [[meta parameters] cfg] Hcfg. apply rejectBothSet_fails.
      exact (openAPIConfig_bothSet W ctx req meta parameters cfg Happ Hbot Hcfg).
    + unfold OpenAPIStreamRun.
      apply rejected_when_check_fails; [apply quiet_openAPIConfig |].
      intros [[meta parameters] cfg] Hcfg. apply rejectBothSet_fails.
      exact (openAPIConfig_bothSet W ctx req meta parameters cfg Happ Hbot Hcfg).
Qed.

Lemma contradictory_config_is_rejected_witness :
  let req := sampleRunRequest (Some "1") (Some "2") None in
  result (OpenAPIRun plainWorld sampleContext req) =
    Error (vo.WrapError ErrWorkflowExecuteFail errBothSet
             [("cause", "project_id and bot_id cannot be set at the same time")]) /\
  Forall (λ c, isExecuteCall c = false) (trace (OpenAPIRun plainWorld sampleContext req)) /\
  isError (result (OpenAPIStreamRun plainWorld sampleContext req)) = true.
Proof.
  intros req.
  destruct (contradictory_config_is_rejected plainWorld sampleContext) as (_ & _ & Hopen).
  destruct (Hopen req (or_introl (ex_intro _ "1" eq_refl)) (ex_intro _ "2" eq_refl))
    as [(_ & Hquiet & Hcheck) (Hstream & _)].
  split; [exact (Hcheck eq_refl) |]. split; [exact Hquiet | exact Hstream].
Defined.

(** The trace of a quiet computation has no given execute call. *)
Lemma quiet_not_In (t : list Call) (c : Call) :
  Forall (λ c, isExecuteCall c = false) t -> isExecuteCall c = true -> ~ In c t.
Proof.
  intros Hquiet Hc Hin. rewrite Forall_forall in Hquiet.
  apply list_elem_of_In, Hquiet in Hin. congruence.
Qed.

(** C4: when [OpenAPIRun] calls [SyncExecute] (a synchronous run) and gets
    back an execution in the [Interrupted] status, it returns the error
    [ErrInterruptNotSupported], not a response. *)
Theorem sync_interrupt_not_supported (W : World) (ctx : Context.t)
    (req : OpenAPIRunFlowRequest.t) (cfg : ExecuteConfig.t) (parameters : Params)
    (wfExe : WorkflowExecution.t) (tPlan : TerminatePlan) :
  In (CallSyncExecute cfg parameters) (trace (OpenAPIRun W ctx req)) ->
  SyncExecute W cfg parameters = Return (wfExe, tPlan) ->
  WorkflowExecution.Status wfExe = WorkflowInterrupted ->
  result (OpenAPIRun W ctx req) = Error (vo.NewError ErrInterruptNotSupported) /\
  isReturn (result (OpenAPIRun W ctx req)) = false /\
  default false (OpenAPIRunFlowRequest.IsAsync req) = false /\
  ExecuteConfig.SyncPattern cfg = SyncPatternSync.
Proof.
  unfold OpenAPIRun.
  rewrite trace_recoverAndWrap, result_recoverAndWrap, trace_bind, result_bind.
  pose proof (quiet_openAPIConfig W ctx req) as Hquiet.
  destruct (openAPIConfig W ctx req) as [[[[meta parameters0] cfg0] | e | v] t0];
    cbn [result trace fst snd] in *;
    [| intros Hin; destruct (quiet_not_In _ (CallSyncExecute cfg parameters) Hquiet eq_refl Hin)
     | intros Hin; destruct (quiet_not_In _ (CallSyncExecute cfg parameters) Hquiet eq_refl Hin)].
  intros Hin Hsync Hstatus.
  apply in_app_or in Hin as [Hin | Hin]; [destruct (quiet_not_In _ (CallSyncExecute cfg parameters) Hquiet eq_refl Hin) |].
  revert Hin. rewrite trace_bind, result_bind.
  unfold rejectBothSet.
  destruct (bothSet (ExecuteConfig.AppID cfg0) (ExecuteConfig.AgentID cfg0));
    cbn [fail ret result trace fst snd app]; [intros [] |].
  destruct (default false (OpenAPIRunFlowRequest.IsAsync req)).
  - rewrite trace_bind. cbn [call result trace fst snd].
    destruct (AsyncExecute W _ parameters0); cbn; intros [[=] | []].
  - rewrite trace_bind, result_bind. cbn [call result trace fst snd].
    intros Hin.
    assert (Heq : CallSyncExecute (withPattern cfg0 SyncPatternSync TaskTypeForeground)
                    parameters0 = CallSyncExecute cfg parameters).
    { destruct (SyncExecute W _ parameters0) as [[wfExe0 tPlan0] | |] eqn:Hrun;
        cbn [app] in Hin; try (destruct Hin as [Heq | []]; exact Heq).
      destruct Hin as [Heq | Hin]; [exact Heq |].
      exfalso. revert Hin.
      destruct (WorkflowExecution.Status wfExe0); cbn [fail trace snd];
        try (intros []);
        rewrite trace_bind, trace_lift;
        match goal with
        | |- context [result (lift ?o)] => destruct o
        end; cbn [result lift fst app]; try (intros []);
        destruct (WorkflowExecution.TokenInfo wfExe0); intros []. }
    injection Heq as <- <-. rewrite Hsync, Hstatus.
    cbn. repeat split; reflexivity.
Qed.

Lemma sync_interrupt_not_supported_witness :
  let W := sampleWorld noExecution
             (Return (sampleExecution WorkflowInterrupted [] [sampleInterrupt 1],
                      ReturnVariables))
             noStream in
  result (OpenAPIRun W sampleContext (sampleRunRequest None None None)) =
    Error (ErrWorkflow ErrInterruptNotSupported).
Proof.
  intros W.
  refine (proj1 (sync_interrupt_not_supported W sampleContext
                   (sampleRunRequest None None None) _ _ _ _
                   (or_intror (or_intror (or_introl eq_refl))) eq_refl eq_refl)).
Defined.

(** ** Panics *)

Lemma convertible_no_panic (W : World) (workflowID : Z) (st : ConvertState.t)
    (msg : Message.t) :
  convertible msg -> isPanic (fst (convertStreamRunEvent W workflowID st msg)) = false.
Proof.
  unfold convertible, convertStreamRunEvent.
  destruct (Message.StateMessage msg) as [sm |].
  - unfold convertStateMessage.
    destruct (fromOtherExecution st (StateMessage.ExecuteID sm)); [reflexivity |].
    destruct (StateMessage.Status sm); try reflexivity.
    + intros [wfe ->]. reflexivity.
    + intros [wfe ->]. reflexivity.
    + intros [ie ->]. reflexivity.
  - intros _. destruct (Message.DataMessage msg) as [dm |]; [| reflexivity].
    unfold convertDataMessage.
    destruct (DataMessage.Type_ dm); try reflexivity.
    destruct (fromOtherExecution st (DataMessage.ExecuteID dm)); reflexivity.
Qed.

Lemma recvFrom_no_panic (W : World) (workflowID : Z) (source : list Message.t) :
  Forall convertible source ->
  forall st, isPanic (fst (recvFrom W workflowID st source)) = false.
Proof.
  induction 1 as [| msg rest Hmsg _ IH]; intros st; [reflexivity |].
  cbn [recvFrom].
  pose proof (convertible_no_panic W workflowID st msg Hmsg) as Hno.
  destruct (convertStreamRunEvent W workflowID st msg) as [[ev | e | v] st'];
    cbn [fst] in *; [reflexivity | | discriminate].
  destruct e; try reflexivity. apply IH.
Qed.

(** An operation that starts with the deferred [recover], as [TestRun],
    [NodeDebug], [GetProcess], [OpenAPIRun], [OpenAPIStreamRun] and
    [OpenAPIStreamResume] do, lets no panic raised before it returns leave
    it; the panic comes back as an error of the operation's failure code
    that wraps the panic and has its text as the cause. The events of the
    stream that [OpenAPIStreamRun] and [OpenAPIStreamResume] return are
    converted later, by [Recv], outside of that [recover]: [Recv] is free of
    panics as long as every [Failed] or [Cancel] state carries a typed
    workflow error and every [Interrupted] state its interrupt event. *)
Theorem operations_recover_panics (W : World) (ctx : Context.t) :
  (forall req, isPanic (result (TestRun W ctx req)) = false) /\
  (forall req, isPanic (result (NodeDebug W ctx req)) = false) /\
  (forall req, isPanic (result (GetProcess W ctx req)) = false) /\
  (forall req, isPanic (result (OpenAPIRun W ctx req)) = false) /\
  (forall req, isPanic (result (OpenAPIStreamRun W ctx req)) = false) /\
  (forall req, isPanic (result (OpenAPIStreamResume W ctx req)) = false) /\
  (forall A code (body : Op A) v,
     result body = Panic v ->
     result (recoverAndWrap W code body) =
       Error (vo.WrapError code (safego.NewPanicErr v)
                [("cause", errorString W (safego.NewPanicErr v))])) /\
  (forall sr,
     Forall convertible (StreamReader.source sr) ->
     isPanic (fst (Recv W sr)) = false).
Proof.
  repeat split; try (intros req; apply recoverAndWrap_no_panic).
  - intros A code body v Hbody. rewrite result_recoverAndWrap, Hbody. reflexivity.
  - intros sr Hsr. apply recvFrom_no_panic, Hsr.
Qed.

Lemma operations_recover_panics_witness :
  let anonymous := {| Context.UID := Panic "uid not found in context";
                      Context.ApiAuth := Panic "nil pointer dereference" |} in
  result (recoverAndWrap plainWorld ErrWorkflowExecuteFail
            (lift (MustGetUIDFromCtx anonymous))) =
    Error (ErrWorkflowWrap ErrWorkflowExecuteFail
             (ErrPanicked "uid not found in context")
             [("cause", "uid not found in context")]) /\
  isPanic (fst (Recv plainWorld
                  (StreamReader.mk 7 initialConvertState
                     [stateMsg 42 1 WorkflowRunning None None;
                      stateMsg 42 1 WorkflowFailed (Some (vo.NewError (ErrCode 777))) None])))
    = false.
Proof.
  intros anonymous.
  destruct (operations_recover_panics plainWorld anonymous)
    as (_ & _ & _ & _ & _ & _ & Hwrap & Hrecv).
  split.
  - exact (Hwrap _ ErrWorkflowExecuteFail (lift (MustGetUIDFromCtx anonymous)) _ eq_refl).
  - apply Hrecv.
    apply List.Forall_cons; [exact I |].
    apply List.Forall_cons; [| apply List.Forall_nil].
    eexists. reflexivity.
Defined.

(** The stream is converted outside of the [recover]: [OpenAPIStreamRun]
    returns its reader, and the read that converts a [Failed] state whose
    last error is not a typed workflow error panics in the caller's
    [Recv]. *)
Lemma stream_conversion_panic_escapes :
  let W := sampleWorld noExecution noSync
             (Return [stateMsg 42 1 WorkflowRunning None None;
                      stateMsg 42 1 WorkflowFailed (Some (ErrText "boom")) None]) in
  exists sr,
    result (OpenAPIStreamRun W sampleContext (sampleRunRequest None None None)) = Return sr /\
    fst (Recv W sr) = Panic "stream run last error is not a WorkflowError".
Proof. eexists. split; reflexivity. Qed.

Lemma interrupt_key_round_trip_witness :
  let W := sampleWorld noExecution noSync (Return []) in
  let running := stateMsg 42 1 WorkflowRunning None None in
  let st := stateAfter W 7 initialConvertState [running; dataMsg 42 Answer "300" "a"] in
  let msg := stateMsg 42 1 WorkflowInterrupted None (Some (sampleInterrupt 1)) in
  let req := {| OpenAPIStreamResumeFlowRequest.EventID := "42/1";
                OpenAPIStreamResumeFlowRequest.ResumeData := "yes";
                OpenAPIStreamResumeFlowRequest.WorkflowID := "7";
                OpenAPIStreamResumeFlowRequest.ConnectorID := None |} in
  (exists ev interrupt,
     fst (convertStreamRunEvent W 7 st msg) = Return (Some ev) /\
     OpenAPIStreamRunFlowResponse.InterruptData ev = Some interrupt /\
     Interrupt.EventID interrupt = "42/1") /\
  (exists cfg,
     trace (OpenAPIStreamResume W sampleContext req)
     = [CallStreamResume {| ResumeRequest.ExecuteID := 42;
                            ResumeRequest.EventID := 1;
                            ResumeRequest.ResumeData := "yes" |} cfg]) /\
  isReturn (result (OpenAPIStreamResume W sampleContext req)) = true /\
  isError (parseEventID "42/1/3") = true /\
  isError (parseEventID "42/one") = true /\
  isError (parseEventID "42") = true.
Proof.
  intros W running st msg req.
  assert (Hexe : Strconv.isInt64 42) by (vm_compute; split; discriminate).
  assert (Hid : Strconv.isInt64 1) by (vm_compute; split; discriminate).
  destruct (interrupt_key_round_trip W 7 [] [dataMsg 42 Answer "300" "a"] running msg
              _ _ (sampleInterrupt 1)
              (List.Forall_nil _) eq_refl eq_refl eq_refl eq_refl eq_refl eq_refl eq_refl
              Hexe Hid)
    as ((ev & interrupt & Hev & _ & Hdata & Hkey) & _ & Hresume & Hreject).
  split; [exists ev, interrupt; auto |].
  destruct (Hresume sampleContext req 7 _ eq_refl eq_refl eq_refl) as (cfg & Htrace & Hresult).
  { intros text Htext. discriminate Htext. }
  split; [exists cfg; exact Htrace |].
  split; [rewrite (Hresult [] eq_refl); reflexivity |].
  split; [apply (Hreject "42/1/3" eq_refl) |].
  split; [apply (Hreject "42/one" eq_refl) | apply (Hreject "42" eq_refl)].
Defined.

(** Counterexample to C6 as stated: before any [Running] state message the
    converter holds no root, and the [Interrupt] event of the interrupted
    execution 42 is keyed with the execution id 0. *)
Lemma interrupt_before_running_is_keyed_zero :
  let msg := stateMsg 42 1 WorkflowInterrupted None (Some (sampleInterrupt 4)) in
  exists ev interrupt,
    fst (convertStreamRunEvent plainWorld 7 initialConvertState msg) = Return (Some ev) /\
    OpenAPIStreamRunFlowResponse.Event ev = InterruptEventName /\
    OpenAPIStreamRunFlowResponse.InterruptData ev = Some interrupt /\
    Interrupt.EventID interrupt = "0/4" /\
    Interrupt.EventID interrupt <> "42/4" /\
    parseEventID (Interrupt.EventID interrupt) = Return (0, 4).
Proof.
  eexists. eexists. split; [reflexivity |]. split; [reflexivity |].
  split; [reflexivity |]. split; [reflexivity |]. split; [discriminate | reflexivity].
Qed.

(** ** Access to the space *)

Lemma checkUserSpace_stranger (W : World) (uid spaceID : Z) (spaces : list Z) :
  GetUserSpaceList W uid = Return spaces ->
  ~ In spaceID spaces ->
  checkUserSpace W uid spaceID = (Error (errNoAccess uid spaceID), [CallGetUserSpaceList uid]).
Proof.
  intros Hlist Hout. unfold checkUserSpace. rewrite Hlist.
  assert (Hex : existsb (Z.eqb spaceID) spaces = false).
  { destruct (existsb (Z.eqb spaceID) spaces) eqn:Hex; [| reflexivity].
    apply existsb_exists in Hex as (x & Hx & Heq). apply Z.eqb_eq in Heq. subst x.
    contradiction. }
  unfold call. rewrite bind_Return, Hex. reflexivity.
Qed.

(** X1: [TestRun], [NodeDebug] and [GetProcess] turn away a user who is
    not a member of the space of the request: when the user's space list
    does not hold the space id, the operation ends with the error of
    [checkUserSpace] under the operation's failure code, and the space list
    is the only thing it asked for; no execution is created or read. *)
Theorem stranger_reaches_no_execution (W : World) (ctx : Context.t)
    (uid spaceID : Z) (spaces : list Z) :
  MustGetUIDFromCtx ctx = Return uid ->
  GetUserSpaceList W uid = Return spaces ->
  ~ In spaceID spaces ->
  (forall req,
     mustParseInt64 (getOr (WorkFlowTestRunRequest.SpaceID req)) = Return spaceID ->
     TestRun W ctx req =
       (Error (failure W ErrWorkflowExecuteFail (errNoAccess uid spaceID)),
        [CallGetUserSpaceList uid])) /\
  (forall req,
     mustParseInt64 (getOr (WorkflowNodeDebugV2Request.SpaceID req)) = Return spaceID ->
     NodeDebug W ctx req =
       (Error (failure W ErrWorkflowExecuteFail (errNoAccess uid spaceID)),
        [CallGetUserSpaceList uid])) /\
  (forall req,
     mustParseInt64 (getOr (GetWorkflowProcessRequest.SpaceID req)) = Return spaceID ->
     GetProcess W ctx req =
       (Error (failure W ErrWorkflowOperationFail (errNoAccess uid spaceID)),
        [CallGetUserSpaceList uid])).
Proof.
  intros Huid Hlist Hout.
  pose proof (checkUserSpace_stranger W uid spaceID spaces Hlist Hout) as Hcheck.
  split; [| split]; intros req Hspace.
  - unfold TestRun, testRunConfig. rewrite Huid, bind_lift_Return, Hspace, bind_lift_Return.
    rewrite Hcheck. reflexivity.
  - unfold NodeDebug, nodeDebugConfig. rewrite Huid, bind_lift_Return, Hspace, bind_lift_Return.
    rewrite Hcheck. reflexivity.
  - unfold GetProcess. rewrite Huid, bind_lift_Return, Hspace, bind_lift_Return.
    rewrite Hcheck. reflexivity.
Qed.

Lemma stranger_reaches_no_execution_witness :
  GetProcess plainWorld sampleContext (processRequest "2" (Some "42")) =
    (Error (ErrWorkflowWrap ErrWorkflowOperationFail
              (ErrText "user 5 does not have access to space 2")
              [("cause", "user 5 does not have access to space 2")]),
     [CallGetUserSpaceList 5]).
Proof.
  assert (Hout : ~ In 2 [1]) by (intros [H | []]; discriminate H).
  exact (proj2 (proj2 (stranger_reaches_no_execution plainWorld sampleContext 5 2 [1]
                         eq_refl eq_refl Hout))
           (processRequest "2" (Some "42")) eq_refl).
Defined.

(** [openAPIConfig] up to the checks on the workflow meta. *)
Lemma openAPIConfig_meta (W : World) ctx req info workflowID meta :
  GetApiAuthFromCtx ctx = Return info ->
  decodes W req ->
  mustParseInt64 (OpenAPIRunFlowRequest.WorkflowID req) = Return workflowID ->
  Get W workflowID = Return meta ->
  (WorkflowMeta.LatestPublishedVersion meta = None ->
   openAPIConfig W ctx req = (Error (vo.NewError ErrWorkflowNotPublished), [CallGet workflowID])) /\
  (forall spaces,
     is_Some (WorkflowMeta.LatestPublishedVersion meta) ->
     GetUserSpaceList W (ApiKeyInfo.UserID info) = Return spaces ->
     ~ In (WorkflowMeta.SpaceID meta) spaces ->
     openAPIConfig W ctx req =
       (Error (errNoAccess (ApiKeyInfo.UserID info) (WorkflowMeta.SpaceID meta)),
        [CallGet workflowID; CallGetUserSpaceList (ApiKeyInfo.UserID info)])).
Proof.
  intros Hauth Hdec Hid Hget. unfold openAPIConfig.
  rewrite Hauth, bind_lift_Return.
  assert (Hparams : exists p,
             match OpenAPIRunFlowRequest.Parameters req with
             | Some text =>
                 match UnmarshalParameters W text with
                 | Return p => ret p
                 | Error err => fail (vo.WrapError ErrInvalidParameter err [])
                 | Panic v => lift (Panic v)
                 end
             | None => ret (∅ : Params)
             end = (Return p, [])).
  { unfold decodes in Hdec.
    destruct (OpenAPIRunFlowRequest.Parameters req) as [text |]; [| eauto].
    destruct (UnmarshalParameters W text); try discriminate. eauto. }
  destruct Hparams as [p ->]. rewrite bind_Return. cbn [app].
  rewrite Hid, bind_lift_Return. unfold call. rewrite Hget, bind_Return.
  split.
  - intros ->. reflexivity.
  - intros spaces [version ->] Hlist Hout.
    rewrite (checkUserSpace_stranger W _ _ spaces Hlist Hout). reflexivity.
Qed.

(** X2: [OpenAPIRun] and [OpenAPIStreamRun] run a workflow only if it has a
    published version and the user of the API key is a member of the
    workflow's space. For a workflow without a published version they return
    the typed error [ErrWorkflowNotPublished] as it is, having asked for the
    workflow meta only; for a user outside the space they return the error
    of [checkUserSpace] as an execute failure, having asked for the meta and
    the space list only. *)
Theorem api_run_needs_published_workflow_and_member (W : World) (ctx : Context.t)
    (req : OpenAPIRunFlowRequest.t) (info : ApiKeyInfo.t) (workflowID : Z)
    (meta : WorkflowMeta.t) :
  GetApiAuthFromCtx ctx = Return info ->
  decodes W req ->
  mustParseInt64 (OpenAPIRunFlowRequest.WorkflowID req) = Return workflowID ->
  Get W workflowID = Return meta ->
  (WorkflowMeta.LatestPublishedVersion meta = None ->
   OpenAPIRun W ctx req =
     (Error (vo.NewError ErrWorkflowNotPublished), [CallGet workflowID]) /\
   OpenAPIStreamRun W ctx req =
     (Error (vo.NewError ErrWorkflowNotPublished), [CallGet workflowID])) /\
  (forall spaces,
     is_Some (WorkflowMeta.LatestPublishedVersion meta) ->
     GetUserSpaceList W (ApiKeyInfo.UserID info) = Return spaces ->
     ~ In (WorkflowMeta.SpaceID meta) spaces ->
     let denied :=
       failure W ErrWorkflowExecuteFail
         (errNoAccess (ApiKeyInfo.UserID info) (WorkflowMeta.SpaceID meta)) in
     let calls := [CallGet workflowID; CallGetUserSpaceList (ApiKeyInfo.UserID info)] in
     OpenAPIRun W ctx req = (Error denied, calls) /\
     OpenAPIStreamRun W ctx req = (Error denied, calls)).
Proof.
  intros Hauth Hdec Hid Hget.
  destruct (openAPIConfig_meta W ctx req info workflowID meta Hauth Hdec Hid Hget)
    as [Hunpublished Hstranger].
  split.
  - intros Hnone. unfold OpenAPIRun, OpenAPIStreamRun.
    rewrite (Hunpublished Hnone). split; reflexivity.
  - intros spaces Hsome Hlist Hout denied calls. unfold OpenAPIRun, OpenAPIStreamRun.
    rewrite (Hstranger spaces Hsome Hlist Hout). split; reflexivity.
Qed.

Lemma api_run_needs_published_workflow_and_member_witness :
  OpenAPIRun (worldWith None [1]) sampleContext (sampleRunRequest None None None) =
    (Error (ErrWorkflow ErrWorkflowNotPublished), [CallGet 7]) /\
  OpenAPIStreamRun (worldWith (Some "v1.0.0") [2]) sampleContext
    (sampleRunRequest None None None) =
    (Error (ErrWorkflowWrap ErrWorkflowExecuteFail
              (ErrText "user 5 does not have access to space 1")
              [("cause", "user 5 does not have access to space 1")]),
     [CallGet 7; CallGetUserSpaceList 5]).
Proof.
  split.
  - exact (proj1 (proj1 (api_run_needs_published_workflow_and_member (worldWith None [1])
                           sampleContext (sampleRunRequest None None None)
                           {| ApiKeyInfo.UserID := 5; ApiKeyInfo.ConnectorID := 1024 |} 7
                           {| WorkflowMeta.ID := 7;
                              WorkflowMeta.SpaceID := 1;
                              WorkflowMeta.LatestPublishedVersion := None |}
                           eq_refl I eq_refl eq_refl) eq_refl)).
  - assert (Hout : ~ In 1 [2]) by (intros [H | []]; discriminate H).
    exact (proj2 (proj2 (api_run_needs_published_workflow_and_member
                           (worldWith (Some "v1.0.0") [2])
                           sampleContext (sampleRunRequest None None None)
                           {| ApiKeyInfo.UserID := 5; ApiKeyInfo.ConnectorID := 1024 |} 7
                           {| WorkflowMeta.ID := 7;
                              WorkflowMeta.SpaceID := 1;
                              WorkflowMeta.LatestPublishedVersion := Some "v1.0.0" |}
                           eq_refl I eq_refl eq_refl) [2] (ex_intro _ "v1.0.0" eq_refl)
                    eq_refl Hout)).
Defined.

(** ** Ids that do not parse *)

Lemma mustParseInt64_malformed (s : string) :
  malformed s -> isReturn (mustParseInt64 s) = false.
Proof. unfold malformed, mustParseInt64. intros ->. reflexivity. Qed.

Lemma parseIfSet_malformed (o : option string) :
  setMalformed o -> isReturn (parseIfSet o) = false.
Proof.
  intros (s & -> & Hs). cbn. pose proof (mustParseInt64_malformed s Hs) as Hno.
  destruct (mustParseInt64 s); [discriminate | reflexivity | reflexivity].
Qed.

Lemma mustParseInt64_FormatInt (i : Z) :
  Strconv.isInt64 i -> mustParseInt64 (Strconv.FormatInt i) = Return i.
Proof.
  intros Hi. unfold mustParseInt64. rewrite StrconvFacts.ParseInt_FormatInt by exact Hi.
  reflexivity.
Qed.

Lemma isReturn_bind {A B} (m : Op A) (k : A -> Op B) :
  isReturn (result (bind m k)) = true ->
  exists a, result m = Return a /\ isReturn (result (k a)) = true.
Proof. rewrite result_bind. destruct (result m); try discriminate. eauto. Qed.

Lemma testRunConfig_parsed (W : World) ctx req :
  isReturn (result (testRunConfig W ctx req)) = true ->
  isReturn (mustParseInt64 (getOr (WorkFlowTestRunRequest.SpaceID req))) = true /\
  isReturn (parseIfSet (WorkFlowTestRunRequest.ProjectID req)) = true /\
  isReturn (parseIfSet (WorkFlowTestRunRequest.BotID req)) = true /\
  isReturn (mustParseInt64 (WorkFlowTestRunRequest.WorkflowID req)) = true.
Proof.
  unfold testRunConfig.
  intros (uID & _ & H)%isReturn_bind.
  apply isReturn_bind in H as (spaceID & Hspace & H).
  apply isReturn_bind in H as ([] & _ & H).
  apply isReturn_bind in H as (appID & Happ & H).
  apply isReturn_bind in H as (agentID & Hagent & H).
  apply isReturn_bind in H as (id & Hid & H).
  rewrite result_lift in Hspace. rewrite result_lift in Happ.
  rewrite result_lift in Hagent. rewrite result_lift in Hid.
  rewrite Hspace, Happ, Hagent, Hid. repeat split; reflexivity.
Qed.

Lemma nodeDebugConfig_parsed (W : World) ctx req :
  isReturn (result (nodeDebugConfig W ctx req)) = true ->
  isReturn (mustParseInt64 (getOr (WorkflowNodeDebugV2Request.SpaceID req))) = true /\
  isReturn (parseIfSet (WorkflowNodeDebugV2Request.ProjectID req)) = true /\
  isReturn (parseIfSet (WorkflowNodeDebugV2Request.BotID req)) = true /\
  isReturn (mustParseInt64 (WorkflowNodeDebugV2Request.WorkflowID req)) = true.
Proof.
  unfold nodeDebugConfig.
  intros (uID & _ & H)%isReturn_bind.
  apply isReturn_bind in H as (spaceID & Hspace & H).
  apply isReturn_bind in H as ([] & _ & H).
  apply isReturn_bind in H as (appID & Happ & H).
  apply isReturn_bind in H as (agentID & Hagent & H).
  apply isReturn_bind in H as (id & Hid & H).
  rewrite result_lift in Hspace. rewrite result_lift in Happ.
  rewrite result_lift in Hagent. rewrite result_lift in Hid.
  rewrite Hspace, Happ, Hagent, Hid. repeat split; reflexivity.
Qed.

Lemma requestedExecution_parsed (req : GetWorkflowProcessRequest.t) :
  isReturn (result (requestedExecution req)) = true ->
  isReturn (mustParseInt64 (GetWorkflowProcessRequest.WorkflowID req)) = true /\
  isReturn (mustParseInt64 (getOr (GetWorkflowProcessRequest.ExecuteID req))) = true /\
  forall s, GetWorkflowProcessRequest.SubExecuteID req = Some s ->
            isReturn (mustParseInt64 s) = true.
Proof.
  unfold requestedExecution.
  destruct (GetWorkflowProcessRequest.SubExecuteID req) as [sub |].
  - intros (id & Hid & H)%isReturn_bind.
    apply isReturn_bind in H as (workflowID & Hw & H).
    apply isReturn_bind in H as (root & Hroot & H).
    rewrite result_lift in Hid. rewrite result_lift in Hw. rewrite result_lift in Hroot.
    rewrite Hw, Hroot.
    repeat split; try reflexivity. intros s [= <-]. rewrite Hid. reflexivity.
  - intros (id & Hid & H)%isReturn_bind.
    apply isReturn_bind in H as (workflowID & Hw & H).
    rewrite result_lift in Hid. rewrite result_lift in Hw. rewrite Hw, Hid.
    repeat split; try reflexivity. intros s [=].
Qed.

(** An operation whose config is not built ends with an error, having made
    the calls of the config only. *)
Lemma config_not_built {A B} (W : World) code (config : Op B) (rest : B -> Op A) :
  isReturn (result config) = false ->
  isError (result (recoverAndWrap W code (bind config rest))) = true /\
  trace (recoverAndWrap W code (bind config rest)) = trace config.
Proof.
  intros Hno. rewrite trace_recoverAndWrap, result_recoverAndWrap, trace_bind, result_bind.
  destruct (result config); [discriminate | split; reflexivity | split; reflexivity].
Qed.

(** X3: a request with an id that is not the decimal text of a 64-bit
    integer (the space id, the workflow id, a project or bot id that is
    set; for [GetProcess] the execute id, which counts as empty when not
    set, or the sub-execute id) is answered with an error: the panic of
    [mustParseInt64] is recovered, [TestRun] and [NodeDebug] start no
    execution and [GetProcess] reads none. *)
Theorem malformed_id_reaches_no_execution (W : World) (ctx : Context.t) :
  (forall req,
     malformed (getOr (WorkFlowTestRunRequest.SpaceID req)) \/
     setMalformed (WorkFlowTestRunRequest.ProjectID req) \/
     setMalformed (WorkFlowTestRunRequest.BotID req) \/
     malformed (WorkFlowTestRunRequest.WorkflowID req) ->
     isError (result (TestRun W ctx req)) = true /\
     Forall (λ c, isExecuteCall c = false) (trace (TestRun W ctx req))) /\
  (forall req,
     malformed (getOr (WorkflowNodeDebugV2Request.SpaceID req)) \/
     setMalformed (WorkflowNodeDebugV2Request.ProjectID req) \/
     setMalformed (WorkflowNodeDebugV2Request.BotID req) \/
     malformed (WorkflowNodeDebugV2Request.WorkflowID req) ->
     isError (result (NodeDebug W ctx req)) = true /\
     Forall (λ c, isExecuteCall c = false) (trace (NodeDebug W ctx req))) /\
  (forall req,
     malformed (getOr (GetWorkflowProcessRequest.SpaceID req)) \/
     malformed (GetWorkflowProcessRequest.WorkflowID req) \/
     malformed (getOr (GetWorkflowProcessRequest.ExecuteID req)) \/
     setMalformed (GetWorkflowProcessRequest.SubExecuteID req) ->
     isError (result (GetProcess W ctx req)) = true /\
     forall id workflowID root,
       ~ In (CallGetExecution id workflowID root) (trace (GetProcess W ctx req))).
Proof.
  split; [| split]; intros req Hbad.
  - assert (Hno : isReturn (result (testRunConfig W ctx req)) = false).
    { destruct (isReturn (result (testRunConfig W ctx req))) eqn:Hcfg; [| reflexivity].
      destruct (testRunConfig_parsed W ctx req Hcfg) as (Hs & Hp & Hb & Hw).
      destruct Hbad as [H | [H | [H | H]]].
      - rewrite (mustParseInt64_malformed _ H) in Hs. discriminate.
      - rewrite (parseIfSet_malformed _ H) in Hp. discriminate.
      - rewrite (parseIfSet_malformed _ H) in Hb. discriminate.
      - rewrite (mustParseInt64_malformed _ H) in Hw. discriminate. }
    unfold TestRun.
    match goal with
    | |- context [recoverAndWrap W ?code (bind ?config ?rest)] =>
        destruct (config_not_built W code config rest Hno) as [Herr Htrace]
    end.
    split; [exact Herr |]. rewrite Htrace. apply quiet_testRunConfig.
  - assert (Hno : isReturn (result (nodeDebugConfig W ctx req)) = false).
    { destruct (isReturn (result (nodeDebugConfig W ctx req))) eqn:Hcfg; [| reflexivity].
      destruct (nodeDebugConfig_parsed W ctx req Hcfg) as (Hs & Hp & Hb & Hw).
      destruct Hbad as [H | [H | [H | H]]].
      - rewrite (mustParseInt64_malformed _ H) in Hs. discriminate.
      - rewrite (parseIfSet_malformed _ H) in Hp. discriminate.
      - rewrite (parseIfSet_malformed _ H) in Hb. discriminate.
      - rewrite (mustParseInt64_malformed _ H) in Hw. discriminate. }
    unfold NodeDebug.
    match goal with
    | |- context [recoverAndWrap W ?code (bind ?config ?rest)] =>
        destruct (config_not_built W code config rest Hno) as [Herr Htrace]
    end.
    split; [exact Herr |]. rewrite Htrace. apply quiet_nodeDebugConfig.
  - unfold GetProcess. rewrite trace_recoverAndWrap, result_recoverAndWrap.
    destruct (MustGetUIDFromCtx ctx) as [uid | |];
      [| split; [reflexivity | intros ? ? ? []] | split; [reflexivity | intros ? ? ? []]].
    rewrite bind_lift_Return.
    destruct (mustParseInt64 (getOr (GetWorkflowProcessRequest.SpaceID req)))
      as [spaceID | |] eqn:Hspace;
      [| split; [reflexivity | intros ? ? ? []] | split; [reflexivity | intros ? ? ? []]].
    rewrite bind_lift_Return.
    rewrite trace_bind, result_bind.
    pose proof (checkUserSpace_trace W uid spaceID) as Ht.
    destruct (checkUserSpace W uid spaceID) as [[[] | |] t]; cbn [result trace fst snd] in *;
      subst t;
      [| split; [reflexivity | intros ? ? ? [[=] | []]]
       | split; [reflexivity | intros ? ? ? [[=] | []]]].
    rewrite trace_bind, result_bind.
    pose proof (requestedExecution_trace req) as Hids.
    pose proof (requestedExecution_parsed req) as Hparsed.
    destruct (requestedExecution req) as [[ids | |] t]; cbn [result trace fst snd] in *;
      subst t;
      [| split; [reflexivity | intros ? ? ? [[=] | []]]
       | split; [reflexivity | intros ? ? ? [[=] | []]]].
    exfalso. destruct (Hparsed eq_refl) as (Hw & He & Hsub).
    destruct Hbad as [H | [H | [H | (s & Hs & H)]]].
    + pose proof (mustParseInt64_malformed _ H) as Hno. rewrite Hspace in Hno. discriminate.
    + rewrite (mustParseInt64_malformed _ H) in Hw. discriminate.
    + rewrite (mustParseInt64_malformed _ H) in He. discriminate.
    + pose proof (Hsub s Hs) as Hyes. rewrite (mustParseInt64_malformed _ H) in Hyes.
      discriminate.
Qed.

Lemma malformed_id_reaches_no_execution_witness :
  isError (result (GetProcess plainWorld sampleContext (processRequest "1" None))) = true /\
  ~ In (CallGetExecution 0 7 0)
      (trace (GetProcess plainWorld sampleContext (processRequest "1" None))) /\
  isError (result (TestRun plainWorld sampleContext (sampleTestRunRequest "one"))) = true.
Proof.
  destruct (malformed_id_reaches_no_execution plainWorld sampleContext)
    as (Hrun & _ & Hprocess).
  destruct (Hprocess (processRequest "1" None)) as [Herr Hnone].
  { right. right. left. reflexivity. }
  split; [exact Herr |]. split; [apply Hnone |].
  refine (proj1 (Hrun (sampleTestRunRequest "one") _)). left. reflexivity.
Defined.

(** ** From starting an execution to asking for its process *)

(** [GetProcess] asks [GetExecution] for the ids of the request. *)
Lemma GetProcess_asks (W : World) (ctx : Context.t) (req : GetWorkflowProcessRequest.t)
    (id workflowID root : Z) :
  In (CallGetExecution id workflowID root) (trace (GetProcess W ctx req)) ->
  result (requestedExecution req) = Return (id, workflowID, root).
Proof.
  unfold GetProcess. rewrite trace_recoverAndWrap.
  destruct (MustGetUIDFromCtx ctx) as [uid | |]; [| intros [] | intros []].
  rewrite bind_lift_Return.
  destruct (mustParseInt64 (getOr (GetWorkflowProcessRequest.SpaceID req)))
    as [spaceID | |]; [| intros [] | intros []].
  rewrite bind_lift_Return, trace_bind.
  pose proof (checkUserSpace_trace W uid spaceID) as Hspace.
  destruct (checkUserSpace W uid spaceID) as [[[] | |] t]; cbn [result trace fst snd] in *;
    subst t; [| intros [[=] | []] | intros [[=] | []]].
  rewrite trace_bind.
  pose proof (requestedExecution_trace req) as Hids.
  destruct (requestedExecution req) as [[[[id0 workflowID0] root0] | |] t];
    cbn [result trace fst snd] in *; subst t; [| intros [[=] | []] | intros [[=] | []]].
  rewrite trace_bind. cbn [call result trace fst snd app].
  intros [[=] | Hin].
  destruct (GetExecution W id0 workflowID0 root0); cbn in Hin;
    destruct Hin as [[= -> -> ->] | []]; reflexivity.
Qed.

Lemma asksFor_id (req : GetWorkflowProcessRequest.t) (text : string) (exeID : Z)
    (id workflowID root : Z) :
  asksFor text req ->
  mustParseInt64 text = Return exeID ->
  result (requestedExecution req) = Return (id, workflowID, root) ->
  id = exeID /\ root = 0.
Proof.
  intros [Hexe Hsub] Hparse. unfold requestedExecution.
  rewrite Hsub, Hexe. change (getOr (Some text)) with text.
  rewrite Hparse, bind_lift_Return.
  destruct (mustParseInt64 (GetWorkflowProcessRequest.WorkflowID req)); try discriminate.
  rewrite bind_lift_Return. intros [= <- _ <-]. split; reflexivity.
Qed.

(** What an operation of the shape config, check, execute, response did
    when it returns. *)
Lemma executed_once {A B} (W : World) code (config : Op ExecuteConfig.t)
    (c : ExecuteConfig.t -> Call) (run : ExecuteConfig.t -> outcome A)
    (response : A -> B) (b : B) :
  Forall (λ c', isExecuteCall c' = false) (trace config) ->
  let op := recoverAndWrap W code
              (let* exeCfg := config in
               let* _ := rejectBothSet exeCfg in
               let* a := call (c exeCfg) (run exeCfg) in
               ret (response a)) in
  result op = Return b ->
  exists exeCfg a,
    result config = Return exeCfg /\
    startedOnce op (c exeCfg) /\
    run exeCfg = Return a /\
    b = response a.
Proof.
  intros Hquiet op. subst op. unfold startedOnce.
  rewrite trace_recoverAndWrap, result_recoverAndWrap, trace_bind, result_bind.
  destruct config as [[exeCfg | e | v] t]; cbn [result trace fst snd] in *; try discriminate.
  rewrite trace_bind, result_bind. unfold rejectBothSet.
  destruct (bothSet (ExecuteConfig.AppID exeCfg) (ExecuteConfig.AgentID exeCfg)) eqn:Hboth;
    cbn [ret fail result trace fst snd]; [discriminate |].
  rewrite trace_bind, result_bind. cbn [call result trace fst snd].
  destruct (run exeCfg) as [a | |] eqn:Hrun; try discriminate.
  cbn [ret result trace fst snd app].
  intros [= <-]. exists exeCfg, a. repeat split; auto.
  exists t. split; [reflexivity | exact Hquiet].
Qed.

(** X4: when [TestRun] or [NodeDebug] returns, it has started exactly
    one execution, by its last call ([AsyncExecute] in debug mode,
    [AsyncExecuteNode] in node-debug mode, on the merged input), and the
    execute id of the response is the decimal text of the id that call
    returned. [GetProcess] reads that text back: for a request with that
    execute id and no sub-execute id, the execution it asks [GetExecution]
    for is the one that was started, as a root execution. *)
Theorem started_execution_is_reported (W : World) (ctx : Context.t) :
  (forall req data,
     result (TestRun W ctx req) = Return data ->
     exists exeCfg exeID,
       startedOnce (TestRun W ctx req)
         (CallAsyncExecute exeCfg (WorkFlowTestRunRequest.Input req)) /\
       AsyncExecute W exeCfg (WorkFlowTestRunRequest.Input req) = Return exeID /\
       ExecuteConfig.Mode exeCfg = ExecuteModeDebug /\
       WorkFlowTestRunData.ExecuteID data = Strconv.FormatInt exeID) /\
  (forall req data,
     result (NodeDebug W ctx req) = Return data ->
     exists exeCfg exeID,
       startedOnce (NodeDebug W ctx req)
         (CallAsyncExecuteNode (WorkflowNodeDebugV2Request.NodeID req) exeCfg
            (mergedInput req)) /\
       AsyncExecuteNode W (WorkflowNodeDebugV2Request.NodeID req) exeCfg (mergedInput req) =
         Return exeID /\
       ExecuteConfig.Mode exeCfg = ExecuteModeNodeDebug /\
       WorkflowNodeDebugV2Data.ExecuteID data = Strconv.FormatInt exeID) /\
  (forall exeID ctx' req id workflowID root,
     Strconv.isInt64 exeID ->
     asksFor (Strconv.FormatInt exeID) req ->
     In (CallGetExecution id workflowID root) (trace (GetProcess W ctx' req)) ->
     id = exeID /\ root = 0).
Proof.
  split; [| split].
  - intros req data Hdata. unfold TestRun in *.
    destruct (executed_once W ErrWorkflowExecuteFail (testRunConfig W ctx req)
                (λ exeCfg, CallAsyncExecute exeCfg (WorkFlowTestRunRequest.Input req))
                (λ exeCfg, AsyncExecute W exeCfg (WorkFlowTestRunRequest.Input req))
                (λ exeID, {| WorkFlowTestRunData.WorkflowID :=
                               WorkFlowTestRunRequest.WorkflowID req;
                             WorkFlowTestRunData.ExecuteID := Strconv.FormatInt exeID |})
                data (quiet_testRunConfig W ctx req) Hdata)
      as (exeCfg & exeID & Hcfg & Honce & Hrun & ->).
    exists exeCfg, exeID. repeat split; auto.
    revert Hcfg. unfold testRunConfig.
    intros (uID & _ & H)%result_bind_Return.
    apply result_bind_Return in H as (spaceID & _ & H).
    apply result_bind_Return in H as ([] & _ & H).
    apply result_bind_Return in H as (appID & _ & H).
    apply result_bind_Return in H as (agentID & _ & H).
    apply result_bind_Return in H as (wid & _ & H).
    injection H as <-. reflexivity.
  - intros req data Hdata. unfold NodeDebug in *.
    destruct (executed_once W ErrWorkflowExecuteFail (nodeDebugConfig W ctx req)
                (λ exeCfg, CallAsyncExecuteNode (WorkflowNodeDebugV2Request.NodeID req)
                             exeCfg (mergedInput req))
                (λ exeCfg, AsyncExecuteNode W (WorkflowNodeDebugV2Request.NodeID req)
                             exeCfg (mergedInput req))
                (λ exeID, {| WorkflowNodeDebugV2Data.WorkflowID :=
                               WorkflowNodeDebugV2Request.WorkflowID req;
                             WorkflowNodeDebugV2Data.NodeID :=
                               WorkflowNodeDebugV2Request.NodeID req;
                             WorkflowNodeDebugV2Data.ExecuteID := Strconv.FormatInt exeID |})
                data (quiet_nodeDebugConfig W ctx req) Hdata)
      as (exeCfg & exeID & Hcfg & Honce & Hrun & ->).
    exists exeCfg, exeID. repeat split; auto.
    revert Hcfg. unfold nodeDebugConfig.
    intros (uID & _ & H)%result_bind_Return.
    apply result_bind_Return in H as (spaceID & _ & H).
    apply result_bind_Return in H as ([] & _ & H).
    apply result_bind_Return in H as (appID & _ & H).
    apply result_bind_Return in H as (agentID & _ & H).
    apply result_bind_Return in H as (wid & _ & H).
    injection H as <-. reflexivity.
  - intros exeID ctx' req id workflowID root Hint Hasks Hin.
    apply GetProcess_asks in Hin.
    exact (asksFor_id req _ exeID id workflowID root Hasks
             (mustParseInt64_FormatInt exeID Hint) Hin).
Qed.

Lemma started_execution_is_reported_witness :
  exists data,
    result (TestRun plainWorld sampleContext (sampleTestRunRequest "1")) = Return data /\
    WorkFlowTestRunData.ExecuteID data = "42" /\
    forall id workflowID root,
      In (CallGetExecution id workflowID root)
         (trace (GetProcess plainWorld sampleContext (processRequest "1" (Some "42")))) ->
      id = 42.
Proof.
  destruct (started_execution_is_reported plainWorld sampleContext) as (Hrun & _ & Hask).
  eexists. split; [reflexivity |].
  destruct (Hrun (sampleTestRunRequest "1") _ eq_refl) as (exeCfg & exeID & _ & _ & _ & Hid).
  split; [reflexivity |].
  intros id workflowID root Hin.
  refine (proj1 (Hask 42 sampleContext (processRequest "1" (Some "42"))
                   id workflowID root _ _ Hin)).
  - vm_compute. split; discriminate.
  - split; reflexivity.
Defined.

(** ** The rate and the fail reason in [GetProcess] *)

Lemma successes_nil : successes [] = 0.
Proof. reflexivity. Qed.

Lemma successes_cons (nr : NodeResult.t) (l : list NodeResult.t) :
  successes (nr :: l) = (if isSuccess nr then 1 else 0) + successes l.
Proof.
  unfold successes. destruct (isSuccess nr) eqn:Hs.
  - rewrite filter_cons_True by exact Hs. cbn [length]. lia.
  - rewrite filter_cons_False by (rewrite Hs; discriminate). lia.
Qed.

Lemma successes_app (l1 l2 : list NodeResult.t) :
  successes (l1 ++ l2) = successes l1 + successes l2.
Proof. unfold successes. rewrite filter_app, length_app. lia. Qed.

Lemma successes_alter (f : NodeResult.t -> NodeResult.t) (i : nat) (l : list NodeResult.t) :
  (forall nr, isSuccess (f nr) = isSuccess nr) ->
  successes (alter f i l) = successes l.
Proof.
  intros Hf. revert i.
  induction l as [| x l IH]; intros [| i]; cbn [alter list_alter]; try reflexivity.
  - rewrite !successes_cons, Hf. reflexivity.
  - rewrite !successes_cons, IH. reflexivity.
Qed.

Lemma successes_attachFailReason workflowFail failReason st :
  successes (attachFailReason workflowFail failReason st) =
    successes (LoopState.NodeResults st).
Proof.
  unfold attachFailReason.
  destruct (workflowFail && negb (LoopState.hasNodeErr st)); [| reflexivity].
  destruct failReason as [reason |]; [| reflexivity].
  assert (Hend : successes (LoopState.NodeResults st ++ [syntheticEndNode reason]) =
                 successes (LoopState.NodeResults st)).
  { rewrite successes_app, successes_cons, successes_nil.
    change (isSuccess (syntheticEndNode reason)) with false. cbv iota. lia. }
  destruct (LoopState.endNodeExe st) as [[i | nr] |].
  - apply successes_alter. intros nr. reflexivity.
  - reflexivity.
  - destruct (LoopState.NodeResults st) as [| only [| second rest]]; try exact Hend.
    destruct (negb (String.eqb (NodeResult.NodeType only) NodeTemplateType_Start));
      [| exact Hend].
    rewrite !successes_cons. reflexivity.
Qed.

Lemma loopBody_successNum (W : World) st nodeExe nr st' :
  LoopState.successNum st = successes (LoopState.NodeResults st) ->
  loopBody W st nodeExe nr = Return st' ->
  LoopState.successNum st' = successes (LoopState.NodeResults st').
Proof.
  intros Hinv. unfold loopBody.
  destruct (dispose W st nodeExe nr) as [nr' | merged cp ci | k | k |];
    [| | | | discriminate]; intros [= <-];
    cbn [appendResult LoopState.successNum LoopState.NodeResults]; try exact Hinv.
  - rewrite successes_app, successes_cons, successes_nil, <- Hinv.
    destruct (isSuccess nr'); lia.
  - rewrite successes_app, successes_cons, successes_nil, <- Hinv.
    destruct (isSuccess merged); lia.
Qed.

Lemma nodeLoop_successNum (W : World) l :
  forall st st',
    LoopState.successNum st = successes (LoopState.NodeResults st) ->
    nodeLoop W st l = Return st' ->
    LoopState.successNum st' = successes (LoopState.NodeResults st').
Proof.
  induction l as [| nodeExe l IH]; intros st st' Hinv; cbn [nodeLoop].
  - intros [= <-]. exact Hinv.
  - destruct (convertNodeExecution W nodeExe) as [nr | |]; try discriminate.
    destruct (loopBody W st nodeExe nr) as [st1 | |] eqn:Hbody; try discriminate.
    apply IH. exact (loopBody_successNum W st nodeExe nr st1 Hinv Hbody).
Qed.

(** X5: the [Rate] of a response of [GetProcess] is the share of the
    listed node results with the status [Success] in the node count of the
    execution, and it is empty when the node count is not positive. The
    counter [successNum] and the listing grow together, in the loop over the
    node executions and in the loop over the unmerged batch shells; the
    fail reason, wherever it is attached, adds no success. *)
Theorem rate_counts_listed_successes (W : World) (ctx : Context.t)
    (req : GetWorkflowProcessRequest.t) (id workflowID root : Z)
    (exe : WorkflowExecution.t) (data : GetWorkFlowProcessData.t) :
  In (CallGetExecution id workflowID root) (trace (GetProcess W ctx req)) ->
  GetExecution W id workflowID root = Return exe ->
  result (GetProcess W ctx req) = Return data ->
  GetWorkFlowProcessData.Rate data =
    if 0 <? WorkflowExecution.NodeCount exe
    then formatRate W (successes (GetWorkFlowProcessData.NodeResults data))
           (WorkflowExecution.NodeCount exe)
    else "".
Proof.
  intros Hcall Hget Hdata.
  pose proof (GetProcess_Return W ctx req id workflowID root exe data Hcall Hget Hdata)
    as Hprocess.
  unfold processData in Hprocess.
  destruct (nodeLoop W initialLoopState (WorkflowExecution.NodeExecutions exe))
    as [st | |] eqn:Hloop; try discriminate.
  destruct (nodeEvents W (WorkflowExecution.InterruptEvents exe)) as [events | |];
    try discriminate.
  injection Hprocess as <-.
  cbn [GetWorkFlowProcessData.Rate GetWorkFlowProcessData.NodeResults].
  rewrite successes_app, successes_attachFailReason.
  rewrite <- (nodeLoop_successNum W _ initialLoopState st eq_refl Hloop).
  reflexivity.
Qed.

Lemma rate_counts_listed_successes_witness :
  exists data,
    result (GetProcess (worldOf loneShell) sampleContext sampleProcessRequest) = Return data /\
    GetWorkFlowProcessData.Rate data =
      formatRate (worldOf loneShell) (successes (GetWorkFlowProcessData.NodeResults data)) 3.
Proof.
  assert (Hdata : exists data,
             result (GetProcess (worldOf loneShell) sampleContext sampleProcessRequest) =
               Return data).
  { vm_compute. eexists. reflexivity. }
  destruct Hdata as [data Hdata].
  assert (Hcall : In (CallGetExecution 42 7 0)
                    (trace (GetProcess (worldOf loneShell) sampleContext sampleProcessRequest))).
  { vm_compute. right. left. reflexivity. }
  exists data. split; [exact Hdata |].
  exact (rate_counts_listed_successes (worldOf loneShell) sampleContext sampleProcessRequest
           42 7 0 loneShell data Hcall eq_refl Hdata).
Defined.

Lemma dispose_plainExit (W : World) st nodeExe nr :
  NodeExecution.NodeType nodeExe = NodeTypeExit ->
  plainExit nodeExe ->
  dispose W st nodeExe nr = Listed nr.
Proof.
  intros Htype Hplain. unfold dispose. rewrite Htype, (Hplain Htype). reflexivity.
Qed.

Lemma loopBody_endListed (W : World) seen st nodeExe nr st' :
  endListedInv seen st ->
  isFailedWithInfo nodeExe = false ->
  plainExit nodeExe ->
  NodeResult.NodeId nr = NodeExecution.NodeID nodeExe ->
  loopBody W st nodeExe nr = Return st' ->
  endListedInv (nodeExe :: seen) st'.
Proof.
  intros [Herr Hend] Hfailed Hplain Hid. unfold loopBody.
  destruct (String.eqb (NodeExecution.NodeType nodeExe) NodeTypeExit) eqn:Htype.
  - apply String.eqb_eq in Htype.
    rewrite (dispose_plainExit W st nodeExe nr Htype Hplain).
    intros [= <-]. split; cbn.
    + rewrite Herr, Hfailed. reflexivity.
    + exists nr, nodeExe. rewrite lookup_app_r by reflexivity.
      rewrite Nat.sub_diag. repeat split; auto.
  - apply String.eqb_neq in Htype.
    assert (Hkeep : forall st1,
               LoopState.hasNodeErr st1 = (LoopState.hasNodeErr st || isFailedWithInfo nodeExe) ->
               LoopState.endNodeExe st1 = LoopState.endNodeExe st ->
               (exists more, LoopState.NodeResults st1 = LoopState.NodeResults st ++ more) ->
               endListedInv (nodeExe :: seen) st1).
    { intros st1 Herr1 Hend1 [more Hmore]. split.
      - rewrite Herr1, Herr, Hfailed. reflexivity.
      - rewrite Hend1. destruct (LoopState.endNodeExe st) as [[i | unlisted] |].
        + destruct Hend as (nr0 & n0 & Hi & Hin & Ht & Hn).
          exists nr0, n0. rewrite Hmore. repeat split; auto.
          * apply lookup_app_l_Some. exact Hi.
          * right. exact Hin.
        + exact Hend.
        + constructor; [exact Htype | exact Hend]. }
    destruct (dispose W st nodeExe nr) as [nr' | merged cp ci | k | k |];
      [| | | | discriminate]; intros [= <-]; apply Hkeep; cbn; try reflexivity.
    + exists [nr']. reflexivity.
    + exists [merged]. reflexivity.
    + exists []. rewrite app_nil_r. reflexivity.
    + exists []. rewrite app_nil_r. reflexivity.
Qed.

Lemma nodeLoop_endListed (W : World) l :
  forall seen st st',
    Forall (λ nodeExe, isFailedWithInfo nodeExe = false) l ->
    Forall plainExit l ->
    endListedInv seen st ->
    nodeLoop W st l = Return st' ->
    endListedInv (rev l ++ seen) st'.
Proof.
  induction l as [| nodeExe l IH]; intros seen st st' Hfailed Hplain Hinv; cbn [nodeLoop].
  - intros [= <-]. exact Hinv.
  - inversion Hfailed as [| ? ? Hf Hfailed']; subst.
    inversion Hplain as [| ? ? Hp Hplain']; subst.
    destruct (convertNodeExecution W nodeExe) as [nr | |] eqn:Hnr; try discriminate.
    destruct (convertNodeExecution_Return W nodeExe nr Hnr) as (Hid & _).
    destruct (loopBody W st nodeExe nr) as [st1 | |] eqn:Hbody; try discriminate.
    intros Hloop. cbn [rev]. rewrite <- app_assoc. cbn [app].
    apply (IH (nodeExe :: seen) st1 st' Hfailed' Hplain'); [| exact Hloop].
    exact (loopBody_endListed W seen st nodeExe nr st1 Hinv Hf Hp Hid Hbody).
Qed.

(** X6: when the execution failed with a fail reason, no node
    execution failed with an error of its own, and exit nodes are reported
    without iterations, some listed node result of [GetProcess] carries the
    fail reason as its [ErrorInfo], with the error level [Error]; when an
    exit node was reported, it is the result of an exit node. *)
Theorem fail_reason_is_listed (W : World) (ctx : Context.t)
    (req : GetWorkflowProcessRequest.t) (id workflowID root : Z)
    (exe : WorkflowExecution.t) (data : GetWorkFlowProcessData.t) (reason : string) :
  In (CallGetExecution id workflowID root) (trace (GetProcess W ctx req)) ->
  GetExecution W id workflowID root = Return exe ->
  result (GetProcess W ctx req) = Return data ->
  WorkflowExecution.Status exe = WorkflowFailed ->
  WorkflowExecution.FailReason exe = Some reason ->
  Forall (λ nodeExe, isFailedWithInfo nodeExe = false) (WorkflowExecution.NodeExecutions exe) ->
  Forall plainExit (WorkflowExecution.NodeExecutions exe) ->
  exists nr,
    In nr (GetWorkFlowProcessData.NodeResults data) /\
    carriesReason reason nr /\
    (Exists (λ nodeExe, NodeExecution.NodeType nodeExe = NodeTypeExit)
       (WorkflowExecution.NodeExecutions exe) ->
     exists nodeExe,
       In nodeExe (WorkflowExecution.NodeExecutions exe) /\
       NodeExecution.NodeType nodeExe = NodeTypeExit /\
       NodeResult.NodeId nr = NodeExecution.NodeID nodeExe).
Proof.
  intros Hcall Hget Hdata Hstatus Hreason Hfailed Hplain.
  pose proof (GetProcess_Return W ctx req id workflowID root exe data Hcall Hget Hdata)
    as Hprocess.
  destruct (processData_NodeResults W exe data Hprocess)
    as (st & events & Hloop & _ & _ & _ & ->).
  assert (Hinit : endListedInv [] initialLoopState).
  { split; [reflexivity |]. constructor. }
  pose proof (nodeLoop_endListed W _ [] initialLoopState st Hfailed Hplain Hinit Hloop)
    as [Herr Hend].
  rewrite app_nil_r in Hend.
  rewrite Hstatus, Hreason. unfold attachFailReason.
  cbn [shownStatus isWorkflowFailed]. rewrite Herr. cbn [negb andb].
  destruct (LoopState.endNodeExe st) as [[i | unlisted] |]; [| destruct Hend |].
  - destruct Hend as (nr0 & n0 & Hi & Hin & Ht & Hn).
    exists (setError reason nr0). split; [| split].
    + apply in_or_app. left. apply list_elem_of_In, list_elem_of_lookup.
      exists i. rewrite list_lookup_alter_eq, Hi. reflexivity.
    + split; reflexivity.
    + intros _. exists n0. repeat split; auto.
      apply in_rev. exact Hin.
  - assert (Hnone : ~ Exists (λ nodeExe, NodeExecution.NodeType nodeExe = NodeTypeExit)
                      (WorkflowExecution.NodeExecutions exe)).
    { intros Hex. apply List.Exists_exists in Hex as (n & Hin & Ht).
      rewrite Forall_forall in Hend.
      apply (Hend n); [| exact Ht]. apply list_elem_of_In, in_rev.
      rewrite rev_involutive. exact Hin. }
    assert (Hsynthetic :
              exists nr,
                In nr ((LoopState.NodeResults st ++ [syntheticEndNode reason]) ++
                       unmergedParents st) /\
                carriesReason reason nr /\
                (Exists (λ nodeExe, NodeExecution.NodeType nodeExe = NodeTypeExit)
                   (WorkflowExecution.NodeExecutions exe) ->
                 exists nodeExe,
                   In nodeExe (WorkflowExecution.NodeExecutions exe) /\
                   NodeExecution.NodeType nodeExe = NodeTypeExit /\
                   NodeResult.NodeId nr = NodeExecution.NodeID nodeExe)).
    { exists (syntheticEndNode reason). split; [| split].
      - apply in_or_app. left. apply in_or_app. right. left. reflexivity.
      - split; reflexivity.
      - intros Hex. contradiction. }
    destruct (LoopState.NodeResults st) as [| only [| second rest]]; try exact Hsynthetic.
    destruct (negb (String.eqb (NodeResult.NodeType only) NodeTemplateType_Start));
      [| exact Hsynthetic].
    exists (setError reason only). split; [| split].
    + left. reflexivity.
    + split; reflexivity.
    + intros Hex. contradiction.
Qed.

Lemma fail_reason_is_listed_witness :
  exists data nr,
    result (GetProcess (worldOf failedExecution) sampleContext sampleProcessRequest) =
      Return data /\
    In nr (GetWorkFlowProcessData.NodeResults data) /\
    NodeResult.ErrorInfo nr = "timeout" /\
    NodeResult.NodeId nr = "900001".
Proof.
  assert (Hquiet : Forall (λ nodeExe, isFailedWithInfo nodeExe = false)
                     (WorkflowExecution.NodeExecutions failedExecution)).
  { apply List.Forall_cons; [reflexivity |].
    apply List.Forall_cons; [reflexivity | apply List.Forall_nil]. }
  assert (Hplain : Forall plainExit (WorkflowExecution.NodeExecutions failedExecution)).
  { apply List.Forall_cons; [intros _; reflexivity |].
    apply List.Forall_cons; [intros _; reflexivity | apply List.Forall_nil]. }
  assert (Hdata : exists data,
             result (GetProcess (worldOf failedExecution) sampleContext sampleProcessRequest) =
               Return data).
  { vm_compute. eexists. reflexivity. }
  destruct Hdata as [data Hdata].
  assert (Hcall : In (CallGetExecution 42 7 0)
                    (trace (GetProcess (worldOf failedExecution) sampleContext
                              sampleProcessRequest))).
  { vm_compute. right. left. reflexivity. }
  destruct (fail_reason_is_listed (worldOf failedExecution) sampleContext sampleProcessRequest
              42 7 0 failedExecution data "timeout"
              Hcall eq_refl Hdata eq_refl eq_refl Hquiet Hplain)
    as (nr & Hin & [Hinfo _] & Hexit).
  exists data, nr. split; [exact Hdata |]. split; [exact Hin |]. split; [exact Hinfo |].
  destruct Hexit as (nodeExe & Hnode & Htype & ->).
  { apply List.Exists_cons_tl, List.Exists_cons_hd. reflexivity. }
  destruct Hnode as [<- | [<- | []]]; [discriminate Htype | reflexivity].
Defined.

(** ** The ids of the events of a stream *)

Section EventIDs.
Context (W : World) (workflowID : Z).

#[local] Abbreviation step := (convertStreamRunEvent W workflowID).

Lemma convertStateMessage_messageID st sm :
  ConvertState.messageID (snd (convertStateMessage W workflowID st sm)) =
    ConvertState.messageID st /\
  forall ev, fst (convertStateMessage W workflowID st sm) = Return (Some ev) ->
             OpenAPIStreamRunFlowResponse.ID ev = Strconv.Itoa (ConvertState.messageID st).
Proof.
  unfold convertStateMessage.
  destruct (fromOtherExecution st (StateMessage.ExecuteID sm));
    [split; [reflexivity | discriminate] |].
  destruct (StateMessage.Status sm);
    try destruct (StateMessage.LastError sm ≫= vo.asWorkflowError);
    try destruct (StateMessage.InterruptEvent sm);
    (split; [reflexivity |]); cbn [fst]; intros ev; try discriminate;
    intros [= <-]; reflexivity.
Qed.

Lemma convertDataMessage_messageID st dm :
  ConvertState.messageID (snd (convertDataMessage W st dm)) = ConvertState.messageID st /\
  forall ev, fst (convertDataMessage W st dm) = Return (Some ev) ->
             OpenAPIStreamRunFlowResponse.ID ev = Strconv.Itoa (ConvertState.messageID st).
Proof.
  unfold convertDataMessage.
  destruct (DataMessage.Type_ dm); try (split; [reflexivity | discriminate]).
  destruct (fromOtherExecution st (DataMessage.ExecuteID dm));
    [split; [reflexivity | discriminate] |].
  split; [reflexivity |]. cbn [fst]. intros ev [= <-]. reflexivity.
Qed.

(** One call: the event, if any, has the current [messageID], and
    [messageID] moves exactly when no error is returned. *)
Lemma messageID_step st msg :
  ConvertState.messageID (snd (step st msg)) =
    (if delivered (fst (step st msg))
     then Strconv.wrap64 (ConvertState.messageID st + 1)
     else ConvertState.messageID st) /\
  forall ev, fst (step st msg) = Return (Some ev) ->
             OpenAPIStreamRunFlowResponse.ID ev = Strconv.Itoa (ConvertState.messageID st).
Proof.
  unfold convertStreamRunEvent.
  destruct (Message.StateMessage msg) as [sm |].
  - destruct (convertStateMessage_messageID st sm) as [Hid Hev].
    destruct (convertStateMessage W workflowID st sm) as [r st']. cbn [fst snd] in *.
    split; [| exact Hev]. destruct r; cbn; congruence.
  - destruct (Message.DataMessage msg) as [dm |].
    + destruct (convertDataMessage_messageID st dm) as [Hid Hev].
      destruct (convertDataMessage W st dm) as [r st']. cbn [fst snd] in *.
      split; [| exact Hev]. destruct r; cbn; congruence.
    + split; [reflexivity | discriminate].
Qed.

Lemma messageID_counts msgs :
  forall st c0,
    ConvertState.messageID st = Strconv.wrap64 c0 ->
    ConvertState.messageID (stateAfter W workflowID st msgs) =
      Strconv.wrap64 (c0 + Z.of_nat (deliveries (outputs W workflowID st msgs))).
Proof.
  induction msgs as [| msg msgs IH]; intros st c0 Hc0.
  - cbn. rewrite Z.add_0_r. exact Hc0.
  - rewrite stateAfter_cons. cbn [outputs].
    destruct (messageID_step st msg) as [Hstep _].
    destruct (step st msg) as [r st'] eqn:Hr. cbn [fst snd] in *.
    unfold deliveries in *.
    destruct (delivered r) eqn:Hd.
    + rewrite filter_cons_True by exact Hd. cbn [length].
      rewrite (IH st' (c0 + 1)).
      * f_equal. lia.
      * rewrite Hstep, Hc0. apply wrap64_succ.
    + rewrite filter_cons_False by (rewrite Hd; discriminate).
      apply IH. congruence.
Qed.

End EventIDs.

(** X7: the [ID] of an event that the stream converter returns is the
    number of earlier calls of the converter that returned no error (0 for
    the first event), as decimal text: a message that is dropped with
    [ErrNoValue] uses up no id, and each event uses up one. *)
Theorem event_ids_count_deliveries (W : World) (workflowID : Z)
    (history : list Message.t) (msg : Message.t) (ev : OpenAPIStreamRunFlowResponse.t) :
  let st := stateAfter W workflowID initialConvertState history in
  let earlier := deliveries (outputs W workflowID initialConvertState history) in
  fst (convertStreamRunEvent W workflowID st msg) = Return (Some ev) ->
  OpenAPIStreamRunFlowResponse.ID ev = Strconv.Itoa (Strconv.wrap64 (Z.of_nat earlier)) /\
  deliveries (outputs W workflowID initialConvertState (history ++ [msg])) = S earlier.
Proof.
  intros st earlier Hev.
  pose proof (messageID_counts W workflowID history initialConvertState 0 eq_refl) as Hcount.
  fold st in Hcount. rewrite Z.add_0_l in Hcount. fold earlier in Hcount.
  destruct (messageID_step W workflowID st msg) as [_ Hid].
  split; [rewrite (Hid ev Hev), Hcount; reflexivity |].
  assert (Hout : forall l s, outputs W workflowID s (l ++ [msg]) =
                   outputs W workflowID s l ++
                   [fst (convertStreamRunEvent W workflowID (stateAfter W workflowID s l) msg)]).
  { induction l as [| m l IH]; intros s.
    - cbn. destruct (convertStreamRunEvent W workflowID s msg). reflexivity.
    - cbn [app outputs]. rewrite stateAfter_cons.
      destruct (convertStreamRunEvent W workflowID s m) as [r s']. cbn [snd].
      rewrite IH. reflexivity. }
  rewrite Hout. fold st. rewrite Hev. unfold deliveries.
  rewrite filter_app, length_app, filter_cons_True by reflexivity.
  cbn [length filter]. fold (deliveries (outputs W workflowID initialConvertState history)).
  fold earlier. cbn. lia.
Qed.

Lemma event_ids_count_deliveries_witness :
  let history := [stateMsg 42 1 WorkflowRunning None None;
                  dataMsg 42 Answer "300" "a";
                  dataMsg 43 Answer "300" "tool";
                  dataMsg 42 FunctionCall "300" "f";
                  dataMsg 42 Answer "301" "x"] in
  let st := stateAfter plainWorld 7 initialConvertState history in
  exists ev,
    fst (convertStreamRunEvent plainWorld 7 st (stateMsg 42 1 WorkflowSuccess None None)) =
      Return (Some ev) /\
    OpenAPIStreamRunFlowResponse.Event ev = DoneEvent /\
    OpenAPIStreamRunFlowResponse.ID ev = "2".
Proof.
  intros history st. eexists. split; [reflexivity |]. split; [reflexivity |].
  exact (proj1 (event_ids_count_deliveries plainWorld 7 history
                  (stateMsg 42 1 WorkflowSuccess None None) _ eq_refl)).
Defined.

(** ** Failures of [convertNodeExecution] *)

(** Induction on a node execution with its iterations, at any depth. *)
Lemma NodeExecution_nested_ind (P : NodeExecution.t -> Prop) :
  (forall nodeExe,
     Forall (λ o, match o with Some sub => P sub | None => True end)
       (NodeExecution.IndexedExecutions nodeExe) ->
     P nodeExe) ->
  forall nodeExe, P nodeExe.
Proof.
  intros Hstep. fix IH 1. intros nodeExe. apply Hstep.
  destruct nodeExe as [? ? ? ? ? ? ? ? ? ? ? ? ? ? iterations ? ? ?].
  cbn [NodeExecution.IndexedExecutions].
  induction iterations as [| [sub |] rest IHrest].
  - apply List.Forall_nil.
  - apply List.Forall_cons; [apply IH | exact IHrest].
  - apply List.Forall_cons; [exact I | exact IHrest].
Qed.

Lemma finishNodeResult_failures (W : World) nodeExe subResults :
  failsOnlyInMarshal W (finishNodeResult W nodeExe subResults).
Proof.
  unfold finishNodeResult, failsOnlyInMarshal.
  destruct (negb (Nat.eqb (length (NodeExecution.IndexedExecutions nodeExe)) 0)).
  - destruct (MarshalNodeResults W subResults) as [text | e | v] eqn:Hm.
    + match goal with
      | |- context [match ?extra with Some x => MarshalNodeExtra W x | None => _ end] =>
          destruct extra as [x |]
      end.
      * destruct (MarshalNodeExtra W x) as [t | e | v] eqn:Hx.
        -- left. reflexivity.
        -- right. right. exists x. rewrite Hx. reflexivity.
        -- right. right. exists x. rewrite Hx. reflexivity.
      * left. reflexivity.
    + right. left. exists subResults. rewrite Hm. reflexivity.
    + right. left. exists subResults. rewrite Hm. reflexivity.
  - match goal with
    | |- context [match ?extra with Some x => MarshalNodeExtra W x | None => _ end] =>
        destruct extra as [x |]
    end.
    + destruct (MarshalNodeExtra W x) as [t | e | v] eqn:Hx.
      * left. reflexivity.
      * right. right. exists x. rewrite Hx. reflexivity.
      * right. right. exists x. rewrite Hx. reflexivity.
    + left. reflexivity.
Qed.

Lemma failsOnlyInMarshal_cast {A B} (W : World) (o : outcome A) (o' : outcome B) :
  failsOnlyInMarshal W o ->
  isReturn o = false ->
  sameFailure o' o ->
  failsOnlyInMarshal W o'.
Proof.
  unfold failsOnlyInMarshal, sameFailure.
  intros [Hret | [[l Hl] | [x Hx]]] Hno Hsame; [congruence | |].
  - right. left. exists l. unfold sameFailure in *.
    destruct o, o', (MarshalNodeResults W l); try contradiction; congruence.
  - right. right. exists x. unfold sameFailure in *.
    destruct o, o', (MarshalNodeExtra W x); try contradiction; congruence.
Qed.

Lemma convertIndexed_failures (W : World) (l : list (option NodeExecution.t)) :
  Forall (λ o, match o with
               | Some sub => failsOnlyInMarshal W (convertNodeExecution W sub)
               | None => True
               end) l ->
  failsOnlyInMarshal W (convertIndexed W l).
Proof.
  unfold convertIndexed.
  induction 1 as [| [sub |] rest Hsub _ IH]; cbn [convertIndexedWith].
  - left. reflexivity.
  - destruct (convertNodeExecution W sub) as [nr | e | v] eqn:Hc.
    + destruct (convertIndexedWith (convertNodeExecution W) rest) as [rs | e | v] eqn:Hr.
      * left. reflexivity.
      * apply (failsOnlyInMarshal_cast W _ _ IH); reflexivity.
      * apply (failsOnlyInMarshal_cast W _ _ IH); reflexivity.
    + apply (failsOnlyInMarshal_cast W _ _ Hsub); reflexivity.
    + apply (failsOnlyInMarshal_cast W _ _ Hsub); reflexivity.
  - destruct (convertIndexedWith (convertNodeExecution W) rest) as [rs | e | v] eqn:Hr.
    + left. reflexivity.
    + apply (failsOnlyInMarshal_cast W _ _ IH); reflexivity.
    + apply (failsOnlyInMarshal_cast W _ _ IH); reflexivity.
Qed.

(** X8: [convertNodeExecution] fails only where sonic fails: whatever
    the node execution and the depth of its iterations, the call returns, or
    it ends with the error or panic of marshalling some list of iteration
    results or some node extra. So it returns a result whenever sonic
    marshals every such value. *)
Theorem convertNodeExecution_fails_only_in_marshal (W : World) (nodeExe : NodeExecution.t) :
  failsOnlyInMarshal W (convertNodeExecution W nodeExe) /\
  ((forall subResults, isReturn (MarshalNodeResults W subResults) = true) ->
   (forall extra, isReturn (MarshalNodeExtra W extra) = true) ->
   exists nr, convertNodeExecution W nodeExe = Return nr).
Proof.
  assert (Hfail : forall n, failsOnlyInMarshal W (convertNodeExecution W n)).
  { apply NodeExecution_nested_ind. intros n Hsubs.
    rewrite convertNodeExecution_eq.
    pose proof (convertIndexed_failures W _ Hsubs) as Hidx.
    destruct (convertIndexed W (NodeExecution.IndexedExecutions n)) as [subResults | e | v].
    - apply finishNodeResult_failures.
    - apply (failsOnlyInMarshal_cast W _ _ Hidx); reflexivity.
    - apply (failsOnlyInMarshal_cast W _ _ Hidx); reflexivity. }
  split; [apply Hfail |].
  intros Hresults Hextra.
  destruct (Hfail nodeExe) as [Hret | [[l Hl] | [x Hx]]].
  - destruct (convertNodeExecution W nodeExe); try discriminate. eauto.
  - specialize (Hresults l). unfold sameFailure in Hl.
    destruct (convertNodeExecution W nodeExe), (MarshalNodeResults W l);
      try contradiction; discriminate.
  - specialize (Hextra x). unfold sameFailure in Hx.
    destruct (convertNodeExecution W nodeExe), (MarshalNodeExtra W x);
      try contradiction; discriminate.
Qed.

Lemma convertNodeExecution_fails_only_in_marshal_witness :
  exists nr, convertNodeExecution plainWorld batchInner = Return nr.
Proof.
  apply (proj2 (convertNodeExecution_fails_only_in_marshal plainWorld batchInner)).
  - intros subResults. reflexivity.
  - intros extra. reflexivity.
Defined.

(** ** Optional ids *)

(** X9: an optional 64-bit id survives the way through its text:
    [i64PtrToStringPtr] followed by [parseInt64] gives the id back, [nil]
    staying [nil]. [parseInt64] has no error result: a text that is no
    integer is a panic. *)
Theorem optional_id_round_trip (i : option Z) :
  (forall z, i = Some z -> Strconv.isInt64 z) ->
  parseInt64 (i64PtrToStringPtr i) = Return i /\
  (i64PtrToStringPtr i = None <-> i = None) /\
  forall text, malformed text -> isPanic (parseInt64 (Some text)) = true.
Proof.
  intros Hint. split; [| split].
  - destruct i as [z |]; [| reflexivity].
    cbn [i64PtrToStringPtr parseInt64].
    rewrite (mustParseInt64_FormatInt z (Hint z eq_refl)). reflexivity.
  - destruct i; split; intros H; try discriminate; reflexivity.
  - intros text Hbad. cbn [parseInt64]. unfold mustParseInt64.
    unfold malformed in Hbad. rewrite Hbad. reflexivity.
Qed.

Lemma optional_id_round_trip_witness :
  parseInt64 (i64PtrToStringPtr (Some (-9223372036854775808))) =
    Return (Some (-9223372036854775808)) /\
  isPanic (parseInt64 (Some "9223372036854775808")) = true.
Proof.
  assert (Hint : forall z, Some (-9223372036854775808) = Some z -> Strconv.isInt64 z).
  { intros z [= <-]. vm_compute. split; discriminate. }
  destruct (optional_id_round_trip (Some (-9223372036854775808)) Hint) as (Hround & _ & Hbad).
  split; [exact Hround |]. apply Hbad. reflexivity.
Defined.

(** ** The views of a parameter *)

(** Induction on a type info with its element type and its properties, at
    any depth. *)
Lemma NamedTypeInfo_nested_ind (P : NamedTypeInfo.t -> Prop) :
  (forall info,
     match NamedTypeInfo.ElemTypeInfo info with Some elem => P elem | None => True end ->
     Forall (λ sub, match sub with Some property => P property | None => True end)
       (NamedTypeInfo.Properties info) ->
     P info) ->
  forall info, P info.
Proof.
  intros Hstep. fix IH 1. intros info. apply Hstep.
  - destruct info as [? ? ? ? ? [elem |] ?]; cbn [NamedTypeInfo.ElemTypeInfo];
      [apply IH | exact I].
  - destruct info as [? ? ? ? ? ? properties]. cbn [NamedTypeInfo.Properties].
    induction properties as [| [property |] rest IHrest].
    + apply List.Forall_nil.
    + apply List.Forall_cons; [apply IH | exact IHrest].
    + apply List.Forall_cons; [exact I | exact IHrest].
Qed.

Lemma toPluginParameterOf_eq (info : NamedTypeInfo.t) :
  toPluginParameterOf info =
    let p type subType subParameters :=
      {| PluginParameter.Name := NamedTypeInfo.Name info;
         PluginParameter.Desc := NamedTypeInfo.Desc info;
         PluginParameter.Required := NamedTypeInfo.Required info;
         PluginParameter.Type_ := type;
         PluginParameter.SubType := subType;
         PluginParameter.Format := pluginFormat info;
         PluginParameter.SubParameters := subParameters |} in
    match NamedTypeInfo.Type_ info with
    | DataTypeString | DataTypeFile | DataTypeTime => Return (p "string" "" [])
    | DataTypeInteger => Return (p "integer" "" [])
    | DataTypeNumber => Return (p "number" "" [])
    | DataTypeBoolean => Return (p "boolean" "" [])
    | DataTypeObject =>
        match toPluginParameters (NamedTypeInfo.Properties info) with
        | Return subParameters => Return (p "object" "" subParameters)
        | Error e => Error e
        | Panic v => Panic v
        end
    | DataTypeArray =>
        match toPluginParameter (NamedTypeInfo.ElemTypeInfo info) with
        | Return eleParameter =>
            Return (p "array" (PluginParameter.Type_ eleParameter) [eleParameter])
        | Error e => Error e
        | Panic v => Panic v
        end
    | DataTypeOther name => Error (ErrText ("unknown named type info type: " +:+ name))
    end.
Proof. destruct info. reflexivity. Qed.

(** What the conversion of a list of properties does, given what the
    conversion of each property does. *)
Lemma toPluginParameters_spec (properties : list (option NamedTypeInfo.t)) :
  Forall (λ sub, match sub with
                 | Some property =>
                     isPanic (toPluginParameterOf property) = false /\
                     isReturn (toPluginParameterOf property) = completeInfo property /\
                     forall p, toPluginParameterOf property = Return p ->
                               parameterNames p = infoNames property
                 | None => True
                 end) properties ->
  isPanic (toPluginParameters properties) = false /\
  isReturn (toPluginParameters properties) =
    forallb (λ sub, match sub with
                    | Some property => completeInfo property
                    | None => false
                    end) properties /\
  forall ps, toPluginParameters properties = Return ps ->
             flat_map parameterNames ps =
               flat_map (λ sub, match sub with
                                | Some property => infoNames property
                                | None => []
                                end) properties.
Proof.
  unfold toPluginParameters.
  induction 1 as [| [property |] rest Hsub _ (IHp & IHr & IHn)];
    cbn [toPluginParametersWith forallb flat_map].
  - repeat split. intros ps [= <-]. reflexivity.
  - destruct Hsub as (Hp & Hr & Hn).
    destruct (toPluginParameterOf property) as [p | e | v]; cbn [isPanic isReturn] in *;
      try discriminate.
    + rewrite <- Hr. cbn [andb].
      destruct (toPluginParametersWith toPluginParameterOf rest) as [ps | e | v];
        cbn [isPanic isReturn] in *; try discriminate.
      * repeat split; auto. intros ps' [= <-]. cbn [flat_map].
        rewrite (Hn p eq_refl), (IHn ps eq_refl). reflexivity.
      * repeat split; auto. discriminate.
    + rewrite <- Hr. repeat split. discriminate.
  - repeat split. discriminate.
Qed.

Lemma toPluginParameterOf_spec (info : NamedTypeInfo.t) :
  isPanic (toPluginParameterOf info) = false /\
  isReturn (toPluginParameterOf info) = completeInfo info /\
  forall p, toPluginParameterOf info = Return p -> parameterNames p = infoNames info.
Proof.
  induction info as [info Helem Hproperties] using NamedTypeInfo_nested_ind.
  rewrite toPluginParameterOf_eq.
  destruct info as [name desc required type fileType elem properties].
  cbn [NamedTypeInfo.Type_ NamedTypeInfo.Properties NamedTypeInfo.ElemTypeInfo
       NamedTypeInfo.Name completeInfo infoNames] in *.
  destruct type; cbn zeta; try (repeat split; intros p [= <-]; reflexivity).
  - destruct (toPluginParameters_spec properties Hproperties) as (Hp & Hr & Hn).
    destruct (toPluginParameters properties) as [ps | e | v]; cbn [isPanic isReturn] in *;
      try discriminate.
    + repeat split; auto. intros p [= <-].
      cbn [parameterNames PluginParameter.Name PluginParameter.SubParameters].
      rewrite (Hn ps eq_refl). reflexivity.
    + repeat split; auto. discriminate.
  - destruct elem as [elem |]; cbn [toPluginParameter].
    + destruct Helem as (Hp & Hr & Hn).
      destruct (toPluginParameterOf elem) as [ele | e | v]; cbn [isPanic isReturn] in *;
        try discriminate.
      * repeat split; auto. intros p [= <-].
        cbn [parameterNames PluginParameter.Name PluginParameter.SubParameters flat_map].
        rewrite (Hn ele eq_refl), app_nil_r. reflexivity.
      * repeat split; auto. discriminate.
    + repeat split. discriminate.
Qed.

(** X10: [toPluginParameter] does not panic, and it returns a parameter
    exactly for a type info that is complete: not [nil], of a named type,
    every property of an object and the element of an array being complete
    in turn; otherwise it returns an error. The parameter it returns has
    the names of the type info in the same order: its own name, then those
    of the properties of an object or of the element of an array, which is
    the only sub-parameter of an array. *)
Theorem toPluginParameter_accepts_complete_type_info (info : option NamedTypeInfo.t) :
  isPanic (toPluginParameter info) = false /\
  isReturn (toPluginParameter info) =
    match info with
    | Some info => completeInfo info
    | None => false
    end /\
  forall typeInfo p,
    info = Some typeInfo ->
    toPluginParameter info = Return p ->
    parameterNames p = infoNames typeInfo /\
    (NamedTypeInfo.Type_ typeInfo = DataTypeArray ->
     exists eleParameter,
       PluginParameter.SubParameters p = [eleParameter] /\
       PluginParameter.SubType p = PluginParameter.Type_ eleParameter).
Proof.
  destruct info as [info |]; cbn [toPluginParameter].
  - destruct (toPluginParameterOf_spec info) as (Hp & Hr & Hn).
    split; [exact Hp |]. split; [exact Hr |].
    intros typeInfo p [= <-] Hret. split; [apply Hn, Hret |].
    intros Harray. revert Hret.
    rewrite toPluginParameterOf_eq, Harray. cbn zeta.
    destruct (toPluginParameter (NamedTypeInfo.ElemTypeInfo info)) as [ele | |];
      try discriminate.
    intros [= <-]. exists ele. split; reflexivity.
  - repeat split; discriminate.
Qed.

Lemma toPluginParameter_accepts_complete_type_info_witness :
  exists p,
    toPluginParameter (Some sampleInfo) = Return p /\
    parameterNames p = ["report"; "cover"; "table"; "row"; "cell"].
Proof.
  eexists. split; [reflexivity |].
  exact (proj1 (proj2 (proj2 (toPluginParameter_accepts_complete_type_info (Some sampleInfo)))
                  sampleInfo _ eq_refl eq_refl)).
Defined.

Lemma toPluginParameterOf_type (info : NamedTypeInfo.t) (p : PluginParameter.t) :
  toPluginParameterOf info = Return p ->
  PluginParameter.Name p = NamedTypeInfo.Name info /\
  PluginParameter.Desc p = NamedTypeInfo.Desc info /\
  PluginParameter.Required p = NamedTypeInfo.Required info /\
  match NamedTypeInfo.Type_ info with
  | DataTypeString | DataTypeFile | DataTypeTime => PluginParameter.Type_ p = "string"
  | DataTypeInteger => PluginParameter.Type_ p = "integer"
  | DataTypeNumber => PluginParameter.Type_ p = "number"
  | DataTypeBoolean => PluginParameter.Type_ p = "boolean"
  | DataTypeObject => PluginParameter.Type_ p = "object"
  | DataTypeArray => PluginParameter.Type_ p = "array"
  | DataTypeOther _ => False
  end.
Proof.
  rewrite toPluginParameterOf_eq. cbn zeta.
  destruct (NamedTypeInfo.Type_ info);
    try (intros [= <-]; repeat split; reflexivity).
  - destruct (toPluginParameters (NamedTypeInfo.Properties info)); try discriminate.
    intros [= <-]. repeat split; reflexivity.
  - destruct (toPluginParameter (NamedTypeInfo.ElemTypeInfo info)); try discriminate.
    intros [= <-]. repeat split; reflexivity.
Qed.

(** X11: the two views of a parameter agree. Whenever [toPluginParameter]
    accepts a type info, [toWorkflowParameter] accepts it too, with the
    same name, description and required flag, and the input type of the
    one is what the other names in its [Type]. The type of the elements of
    an array agrees as well, where [toWorkflowParameter] assigns it: it
    leaves [SubType] unassigned for an array of arrays, which
    [toPluginParameter] reports with the sub-type ["array"]. *)
Theorem parameter_views_agree (info : NamedTypeInfo.t) (p : PluginParameter.t) :
  toPluginParameter (Some info) = Return p ->
  exists wp,
    toWorkflowParameter (Some info) = Return wp /\
    WorkflowParameter.Name wp = PluginParameter.Name p /\
    WorkflowParameter.Desc wp = PluginParameter.Desc p /\
    WorkflowParameter.Required wp = PluginParameter.Required p /\
    inputTypeName (WorkflowParameter.Type_ wp) = PluginParameter.Type_ p /\
    match WorkflowParameter.SubType wp with
    | Some subType => inputTypeName subType = PluginParameter.SubType p
    | None =>
        PluginParameter.SubType p = "" \/
        (exists elem,
           NamedTypeInfo.ElemTypeInfo info = Some elem /\
           NamedTypeInfo.Type_ elem = DataTypeArray /\
           PluginParameter.SubType p = "array")
    end.
Proof.
  cbn [toPluginParameter toWorkflowParameter]. intros Hp.
  pose proof (toPluginParameterOf_type info p Hp) as (Hname & Hdesc & Hreq & Htype).
  revert Hp. rewrite toPluginParameterOf_eq. cbn zeta.
  destruct (NamedTypeInfo.Type_ info) eqn:Hinfo; try contradiction;
    try (intros [= <-]; eexists; repeat split; auto; left; reflexivity).
  - destruct (toPluginParameters (NamedTypeInfo.Properties info)); try discriminate.
    intros [= <-]. eexists. repeat split; auto. left. reflexivity.
  - destruct (NamedTypeInfo.ElemTypeInfo info) as [elem |] eqn:Helem;
      cbn [toPluginParameter]; [| discriminate].
    destruct (toPluginParameterOf elem) as [ele | |] eqn:Hele; try discriminate.
    intros [= <-]. eexists. split; [reflexivity |].
    cbn [WorkflowParameter.Name WorkflowParameter.Desc WorkflowParameter.Required
         WorkflowParameter.Type_ WorkflowParameter.SubType PluginParameter.Name
         PluginParameter.Desc PluginParameter.Required PluginParameter.Type_
         PluginParameter.SubType].
    repeat split; auto.
    pose proof (toPluginParameterOf_type elem ele Hele) as (_ & _ & _ & Hetype).
    destruct (NamedTypeInfo.Type_ elem) eqn:Het; cbn [elemInputType inputTypeName];
      try (symmetry; exact Hetype); try contradiction.
    right. exists elem. repeat split; auto.
Qed.

Lemma parameter_views_agree_witness :
  exists wp,
    toWorkflowParameter
      (Some (arrayInfo "table" (arrayInfo "row" (plainInfo "cell" DataTypeInteger)))) =
      Return wp /\
    WorkflowParameter.Type_ wp = InputType_Array /\
    WorkflowParameter.SubType wp = None.
Proof.
  destruct (parameter_views_agree
              (arrayInfo "table" (arrayInfo "row" (plainInfo "cell" DataTypeInteger)))
              _ eq_refl) as (wp & Hwp & _).
  exists wp. split; [exact Hwp |].
  injection Hwp as <-. split; reflexivity.
Defined.
(** ** Merging the settings of API parameters *)

(** Induction on an API parameter with its sub-parameters, at any depth. *)
Lemma APIParameter_nested_ind (P : APIParameter.t -> Prop) :
  (forall p,
     Forall (λ sub, match sub with Some q => P q | None => True end)
       (APIParameter.SubParameters p) ->
     P p) ->
  forall p, P p.
Proof.
  intros Hstep. fix IH 1. intros p. apply Hstep.
  destruct p as [? ? ? ? ? ? ? ? subParameters]. cbn [APIParameter.SubParameters].
  induction subParameters as [| [q |] rest IHrest].
  - apply List.Forall_nil.
  - apply List.Forall_cons; [apply IH | exact IHrest].
  - apply List.Forall_cons; [exact I | exact IHrest].
Qed.

Section MergeFacts.
Context (ToMap : list (option APIParameter.t) -> outcome (gmap string APIParameter.t)).

#[local] Abbreviation plain :=
  (map (λ sub : option APIParameter.t,
          match sub with Some q => Some (withoutLocal q) | None => None end)).

Lemma withoutLocal_eq (p : APIParameter.t) :
  withoutLocal p =
    {| APIParameter.Name := APIParameter.Name p;
       APIParameter.Desc := APIParameter.Desc p;
       APIParameter.IsRequired := APIParameter.IsRequired p;
       APIParameter.Type_ := APIParameter.Type_ p;
       APIParameter.SubType := APIParameter.SubType p;
       APIParameter.AssistType := APIParameter.AssistType p;
       APIParameter.LocalDisable := false;
       APIParameter.LocalDefault := None;
       APIParameter.SubParameters := plain (APIParameter.SubParameters p) |}.
Proof. destruct p. reflexivity. Qed.

Lemma mergeParameter_eq (m : gmap string APIParameter.t) (parameter : APIParameter.t) :
  mergeParameter ToMap m parameter =
    match m !! APIParameter.Name parameter with
    | Some ep =>
        let assigned subParameters :=
          {| APIParameter.Name := APIParameter.Name parameter;
             APIParameter.Desc := APIParameter.Desc parameter;
             APIParameter.IsRequired := APIParameter.IsRequired parameter;
             APIParameter.Type_ := APIParameter.Type_ parameter;
             APIParameter.SubType := APIParameter.SubType parameter;
             APIParameter.AssistType := APIParameter.AssistType parameter;
             APIParameter.LocalDisable := APIParameter.LocalDisable ep;
             APIParameter.LocalDefault := APIParameter.LocalDefault ep;
             APIParameter.SubParameters := subParameters |} in
        if negb (Nat.eqb (length (APIParameter.SubParameters parameter)) 0) &&
           negb (Nat.eqb (length (APIParameter.SubParameters ep)) 0)
        then
          match ToMap (APIParameter.SubParameters ep) with
          | Return subMap =>
              match mergeParameters ToMap subMap (APIParameter.SubParameters parameter) with
              | Return subParameters => Return (assigned subParameters)
              | Error e => Error e
              | Panic v => Panic v
              end
          | Error e => Error e
          | Panic v => Panic v
          end
        else Return (assigned (APIParameter.SubParameters parameter))
    | None => Return parameter
    end.
Proof. destruct parameter. reflexivity. Qed.

Lemma mergeParameters_settled (l : list (option APIParameter.t)) :
  Forall (λ sub, match sub with Some q => settled ToMap q | None => True end) l ->
  forall m l',
    mergeParameters ToMap m l = Return l' ->
    length l' = length l /\ plain l' = plain l /\ mergeParameters ToMap m l' = Return l'.
Proof.
  unfold mergeParameters.
  induction 1 as [| [q |] rest Hq _ IH]; intros m l'; cbn [mergeParametersWith].
  - intros [= <-]. repeat split.
  - destruct (mergeParameter ToMap m q) as [q' | |] eqn:Hmerge; try discriminate.
    destruct (mergeParametersWith (mergeParameter ToMap m) rest) as [rest' | |] eqn:Hrest;
      try discriminate.
    intros [= <-].
    destruct (Hq m q' Hmerge) as [Hplain Hagain].
    destruct (IH m rest' Hrest) as (Hlen & Hplains & Hagains).
    cbn [length map mergeParametersWith]. rewrite Hagain, Hagains, Hplain, Hplains, Hlen.
    repeat split.
  - discriminate.
Qed.

Lemma mergeParameter_settled (p : APIParameter.t) : settled ToMap p.
Proof.
  induction p as [p IH] using APIParameter_nested_ind.
  intros m p'. rewrite mergeParameter_eq.
  destruct (m !! APIParameter.Name p) as [ep |] eqn:Hep.
  - cbn zeta.
    destruct (negb (Nat.eqb (length (APIParameter.SubParameters p)) 0) &&
              negb (Nat.eqb (length (APIParameter.SubParameters ep)) 0)) eqn:Hboth.
    + destruct (ToMap (APIParameter.SubParameters ep)) as [subMap | |] eqn:Hmap;
        try discriminate.
      destruct (mergeParameters ToMap subMap (APIParameter.SubParameters p))
        as [subParameters | |] eqn:Hsubs; try discriminate.
      destruct (mergeParameters_settled _ IH subMap subParameters Hsubs)
        as (Hlen & Hplain & Hagain).
      intros [= <-]. split.
      * rewrite !withoutLocal_eq. cbn. rewrite Hplain. reflexivity.
      * rewrite mergeParameter_eq. cbn [APIParameter.Name APIParameter.SubParameters].
        rewrite Hep. cbn zeta. rewrite Hlen, Hboth, Hmap, Hagain. reflexivity.
    + intros [= <-]. split.
      * rewrite !withoutLocal_eq. reflexivity.
      * rewrite mergeParameter_eq. cbn [APIParameter.Name APIParameter.SubParameters].
        rewrite Hep. cbn zeta. rewrite Hboth. reflexivity.
  - intros [= <-]. split; [reflexivity |].
    rewrite mergeParameter_eq, Hep. reflexivity.
Qed.

Lemma mergeParameters_lookup (m : gmap string APIParameter.t)
    (l l' : list (option APIParameter.t)) (i : nat) (p : APIParameter.t) :
  mergeParameters ToMap m l = Return l' ->
  l !! i = Some (Some p) ->
  exists q, l' !! i = Some (Some q) /\ mergeParameter ToMap m p = Return q.
Proof.
  unfold mergeParameters. revert l' i.
  induction l as [| [x |] rest IH]; intros l' i; cbn [mergeParametersWith];
    try discriminate.
  destruct (mergeParameter ToMap m x) as [x' | |] eqn:Hx; try discriminate.
  destruct (mergeParametersWith (mergeParameter ToMap m) rest) as [rest' | |] eqn:Hrest;
    try discriminate.
  intros [= <-]. destruct i as [| i]; cbn.
  - intros [= <-]. eauto.
  - intros Hi. exact (IH rest' i eq_refl Hi).
Qed.

End MergeFacts.

Lemma sampleToMap_byName : byName sampleToMap.
Proof.
  intros l. induction l as [| [p |] rest IH]; intros m; cbn [sampleToMap].
  - intros [= <-]. split.
    + intros name ep Hlook. rewrite lookup_empty in Hlook. discriminate.
    + intros ep [].
  - destruct (sampleToMap rest) as [m' | |]; try discriminate.
    destruct (IH m' eq_refl) as [Hin Hall].
    destruct (m' !! APIParameter.Name p) as [other |] eqn:Hp; intros [= <-]; split.
    + intros name ep Hlook. destruct (Hin _ _ Hlook) as [Hep Hname].
      split; [now right | exact Hname].
    + intros ep [[= <-] | Hep]; [rewrite Hp; eauto | now apply Hall].
    + intros name ep Hlook.
      destruct (decide (name = APIParameter.Name p)) as [-> | Hne].
      * rewrite lookup_insert_eq in Hlook. injection Hlook as <-. split; [now left | reflexivity].
      * rewrite lookup_insert_ne in Hlook by congruence.
        destruct (Hin _ _ Hlook) as [Hep Hname]. split; [now right | exact Hname].
    + intros ep [[= <-] | Hep].
      * rewrite lookup_insert_eq. eauto.
      * destruct (decide (APIParameter.Name ep = APIParameter.Name p)) as [-> | Hne].
        -- rewrite lookup_insert_eq. eauto.
        -- rewrite lookup_insert_ne by congruence. now apply Hall.
  - discriminate.
Qed.



(** ** The plugin products *)

Lemma andThen_Return {A B} (m : Load A) (k : A -> Load B) st b st' :
  andThen m k st = (Return b, st') ->
  exists a st1, m st = (Return a, st1) /\ k a st1 = (Return b, st').
Proof.
  unfold andThen. destruct (m st) as [[a | e | v] st1]; intros H; try discriminate.
  eauto.
Qed.

Lemma forEach_keeps {A} (body : A -> Load unit) (P : Products.t -> Prop) (l : list A) :
  (forall a st st', In a l -> P st -> body a st = (Return tt, st') -> P st') ->
  forall st st', P st -> forEach body l st = (Return tt, st') -> P st'.
Proof.
  induction l as [| a rest IH]; intros Hbody st st' HP Hrun.
  - cbn in Hrun. unfold loaded in Hrun. congruence.
  - cbn [forEach] in Hrun. apply andThen_Return in Hrun as ([] & st1 & Hfirst & Hrest).
    eapply IH; [| | exact Hrest].
    + intros b s s' Hb. apply Hbody. now right.
    + eapply Hbody; [now left | exact HP | exact Hfirst].
Qed.

Lemma consistent_register cur st toolID ti pi :
  consistent (Some cur) st ->
  Products.pluginProducts st !! cur = Some pi ->
  Products.toolProducts st !! toolID = None ->
  ToolInfoEntity.ID (ToolInfo.Info ti) = toolID ->
  ToolInfoEntity.PluginID (ToolInfo.Info ti) = cur ->
  consistent (Some cur)
    {| Products.pluginProducts :=
         alter (appendToolID toolID) cur (Products.pluginProducts st);
       Products.toolProducts := <[toolID := ti]> (Products.toolProducts st) |}.
Proof.
  intros [Htools Hplugins] Hcur Hnew Hid Hplugin. split; cbn.
  - intros toolID' ti' Hlook.
    destruct (decide (toolID' = toolID)) as [-> | Hne].
    + rewrite lookup_insert_eq in Hlook. injection Hlook as <-. split; [exact Hid |].
      exists (appendToolID toolID pi). rewrite Hplugin. split.
      * rewrite lookup_alter_eq, Hcur. reflexivity.
      * cbn. apply in_or_app. right. now left.
    + rewrite lookup_insert_ne in Hlook by congruence.
      destruct (Htools _ _ Hlook) as (Hid' & pi' & Hpi' & Hin). split; [exact Hid' |].
      destruct (decide (ToolInfoEntity.PluginID (ToolInfo.Info ti') = cur)) as [Heq | Hother].
      * exists (appendToolID toolID pi'). split.
        -- rewrite Heq in *. rewrite lookup_alter_eq, Hpi'. reflexivity.
        -- cbn. apply in_or_app. now left.
      * exists pi'. split; [| exact Hin].
        rewrite lookup_alter_ne by congruence. exact Hpi'.
  - intros pluginID pi' Hlook.
    destruct (decide (pluginID = cur)) as [-> | Hne].
    + rewrite lookup_alter_eq, Hcur in Hlook. injection Hlook as <-.
      destruct (Hplugins _ _ Hcur) as (Hid' & _ & Hnodup & Hall).
      split; [exact Hid' |]. split; [congruence |]. split.
      * cbn. apply NoDup_app. split; [exact Hnodup |]. split.
        -- intros x Hx Hx'. apply list_elem_of_In in Hx.
           apply list_elem_of_In in Hx'. destruct Hx' as [<- | []].
           destruct (Hall _ Hx) as (ti0 & Hti0 & _). congruence.
        -- apply NoDup_singleton.
      * cbn. intros toolID' Hin. apply in_app_or in Hin as [Hin | [<- | []]].
        -- destruct (Hall _ Hin) as (ti0 & Hti0 & Hp0). exists ti0. split; [| exact Hp0].
           rewrite lookup_insert_ne by congruence. exact Hti0.
        -- exists ti. rewrite lookup_insert_eq. split; [reflexivity | exact Hplugin].
    + rewrite lookup_alter_ne in Hlook by congruence.
      destruct (Hplugins _ _ Hlook) as (Hid' & Hsome & Hnodup & Hall).
      split; [exact Hid' |]. split; [exact Hsome |]. split; [exact Hnodup |].
      intros toolID' Hin. destruct (Hall _ Hin) as (ti0 & Hti0 & Hp0).
      exists ti0. split; [| exact Hp0].
      rewrite lookup_insert_ne by congruence. exact Hti0.
Qed.

Lemma consistent_open st pluginID pi :
  consistent None st ->
  Products.pluginProducts st !! pluginID = None ->
  PluginInfoModel.ID (PluginInfo.Info pi) = pluginID ->
  PluginInfo.ToolIDs pi = [] ->
  consistent (Some pluginID)
    {| Products.pluginProducts := <[pluginID := pi]> (Products.pluginProducts st);
       Products.toolProducts := Products.toolProducts st |}.
Proof.
  intros [Htools Hplugins] Hnew Hid Hempty. split; cbn.
  - intros toolID ti Hlook. destruct (Htools _ _ Hlook) as (Hid' & pi' & Hpi' & Hin).
    split; [exact Hid' |]. exists pi'. split; [| exact Hin].
    rewrite lookup_insert_ne by congruence. exact Hpi'.
  - intros pluginID' pi' Hlook.
    destruct (decide (pluginID' = pluginID)) as [-> | Hne].
    + rewrite lookup_insert_eq in Hlook. injection Hlook as <-.
      split; [exact Hid |]. split; [congruence |]. rewrite Hempty. split.
      * apply NoDup_nil_2.
      * intros toolID [].
    + rewrite lookup_insert_ne in Hlook by congruence.
      destruct (Hplugins _ _ Hlook) as (Hid' & Hsome & Hnodup & Hall).
      split; [exact Hid' |]. split; [| split; [exact Hnodup | exact Hall]].
      intros _. apply Hsome. discriminate.
Qed.

Lemma consistent_close st pluginID pi :
  consistent (Some pluginID) st ->
  Products.pluginProducts st !! pluginID = Some pi ->
  consistent None
    (if Nat.eqb (length (PluginInfo.ToolIDs pi)) 0
     then {| Products.pluginProducts := delete pluginID (Products.pluginProducts st);
             Products.toolProducts := Products.toolProducts st |}
     else st).
Proof.
  intros [Htools Hplugins] Hcur.
  destruct (Nat.eqb (length (PluginInfo.ToolIDs pi)) 0) eqn:Hlen.
  - apply Nat.eqb_eq in Hlen. apply length_zero_iff_nil in Hlen. split; cbn.
    + intros toolID ti Hlook. destruct (Htools _ _ Hlook) as (Hid' & pi' & Hpi' & Hin).
      split; [exact Hid' |]. exists pi'. split; [| exact Hin].
      rewrite lookup_delete_ne; [exact Hpi' |].
      intros Heq. rewrite <- Heq, Hcur in Hpi'. injection Hpi' as <-.
      rewrite Hlen in Hin. destruct Hin.
    + intros pluginID' pi' Hlook.
      destruct (decide (pluginID' = pluginID)) as [-> | Hne].
      * rewrite lookup_delete_eq in Hlook. discriminate.
      * rewrite lookup_delete_ne in Hlook by congruence.
        destruct (Hplugins _ _ Hlook) as (Hid' & Hsome & Hnodup & Hall).
        split; [exact Hid' |]. split; [| split; [exact Hnodup | exact Hall]].
        intros _. apply Hsome. congruence.
  - apply Nat.eqb_neq in Hlen. split; [exact Htools |].
    intros pluginID' pi' Hlook.
    destruct (Hplugins _ _ Hlook) as (Hid' & Hsome & Hnodup & Hall).
    split; [exact Hid' |]. split; [| split; [exact Hnodup | exact Hall]].
    intros _. destruct (decide (pluginID' = pluginID)) as [-> | Hne].
    + rewrite Hcur in Hlook. injection Hlook as <-. intros Hnil. rewrite Hnil in Hlen.
      now apply Hlen.
    + apply Hsome. congruence.
Qed.

(** What [registerTool] does when it returns: nothing, or the
    registration of a tool that was not deprecated, whose id was free and
    whose operation was found. *)
Lemma registerTool_Return D m apis t st st' :
  registerTool D m apis t st = (Return tt, st') ->
  st' = st \/
  exists t' op,
    t = Some t' /\
    toolProductMeta.Deprecated t' = false /\
    Products.toolProducts st !! toolProductMeta.ToolID t' = None /\
    apis !! (toolProductMeta.SubURL t', ToUpper D (toolProductMeta.Method t')) = Some op /\
    OperationValidate D op = Return tt /\
    st' = {| Products.pluginProducts :=
               alter (appendToolID (toolProductMeta.ToolID t'))
                 (pluginProductMeta.PluginID m) (Products.pluginProducts st);
             Products.toolProducts :=
               <[toolProductMeta.ToolID t' := newToolInfo m t' op]>
                 (Products.toolProducts st) |}.
Proof.
  intros Hrun. destruct t as [t |]; [| discriminate]. cbn [registerTool] in Hrun.
  destruct (toolProductMeta.Deprecated t) eqn:Hdep.
  { left. unfold loaded in Hrun. congruence. }
  apply andThen_Return in Hrun as (known & st1 & Hread & Hrun).
  unfold reads in Hread. injection Hread as <- <-.
  destruct (bool_decide _) eqn:Hknown in Hrun.
  { left. unfold loaded in Hrun. congruence. }
  apply bool_decide_eq_false in Hknown.
  destruct (apis !! _) as [op |] eqn:Hop in Hrun.
  2: { left. unfold loaded in Hrun. congruence. }
  destruct (OperationValidate D op) as [[] | e | v] eqn:Hvalid.
  - right. unfold assigns in Hrun. injection Hrun as <-.
    exists t, op. repeat split; try assumption.
    destruct (Products.toolProducts st !! toolProductMeta.ToolID t) eqn:Hfree;
      [| reflexivity].
    exfalso. apply Hknown. eauto.
  - left. unfold loaded in Hrun. congruence.
  - discriminate.
Qed.

Lemma registerTool_consistent D m apis t st st' :
  (consistent (Some (pluginProductMeta.PluginID m)) st /\
   is_Some (Products.pluginProducts st !! pluginProductMeta.PluginID m)) ->
  registerTool D m apis t st = (Return tt, st') ->
  consistent (Some (pluginProductMeta.PluginID m)) st' /\
  is_Some (Products.pluginProducts st' !! pluginProductMeta.PluginID m).
Proof.
  intros [Hc [pi Hpi]] Hrun.
  apply registerTool_Return in Hrun as [-> | (t' & op & -> & _ & Hfree & _ & _ & ->)].
  - split; [exact Hc | eauto].
  - split.
    + eapply consistent_register; eauto.
    + cbn. rewrite lookup_alter_eq, Hpi. cbn. eauto.
Qed.

(** What [loadPlugin] does when it returns: nothing, or the registration
    of a plugin that passed every check and whose id was free, followed by
    the loop over its tools and the removal of a plugin left without
    tools. *)
Lemma loadPlugin_Return D root m st st' :
  loadPlugin D root m st = (Return tt, st') ->
  st' = st \/
  exists m' manifest doc serverURL st2,
    m = Some m' /\
    sound D root m' doc /\
    Products.pluginProducts st !! pluginProductMeta.PluginID m' = None /\
    forEach (registerTool D m' (apisOf D doc)) (pluginProductMeta.Tools m')
      {| Products.pluginProducts :=
           <[pluginProductMeta.PluginID m' := newPluginInfo m' manifest doc serverURL]>
             (Products.pluginProducts st);
         Products.toolProducts := Products.toolProducts st |} = (Return tt, st2) /\
    st' = if Nat.eqb
               (length match Products.pluginProducts st2 !! pluginProductMeta.PluginID m' with
                       | Some pi => PluginInfo.ToolIDs pi
                       | None => []
                       end) 0
          then {| Products.pluginProducts :=
                    delete (pluginProductMeta.PluginID m') (Products.pluginProducts st2);
                  Products.toolProducts := Products.toolProducts st2 |}
          else st2.
Proof.
  intros Hrun. destruct m as [m |]; [| discriminate]. cbn [loadPlugin] in Hrun.
  destruct (pluginProductMeta.Manifest m) as [manifest |] eqn:Hmanifest; [| discriminate].
  apply andThen_Return in Hrun as (passed & st1 & Hread & Hrun).
  unfold reads in Hread. injection Hread as <- <-.
  destruct (checkPluginMetaInfo D st m) eqn:Hcheck; cbn [negb] in Hrun.
  2: { left. unfold loaded in Hrun. congruence. }
  destruct (ManifestValidate D manifest) as [[] | e | v] eqn:Hvalid;
    [| left; unfold loaded in Hrun; congruence | discriminate].
  destruct (LoadFromFile D _) as [doc | e | v] eqn:Hload;
    [| left; unfold loaded in Hrun; congruence | discriminate].
  destruct (DocValidate D doc) as [[] | e | v] eqn:Hdoc;
    [| left; unfold loaded in Hrun; congruence | discriminate].
  destruct (Openapi3T.Servers doc) as [| [serverURL |] servers]; try discriminate.
  cbv zeta in Hrun.
  apply andThen_Return in Hrun as (present & st1 & Hread & Hrun).
  unfold reads in Hread. injection Hread as <- <-.
  destruct (bool_decide _) eqn:Hpresent in Hrun.
  { left. unfold loaded in Hrun. congruence. }
  apply bool_decide_eq_false in Hpresent.
  apply andThen_Return in Hrun as ([] & st1 & Hinsert & Hrun).
  unfold assigns in Hinsert. injection Hinsert as <-.
  apply andThen_Return in Hrun as ([] & st2 & Htools & Hrun).
  apply andThen_Return in Hrun as (toolIDs & st3 & Hread & Hrun).
  unfold reads in Hread. injection Hread as <- <-.
  right. exists m, manifest, doc, serverURL, st2.
  split; [reflexivity |]. split.
  { unfold checkPluginMetaInfo in Hcheck. unfold sound.
    destruct (pluginProductMeta.Deprecated m); [discriminate |].
    destruct (IsValid D _); [| discriminate]. cbn [negb] in Hcheck.
    destruct (Z.leb_spec (pluginProductMeta.PluginID m) 0); [discriminate |].
    destruct (bool_decide _) in Hcheck; [discriminate |].
    destruct (pluginProductMeta.PluginType m); [| discriminate].
    repeat split; try assumption; eauto. }
  split.
  { destruct (Products.pluginProducts st !! pluginProductMeta.PluginID m) eqn:Hfree;
      [| reflexivity].
    exfalso. apply Hpresent. eauto. }
  split; [exact Htools |].
  destruct (Nat.eqb _ 0) in Hrun |- *.
  - unfold assigns in Hrun. congruence.
  - unfold loaded in Hrun. congruence.
Qed.

Lemma loadPlugin_consistent D root m st st' :
  consistent None st ->
  loadPlugin D root m st = (Return tt, st') ->
  consistent None st'.
Proof.
  intros Hc Hrun.
  apply loadPlugin_Return in Hrun
    as [-> | (m' & manifest & doc & serverURL & st2 & -> & _ & Hfree & Htools & ->)];
    [exact Hc |].
  assert (Hopen : consistent (Some (pluginProductMeta.PluginID m')) st2 /\
                  is_Some (Products.pluginProducts st2 !! pluginProductMeta.PluginID m')).
  { eapply (forEach_keeps _
              (fun s => consistent (Some (pluginProductMeta.PluginID m')) s /\
                        is_Some (Products.pluginProducts s !! pluginProductMeta.PluginID m')));
      [| | exact Htools].
    - intros t s s' _. apply registerTool_consistent.
    - split.
      + apply consistent_open; [exact Hc | exact Hfree | reflexivity | reflexivity].
      + cbn. rewrite lookup_insert_eq. eauto. }
  destruct Hopen as [Hopen [pi Hpi]]. rewrite Hpi.
  now apply consistent_close.
Qed.

Lemma registerTool_vetted D root pluginsMeta m doc t st st' :
  In (Some m) pluginsMeta ->
  sound D root m doc ->
  In t (pluginProductMeta.Tools m) ->
  vetted D root pluginsMeta st ->
  registerTool D m (apisOf D doc) t st = (Return tt, st') ->
  vetted D root pluginsMeta st'.
Proof.
  intros Hm Hsound Ht [Hplugins Htools] Hrun.
  apply registerTool_Return in Hrun as [-> | (t' & op & -> & Hdep & _ & Hop & Hvalid & ->)].
  { split; assumption. }
  split; cbn.
  - intros pluginID pi Hlook.
    destruct (decide (pluginID = pluginProductMeta.PluginID m)) as [-> | Hne].
    + exists m, doc. auto.
    + rewrite lookup_alter_ne in Hlook by congruence. eauto.
  - intros toolID ti Hlook.
    destruct (decide (toolID = toolProductMeta.ToolID t')) as [-> | Hne].
    + rewrite lookup_insert_eq in Hlook. injection Hlook as <-.
      exists m, doc, t', op. repeat split; try assumption; apply Hsound.
    + rewrite lookup_insert_ne in Hlook by congruence. eauto.
Qed.

Lemma loadPlugin_vetted D root pluginsMeta m st st' :
  In m pluginsMeta ->
  vetted D root pluginsMeta st ->
  loadPlugin D root m st = (Return tt, st') ->
  vetted D root pluginsMeta st'.
Proof.
  intros Hm Hv Hrun.
  apply loadPlugin_Return in Hrun
    as [-> | (m' & manifest & doc & serverURL & st2 & -> & Hsound & Hfree & Htools & ->)];
    [exact Hv |].
  assert (Hopen : vetted D root pluginsMeta st2).
  { eapply (forEach_keeps _ (vetted D root pluginsMeta)); [| | exact Htools].
    - intros t s s' Ht. now apply registerTool_vetted.
    - destruct Hv as [Hplugins Htools']. split; cbn; [| exact Htools'].
      intros pluginID pi Hlook.
      destruct (decide (pluginID = pluginProductMeta.PluginID m')) as [-> | Hne].
      + exists m', doc. auto.
      + rewrite lookup_insert_ne in Hlook by congruence. eauto. }
  destruct (Nat.eqb _ 0); [| exact Hopen].
  destruct Hopen as [Hplugins Htools']. split; cbn; [| exact Htools'].
  intros pluginID pi Hlook. apply lookup_delete_Some in Hlook as [_ Hlook]. eauto.
Qed.

(** What [loadPluginProductMeta] does when it returns without error: it
    read the file, parsed it, and ran the loop over its entries from empty
    maps. *)
Lemma loadPluginProductMeta_Return D basePath old st :
  loadPluginProductMeta D basePath old = (Return tt, st) ->
  exists file pluginsMeta,
    ReadFile D (pathJoin D (pathJoin D basePath "pluginproduct") "plugin_meta.yaml")
      = Return file /\
    Unmarshal D file = Return pluginsMeta /\
    forEach (loadPlugin D (pathJoin D basePath "pluginproduct")) pluginsMeta noProducts
      = (Return tt, st).
Proof.
  unfold loadPluginProductMeta. cbv zeta.
  destruct (ReadFile D _) as [file | e | v]; try discriminate.
  destruct (Unmarshal D file) as [pluginsMeta | e | v] eqn:Hparse; try discriminate.
  intros Hrun. apply andThen_Return in Hrun as ([] & st1 & Hreset & Hrun).
  unfold assigns in Hreset. injection Hreset as <-. eauto.
Qed.

Lemma consistent_noProducts : consistent None noProducts.
Proof.
  split; cbn; intros k v Hlook; rewrite lookup_empty in Hlook; discriminate.
Qed.

Lemma loadPluginProductMeta_consistent D basePath old st :
  loadPluginProductMeta D basePath old = (Return tt, st) ->
  consistent None st.
Proof.
  intros Hrun.
  apply loadPluginProductMeta_Return in Hrun as (file & pluginsMeta & _ & _ & Hloop).
  eapply (forEach_keeps _ (consistent None)); [| apply consistent_noProducts | exact Hloop].
  intros m s s' _. apply loadPlugin_consistent.
Qed.

Lemma toolsOf_listed st toolIDs :
  (forall toolID,
     In toolID toolIDs ->
     exists ti,
       Products.toolProducts st !! toolID = Some ti /\
       ToolInfoEntity.ID (ToolInfo.Info ti) = toolID) ->
  map (fun ti => ToolInfoEntity.ID (ToolInfo.Info ti)) (toolsOf st toolIDs) = toolIDs /\
  forall ti,
    In ti (toolsOf st toolIDs) <->
    exists toolID, In toolID toolIDs /\ Products.toolProducts st !! toolID = Some ti.
Proof.
  induction toolIDs as [| toolID rest IH]; intros Hall.
  - split; [reflexivity |]. intros ti. split; [intros [] | intros (x & [] & _)].
  - destruct (Hall toolID (or_introl eq_refl)) as (ti0 & Hti0 & Hid).
    destruct IH as [IHmap IHin]. { intros x Hx. apply Hall. now right. }
    cbn [toolsOf]. rewrite Hti0. cbn [map]. rewrite IHmap, Hid.
    split; [reflexivity |]. intros ti. cbn [In]. rewrite IHin. split.
    + intros [<- | (x & Hx & Hlook)]; [exists toolID; auto | exists x; auto].
    + intros (x & [<- | Hx] & Hlook); [left; congruence | right; eauto].
Qed.

Lemma GetAllPluginProducts_In st pi :
  In pi (GetAllPluginProducts st) <->
  exists pluginID, GetPluginProduct st pluginID = Some pi.
Proof.
  unfold GetAllPluginProducts, GetPluginProduct. rewrite <- list_elem_of_In.
  rewrite list_elem_of_fmap. split.
  - intros ([pluginID pi'] & -> & Hin). apply elem_of_map_to_list in Hin. eauto.
  - intros (pluginID & Hlook). exists (pluginID, pi). split; [reflexivity |].
    now apply elem_of_map_to_list.
Qed.

Lemma consistent_tools st pluginID pi :
  consistent None st ->
  Products.pluginProducts st !! pluginID = Some pi ->
  forall toolID,
    In toolID (PluginInfo.ToolIDs pi) ->
    exists ti,
      Products.toolProducts st !! toolID = Some ti /\
      ToolInfoEntity.ID (ToolInfo.Info ti) = toolID.
Proof.
  intros [Htools Hplugins] Hpi toolID Hin.
  destruct (Hplugins _ _ Hpi) as (_ & _ & _ & Hall).
  destruct (Hall _ Hin) as (ti & Hti & _). exists ti. split; [exact Hti |].
  now destruct (Htools _ _ Hti).
Qed.

(** X13: after a load that returned without error, a tool
    product found under an id has that id, and the plugin it names is a
    plugin product, stored under the id the tool names, returned by
    [GetAllPluginProducts], and with the tool among its
    [GetPluginAllTools]. *)
Theorem loaded_tool_belongs_to_loaded_plugin D basePath old st toolID ti :
  loadPluginProductMeta D basePath old = (Return tt, st) ->
  GetToolProduct st toolID = Some ti ->
  ToolInfoEntity.ID (ToolInfo.Info ti) = toolID /\
  exists pi,
    GetPluginProduct st (ToolInfoEntity.PluginID (ToolInfo.Info ti)) = Some pi /\
    PluginInfoModel.ID (PluginInfo.Info pi) = ToolInfoEntity.PluginID (ToolInfo.Info ti) /\
    In pi (GetAllPluginProducts st) /\
    In ti (GetPluginAllTools st pi).
Proof.
  intros Hrun Hti. apply loadPluginProductMeta_consistent in Hrun.
  pose proof Hrun as [Htools Hplugins].
  destruct (Htools _ _ Hti) as (Hid & pi & Hpi & Hin). split; [exact Hid |].
  exists pi. split; [exact Hpi |]. split; [now destruct (Hplugins _ _ Hpi) |]. split.
  - apply GetAllPluginProducts_In. eauto.
  - unfold GetPluginAllTools.
    apply (toolsOf_listed st _ (consistent_tools st _ pi Hrun Hpi)). eauto.
Qed.

Lemma loaded_tool_belongs_to_loaded_plugin_witness :
  exists ti pi,
    GetToolProduct sampleProducts 11 = Some ti /\
    GetPluginProduct sampleProducts 1 = Some pi /\
    In pi (GetAllPluginProducts sampleProducts) /\
    In ti (GetPluginAllTools sampleProducts pi).
Proof.
  assert (Hti : exists ti, GetToolProduct sampleProducts 11 = Some ti /\
                           ToolInfoEntity.PluginID (ToolInfo.Info ti) = 1).
  { vm_compute. eexists. split; reflexivity. }
  destruct Hti as (ti & Hti & Hplugin). exists ti.
  destruct (loaded_tool_belongs_to_loaded_plugin sampleDisk "conf" noProducts
              sampleProducts 11 ti eq_refl Hti) as (_ & pi & Hpi & _ & Hall & Hin).
  rewrite Hplugin in Hpi. eauto.
Defined.

(** X14: after a load that returned without error, every
    plugin product returned by [GetAllPluginProducts] is found by
    [GetPluginProduct] under its own id and has at least one tool; its
    [ToolIDs] hold no id twice, and [GetPluginAllTools] returns, in their
    order, one tool product for each of them, with that id and of this
    plugin. *)
Theorem loaded_plugin_lists_its_tools D basePath old st pi :
  loadPluginProductMeta D basePath old = (Return tt, st) ->
  In pi (GetAllPluginProducts st) ->
  GetPluginProduct st (PluginInfoModel.ID (PluginInfo.Info pi)) = Some pi /\
  GetPluginAllTools st pi <> [] /\
  NoDup (PluginInfo.ToolIDs pi) /\
  map (fun ti => ToolInfoEntity.ID (ToolInfo.Info ti)) (GetPluginAllTools st pi)
    = PluginInfo.ToolIDs pi /\
  Forall (fun ti => ToolInfoEntity.PluginID (ToolInfo.Info ti)
                    = PluginInfoModel.ID (PluginInfo.Info pi))
    (GetPluginAllTools st pi).
Proof.
  intros Hrun Hin. apply loadPluginProductMeta_consistent in Hrun.
  apply GetAllPluginProducts_In in Hin as (pluginID & Hpi).
  pose proof Hrun as [Htools Hplugins].
  destruct (Hplugins _ _ Hpi) as (Hid & Hsome & Hnodup & Hall).
  destruct (toolsOf_listed st _ (consistent_tools st _ pi Hrun Hpi)) as [Hmap Hiff].
  rewrite Hid. split; [exact Hpi |]. unfold GetPluginAllTools. split.
  - intros Hnil. rewrite Hnil in Hmap. cbn in Hmap. now apply Hsome.
  - split; [exact Hnodup |]. split; [exact Hmap |].
    apply List.Forall_forall. intros ti Hti. apply Hiff in Hti as (toolID & Hlisted & Hlook).
    destruct (Hall _ Hlisted) as (ti' & Hlook' & Hplugin). congruence.
Qed.

Lemma loaded_plugin_lists_its_tools_witness :
  exists pi,
    GetAllPluginProducts sampleProducts = [pi] /\
    PluginInfo.ToolIDs pi = [11] /\
    map (fun ti => ToolInfoEntity.ID (ToolInfo.Info ti)) (GetPluginAllTools sampleProducts pi)
      = PluginInfo.ToolIDs pi.
Proof.
  assert (Hpi : exists pi, GetAllPluginProducts sampleProducts = [pi] /\
                           PluginInfo.ToolIDs pi = [11]).
  { vm_compute. eexists. split; reflexivity. }
  destruct Hpi as (pi & Hall & Hids). exists pi.
  split; [exact Hall |]. split; [exact Hids |].
  apply (loaded_plugin_lists_its_tools sampleDisk "conf" noProducts sampleProducts pi eq_refl).
  rewrite Hall. now left.
Defined.

(** X15: a load that returned without error read and parsed the
    metadata file, and what the maps hold then comes from its entries only,
    whatever they held before: each plugin product from a plugin entry of
    its id that passed the checks, each tool product from a tool entry of
    its id that is not deprecated, in such a plugin entry, with a validated
    operation that the document of the plugin has under the sub-URL and the
    upper-case method of the tool entry. *)
Theorem loaded_products_passed_the_checks D basePath old st :
  loadPluginProductMeta D basePath old = (Return tt, st) ->
  exists file pluginsMeta,
    ReadFile D (pathJoin D (pathJoin D basePath "pluginproduct") "plugin_meta.yaml")
      = Return file /\
    Unmarshal D file = Return pluginsMeta /\
    vetted D (pathJoin D basePath "pluginproduct") pluginsMeta st.
Proof.
  intros Hrun.
  apply loadPluginProductMeta_Return in Hrun as (file & pluginsMeta & Hfile & Hparse & Hloop).
  exists file, pluginsMeta. split; [exact Hfile |]. split; [exact Hparse |].
  assert (Hgen : forall l,
            (forall m, In m l -> In m pluginsMeta) ->
            forall s s',
              vetted D (pathJoin D basePath "pluginproduct") pluginsMeta s ->
              forEach (loadPlugin D (pathJoin D basePath "pluginproduct")) l s
                = (Return tt, s') ->
              vetted D (pathJoin D basePath "pluginproduct") pluginsMeta s').
  { intros l Hsub. apply forEach_keeps. intros m s s' Hm. apply loadPlugin_vetted. auto. }
  eapply Hgen; [| | exact Hloop]; [auto |].
  split; cbn; intros k v Hlook; rewrite lookup_empty in Hlook; discriminate.
Qed.

Lemma loaded_products_passed_the_checks_witness :
  vetted sampleDisk "conf/pluginproduct" samplePluginsMeta sampleProducts.
Proof.
  destruct (loaded_products_passed_the_checks sampleDisk "conf" noProducts sampleProducts
              eq_refl) as (file & pluginsMeta & Hfile & Hparse & Hvetted).
  injection Hparse as <-. exact Hvetted.
Defined.

(** X16: after a load that returned without error,
    [MGetToolProducts] and [MGetPluginProducts] return the products of the
    requested ids that are loaded, in the order of the request and as often
    as an id is requested; ids that are not loaded are passed over. *)
Theorem MGet_returns_the_loaded_ids_in_order D basePath old st ids :
  loadPluginProductMeta D basePath old = (Return tt, st) ->
  map (fun ti => ToolInfoEntity.ID (ToolInfo.Info ti)) (MGetToolProducts st ids)
    = filter (fun toolID => is_Some (GetToolProduct st toolID)) ids /\
  map (fun pi => PluginInfoModel.ID (PluginInfo.Info pi)) (MGetPluginProducts st ids)
    = filter (fun pluginID => is_Some (GetPluginProduct st pluginID)) ids.
Proof.
  intros Hrun. apply loadPluginProductMeta_consistent in Hrun as [Htools Hplugins].
  split; induction ids as [| id rest IH]; try reflexivity.
  - cbn [MGetToolProducts]. rewrite filter_cons.
    destruct (decide (is_Some (GetToolProduct st id))) as [[ti Hlook] | Hnone].
    + rewrite Hlook. cbn [map]. rewrite IH.
      now destruct (Htools _ _ Hlook) as [-> _].
    + destruct (GetToolProduct st id) as [ti |]; [| exact IH].
      exfalso. apply Hnone. eauto.
  - cbn [MGetPluginProducts]. rewrite filter_cons.
    destruct (decide (is_Some (GetPluginProduct st id))) as [[pi Hlook] | Hnone].
    + unfold GetPluginProduct in Hlook. rewrite Hlook. cbn [map]. rewrite IH.
      now destruct (Hplugins _ _ Hlook) as [-> _].
    + unfold GetPluginProduct in Hnone.
      destruct (Products.pluginProducts st !! id) as [pi |]; [| exact IH].
      exfalso. apply Hnone. eauto.
Qed.

Lemma MGet_returns_the_loaded_ids_in_order_witness :
  map (fun ti => ToolInfoEntity.ID (ToolInfo.Info ti))
    (MGetToolProducts sampleProducts [12; 11; 31; 11]) = [11; 11] /\
  map (fun pi => PluginInfoModel.ID (PluginInfo.Info pi))
    (MGetPluginProducts sampleProducts [4; 1; 2]) = [1].
Proof.
  split.
  - rewrite (proj1 (MGet_returns_the_loaded_ids_in_order sampleDisk "conf" noProducts
                      sampleProducts [12; 11; 31; 11] eq_refl)).
    vm_compute. reflexivity.
  - rewrite (proj2 (MGet_returns_the_loaded_ids_in_order sampleDisk "conf" noProducts
                      sampleProducts [4; 1; 2] eq_refl)).
    vm_compute. reflexivity.
Defined.

Lemma forEach_panics {A} (body : A -> Load unit) (l : list A) (a : A) :
  (forall b st, isError (body b st).1 = false) ->
  (forall st, isPanic (body a st).1 = true) ->
  In a l ->
  forall st, isPanic (forEach body l st).1 = true.
Proof.
  intros Hno Hpanic. induction l as [| b rest IH]; intros Hin st; [destruct Hin |].
  cbn [forEach]. unfold andThen.
  destruct Hin as [-> | Hin].
  - specialize (Hpanic st). destruct (body a st) as [[[] | e | v] st1]; cbn in *;
      congruence.
  - specialize (Hno b st). destruct (body b st) as [[[] | e | v] st1]; cbn in *;
      [now apply IH | discriminate | reflexivity].
Qed.

Lemma forEach_no_error {A} (body : A -> Load unit) (l : list A) :
  (forall b st, isError (body b st).1 = false) ->
  forall st, isError (forEach body l st).1 = false.
Proof.
  intros Hno. induction l as [| b rest IH]; intros st; [reflexivity |].
  cbn [forEach]. unfold andThen. specialize (Hno b st).
  destruct (body b st) as [[[] | e | v] st1]; cbn in *;
    [apply IH | discriminate | reflexivity].
Qed.

Lemma registerTool_no_error D m apis t st :
  isError (registerTool D m apis t st).1 = false.
Proof.
  destruct t as [t |]; [| reflexivity]. cbn [registerTool].
  destruct (toolProductMeta.Deprecated t); [reflexivity |].
  unfold andThen, reads. destruct (bool_decide _); [reflexivity |].
  destruct (apis !! _) as [op |]; [| reflexivity].
  destruct (OperationValidate D op) as [[] | e | v]; reflexivity.
Qed.

Lemma loadPlugin_no_error D root m st :
  isError (loadPlugin D root m st).1 = false.
Proof.
  destruct m as [m |]; [| reflexivity]. cbn [loadPlugin].
  destruct (pluginProductMeta.Manifest m) as [manifest |]; [| reflexivity].
  unfold andThen at 1. unfold reads at 1.
  destruct (checkPluginMetaInfo D st m); [| reflexivity]. cbn [negb].
  destruct (ManifestValidate D manifest) as [[] | e | v]; try reflexivity.
  destruct (LoadFromFile D _) as [doc | e | v]; try reflexivity.
  destruct (DocValidate D doc) as [[] | e | v]; try reflexivity.
  destruct (Openapi3T.Servers doc) as [| [serverURL |] servers]; try reflexivity.
  cbv zeta. unfold andThen at 1. unfold reads at 1.
  destruct (bool_decide _); [reflexivity |].
  unfold andThen at 1. unfold assigns at 1.
  unfold andThen at 1.
  match goal with
  | |- context [forEach ?body ?l ?s] =>
      pose proof (forEach_no_error body l (registerTool_no_error D m _) s) as Hloop;
      destruct (forEach body l s) as [[[] | e | v] st2]
  end; cbn in Hloop; try discriminate; try reflexivity.
  unfold andThen, reads. destruct (Nat.eqb _ 0); reflexivity.
Qed.

(** X17: when the parsed metadata has a [nil] entry, or an
    entry without manifest, be it a deprecated one, the load panics: it
    neither skips the entry nor returns an error. *)
Theorem entry_without_manifest_panics D basePath old file pluginsMeta :
  ReadFile D (pathJoin D (pathJoin D basePath "pluginproduct") "plugin_meta.yaml")
    = Return file ->
  Unmarshal D file = Return pluginsMeta ->
  In None pluginsMeta \/
  (exists m, In (Some m) pluginsMeta /\ pluginProductMeta.Manifest m = None) ->
  isPanic (loadPluginProductMeta D basePath old).1 = true.
Proof.
  intros Hfile Hparse Hbad. unfold loadPluginProductMeta. cbv zeta.
  rewrite Hfile, Hparse. unfold andThen at 1. unfold assigns at 1.
  destruct Hbad as [Hnil | (m & Hm & Hmanifest)].
  - apply (forEach_panics _ _ None); [apply loadPlugin_no_error | | exact Hnil].
    reflexivity.
  - apply (forEach_panics _ _ (Some m)); [apply loadPlugin_no_error | | exact Hm].
    intros st. cbn [loadPlugin]. rewrite Hmanifest. reflexivity.
Qed.

Lemma entry_without_manifest_panics_witness :
  isPanic (loadPluginProductMeta brokenDisk "conf" sampleProducts).1 = true.
Proof.
  apply (entry_without_manifest_panics brokenDisk "conf" sampleProducts "plugins" _
           eq_refl eq_refl).
  right. eexists. split; [apply in_or_app; right; left; reflexivity | reflexivity].
Defined.

(** ** Node history, resume, cancel and run history *)

Lemma next_Return {A B} (a : A) t (k : A -> Run B) :
  next (Return a, t) k = ((k a).1, t ++ (k a).2).
Proof. unfold next. now destruct (k a). Qed.

Lemma next_done {A B} (a : A) (k : A -> Run B) : next (done (Return a)) k = k a.
Proof. unfold done. rewrite next_Return. now destruct (k a). Qed.

Lemma recovered_calls {A} (W : World) code (body : Run A) :
  (recovered W code body).2 = body.2.
Proof. reflexivity. Qed.

Lemma recovered_Return {A} (W : World) code (body : Run A) (a : A) :
  (recovered W code body).1 = Return a <-> body.1 = Return a.
Proof.
  unfold recovered. destruct body as [[b | e | v] t]; cbn; split; congruence.
Qed.

Lemma within_no_domain {A} (m : Op A) (c : DomainCall) : ~ In (inr c) (within m).2.
Proof.
  unfold within. cbn. rewrite <- list_elem_of_In, list_elem_of_fmap.
  intros (x & Hx & _). discriminate.
Qed.

(** How the space check of a request ends: it lets a member through after
    one call; otherwise the operation ends there, with no domain call. *)
Lemma checkRequestSpace_Return (W : World) (ctx : Context.t) (spaceID : string) t :
  checkRequestSpace W ctx spaceID = (Return tt, t) ->
  exists uid, memberOf W ctx uid spaceID /\ t = [inl (CallGetUserSpaceList uid)].
Proof.
  unfold checkRequestSpace, within, memberOf.
  destruct (MustGetUIDFromCtx ctx) as [uid | e | v] eqn:Huid; try discriminate.
  rewrite bind_lift_Return.
  destruct (mustParseInt64 spaceID) as [space | e | v] eqn:Hspace; try discriminate.
  rewrite bind_lift_Return. unfold checkUserSpace, call.
  destruct (GetUserSpaceList W uid) as [spaces | e | v] eqn:Hlist; try discriminate.
  rewrite bind_Return.
  destruct (existsb (Z.eqb space) spaces) eqn:Hex; [| discriminate].
  cbn. intros [= <-]. exists uid. split; [| reflexivity]. split; [reflexivity |].
  exists space, spaces. split; [reflexivity |]. split; [exact Hlist |].
  apply existsb_exists in Hex as (x & Hx & Heq). apply Z.eqb_eq in Heq. congruence.
Qed.

Lemma checkRequestSpace_member (W : World) (ctx : Context.t) (spaceID : string) uid :
  memberOf W ctx uid spaceID ->
  checkRequestSpace W ctx spaceID = (Return tt, [inl (CallGetUserSpaceList uid)]).
Proof.
  intros (Huid & space & spaces & Hspace & Hlist & Hin).
  unfold checkRequestSpace, within. rewrite Huid, bind_lift_Return, Hspace, bind_lift_Return.
  unfold checkUserSpace, call. rewrite Hlist, bind_Return.
  assert (Hex : existsb (Z.eqb space) spaces = true).
  { apply existsb_exists. exists space. split; [exact Hin | apply Z.eqb_refl]. }
  rewrite Hex. reflexivity.
Qed.

Lemma checkRequestSpace_stranger (W : World) (ctx : Context.t) (spaceID : string)
    (uid space : Z) (spaces : list Z) :
  MustGetUIDFromCtx ctx = Return uid ->
  mustParseInt64 spaceID = Return space ->
  GetUserSpaceList W uid = Return spaces ->
  ~ In space spaces ->
  checkRequestSpace W ctx spaceID
  = (Error (errNoAccess uid space), [inl (CallGetUserSpaceList uid)]).
Proof.
  intros Huid Hspace Hlist Hout.
  unfold checkRequestSpace, within. rewrite Huid, bind_lift_Return, Hspace, bind_lift_Return.
  rewrite (checkUserSpace_stranger W uid space spaces Hlist Hout). reflexivity.
Qed.

(** An operation that starts with the space check reaches the domain only
    for a member, and after the check. *)
Lemma after_check {A} (W : World) (ctx : Context.t) (spaceID : string)
    (k : unit -> Run A) (c : DomainCall) :
  In (inr c) (next (checkRequestSpace W ctx spaceID) k).2 ->
  exists uid,
    memberOf W ctx uid spaceID /\
    In (inr c) (k tt).2 /\
    next (checkRequestSpace W ctx spaceID) k
    = ((k tt).1, inl (CallGetUserSpaceList uid) :: (k tt).2).
Proof.
  destruct (checkRequestSpace W ctx spaceID) as [[[] | e | v] t] eqn:Hcheck.
  - apply checkRequestSpace_Return in Hcheck as (uid & Hmember & ->).
    rewrite next_Return. cbn. intros [Hin | Hin]; [discriminate |]. eauto.
  - intros Hin. exfalso. cbn in Hin.
    pose proof (within_no_domain
                  (let* uid := lift (MustGetUIDFromCtx ctx) in
                   let* spaceID := lift (mustParseInt64 spaceID) in
                   checkUserSpace W uid spaceID) c) as Hno.
    unfold checkRequestSpace in Hcheck. rewrite Hcheck in Hno. now apply Hno.
  - intros Hin. exfalso. cbn in Hin.
    pose proof (within_no_domain
                  (let* uid := lift (MustGetUIDFromCtx ctx) in
                   let* spaceID := lift (mustParseInt64 spaceID) in
                   checkUserSpace W uid spaceID) c) as Hno.
    unfold checkRequestSpace in Hcheck. rewrite Hcheck in Hno. now apply Hno.
Qed.

(** X18: [GetNodeExecuteHistory], [TestResume] and [Cancel]
    turn away a user who is not a member of the space of the request, with
    the error of [checkUserSpace] under the failure code of the operation;
    the space list is the only thing they asked for, the domain service is
    not called. *)
Theorem stranger_reaches_no_domain_call (W : World) (H : Domain) (ctx : Context.t)
    (spaceID : string) (uid space : Z) (spaces : list Z) :
  MustGetUIDFromCtx ctx = Return uid ->
  mustParseInt64 spaceID = Return space ->
  GetUserSpaceList W uid = Return spaces ->
  ~ In space spaces ->
  (forall req,
     GetNodeExecuteHistoryRequest.SpaceID req = spaceID ->
     GetNodeExecuteHistory W H ctx req =
       (Error (failure W ErrWorkflowOperationFail (errNoAccess uid space)),
        [inl (CallGetUserSpaceList uid)])) /\
  (forall req,
     WorkflowTestResumeRequest.SpaceID req = spaceID ->
     TestResume W H ctx req =
       (Error (failure W ErrWorkflowExecuteFail (errNoAccess uid space)),
        [inl (CallGetUserSpaceList uid)])) /\
  (forall req,
     CancelWorkFlowRequest.SpaceID req = spaceID ->
     Cancel W H ctx req =
       (Error (failure W ErrWorkflowExecuteFail (errNoAccess uid space)),
        [inl (CallGetUserSpaceList uid)])).
Proof.
  intros Huid Hspace Hlist Hout.
  pose proof (checkRequestSpace_stranger W ctx spaceID uid space spaces
                Huid Hspace Hlist Hout) as Hcheck.
  split; [| split]; intros req <-.
  - unfold GetNodeExecuteHistory. rewrite Hcheck. reflexivity.
  - unfold TestResume. rewrite Hcheck. reflexivity.
  - unfold Cancel. rewrite Hcheck. reflexivity.
Qed.

Lemma stranger_reaches_no_domain_call_witness :
  Cancel plainWorld (sampleDomain None) sampleContext (cancelRequest "2") =
    (Error (ErrWorkflowWrap ErrWorkflowExecuteFail
              (ErrText "user 5 does not have access to space 2")
              [("cause", "user 5 does not have access to space 2")]),
     [inl (CallGetUserSpaceList 5)]).
Proof.
  assert (Hout : ~ In 2 [1]) by (intros [Heq | []]; discriminate Heq).
  exact (proj2 (proj2 (stranger_reaches_no_domain_call plainWorld (sampleDomain None)
                         sampleContext "2" 5 2 [1] eq_refl eq_refl eq_refl Hout))
           (cancelRequest "2") eq_refl).
Defined.

(** X19: [GetNodeExecuteHistory] calls the domain service at
    most once, for a member of the space of the request and after the space
    check, and the scene decides the call: in the scene of the test run
    input, which takes no execute id, the latest test run input for the node
    ["100001"] and the latest node debug input for any other node; in the
    other scenes, which need an execute id, the node execution of that
    execution. *)
Theorem node_history_asks_one_source (W : World) (H : Domain) (ctx : Context.t)
    (req : GetNodeExecuteHistoryRequest.t) (c : DomainCall) :
  In (inr c) (GetNodeExecuteHistory W H ctx req).2 ->
  exists uid,
    memberOf W ctx uid (GetNodeExecuteHistoryRequest.SpaceID req) /\
    (GetNodeExecuteHistory W H ctx req).2 = [inl (CallGetUserSpaceList uid); inr c] /\
    sourceOf H req c.
Proof.
  unfold GetNodeExecuteHistory. rewrite recovered_calls. intros Hin.
  apply after_check in Hin as (uid & Hmember & Hin & ->).
  exists uid. split; [exact Hmember |]. cbv zeta in Hin |- *. cbn [snd].
  unfold sourceOf. cbv zeta.
  destruct (GetNodeExecuteHistoryRequest.NodeHistoryScene req) as [| code].
  - destruct (String.eqb_spec (GetNodeExecuteHistoryRequest.ExecuteID req) "")
      as [Hempty | Hset]; cbn [negb] in Hin |- *; [| destruct Hin].
    destruct (String.eqb (GetNodeExecuteHistoryRequest.NodeID req) "100001").
    + destruct (mustParseInt64 (GetNodeExecuteHistoryRequest.WorkflowID req))
        as [workflowID | e | v]; [| destruct Hin | destruct Hin].
      rewrite next_done in Hin |- *. unfold ask in Hin |- *.
      destruct (GetLatestTestRunInput H workflowID (operatorOf H))
        as [[nodeExe found] | e | v]; cbn in Hin |- *.
      * destruct (negb found); cbn in Hin |- *;
          (destruct Hin as [[= <-] | []]; split; [reflexivity |]; split; [exact Hempty |];
           exists workflowID; split; reflexivity).
      * destruct Hin as [[= <-] | []]. split; [reflexivity |]. split; [exact Hempty |].
        exists workflowID. split; reflexivity.
      * destruct Hin as [[= <-] | []]. split; [reflexivity |]. split; [exact Hempty |].
        exists workflowID. split; reflexivity.
    + destruct (mustParseInt64 (GetNodeExecuteHistoryRequest.WorkflowID req))
        as [workflowID | e | v]; [| destruct Hin | destruct Hin].
      rewrite next_done in Hin |- *. unfold ask in Hin |- *.
      destruct (GetLatestNodeDebugInput H workflowID _ (operatorOf H))
        as [[[nodeExe innerExe] found] | e | v]; cbn in Hin |- *.
      * destruct (negb found); cbn in Hin |- *;
          (destruct Hin as [[= <-] | []]; split; [reflexivity |]; split; [exact Hempty |];
           exists workflowID; split; reflexivity).
      * destruct Hin as [[= <-] | []]. split; [reflexivity |]. split; [exact Hempty |].
        exists workflowID. split; reflexivity.
      * destruct Hin as [[= <-] | []]. split; [reflexivity |]. split; [exact Hempty |].
        exists workflowID. split; reflexivity.
  - destruct (String.eqb_spec (GetNodeExecuteHistoryRequest.ExecuteID req) "")
      as [Hempty | Hset]; [destruct Hin |].
    destruct (mustParseInt64 (GetNodeExecuteHistoryRequest.ExecuteID req))
      as [id | e | v]; [| destruct Hin | destruct Hin].
    rewrite next_done in Hin |- *. unfold ask in Hin |- *.
    destruct (GetNodeExecution H id _) as [[nodeExe innerExe] | e | v]; cbn in Hin |- *;
      (destruct Hin as [[= <-] | []]; split; [reflexivity |]; split; [exact Hset |];
       exists id; split; reflexivity).
Qed.

Lemma node_history_asks_one_source_witness :
  (GetNodeExecuteHistory plainWorld (sampleDomain None) sampleContext
     (historyRequest "1" "42" "200" (NodeHistorySceneOther 0))).2
  = [inl (CallGetUserSpaceList 5); inr (CallGetNodeExecution 42 "200")].
Proof.
  destruct (node_history_asks_one_source plainWorld (sampleDomain None) sampleContext
              (historyRequest "1" "42" "200" (NodeHistorySceneOther 0))
              (CallGetNodeExecution 42 "200"))
    as (uid & (Huid & _) & Hcalls & _).
  - vm_compute. right. left. reflexivity.
  - injection Huid as <-. exact Hcalls.
Defined.

Lemma historyOf_Return (W : World) (nodeExe innerExe : option NodeExecution.t)
    (resp : GetNodeExecuteHistoryResponse.t) :
  historyOf W nodeExe innerExe = Return resp ->
  exists node result,
    nodeExe = Some node /\
    convertNodeExecution W node = Return result /\
    match innerExe with
    | None => GetNodeExecuteHistoryResponse.Data resp = result
    | Some innerNode =>
        exists inner,
          convertNodeExecution W innerNode = Return inner /\
          GetNodeExecuteHistoryResponse.Data resp = mergeBatchModeNodes result inner
    end.
Proof.
  unfold historyOf. destruct nodeExe as [node |]; [| discriminate]. cbn.
  destruct (convertNodeExecution W node) as [result | e | v] eqn:Hnode; try discriminate.
  destruct innerExe as [innerNode |].
  - destruct (convertNodeExecution W innerNode) as [inner | e | v] eqn:Hinner;
      try discriminate.
    intros [= <-]. exists node, result. split; [reflexivity |]. split; [exact Hnode |].
    exists inner. split; reflexivity.
  - intros [= <-]. exists node, result. split; [reflexivity |]. split; [exact Hnode |].
    reflexivity.
Qed.



(** X21: [Cancel] and [TestResume] call the domain service at
    most once, for a member of the space of the request and after the space
    check, and they return no response without that call. [Cancel] passes
    the execute id, the workflow id and the space id of the request, so the
    space it cancels in is one of the user's; [TestResume] passes the
    execute id, the event id and the data of the request, in debug mode,
    cancellable, for the user of the context or 0. *)
Theorem cancel_and_resume_act_for_members (W : World) (H : Domain) (ctx : Context.t) :
  (forall req c,
     In (inr c) (Cancel W H ctx req).2 ->
     exists uid executeID workflowID spaceID,
       memberOf W ctx uid (CancelWorkFlowRequest.SpaceID req) /\
       mustParseInt64 (CancelWorkFlowRequest.ExecuteID req) = Return executeID /\
       mustParseInt64 (CancelWorkFlowRequest.WorkflowID req) = Return workflowID /\
       mustParseInt64 (CancelWorkFlowRequest.SpaceID req) = Return spaceID /\
       c = CallCancel executeID workflowID spaceID /\
       (Cancel W H ctx req).2 = [inl (CallGetUserSpaceList uid); inr c]) /\
  (forall req,
     (Cancel W H ctx req).1 = Return tt ->
     exists c, In (inr c) (Cancel W H ctx req).2) /\
  (forall req c,
     In (inr c) (TestResume W H ctx req).2 ->
     exists uid executeID eventID cfg,
       memberOf W ctx uid (WorkflowTestResumeRequest.SpaceID req) /\
       mustParseInt64 (WorkflowTestResumeRequest.ExecuteID req) = Return executeID /\
       mustParseInt64 (WorkflowTestResumeRequest.EventID req) = Return eventID /\
       c = CallAsyncResume
             {| ResumeRequest.ExecuteID := executeID;
                ResumeRequest.EventID := eventID;
                ResumeRequest.ResumeData := WorkflowTestResumeRequest.Data req |} cfg /\
       ExecuteConfig.Mode cfg = ExecuteModeDebug /\
       ExecuteConfig.Cancellable cfg = true /\
       ExecuteConfig.Operator cfg = default 0 (GetUIDFromCtx H) /\
       (TestResume W H ctx req).2 = [inl (CallGetUserSpaceList uid); inr c]) /\
  (forall req,
     (TestResume W H ctx req).1 = Return tt ->
     exists c, In (inr c) (TestResume W H ctx req).2).
Proof.
  split; [| split; [| split]].
  - intros req c. unfold Cancel. rewrite recovered_calls. intros Hin.
    apply after_check in Hin as (uid & Hmember & Hin & ->). cbn [snd].
    destruct (mustParseInt64 (CancelWorkFlowRequest.ExecuteID req))
      as [executeID | e | v]; [| destruct Hin | destruct Hin].
    rewrite next_done in Hin |- *.
    destruct (mustParseInt64 (CancelWorkFlowRequest.WorkflowID req))
      as [workflowID | e | v]; [| destruct Hin | destruct Hin].
    rewrite next_done in Hin |- *.
    destruct (mustParseInt64 (CancelWorkFlowRequest.SpaceID req))
      as [spaceID | e | v] eqn:Hspace; [| destruct Hin | destruct Hin].
    rewrite next_done in Hin |- *. unfold ask in Hin |- *. cbn in Hin |- *.
    destruct Hin as [[= <-] | []].
    exists uid, executeID, workflowID, spaceID. rewrite <- Hspace.
    split; [exact Hmember |]. rewrite Hspace. auto 10.
  - intros req. unfold Cancel. rewrite recovered_Return, recovered_calls.
    destruct (checkRequestSpace W ctx (CancelWorkFlowRequest.SpaceID req))
      as [[[] | e | v] t]; [| discriminate | discriminate].
    rewrite next_Return. cbn [fst snd].
    destruct (mustParseInt64 (CancelWorkFlowRequest.ExecuteID req))
      as [executeID | e | v]; [| discriminate | discriminate].
    rewrite next_done.
    destruct (mustParseInt64 (CancelWorkFlowRequest.WorkflowID req))
      as [workflowID | e | v]; [| discriminate | discriminate].
    rewrite next_done.
    destruct (mustParseInt64 (CancelWorkFlowRequest.SpaceID req))
      as [spaceID | e | v]; [| discriminate | discriminate].
    rewrite next_done. intros _. eexists. apply in_or_app. right. left. reflexivity.
  - intros req c. unfold TestResume. rewrite recovered_calls. intros Hin.
    apply after_check in Hin as (uid & Hmember & Hin & ->). cbn [snd].
    destruct (mustParseInt64 (WorkflowTestResumeRequest.ExecuteID req))
      as [executeID | e | v]; [| destruct Hin | destruct Hin].
    rewrite next_done in Hin |- *.
    destruct (mustParseInt64 (WorkflowTestResumeRequest.EventID req))
      as [eventID | e | v]; [| destruct Hin | destruct Hin].
    rewrite next_done in Hin |- *. cbv zeta in Hin |- *. unfold ask in Hin |- *.
    cbn in Hin |- *. destruct Hin as [[= <-] | []].
    exists uid, executeID, eventID. eexists.
    split; [exact Hmember |]. split; [reflexivity |]. split; [reflexivity |].
    split; [reflexivity |]. split; [reflexivity |]. split; [reflexivity |].
    split; reflexivity.
  - intros req. unfold TestResume. rewrite recovered_Return, recovered_calls.
    destruct (checkRequestSpace W ctx (WorkflowTestResumeRequest.SpaceID req))
      as [[[] | e | v] t]; [| discriminate | discriminate].
    rewrite next_Return. cbn [fst snd].
    destruct (mustParseInt64 (WorkflowTestResumeRequest.ExecuteID req))
      as [executeID | e | v]; [| discriminate | discriminate].
    rewrite next_done.
    destruct (mustParseInt64 (WorkflowTestResumeRequest.EventID req))
      as [eventID | e | v]; [| discriminate | discriminate].
    rewrite next_done. intros _. eexists. apply in_or_app. right. left. reflexivity.
Qed.

Lemma cancel_and_resume_act_for_members_witness :
  (Cancel plainWorld (sampleDomain None) sampleContext (cancelRequest "1")).2
  = [inl (CallGetUserSpaceList 5); inr (CallCancel 42 7 1)].
Proof.
  destruct (proj1 (cancel_and_resume_act_for_members plainWorld (sampleDomain None)
                     sampleContext) (cancelRequest "1") (CallCancel 42 7 1))
    as (uid & executeID & workflowID & spaceID & (Huid & _) & _ & _ & _ & _ & Hcalls).
  - vm_compute. right. left. reflexivity.
  - injection Huid as <-. exact Hcalls.
Defined.

(** X22: [OpenAPIGetWorkflowRunHistory] reads the execution
    before it checks the user, and checks the user of the API key against
    the space of the execution. When it returns a response, the user is a
    member of that space and the execution has token info; the response is
    one entry for that execution, whose token count is the sum of the input
    and output tokens. A user outside the space gets the error of
    [checkUserSpace], which names the space of the execution, after both
    calls. *)
Theorem run_history_is_for_members_of_the_execution_space (W : World) (H : Domain)
    (ctx : Context.t) (req : GetWorkflowRunHistoryRequest.t)
    (info : ApiKeyInfo.t) (id : Z) (record : ExecutionRecord.t) (spaces : list Z) :
  GetApiAuthFromCtx ctx = Return info ->
  mustParseInt64 (GetWorkflowRunHistoryRequest.ExecuteID req) = Return id ->
  GetExecutionRecord H id = Return record ->
  GetUserSpaceList W (ApiKeyInfo.UserID info) = Return spaces ->
  let exe := ExecutionRecord.Execution record in
  (OpenAPIGetWorkflowRunHistory W H ctx req).2
  = [inr (CallGetExecutionRecord id); inl (CallGetUserSpaceList (ApiKeyInfo.UserID info))] /\
  (~ In (WorkflowExecution.SpaceID exe) spaces ->
   (OpenAPIGetWorkflowRunHistory W H ctx req).1
   = Error (failure W ErrWorkflowOperationFail
              (errNoAccess (ApiKeyInfo.UserID info) (WorkflowExecution.SpaceID exe)))) /\
  (forall resp,
     (OpenAPIGetWorkflowRunHistory W H ctx req).1 = Return resp ->
     In (WorkflowExecution.SpaceID exe) spaces /\
     exists tokenInfo entry,
       WorkflowExecution.TokenInfo exe = Some tokenInfo /\
       resp = [entry] /\
       WorkflowExecuteHistory.ExecuteID entry = Some (WorkflowExecution.ID exe) /\
       WorkflowExecuteHistory.Token entry
       = Some (Strconv.wrap64 (TokenUsage.InputTokens tokenInfo +
                               TokenUsage.OutputTokens tokenInfo)) /\
       WorkflowExecuteHistory.RunMode entry = runModeOf (ExecutionRecord.SyncPattern record) /\
       WorkflowExecuteHistory.ErrorMsg entry = WorkflowExecution.FailReason exe).
Proof.
  intros Hinfo Hid Hrecord Hlist exe.
  unfold OpenAPIGetWorkflowRunHistory. rewrite Hinfo, next_done, Hid, next_done.
  unfold ask. rewrite Hrecord, next_Return. cbv zeta. fold exe.
  rewrite recovered_calls.
  assert (Hcheck : within (checkUserSpace W (ApiKeyInfo.UserID info)
                             (WorkflowExecution.SpaceID exe))
                   = (if existsb (Z.eqb (WorkflowExecution.SpaceID exe)) spaces
                      then Return tt
                      else Error (errNoAccess (ApiKeyInfo.UserID info)
                                    (WorkflowExecution.SpaceID exe)),
                      [inl (CallGetUserSpaceList (ApiKeyInfo.UserID info))])).
  { unfold within, checkUserSpace, call. rewrite Hlist, bind_Return.
    destruct (existsb _ spaces); reflexivity. }
  rewrite Hcheck.
  destruct (existsb (Z.eqb (WorkflowExecution.SpaceID exe)) spaces) eqn:Hex.
  - apply existsb_exists in Hex as (x & Hx & Heq). apply Z.eqb_eq in Heq. subst x.
    rewrite next_Return.
    destruct (WorkflowExecution.TokenInfo exe) as [tokenInfo |] eqn:Htoken.
    + split; [reflexivity |]. split; [intros Hout; contradiction |].
      intros resp Hresp. split; [exact Hx |].
      apply recovered_Return in Hresp. cbn in Hresp. injection Hresp as <-.
      exists tokenInfo. eexists. split; [reflexivity |]. split; [reflexivity |].
      split; [reflexivity |]. split; [reflexivity |]. split; reflexivity.
    + split; [reflexivity |]. split; [intros Hout; contradiction |].
      intros resp Hresp. apply recovered_Return in Hresp. discriminate Hresp.
  - split; [reflexivity |]. split; [reflexivity |].
    intros resp Hresp. apply recovered_Return in Hresp. discriminate Hresp.
Qed.

Lemma run_history_is_for_members_of_the_execution_space_witness :
  exists entry,
    (OpenAPIGetWorkflowRunHistory plainWorld
       (sampleDomain (Some {| TokenUsage.InputTokens := 30; TokenUsage.OutputTokens := 12 |}))
       sampleContext {| GetWorkflowRunHistoryRequest.ExecuteID := "42" |}).1
    = Return [entry] /\
    WorkflowExecuteHistory.Token entry = Some 42.
Proof.
  destruct (run_history_is_for_members_of_the_execution_space plainWorld
              (sampleDomain (Some {| TokenUsage.InputTokens := 30;
                                     TokenUsage.OutputTokens := 12 |}))
              sampleContext {| GetWorkflowRunHistoryRequest.ExecuteID := "42" |}
              _ 42 _ [1] eq_refl eq_refl eq_refl eq_refl) as (_ & _ & Hresp).
  assert (Hrun : exists resp,
            (OpenAPIGetWorkflowRunHistory plainWorld
               (sampleDomain (Some {| TokenUsage.InputTokens := 30;
                                      TokenUsage.OutputTokens := 12 |}))
               sampleContext {| GetWorkflowRunHistoryRequest.ExecuteID := "42" |}).1
            = Return resp).
  { vm_compute. eexists. reflexivity. }
  destruct Hrun as (resp & Hrun).
  destruct (Hresp resp Hrun) as (_ & tokenInfo & entry & Htoken & -> & _ & Hsum & _).
  exists entry. split; [exact Hrun |]. rewrite Hsum.
  injection Htoken as <-. reflexivity.
Defined.

(** X23: [OpenAPIStreamResume] makes one call at most,
    [StreamResume] for the user of the API key in release mode, and that
    call does not name the workflow. It asks neither for the workflow nor
    for the spaces of the user: what it does is the same in any two worlds
    that agree on [StreamResume] and on the text of errors, whatever the
    user's spaces and whether the workflow is published. *)
Theorem stream_resume_asks_for_no_spaces (W W' : World) (ctx : Context.t)
    (req : OpenAPIStreamResumeFlowRequest.t) :
  StreamResume W' = StreamResume W ->
  errorString W' = errorString W ->
  OpenAPIStreamResume W' ctx req = OpenAPIStreamResume W ctx req /\
  forall c,
    In c (trace (OpenAPIStreamResume W ctx req)) ->
    exists resumeReq cfg info,
      c = CallStreamResume resumeReq cfg /\
      trace (OpenAPIStreamResume W ctx req) = [c] /\
      GetApiAuthFromCtx ctx = Return info /\
      ExecuteConfig.Operator cfg = ApiKeyInfo.UserID info /\
      ExecuteConfig.Mode cfg = ExecuteModeRelease /\
      ExecuteConfig.ID cfg = 0.
Proof.
  intros Hresume Htext. split.
  - unfold OpenAPIStreamResume, recoverAndWrap. rewrite Hresume, Htext. reflexivity.
  - intros c. unfold OpenAPIStreamResume. rewrite trace_recoverAndWrap.
    destruct (parseEventID (OpenAPIStreamResumeFlowRequest.EventID req))
      as [[executeID eventID] | e | v]; [| intros [] | intros []].
    rewrite bind_lift_Return.
    destruct (mustParseInt64 (OpenAPIStreamResumeFlowRequest.WorkflowID req));
      [| intros [] | intros []].
    rewrite bind_lift_Return.
    destruct (GetApiAuthFromCtx ctx) as [info | e | v]; [| intros [] | intros []].
    rewrite bind_lift_Return. cbv zeta.
    destruct (match OpenAPIStreamResumeFlowRequest.ConnectorID req with
              | Some text => mustParseInt64 text
              | None => Return 0
              end) as [connectorID | e | v]; [| intros [] | intros []].
    rewrite bind_lift_Return. rewrite trace_bind. unfold call at 1 2. cbn [result trace fst snd].
    destruct (StreamResume W _ _) as [sr | e | v]; cbn;
      (intros [<- | []]; do 2 eexists; exists info;
       split; [reflexivity |]; split; [reflexivity |]; split; [reflexivity |];
       split; [reflexivity |]; split; reflexivity).
Qed.

Lemma stream_resume_asks_for_no_spaces_witness :
  OpenAPIStreamResume (resumeWorld []) sampleContext sampleResumeRequest
  = OpenAPIStreamResume (resumeWorld [1]) sampleContext sampleResumeRequest /\
  isReturn (result (OpenAPIStreamResume (resumeWorld []) sampleContext sampleResumeRequest))
  = true.
Proof.
  split; [| reflexivity].
  exact (proj1 (stream_resume_asks_for_no_spaces (resumeWorld [1]) (resumeWorld [])
                  sampleContext sampleResumeRequest eq_refl eq_refl)).
Defined.

(** ** The halves of a batch node, shell second *)

(** C9: where the shell of a node in batch mode comes after the inner
    payload, the loop of [GetProcess] merges the two halves the other way
    round, [mergeBatchModeNodes(inner, nr)] with the cached inner payload as
    parent and the shell as inner. The one result it lists has the id, name,
    status, error text and level, input, output, raw output, cost and token
    fields of the inner payload, and the type, batch flag, batch array and
    extra of the shell: the opposite of what the function does with its
    parameters and of what the loop lists when the payload comes second. *)
Theorem shell_second_merge_swaps_the_halves (W : World) (key : string)
    (shell inner : NodeExecution.t) (shellResult innerResult : NodeResult.t)
    (exe : WorkflowExecution.t) :
  isParentShell key shell ->
  isInnerPayload W key inner ->
  convertNodeExecution W shell = Return shellResult ->
  convertNodeExecution W inner = Return innerResult ->
  WorkflowExecution.NodeExecutions exe = [inner; shell] ->
  WorkflowExecution.Status exe <> WorkflowFailed ->
  WorkflowExecution.InterruptEvents exe = [] ->
  exists data merged,
    processData W exe = Return data /\
    GetWorkFlowProcessData.NodeResults data = [merged] /\
    (NodeResult.NodeId merged = NodeResult.NodeId innerResult /\
     NodeResult.NodeName merged = NodeResult.NodeName innerResult /\
     NodeResult.NodeStatus merged = NodeResult.NodeStatus innerResult /\
     NodeResult.ErrorInfo merged = NodeResult.ErrorInfo innerResult /\
     NodeResult.ErrorLevel merged = NodeResult.ErrorLevel innerResult /\
     NodeResult.Input merged = NodeResult.Input innerResult /\
     NodeResult.Output merged = NodeResult.Output innerResult /\
     NodeResult.RawOutput merged = NodeResult.RawOutput innerResult /\
     NodeResult.NodeExeCost merged = NodeResult.NodeExeCost innerResult /\
     NodeResult.TokenAndCost merged = NodeResult.TokenAndCost innerResult) /\
    (NodeResult.NodeType merged = NodeResult.NodeType shellResult /\
     NodeResult.IsBatch merged = NodeResult.IsBatch shellResult /\
     NodeResult.Batch merged = NodeResult.Batch shellResult /\
     NodeResult.Extra merged = NodeResult.Extra shellResult) /\
    NodeResult.NodeId merged = NodeExecution.NodeID inner /\
    NodeResult.NodeId shellResult = key /\
    (NodeExecution.IndexedExecutions shell = [] ->
     NodeResult.IsBatch merged = None /\ NodeResult.Batch merged = None).
Proof.
  intros Hshell Hinner Hcs Hci Hexe Hstatus Hevents.
  destruct (nodeLoop_two_halves W key shell inner shellResult innerResult
              Hshell Hinner Hcs Hci) as [_ (st & Hloop & Hres & Hempty & _)].
  rewrite <- Hexe in Hloop.
  destruct (processData_of_loop W exe st Hloop Hstatus Hevents Hempty)
    as (data & Hdata & Hlisted).
  destruct (convertNodeExecution_Return W shell shellResult Hcs) as (Hsid & _ & _ & Hsbatch).
  destruct (convertNodeExecution_Return W inner innerResult Hci) as (Hiid & _).
  exists data, (mergeBatchModeNodes innerResult shellResult).
  split; [exact Hdata |]. split; [rewrite Hlisted; exact Hres |].
  split; [cbn; auto 12 |]. split; [cbn; auto |]. split; [exact Hiid |].
  split; [rewrite Hsid; apply Hshell |].
  intros Hnone. rewrite Hnone in Hsbatch. exact Hsbatch.
Qed.

Lemma shell_second_merge_swaps_the_halves_witness :
  exists data,
    processData plainWorld (sampleExecution WorkflowSuccess [batchInner; batchShell] [])
    = Return data /\
    (λ nr, (NodeResult.NodeId nr, NodeResult.NodeType nr, NodeResult.IsBatch nr,
            NodeResult.Batch nr)) <$> GetWorkFlowProcessData.NodeResults data
    = [("200_inner", "Batch", None, None)].
Proof.
  destruct (shell_second_merge_swaps_the_halves plainWorld "200" batchShell batchInner
              (sampleResult batchShell) (sampleResult batchInner)
              (sampleExecution WorkflowSuccess [batchInner; batchShell] [])
              batchShell_isParentShell batchInner_isInnerPayload eq_refl eq_refl
              eq_refl ltac:(discriminate) eq_refl)
    as (data & merged & Hdata & Hres & (Hid & _) & (Htype & Hbatch & Harray & _) & _).
  exists data. split; [exact Hdata |]. rewrite Hres. cbn [fmap list_fmap].
  rewrite Hid, Htype, Hbatch, Harray. reflexivity.
Defined.

(** ** The delete operations *)

(** C3: the delete operations let a panic out. [BatchDeleteWorkflow] and
    [DeleteWorkflow] end in the panic of [mustParseInt64] when the space id
    of the request is no integer, and [DeleteWorkflowsByAppID] in a panic of
    the domain service, before anything is called or with the calls made so
    far; no error comes back. [TestRun], like the other operations that
    start with the deferred [recover], answers the same space id with an
    error of its failure code that wraps the panic and has its text as the
    cause. *)
Theorem delete_operations_let_a_panic_out (W : World) (R : Resources) (ctx : Context.t)
    (uid : Z) (spaceID : string) :
  MustGetUIDFromCtx ctx = Return uid ->
  malformed spaceID ->
  let value := "strconv.ParseInt: parsing " +:+ spaceID in
  (forall req,
     BatchDeleteWorkflowRequest.SpaceID req = spaceID ->
     BatchDeleteWorkflow W R ctx req = (Panic value, [])) /\
  (forall req,
     DeleteWorkflowRequest.SpaceID req = spaceID ->
     DeleteWorkflow W R ctx req = (Panic value, [])) /\
  (forall appID v,
     Delete R {| DeletePolicy.IDs := []; DeletePolicy.AppID := Some appID |} = Panic v ->
     (DeleteWorkflowsByAppID R appID).1 = Panic v) /\
  (forall req,
     getOr (WorkFlowTestRunRequest.SpaceID req) = spaceID ->
     TestRun W ctx req =
       (Error (vo.WrapError ErrWorkflowExecuteFail (safego.NewPanicErr value)
                 [("cause", errorString W (safego.NewPanicErr value))]),
        [])).
Proof.
  intros Huid Hbad value.
  assert (Hparse : mustParseInt64 spaceID = Panic value).
  { unfold mustParseInt64. unfold malformed in Hbad. rewrite Hbad. reflexivity. }
  assert (Hbatch : forall req,
            BatchDeleteWorkflowRequest.SpaceID req = spaceID ->
            BatchDeleteWorkflow W R ctx req = (Panic value, [])).
  { intros req Hreq. unfold BatchDeleteWorkflow.
    rewrite Huid, bind_lift_Return, Hreq, Hparse. reflexivity. }
  split; [exact Hbatch |]. split; [| split].
  - intros req Hreq. unfold DeleteWorkflow. rewrite Hbatch by exact Hreq. reflexivity.
  - intros appID v Hdelete. unfold DeleteWorkflowsByAppID, deleteWorkflowResource.
    rewrite Hdelete. reflexivity.
  - intros req Hreq. unfold TestRun, testRunConfig.
    rewrite Huid, bind_lift_Return, Hreq, Hparse. reflexivity.
Qed.

Lemma delete_operations_let_a_panic_out_witness :
  DeleteWorkflow plainWorld sampleResources sampleContext
    {| DeleteWorkflowRequest.WorkflowID := "7"; DeleteWorkflowRequest.SpaceID := "abc" |}
  = (Panic "strconv.ParseInt: parsing abc", []) /\
  TestRun plainWorld sampleContext (sampleTestRunRequest "abc")
  = (Error (ErrWorkflowWrap ErrWorkflowExecuteFail
              (ErrPanicked "strconv.ParseInt: parsing abc")
              [("cause", "strconv.ParseInt: parsing abc")]),
     []).
Proof.
  destruct (delete_operations_let_a_panic_out plainWorld sampleResources sampleContext
              5 "abc" eq_refl eq_refl) as (_ & Hdelete & _ & Hrun).
  split.
  - exact (Hdelete {| DeleteWorkflowRequest.WorkflowID := "7";
                      DeleteWorkflowRequest.SpaceID := "abc" |} eq_refl).
  - exact (Hrun (sampleTestRunRequest "abc") eq_refl).
Defined.
